(** * Air-gapped RPM bundle pipeline: manifest tools and bundle builder

    A shallow embedding of [src/manifest_tools] (validator, merger) and
    [src/bundle_builder] (resolver, downloader, builder), followed by the
    properties stated about them.

    Conventions.
    - A Python value obtained from [json.load] is a [json].
    - A method that may raise returns a [result]; a method that mutates its
      object and may raise returns the object it leaves behind together
      with a [result].
    - External programs ([dnf], [createrepo_c], [zstd], [tar]), the clock,
      the file system and Python builtins whose text format is immaterial
      ([json.dumps], [hashlib.sha256], [str.splitlines], ...) are
      parameters of the section that uses them. *)

From Stdlib Require Import ZArith List String Ascii Bool Lia Arith.
From Stdlib Require Import Permutation Sorted DecimalString OrderedTypeEx.
Import ListNotations.
Open Scope string_scope.
Open Scope list_scope.

Set Implicit Arguments.
Set Warnings "-register-all".

(** String concatenation, kept apart from list [++]. *)
Infix "+++" := String.append (right associativity, at level 60).

(* ================================================================== *)
(** * Python runtime model *)
(* ================================================================== *)

Module Py.

(** Exception classes the sources raise, catch or let through. *)
Inductive exn_class :=
| ValueError
| JSONDecodeError        (* subclass of ValueError *)
| KeyError
| AttributeError
| TypeError
| OSError
| FileNotFoundError      (* subclass of OSError *)
| FileExistsError        (* subclass of OSError *)
| NotADirectoryError     (* subclass of OSError *)
| CalledProcessError
| TimeoutExpired
| RuntimeError.

Definition exn_class_eqb (a b : exn_class) : bool :=
  match a, b with
  | ValueError, ValueError | JSONDecodeError, JSONDecodeError
  | KeyError, KeyError | AttributeError, AttributeError
  | TypeError, TypeError | OSError, OSError
  | FileNotFoundError, FileNotFoundError
  | FileExistsError, FileExistsError
  | NotADirectoryError, NotADirectoryError
  | CalledProcessError, CalledProcessError
  | TimeoutExpired, TimeoutExpired
  | RuntimeError, RuntimeError => true
  | _, _ => false
  end.

(** [isinstance(e, c)] for the two-level hierarchy above. *)
Definition subclass (a c : exn_class) : bool :=
  exn_class_eqb a c ||
  match a, c with
  | JSONDecodeError, ValueError => true
  | FileNotFoundError, OSError => true
  | FileExistsError, OSError => true
  | NotADirectoryError, OSError => true
  | _, _ => false
  end.

Record exn := mkExn { exn_cls : exn_class; exn_msg : string }.

(** [except (c1, c2, ...)] *)
Definition caught_by (e : exn) (cs : list exn_class) : bool :=
  existsb (subclass (exn_cls e)) cs.
Arguments caught_by : simpl never.

Inductive result (A : Type) :=
| Ok (a : A)
| Raise (e : exn).
Arguments Ok {A} a.
Arguments Raise {A} e.

Definition bind {A B} (r : result A) (k : A -> result B) : result B :=
  match r with
  | Ok a => k a
  | Raise e => Raise e
  end.

Definition raise {A} (c : exn_class) (msg : string) : result A :=
  Raise (mkExn c msg).

Definition is_ok {A} (r : result A) : bool :=
  match r with Ok _ => true | Raise _ => false end.

(** Python floats that a JSON number can denote: a signed zero, an
    overflowed literal (infinity) or [(-1)^neg * m * 2^e]. *)
Inductive pyfloat :=
| FZero (neg : bool)
| FInf (neg : bool)
| FFinite (neg : bool) (m : positive) (e : Z).

(** Values produced by [json.load].  A dict keeps its insertion order;
    [json.load] never yields two entries with one key. *)
Inductive json :=
| JNull
| JBool (b : bool)
| JInt (z : Z)
| JFloat (f : pyfloat)
| JStr (s : string)
| JList (l : list json)
| JDict (d : list (string * json)).

(** ** Numbers and [==] *)

Definition float_eq (f g : pyfloat) : bool :=
  match f, g with
  | FZero _, FZero _ => true
  | FInf s, FInf t => Bool.eqb s t
  | FFinite s m e, FFinite t n e' =>
      let k := Z.min e e' in
      Bool.eqb s t && (Z.pos m * 2 ^ (e - k) =? Z.pos n * 2 ^ (e' - k))%Z
  | _, _ => false
  end.

(** Python compares an int with a float exactly. *)
Definition int_float_eq (a : Z) (f : pyfloat) : bool :=
  match f with
  | FZero _ => (a =? 0)%Z
  | FInf _ => false
  | FFinite s m e =>
      let v := if s then Z.neg m else Z.pos m in
      if (0 <=? e)%Z then (a =? v * 2 ^ e)%Z else (a * 2 ^ (- e) =? v)%Z
  end.

Inductive number := NInt (z : Z) | NFloat (f : pyfloat).

(** [bool] is a subclass of [int]: [True == 1]. *)
Definition as_number (v : json) : option number :=
  match v with
  | JBool b => Some (NInt (if b then 1 else 0)%Z)
  | JInt z => Some (NInt z)
  | JFloat f => Some (NFloat f)
  | _ => None
  end.

Definition num_eq (a b : number) : bool :=
  match a, b with
  | NInt x, NInt y => (x =? y)%Z
  | NInt x, NFloat f => int_float_eq x f
  | NFloat f, NInt y => int_float_eq y f
  | NFloat f, NFloat g => float_eq f g
  end.

(** [a == b] where at least one side is a scalar, which is every
    comparison the sources make (against an int constant, a string
    constant or a hashable key).  A list or a dict never equals a
    scalar. *)
Definition py_eq (a b : json) : bool :=
  match as_number a, as_number b with
  | Some x, Some y => num_eq x y
  | _, _ =>
      match a, b with
      | JNull, JNull => true
      | JStr s, JStr t => String.eqb s t
      | _, _ => false
      end
  end.

(** [x in [c1, c2, ...]] for a list of constants. *)
Definition py_in (x : json) (cs : list json) : bool :=
  existsb (fun c => py_eq c x) cs.

(** [bool(v)] *)
Definition truthy (v : json) : bool :=
  match v with
  | JNull => false
  | JBool b => b
  | JInt z => negb (z =? 0)%Z
  | JFloat (FZero _) => false
  | JFloat _ => true
  | JStr s => negb (String.eqb s "")
  | JList l => match l with [] => false | _ => true end
  | JDict d => match d with [] => false | _ => true end
  end.

(** [hash(v)] succeeds. *)
Definition hashable (v : json) : bool :=
  match v with
  | JList _ | JDict _ => false
  | _ => true
  end.

Definition isinstance_list (v : json) : bool :=
  match v with JList _ => true | _ => false end.
Definition isinstance_dict (v : json) : bool :=
  match v with JDict _ => true | _ => false end.
Definition isinstance_str (v : json) : bool :=
  match v with JStr _ => true | _ => false end.
(** [isinstance(v, int)] holds for bools too. *)
Definition isinstance_int (v : json) : bool :=
  match v with JInt _ | JBool _ => true | _ => false end.

(** ** Dicts with string keys *)

Fixpoint dict_get (k : string) (d : list (string * json)) : option json :=
  match d with
  | [] => None
  | (k', v) :: d' => if String.eqb k' k then Some v else dict_get k d'
  end.

Definition dict_mem (k : string) (d : list (string * json)) : bool :=
  match dict_get k d with Some _ => true | None => false end.

(** [d[k] = v]: an existing key keeps its position. *)
Fixpoint dict_set (k : string) (v : json) (d : list (string * json))
  : list (string * json) :=
  match d with
  | [] => [(k, v)]
  | (k', v') :: d' =>
      if String.eqb k' k then (k', v) :: d' else (k', v') :: dict_set k v d'
  end.

(** [v.get(k, default)]; only a dict has the method. *)
Definition py_get (v : json) (k : string) (default : json) : result json :=
  match v with
  | JDict d =>
      Ok (match dict_get k d with Some x => x | None => default end)
  | _ => raise AttributeError "object has no attribute 'get'"
  end.

Fixpoint chars (s : string) : list json :=
  match s with
  | EmptyString => []
  | String c s' => JStr (String c EmptyString) :: chars s'
  end.

(** [for x in v] *)
Definition py_iter (v : json) : result (list json) :=
  match v with
  | JList l => Ok l
  | JDict d => Ok (map (fun kv => JStr (fst kv)) d)
  | JStr s => Ok (chars s)
  | _ => raise TypeError "object is not iterable"
  end.

(** [len(v)] *)
Definition py_len (v : json) : result nat :=
  match v with
  | JList l => Ok (List.length l)
  | JDict d => Ok (List.length d)
  | JStr s => Ok (String.length s)
  | _ => raise TypeError "object has no len()"
  end.

(** ** Dicts keyed by hashable values ([1], [1.0] and [True] are one key) *)

Section PyDict.
Variable V : Type.

Fixpoint pydict_get (k : json) (d : list (json * V)) : option V :=
  match d with
  | [] => None
  | (k', v) :: d' => if py_eq k' k then Some v else pydict_get k d'
  end.

Fixpoint pydict_set (k : json) (v : V) (d : list (json * V))
  : list (json * V) :=
  match d with
  | [] => [(k, v)]
  | (k', v') :: d' =>
      if py_eq k' k then (k', v) :: d' else (k', v') :: pydict_set k v d'
  end.
End PyDict.

(** ** Strings *)

(** [str(n)] for an int. *)
Definition str_Z (z : Z) : string := NilZero.string_of_int (Z.to_int z).
Definition str_nat (n : nat) : string := str_Z (Z.of_nat n).

Fixpoint endswith_aux (s suffix : string) (fuel : nat) : bool :=
  String.eqb s suffix ||
  match fuel, s with
  | S fuel', String _ s' => endswith_aux s' suffix fuel'
  | _, _ => false
  end.

(** [s.endswith(suffix)] *)
Definition endswith (s suffix : string) : bool :=
  endswith_aux s suffix (String.length s).

(** [sub in s] *)
Fixpoint contains (sub s : string) : bool :=
  String.prefix sub s ||
  match s with
  | EmptyString => false
  | String _ s' => contains sub s'
  end.

(** [s.startswith(p)] *)
Definition startswith (s p : string) : bool := String.prefix p s.

(** [s.rfind(c)] as an option. *)
Fixpoint rfind (c : ascii) (s : string) : option nat :=
  match s with
  | EmptyString => None
  | String a s' =>
      match rfind c s' with
      | Some i => Some (S i)
      | None => if Ascii.eqb a c then Some 0 else None
      end
  end.

(** ** pathlib *)

(** A [PurePosixPath]: its anchor and the parts below it. *)
Record Path := mkPath { anchor : string; parts : list string }.

Fixpoint parts_eqb (l m : list string) : bool :=
  match l, m with
  | [], [] => true
  | x :: l', y :: m' => String.eqb x y && parts_eqb l' m'
  | _, _ => false
  end.

Definition path_eqb (p q : Path) : bool :=
  String.eqb (anchor p) (anchor q) && parts_eqb (parts p) (parts q).

(** [p.name] *)
Definition path_name (p : Path) : string := last (parts p) "".

(** [p / child] for a single file name. *)
Definition joinpath (p : Path) (child : string) : Path :=
  mkPath (anchor p) (parts p ++ [child]).

(** [p.stem]: the name without its last suffix. *)
Definition stem (p : Path) : string :=
  let n := path_name p in
  match rfind "."%char n with
  | Some i =>
      if ((0 <? i) && (i <? String.length n - 1))%nat
      then String.substring 0 i n
      else n
  | None => n
  end.

(** [str(p)] *)
Definition path_str (p : Path) : string :=
  anchor p +++ String.concat "/" (parts p).

End Py.

Import Py.

Declare Scope py_scope.
Delimit Scope py_scope with py.
Notation "x <- e ;; k" := (bind e (fun x => k))
  (at level 61, e at next level, right associativity) : py_scope.
Open Scope py_scope.

(** The file system as the tools see it. *)
Record World := mkWorld {
  (** [open(path)] followed by [json.load]. *)
  load_json : Path -> result json;
  (** The names in a directory, in the order [glob] yields them. *)
  listdir : Path -> list string
}.

(** [directory.glob("*" + suffix)] *)
Definition glob (w : World) (directory : Path) (suffix : string) : list Path :=
  map (joinpath directory)
      (filter (fun n => endswith n suffix) (listdir w directory)).

(* ================================================================== *)
(** * manifest_tools/merger.py *)
(* ================================================================== *)

Module Merger.

Record ManifestMerger := mkMerger {
  os_major : Z;
  manifests : list json;
  manifest_hashes : list (json * string)
}.

(** [ManifestMerger.__init__] *)
Definition init (os_major : Z) : result ManifestMerger :=
  if negb (py_in (JInt os_major) [JInt 8; JInt 9])
  then raise ValueError
         ("OS major version must be 8 or 9, got: " +++ str_Z os_major)
  else Ok (mkMerger os_major [] []).

(** [manifest.get("os", {}).get("major")] *)
Definition manifest_os_major (manifest : json) : result json :=
  os_info <- py_get manifest "os" (JDict []) ;;
  py_get os_info "major" JNull.

Section WithWorld.
(** [json.dumps(manifest, sort_keys=True)] and
    [hashlib.sha256(s.encode()).hexdigest()]. *)
Variable json_dumps_sorted : json -> string.
Variable sha256_hexdigest : string -> string.
Variable w : World.

Definition add_manifest_body (path : Path) (self : ManifestMerger)
  : result (ManifestMerger * bool) :=
  manifest <- load_json w path ;;
  major <- manifest_os_major manifest ;;
  if negb (py_eq major (JInt (os_major self))) then Ok (self, false)
  else
    let manifest_hash := sha256_hexdigest (json_dumps_sorted manifest) in
    host_id <- py_get manifest "host_id" (JStr (stem path)) ;;
    if negb (hashable host_id) then raise TypeError "unhashable type"
    else
      Ok (mkMerger (os_major self)
                   (manifests self ++ [manifest])
                   (pydict_set host_id ("sha256:" +++ manifest_hash)
                               (manifest_hashes self)),
          true).

(** [ManifestMerger.add_manifest]: the merger it leaves and its outcome.
    Every raise happens before the first mutation. *)
Definition add_manifest (path : Path) (self : ManifestMerger)
  : ManifestMerger * result bool :=
  match add_manifest_body path self with
  | Ok (self', b) => (self', Ok b)
  | Raise e => (self, Raise e)
  end.

(** A manifest the merger for [target] takes. *)
Definition right_os (target : Z) (manifest : json) : Prop :=
  exists major,
    manifest_os_major manifest = Ok major /\
    py_eq major (JInt target) = true.

(** What [add_manifest] does, case by case. *)
Inductive add_spec (w : World) (path : Path) (self : ManifestMerger)
  : ManifestMerger * result bool -> Prop :=
| add_unreadable : forall e,
    load_json w path = Raise e ->
    add_spec w path self (self, Raise e)
| add_no_os : forall manifest e,
    load_json w path = Ok manifest ->
    manifest_os_major manifest = Raise e ->
    add_spec w path self (self, Raise e)
| add_wrong_os : forall manifest major,
    load_json w path = Ok manifest ->
    manifest_os_major manifest = Ok major ->
    py_eq major (JInt (os_major self)) = false ->
    add_spec w path self (self, Ok false)
| add_bad_host_id : forall manifest major host_id,
    load_json w path = Ok manifest ->
    manifest_os_major manifest = Ok major ->
    py_eq major (JInt (os_major self)) = true ->
    py_get manifest "host_id" (JStr (stem path)) = Ok host_id ->
    hashable host_id = false ->
    add_spec w path self (self, raise TypeError "unhashable type")
| add_accepted : forall manifest major host_id,
    load_json w path = Ok manifest ->
    manifest_os_major manifest = Ok major ->
    py_eq major (JInt (os_major self)) = true ->
    py_get manifest "host_id" (JStr (stem path)) = Ok host_id ->
    hashable host_id = true ->
    add_spec w path self
      (mkMerger (os_major self) (manifests self ++ [manifest])
         (pydict_set host_id
            ("sha256:" +++ sha256_hexdigest (json_dumps_sorted manifest))
            (manifest_hashes self)),
       Ok true).

(** First loop of [add_manifests_from_directory]: no handler. *)
Fixpoint convention_pass (files : list Path) (self : ManifestMerger)
  (count : nat) : ManifestMerger * result nat :=
  match files with
  | [] => (self, Ok count)
  | manifest_file :: rest =>
      match add_manifest manifest_file self with
      | (self', Ok true) => convention_pass rest self' (S count)
      | (self', Ok false) => convention_pass rest self' count
      | (self', Raise e) => (self', Raise e)
      end
  end.

(** Second loop: [except (json.JSONDecodeError, KeyError): continue]. *)
Fixpoint probe_pass (files : list Path) (self : ManifestMerger)
  (count : nat) : ManifestMerger * result nat :=
  match files with
  | [] => (self, Ok count)
  | manifest_file :: rest =>
      if negb (contains "-manifest" (path_name manifest_file)) then
        match add_manifest manifest_file self with
        | (self', Ok true) => probe_pass rest self' (S count)
        | (self', Ok false) => probe_pass rest self' count
        | (self', Raise e) =>
            if caught_by e [JSONDecodeError; KeyError]
            then probe_pass rest self' count
            else (self', Raise e)
        end
      else probe_pass rest self count
  end.

(** [ManifestMerger.add_manifests_from_directory] *)
Definition add_manifests_from_directory (directory : Path)
  (self : ManifestMerger) : ManifestMerger * result nat :=
  match convention_pass (glob w directory "-manifest.json") self 0 with
  | (self', Ok count) => probe_pass (glob w directory ".json") self' count
  | (self', Raise e) => (self', Raise e)
  end.

End WithWorld.

(** ** Derived queries *)

(** [s.add(v)] on a set kept in insertion order. *)
Definition set_add (v : json) (s : list json) : list json :=
  if existsb (py_eq v) s then s else s ++ [v].

(** [all_packages[name].add(nevra)] on a [defaultdict(set)]. *)
Fixpoint defaultdict_add (k v : json) (d : list (json * list json))
  : list (json * list json) :=
  match d with
  | [] => [(k, [v])]
  | (k', s) :: d' =>
      if py_eq k' k then (k', set_add v s) :: d'
      else (k', s) :: defaultdict_add k v d'
  end.

(** [nevra in all_packages.get(name, set())] *)
Fixpoint recorded (k v : json) (d : list (json * list json)) : bool :=
  match d with
  | [] => false
  | (k', s) :: d' =>
      if py_eq k' k then existsb (py_eq v) s else recorded k v d'
  end.

(** One turn of the inner loop of [get_merged_installed_rpms]: the pair
    to record, if any. *)
Definition rpm_entry (rpm : json) : result (option (json * json)) :=
  name <- py_get rpm "name" (JStr "") ;;
  nevra <- py_get rpm "nevra" (JStr "") ;;
  if truthy name && truthy nevra then
    if negb (hashable name) then raise TypeError "unhashable type"
    else if negb (hashable nevra) then raise TypeError "unhashable type"
    else Ok (Some (name, nevra))
  else Ok None.

Fixpoint merge_rpms (rpms : list json) (all_packages : list (json * list json))
  : result (list (json * list json)) :=
  match rpms with
  | [] => Ok all_packages
  | rpm :: rest =>
      e <- rpm_entry rpm ;;
      match e with
      | Some (name, nevra) =>
          merge_rpms rest (defaultdict_add name nevra all_packages)
      | None => merge_rpms rest all_packages
      end
  end.

Fixpoint merge_manifests (ms : list json)
  (all_packages : list (json * list json))
  : result (list (json * list json)) :=
  match ms with
  | [] => Ok all_packages
  | manifest :: rest =>
      v <- py_get manifest "installed_rpms" (JList []) ;;
      rpms <- py_iter v ;;
      all_packages' <- merge_rpms rpms all_packages ;;
      merge_manifests rest all_packages'
  end.

(** [ManifestMerger.get_merged_installed_rpms]: package name to the set
    of NEVRAs seen. *)
Definition get_merged_installed_rpms (self : ManifestMerger)
  : result (list (json * list json)) :=
  merge_manifests (manifests self) [].

(** [list.append] on a [defaultdict(list)]. *)
Fixpoint defaultdict_append (k v : json) (d : list (json * list json))
  : list (json * list json) :=
  match d with
  | [] => [(k, [v])]
  | (k', l) :: d' =>
      if py_eq k' k then (k', l ++ [v]) :: d'
      else (k', l) :: defaultdict_append k v d'
  end.

Fixpoint hosts_of_rpms (host_id : json) (rpms : list json)
  (package_hosts : list (json * list json))
  : result (list (json * list json)) :=
  match rpms with
  | [] => Ok package_hosts
  | rpm :: rest =>
      name <- py_get rpm "name" (JStr "") ;;
      if truthy name then
        if negb (hashable name) then raise TypeError "unhashable type"
        else hosts_of_rpms host_id rest
               (defaultdict_append name host_id package_hosts)
      else hosts_of_rpms host_id rest package_hosts
  end.

Fixpoint hosts_of_manifests (ms : list json)
  (package_hosts : list (json * list json))
  : result (list (json * list json)) :=
  match ms with
  | [] => Ok package_hosts
  | manifest :: rest =>
      host_id <- py_get manifest "host_id" (JStr "unknown") ;;
      v <- py_get manifest "installed_rpms" (JList []) ;;
      rpms <- py_iter v ;;
      package_hosts' <- hosts_of_rpms host_id rpms package_hosts ;;
      hosts_of_manifests rest package_hosts'
  end.

(** [ManifestMerger.get_package_to_hosts_map] *)
Definition get_package_to_hosts_map (self : ManifestMerger)
  : result (list (json * list json)) :=
  hosts_of_manifests (manifests self) [].

(** One host summary, as the dict literal builds it. *)
Definition host_summary (hashes : list (json * string)) (manifest : json)
  : result json :=
  host_id <- py_get manifest "host_id" (JStr "unknown") ;;
  manifest_hash <-
    (if negb (hashable host_id) then raise TypeError "unhashable type"
     else Ok (match pydict_get host_id hashes with
              | Some h => h
              | None => ""
              end)) ;;
  os_info <- py_get manifest "os" (JDict []) ;;
  os_minor <- py_get os_info "minor" (JInt 0) ;;
  arch <- py_get manifest "arch" (JStr "x86_64") ;;
  rpms <- py_get manifest "installed_rpms" (JList []) ;;
  installed_count <- py_len rpms ;;
  timestamp <- py_get manifest "timestamp" (JStr "") ;;
  Ok (JDict [("host_id", host_id);
             ("manifest_hash", JStr manifest_hash);
             ("os_minor", os_minor);
             ("arch", arch);
             ("installed_count", JInt (Z.of_nat installed_count));
             ("timestamp", timestamp)]).

Fixpoint host_summaries (hashes : list (json * string)) (ms : list json)
  : result (list json) :=
  match ms with
  | [] => Ok []
  | manifest :: rest =>
      s <- host_summary hashes manifest ;;
      ss <- host_summaries hashes rest ;;
      Ok (s :: ss)
  end.

(** [ManifestMerger.get_host_summary] *)
Definition get_host_summary (self : ManifestMerger) : result (list json) :=
  host_summaries (manifest_hashes self) (manifests self).

(** ** Sequences of calls on one merger *)

Inductive call :=
| AddManifest (path : Path)
| AddManifestsFromDirectory (directory : Path).

Section Calls.
Variable json_dumps_sorted : json -> string.
Variable sha256_hexdigest : string -> string.
Variable w : World.

(** The merger after one call, whether it returned or raised. *)
Definition after_call (c : call) (self : ManifestMerger) : ManifestMerger :=
  match c with
  | AddManifest p =>
      fst (add_manifest json_dumps_sorted sha256_hexdigest w p self)
  | AddManifestsFromDirectory d =>
      fst (add_manifests_from_directory json_dumps_sorted sha256_hexdigest
             w d self)
  end.

Definition after_calls (cs : list call) (self : ManifestMerger)
  : ManifestMerger :=
  fold_left (fun m c => after_call c m) cs self.

End Calls.

(** A manifest the merger for [target] turns away: its OS major can be
    read and differs from the target. *)
Definition wrong_os (target : Z) (manifest : json) : bool :=
  match manifest_os_major manifest with
  | Ok major => negb (py_eq major (JInt target))
  | Raise _ => false
  end.

(** The same file system with every wrong-OS manifest blanked out. *)
Definition scrub (target : Z) (w : World) : World :=
  mkWorld
    (fun p =>
       match load_json w p with
       | Ok manifest =>
           if wrong_os target manifest then Ok (JDict []) else Ok manifest
       | Raise e => Raise e
       end)
    (listdir w).

End Merger.

(* ================================================================== *)
(** * tests/conftest.py: the fixtures *)
(* ================================================================== *)

Module Fixtures.

Definition rpm (name epoch version release arch nevra : string) : json :=
  JDict [("name", JStr name); ("epoch", JStr epoch);
         ("version", JStr version); ("release", JStr release);
         ("arch", JStr arch); ("nevra", JStr nevra)].

Definition sample_manifest : json :=
  JDict [
    ("schema_version", JStr "1.0");
    ("host_id", JStr "test-host-01");
    ("os", JDict [("name", JStr "Red Hat Enterprise Linux");
                  ("major", JInt 9); ("minor", JInt 6);
                  ("id", JStr "rhel")]);
    ("arch", JStr "x86_64");
    ("kernel_version", JStr "5.14.0-427.el9.x86_64");
    ("enabled_repos",
      JList [JDict [("id", JStr "rhel-9-for-x86_64-baseos-rpms");
                    ("name", JStr "RHEL 9 BaseOS")];
             JDict [("id", JStr "rhel-9-for-x86_64-appstream-rpms");
                    ("name", JStr "RHEL 9 AppStream")]]);
    ("installed_rpms",
      JList [rpm "bash" "0" "5.1.8" "6.el9" "x86_64"
               "bash-5.1.8-6.el9.x86_64";
             rpm "kernel" "0" "5.14.0" "427.el9" "x86_64"
               "kernel-5.14.0-427.el9.x86_64";
             rpm "openssl" "1" "3.0.7" "25.el9" "x86_64"
               "openssl-1:3.0.7-25.el9.x86_64"]);
    ("timestamp", JStr "2024-01-15T12:00:00Z");
    ("collector_version", JStr "1.0.0")].

Definition sample_manifest_rhel8 : json :=
  JDict [
    ("schema_version", JStr "1.0");
    ("host_id", JStr "test-host-rhel8");
    ("os", JDict [("name", JStr "Red Hat Enterprise Linux");
                  ("major", JInt 8); ("minor", JInt 10);
                  ("id", JStr "rhel")]);
    ("arch", JStr "x86_64");
    ("kernel_version", JStr "4.18.0-553.el8.x86_64");
    ("enabled_repos",
      JList [JDict [("id", JStr "rhel-8-for-x86_64-baseos-rpms");
                    ("name", JStr "RHEL 8 BaseOS")]]);
    ("installed_rpms",
      JList [rpm "bash" "0" "4.4.20" "4.el8" "x86_64"
               "bash-4.4.20-4.el8.x86_64"]);
    ("timestamp", JStr "2024-01-15T12:00:00Z");
    ("collector_version", JStr "1.0.0")].

Definition tmp_path : Path := mkPath "/" ["tmp"; "pytest"].
Definition manifest_path : Path := joinpath tmp_path "manifests".

(** [manifest_dir]: the two manifests under their conventional names,
    and beside them a file that is not JSON. *)
Definition manifest_dir : World :=
  mkWorld
    (fun p =>
       if path_eqb p (joinpath manifest_path "test-host-01-manifest.json")
       then Ok sample_manifest
       else if path_eqb p
                 (joinpath manifest_path "test-host-rhel8-manifest.json")
       then Ok sample_manifest_rhel8
       else if path_eqb p (joinpath manifest_path "notes.json")
       then raise JSONDecodeError "Expecting value: line 1 column 1 (char 0)"
       else raise FileNotFoundError "No such file or directory")
    (fun d =>
       if path_eqb d manifest_path
       then ["test-host-01-manifest.json"; "test-host-rhel8-manifest.json";
             "notes.json"]
       else []).

(** Stand-ins for the serialiser and the digest when a fixture is run. *)
Definition dumps_stub (j : json) : string := "{}".
Definition sha256_stub (s : string) : string := "0000".

End Fixtures.

(* ================================================================== *)
(** * manifest_tools/validator.py *)
(* ================================================================== *)

Module Validator.

Definition REQUIRED_FIELDS : list string :=
  ["schema_version"; "host_id"; "os"; "arch"; "enabled_repos";
   "installed_rpms"; "timestamp"].
Definition REQUIRED_OS_FIELDS : list string := ["major"; "minor"; "name"].
Definition REQUIRED_RPM_FIELDS : list string :=
  ["name"; "epoch"; "version"; "release"; "arch"].
Definition VALID_ARCHES : list json :=
  [JStr "x86_64"; JStr "aarch64"; JStr "noarch"; JStr "i686"].
Definition VALID_OS_MAJORS : list json := [JInt 8; JInt 9].

Record ManifestValidator := mkValidator {
  errors : list string;
  warnings : list string
}.

(** [ManifestValidator.__init__] *)
Definition init : ManifestValidator := mkValidator [] [].

Definition add_error (msg : string) (self : ManifestValidator) :=
  mkValidator (errors self ++ [msg]) (warnings self).
Definition add_warning (msg : string) (self : ManifestValidator) :=
  mkValidator (errors self) (warnings self ++ [msg]).

(** [field in container] for a string [field]: key lookup on a dict,
    membership on a list, substring on a str. *)
Definition py_contains (field : string) (container : json) : result bool :=
  match container with
  | JDict d => Ok (dict_mem field d)
  | JList l => Ok (existsb (fun x => py_eq x (JStr field)) l)
  | JStr s => Ok (contains field s)
  | _ => raise TypeError "argument is not iterable"
  end.

(** [str(type(v))] *)
Definition type_str (v : json) : string :=
  match v with
  | JNull => "<class 'NoneType'>"
  | JBool _ => "<class 'bool'>"
  | JInt _ => "<class 'int'>"
  | JFloat _ => "<class 'float'>"
  | JStr _ => "<class 'str'>"
  | JList _ => "<class 'list'>"
  | JDict _ => "<class 'dict'>"
  end.

Definition is_none (v : json) : bool :=
  match v with JNull => true | _ => false end.

Section Validate.
(** How an f-string renders a value: [format(v, "")]. *)
Variable py_str : json -> string.

(** A method of the validator: the validator it leaves, and whether it
    returned or raised. *)
Definition method := ManifestValidator -> ManifestValidator * result unit.

Definition seq_methods (m1 m2 : method) : method :=
  fun self =>
    match m1 self with
    | (self', Ok _) => m2 self'
    | (self', Raise e) => (self', Raise e)
    end.

(** A method that returns, and drops no error recorded before it. *)
Definition grows (m : method) : Prop :=
  forall self,
    exists self', m self = (self', Ok tt) /\ incl (errors self) (errors self').

(** [for field in fields: if field not in container: errors.append(...)] *)
Fixpoint check_fields (fields : list string) (container : json)
  (msg : string -> string) : method :=
  fun self =>
    match fields with
    | [] => (self, Ok tt)
    | field :: rest =>
        match py_contains field container with
        | Raise e => (self, Raise e)
        | Ok present =>
            check_fields rest container msg
              (if negb present then add_error (msg field) self else self)
        end
    end.

Definition _validate_required_fields (manifest : json) : method :=
  check_fields REQUIRED_FIELDS manifest
    (fun field => "Missing required field: " +++ field).

Definition _validate_schema_version (manifest : json) : method :=
  fun self =>
    match py_get manifest "schema_version" JNull with
    | Raise e => (self, Raise e)
    | Ok version =>
        if truthy version && negb (py_eq version (JStr "1.0"))
        then (add_warning ("Unknown schema version: " +++ py_str version
                           +++ " (expected 1.0)") self, Ok tt)
        else (self, Ok tt)
    end.

Definition check_os_major (os_info : json) : method :=
  fun self =>
    match py_get os_info "major" JNull with
    | Raise e => (self, Raise e)
    | Ok major =>
        if negb (is_none major) && negb (py_in major VALID_OS_MAJORS)
        then (add_error ("Invalid OS major version: " +++ py_str major
                         +++ " (expected 8 or 9)") self, Ok tt)
        else (self, Ok tt)
    end.

Definition check_os_minor (os_info : json) : method :=
  fun self =>
    match py_get os_info "minor" JNull with
    | Raise e => (self, Raise e)
    | Ok minor =>
        if negb (is_none minor) && negb (isinstance_int minor)
        then (add_error ("OS minor version must be integer, got: "
                         +++ type_str minor) self, Ok tt)
        else (self, Ok tt)
    end.

Definition _validate_os (manifest : json) : method :=
  fun self =>
    match py_get manifest "os" (JDict []) with
    | Raise e => (self, Raise e)
    | Ok os_info =>
        seq_methods
          (check_fields REQUIRED_OS_FIELDS os_info
             (fun field => "Missing required os field: " +++ field))
          (seq_methods (check_os_major os_info) (check_os_minor os_info))
          self
    end.

Definition _validate_arch (manifest : json) : method :=
  fun self =>
    match py_get manifest "arch" JNull with
    | Raise e => (self, Raise e)
    | Ok arch =>
        if truthy arch && negb (py_in arch [JStr "x86_64"; JStr "aarch64"])
        then (add_error ("Invalid system architecture: " +++ py_str arch
                         +++ " (expected x86_64 or aarch64)") self, Ok tt)
        else (self, Ok tt)
    end.

(** Body of the loop over [enumerate(repos)]. *)
Definition check_repo (i : nat) (repo : json) (self : ManifestValidator)
  : ManifestValidator :=
  match repo with
  | JDict d =>
      let self1 :=
        if negb (dict_mem "id" d)
        then add_error ("enabled_repos[" +++ str_nat i
                        +++ "] missing required field: id") self
        else self in
      if negb (dict_mem "name" d)
      then add_warning ("enabled_repos[" +++ str_nat i
                        +++ "] missing field: name") self1
      else self1
  | _ =>
      add_error ("enabled_repos[" +++ str_nat i +++ "] must be an object")
        self
  end.

Fixpoint check_repos (i : nat) (repos : list json)
  (self : ManifestValidator) : ManifestValidator :=
  match repos with
  | [] => self
  | repo :: rest => check_repos (S i) rest (check_repo i repo self)
  end.

Definition _validate_repos (manifest : json) : method :=
  fun self =>
    match py_get manifest "enabled_repos" (JList []) with
    | Raise e => (self, Raise e)
    | Ok (JList repos) => (check_repos 0 repos self, Ok tt)
    | Ok _ => (add_error "enabled_repos must be a list" self, Ok tt)
    end.

(** [for field in REQUIRED_RPM_FIELDS] on an rpm that is a dict. *)
Fixpoint check_rpm_fields (i : nat) (fields : list string)
  (d : list (string * json)) (self : ManifestValidator) : ManifestValidator :=
  match fields with
  | [] => self
  | field :: rest =>
      check_rpm_fields i rest d
        (if negb (dict_mem field d)
         then add_error ("installed_rpms[" +++ str_nat i
                         +++ "] missing required field: " +++ field) self
         else self)
  end.

(** Body of the loop over [range(sample_size)], at [rpm = rpms[i]]. *)
Definition check_rpm (i : nat) (rpm : json) (self : ManifestValidator)
  : ManifestValidator :=
  match rpm with
  | JDict d =>
      let self1 := check_rpm_fields i REQUIRED_RPM_FIELDS d self in
      let rpm_arch :=
        match dict_get "arch" d with Some a => a | None => JStr "" end in
      if truthy rpm_arch && negb (py_in rpm_arch VALID_ARCHES)
      then add_warning ("installed_rpms[" +++ str_nat i
                        +++ "] has unusual arch: " +++ py_str rpm_arch) self1
      else self1
  | _ =>
      add_error ("installed_rpms[" +++ str_nat i +++ "] must be an object")
        self
  end.

(** [for i in range(sample_size): rpm = rpms[i]; ...] *)
Fixpoint check_rpms (indices : list nat) (rpms : list json)
  (self : ManifestValidator) : ManifestValidator :=
  match indices with
  | [] => self
  | i :: rest =>
      check_rpms rest rpms (check_rpm i (nth i rpms JNull) self)
  end.

Definition SAMPLE_CAP : nat := 100.

Definition _validate_rpms (manifest : json) : method :=
  fun self =>
    match py_get manifest "installed_rpms" (JList []) with
    | Raise e => (self, Raise e)
    | Ok (JList rpms) =>
        if (List.length rpms =? 0)%nat
        then (add_warning "installed_rpms is empty" self, Ok tt)
        else
          let sample_size := Nat.min (List.length rpms) SAMPLE_CAP in
          (check_rpms (seq 0 sample_size) rpms self, Ok tt)
    | Ok _ => (add_error "installed_rpms must be a list" self, Ok tt)
    end.

Definition _validate_timestamp (manifest : json) : method :=
  fun self =>
    match py_get manifest "timestamp" JNull with
    | Raise e => (self, Raise e)
    | Ok timestamp =>
        if negb (truthy timestamp) then (self, Ok tt)
        else
          match timestamp with
          | JStr s =>
              if negb (contains "T" s)
              then (add_error ("timestamp must be ISO 8601 format, got: "
                               +++ py_str timestamp) self, Ok tt)
              else (self, Ok tt)
          | _ => (add_error "timestamp must be a string" self, Ok tt)
          end
    end.

(** The error [_validate_os] records about the major version. *)
Definition os_major_error (self : ManifestValidator) : Prop :=
  In "Missing required os field: major" (errors self) \/
  exists major,
    In ("Invalid OS major version: " +++ py_str major
        +++ " (expected 8 or 9)") (errors self).

(** [ManifestValidator.validate]: the validator it leaves ([errors],
    [warnings]) and the boolean it returns. *)
Definition validate (manifest : json) (self : ManifestValidator)
  : ManifestValidator * result bool :=
  let self0 := mkValidator [] [] in
  match
    seq_methods (_validate_required_fields manifest)
   (seq_methods (_validate_schema_version manifest)
   (seq_methods (_validate_os manifest)
   (seq_methods (_validate_arch manifest)
   (seq_methods (_validate_repos manifest)
   (seq_methods (_validate_rpms manifest)
                (_validate_timestamp manifest)))))) self0
  with
  | (self', Ok _) => (self', Ok (List.length (errors self') =? 0)%nat)
  | (self', Raise e) => (self', Raise e)
  end.

End Validate.

End Validator.

(* ================================================================== *)
(** * bundle_builder/resolver.py *)
(* ================================================================== *)

Module Resolver.

(** [x in s] for a set (or list) of strings. *)
Definition mem (x : string) (s : list string) : bool :=
  existsb (String.eqb x) s.

Record ResolvedPackage := mkPackage {
  name : string;
  epoch : string;
  version : string;
  release : string;
  arch : string;
  nevra : string;
  repo_id : string;
  package_type : string;   (* 'update', 'dependency', or 'security' *)
  size_bytes : Z;
  advisory_id : option string;
  required_by : list string
}.

(** [pkg.package_type = t] *)
Definition set_package_type (t : string) (pkg : ResolvedPackage)
  : ResolvedPackage :=
  mkPackage (name pkg) (epoch pkg) (version pkg) (release pkg) (arch pkg)
            (nevra pkg) (repo_id pkg) t (size_bytes pkg) (advisory_id pkg)
            (required_by pkg).

Record DependencyResolver := mkResolver {
  installed_packages : list string;
  prefer_security : bool;
  resolved : list ResolvedPackage;
  errors : list string
}.

(** [DependencyResolver.__init__]; [set(installed_packages)] keeps one
    copy of each name. *)
Definition init (installed_packages : list string) (prefer_security : bool)
  : DependencyResolver :=
  mkResolver (nodup string_dec installed_packages) prefer_security [] [].

(** The three helpers of [resolve] drive [dnf]; each is taken at its
    interface: the messages it appends to [self.errors], and the value
    it returns or the exception it lets through. *)
Record Dnf := mkDnf {
  _get_available_updates : list string -> list string * result (list string);
  _get_security_updates : list string * result (list string);
  _resolve_dependencies :
    list string -> list string * result (list ResolvedPackage)
}.

Definition add_errors (es : list string) (self : DependencyResolver) :=
  mkResolver (installed_packages self) (prefer_security self)
             (resolved self) (errors self ++ es).

(** Step 4 of [resolve], for one package. *)
Definition classify (security_updates updates : list string)
  (pkg : ResolvedPackage) : ResolvedPackage :=
  if mem (name pkg) security_updates then set_package_type "security" pkg
  else if mem (name pkg) updates then set_package_type "update" pkg
  else set_package_type "dependency" pkg.

(** The classification in the words of the specification: [security]
    if the name is in the security set, else [update] if it is in the
    update set, else [dependency]. *)
Inductive classified (security_updates updates : list string)
  (pkg_name : string) : string -> Prop :=
| is_security :
    In pkg_name security_updates ->
    classified security_updates updates pkg_name "security"
| is_update :
    ~ In pkg_name security_updates -> In pkg_name updates ->
    classified security_updates updates pkg_name "update"
| is_dependency :
    ~ In pkg_name security_updates -> ~ In pkg_name updates ->
    classified security_updates updates pkg_name "dependency".

(** [b] is [a] with another [package_type]. *)
Definition same_package (a b : ResolvedPackage) : Prop :=
  b = set_package_type (package_type b) a.

(** [for pkg in all_packages: ...; self.resolved.append(pkg)] *)
Fixpoint classify_all (security_updates updates : list string)
  (all_packages : list ResolvedPackage) (self : DependencyResolver)
  : DependencyResolver :=
  match all_packages with
  | [] => self
  | pkg :: rest =>
      classify_all security_updates updates rest
        (mkResolver (installed_packages self) (prefer_security self)
           (resolved self ++ [classify security_updates updates pkg])
           (errors self))
  end.

(** [DependencyResolver.resolve] *)
Definition resolve (dnf : Dnf) (self : DependencyResolver)
  : DependencyResolver * result (list ResolvedPackage) :=
  let self0 :=
    mkResolver (installed_packages self) (prefer_security self) [] [] in
  let (es1, r1) := _get_available_updates dnf (installed_packages self0) in
  let self1 := add_errors es1 self0 in
  match r1 with
  | Raise e => (self1, Raise e)
  | Ok updates =>
      match updates with
      | [] => (self1, Ok [])
      | _ :: _ =>
          let (es2, r2) :=
            if prefer_security self1 then _get_security_updates dnf
            else ([], Ok []) in
          let self2 := add_errors es2 self1 in
          match r2 with
          | Raise e => (self2, Raise e)
          | Ok security_updates =>
              let (es3, r3) := _resolve_dependencies dnf updates in
              let self3 := add_errors es3 self2 in
              match r3 with
              | Raise e => (self3, Raise e)
              | Ok all_packages =>
                  let self4 :=
                    classify_all security_updates updates all_packages
                      self3 in
                  (self4, Ok (resolved self4))
              end
          end
      end
  end.

(** ** The breadth-first fallback, [_resolve_via_repoquery] *)

Section Repoquery.
(** [dnf repoquery --latest-limit=1 --queryformat ... pkg_name], run
    with [check=True]: its stdout, or the exception of the call. *)
Variable repoquery_info : string -> result string.
(** [dnf repoquery --requires --resolve ... pkg_name]: its stdout. *)
Variable repoquery_requires : string -> result string.
(** [str.splitlines], [str.strip], [line.split("|")], [str.isdigit]
    and [int]. *)
Variable splitlines : string -> list string.
Variable strip : string -> string.
Variable split_bar : string -> list string.
Variable isdigit : string -> bool.
Variable py_int : string -> result Z.

(** The argument [packages]: the set, in the order [list(packages)]
    yields it. *)
Variable packages : list string.

Definition nonempty (s : string) : bool := negb (String.eqb s "").

(** One line of the first query: the package it adds, if any. *)
Definition info_line (resolved : list ResolvedPackage) (line : string)
  : result (option ResolvedPackage) :=
  if negb (nonempty (strip line)) then Ok None
  else
    match split_bar line with
    | name :: epoch :: version :: release :: arch :: repo :: size :: _ =>
        let nevra :=
          name +++ "-" +++ epoch +++ ":" +++ version +++ "-" +++ release
          +++ "." +++ arch in
        if existsb (fun p => String.eqb (Resolver.nevra p) nevra) resolved
        then Ok None
        else
          size_bytes <- (if isdigit size then py_int size else Ok 0%Z) ;;
          Ok (Some (mkPackage name
                      (if negb (String.eqb epoch "(none)") then epoch
                       else "0")
                      version release arch nevra repo
                      (if mem name packages then "update" else "dependency")
                      size_bytes None []))
    | _ => Ok None
    end.

Fixpoint info_lines (lines : list string) (resolved : list ResolvedPackage)
  : list ResolvedPackage * result unit :=
  match lines with
  | [] => (resolved, Ok tt)
  | line :: rest =>
      match info_line resolved line with
      | Raise e => (resolved, Raise e)
      | Ok None => info_lines rest resolved
      | Ok (Some pkg) => info_lines rest (resolved ++ [pkg])
      end
  end.

(** The names the second query makes pending. *)
Definition new_names (processed : list string) (stdout : string)
  : list string :=
  filter (fun dep_name => nonempty dep_name && negb (mem dep_name processed))
         (map strip (splitlines stdout)).

(** The locals of the [while] loop. *)
Record locals := mkLocals {
  l_resolved : list ResolvedPackage;
  l_processed : list string;     (* in the order the names were added *)
  l_to_process : list string
}.

Inductive step_result :=
| Exit (st : locals)             (* [while to_process] is false *)
| Next (st : locals)             (* one more turn *)
| Propagate (e : exn).           (* an exception the loop does not handle *)

(** [except subprocess.CalledProcessError: continue] *)
Definition handle (e : exn) (st : locals) : step_result :=
  if caught_by e [CalledProcessError] then Next st else Propagate e.

(** The calls of [subprocess.run] that the loop makes. *)
Inductive query :=
| InfoQuery (pkg_name : string)        (* [dnf repoquery --queryformat ...] *)
| RequiresQuery (pkg_name : string).   (* [dnf repoquery --requires ...] *)

(** One evaluation of the loop test and, if it holds, of the body: the
    calls of [subprocess.run] made on the way, in order, and where the
    turn leads. *)
Definition step (st : locals) : list query * step_result :=
  match l_to_process st with
  | [] => ([], Exit st)
  | pkg_name :: to_process =>
      if mem pkg_name (l_processed st)
      then ([], Next (mkLocals (l_resolved st) (l_processed st) to_process))
      else
        let processed := l_processed st ++ [pkg_name] in
        match repoquery_info pkg_name with
        | Raise e =>
            ([InfoQuery pkg_name],
             handle e (mkLocals (l_resolved st) processed to_process))
        | Ok stdout =>
            match info_lines (splitlines stdout) (l_resolved st) with
            | (resolved, Raise e) =>
                ([InfoQuery pkg_name],
                 handle e (mkLocals resolved processed to_process))
            | (resolved, Ok _) =>
                match repoquery_requires pkg_name with
                | Raise e =>
                    ([InfoQuery pkg_name; RequiresQuery pkg_name],
                     handle e (mkLocals resolved processed to_process))
                | Ok dep_stdout =>
                    ([InfoQuery pkg_name; RequiresQuery pkg_name],
                     Next (mkLocals resolved processed
                             (to_process ++ new_names processed dep_stdout)))
                end
            end
        end
  end.

(** The calls of a turn that takes [pkg_name] up: the first query,
    and the second unless the first part of the body raised. *)
Definition about (pkg_name : string) (made : list query) : Prop :=
  made = [InfoQuery pkg_name] \/
  made = [InfoQuery pkg_name; RequiresQuery pkg_name].

(** The calls a turn can make and where it can lead. *)
Inductive turn (st : locals) : list query * step_result -> Prop :=
| turn_exit :
    l_to_process st = [] ->
    turn st ([], Exit st)
| turn_skip : forall pkg_name to_process,
    l_to_process st = pkg_name :: to_process ->
    mem pkg_name (l_processed st) = true ->
    turn st ([], Next (mkLocals (l_resolved st) (l_processed st) to_process))
| turn_failed : forall pkg_name to_process resolved made,
    l_to_process st = pkg_name :: to_process ->
    mem pkg_name (l_processed st) = false ->
    about pkg_name made ->
    turn st (made,
             Next (mkLocals resolved (l_processed st ++ [pkg_name])
                            to_process))
| turn_enqueue : forall pkg_name to_process resolved dep_stdout,
    l_to_process st = pkg_name :: to_process ->
    mem pkg_name (l_processed st) = false ->
    repoquery_requires pkg_name = Ok dep_stdout ->
    turn st ([InfoQuery pkg_name; RequiresQuery pkg_name],
             Next (mkLocals resolved (l_processed st ++ [pkg_name])
                     (to_process
                      ++ new_names (l_processed st ++ [pkg_name])
                                   dep_stdout)))
| turn_propagate : forall pkg_name to_process made e,
    l_to_process st = pkg_name :: to_process ->
    mem pkg_name (l_processed st) = false ->
    about pkg_name made ->
    caught_by e [CalledProcessError] = false ->
    (exists n, repoquery_info n = Raise e) \/
    (exists n, repoquery_requires n = Raise e) \/
    (exists s, isdigit s = true /\ py_int s = Raise e) ->
    turn st (made, Propagate e).

(** How the loop ends: with nothing pending, or on an exception that
    the body does not handle and that one of the queries or [int]
    raised. *)
Definition ends_well (r : result locals) : Prop :=
  match r with
  | Ok st => l_to_process st = []
  | Raise e =>
      caught_by e [CalledProcessError] = false /\
      ((exists n, repoquery_info n = Raise e) \/
       (exists n, repoquery_requires n = Raise e) \/
       (exists s, isdigit s = true /\ py_int s = Raise e))
  end.

(** The loop, run for at most [fuel] turns: the calls it has made, in
    order, and how it ended; [None] when the turns run out before it
    ends. *)
Fixpoint run (fuel : nat) (st : locals)
  : list query * option (result locals) :=
  match fuel with
  | O => ([], None)
  | S fuel' =>
      let (made, next) := step st in
      match next with
      | Exit st' => (made, Some (Ok st'))
      | Propagate e => (made, Some (Raise e))
      | Next st' =>
          let (later, ended) := run fuel' st' in (made ++ later, ended)
      end
  end.

(** How the loop ends within [fuel] turns. *)
Definition loop (fuel : nat) (st : locals) : option (result locals) :=
  snd (run fuel st).

(** The calls the loop makes during its first [fuel] turns. *)
Definition queries (fuel : nat) (st : locals) : list query :=
  fst (run fuel st).

Definition query_name (q : query) : string :=
  match q with
  | InfoQuery pkg_name | RequiresQuery pkg_name => pkg_name
  end.

(** The names about which the first query was issued. *)
Definition asked (made : list query) : list string :=
  flat_map (fun q => match q with
                     | InfoQuery pkg_name => [pkg_name]
                     | RequiresQuery _ => []
                     end) made.

Definition initial : locals := mkLocals [] [] packages.

(** How many names of [universe] are not yet processed. *)
Definition remaining (universe processed : list string) : nat :=
  List.length (filter (fun n => negb (mem n processed)) universe).

(** [DependencyResolver._resolve_via_repoquery] *)
Definition _resolve_via_repoquery (fuel : nat)
  : option (result (list ResolvedPackage)) :=
  match loop fuel initial with
  | None => None
  | Some (Ok st) => Some (Ok (l_resolved st))
  | Some (Raise e) => Some (Raise e)
  end.

End Repoquery.

End Resolver.

(** A dependency oracle backed by a repository: finitely many known
    packages, each with the two answers [dnf repoquery] gives for it,
    and the two answers given for any name the repository does not
    know. *)
Module Repository.

Record answers := mkAnswers {
  info : result string;
  requires : result string
}.

Record t := mkRepository {
  known : list (string * answers);
  unknown : answers
}.

Fixpoint lookup (pkg_name : string) (l : list (string * answers))
  : option answers :=
  match l with
  | [] => None
  | (n, a) :: l' => if String.eqb n pkg_name then Some a else lookup pkg_name l'
  end.

Definition answer (r : t) (pkg_name : string) : answers :=
  match lookup pkg_name (known r) with
  | Some a => a
  | None => unknown r
  end.

Definition repoquery_info (r : t) (pkg_name : string) : result string :=
  info (answer r pkg_name).
Definition repoquery_requires (r : t) (pkg_name : string) : result string :=
  requires (answer r pkg_name).

(** Every name the repository can print as a requirement. *)
Definition required_names (splitlines : string -> list string)
  (strip : string -> string) (a : answers) : list string :=
  match requires a with
  | Ok stdout => map strip (splitlines stdout)
  | Raise _ => []
  end.

Definition mentioned (splitlines : string -> list string)
  (strip : string -> string) (r : t) : list string :=
  List.concat (map (required_names splitlines strip)
              (unknown r :: map snd (known r))).

End Repository.

(* ================================================================== *)
(** * bundle_builder/downloader.py *)
(* ================================================================== *)

Module Downloader.
Import Resolver.

Record DownloadResult := mkResult {
  package : ResolvedPackage;
  success : bool;
  local_path : option Path;
  sha256 : option string;
  error : option string
}.

Record RPMDownloader := mkDownloader {
  download_dir : Path;
  results : list DownloadResult
}.

(** [RPMDownloader.get_successful_downloads] *)
Definition get_successful_downloads (self : RPMDownloader)
  : list DownloadResult :=
  filter success (results self).

(** [RPMDownloader.get_failed_downloads] *)
Definition get_failed_downloads (self : RPMDownloader)
  : list DownloadResult :=
  filter (fun r => negb (success r)) (results self).

(** [RPMDownloader.get_total_size], over [local_path.stat().st_size]. *)
Fixpoint total_size (st_size : Path -> result Z) (rs : list DownloadResult)
  (total : Z) : result Z :=
  match rs with
  | [] => Ok total
  | r :: rest =>
      match success r, local_path r with
      | true, Some p =>
          size <- st_size p ;;
          total_size st_size rest (total + size)%Z
      | _, _ => total_size st_size rest total
      end
  end.

Definition get_total_size (st_size : Path -> result Z) (self : RPMDownloader)
  : result Z :=
  total_size st_size (results self) 0%Z.

(** [sorted(l, key=...)] on string keys: stable, ascending. *)
Section Sorted.
Variable A : Type.
Variable key : A -> string.

Fixpoint insert (x : A) (l : list A) : list A :=
  match l with
  | [] => [x]
  | y :: l' =>
      if String.leb (key x) (key y) then x :: l else y :: insert x l'
  end.

Fixpoint sorted (l : list A) : list A :=
  match l with
  | [] => []
  | x :: l' => insert x (sorted l')
  end.
End Sorted.

(** [bool(result.sha256)] and [bool(result.local_path)] *)
Definition has_digest (r : DownloadResult) : bool :=
  match sha256 r with
  | Some s => negb (String.eqb s "")
  | None => false
  end.
Definition has_path (r : DownloadResult) : bool :=
  match local_path r with Some _ => true | None => false end.

(** The test of the loop body in [generate_checksums_file]. *)
Definition listed (r : DownloadResult) : bool :=
  success r && has_digest r && has_path r.

(** [f"{result.sha256}  {result.local_path.name}"] *)
Definition checksum_line (r : DownloadResult) : string :=
  match sha256 r, local_path r with
  | Some digest, Some p => digest +++ "  " +++ path_name p
  | _, _ => ""
  end.

Definition by_package_name (r : DownloadResult) : string := name (package r).

(** [a]'s package name is not after [b]'s. *)
Definition precedes (a b : DownloadResult) : Prop :=
  String.leb (by_package_name a) (by_package_name b) = true.

(** A result as the downloader records it: a success carries its digest
    and its path. *)
Definition well_formed (r : DownloadResult) : Prop :=
  success r = true ->
  (exists digest, sha256 r = Some digest /\ digest <> "") /\
  (exists p, local_path r = Some p).

Definition checksum_lines (rs : list DownloadResult) : list string :=
  map checksum_line (filter listed (sorted by_package_name rs)).

Definition newline : string := String "010"%char EmptyString.

(** ["\n".join(lines) + "\n"] *)
Definition checksums_text (rs : list DownloadResult) : string :=
  String.concat newline (checksum_lines rs) +++ newline.

(** [RPMDownloader.generate_checksums_file]: the path it returns and the
    text it writes there. *)
Definition generate_checksums_file (output_path : option Path)
  (self : RPMDownloader) : Path * string :=
  let output_path :=
    match output_path with
    | None => joinpath (download_dir self) "SHA256SUMS"
    | Some p => p
    end in
  (output_path, checksums_text (results self)).

End Downloader.

(* ================================================================== *)
(** * bundle_builder/builder.py *)
(* ================================================================== *)

Module Builder.
Import Resolver Downloader.

(** ** The metadata document *)

Record PackageEntry := mkEntry {
  entry_nevra : string;
  entry_type : string;
  entry_sha256 : option string;
  entry_size_bytes : Z;
  entry_required_by : list json;
  entry_advisory_id : option string
}.

Record PackageCounts := mkCounts {
  total_count : nat;
  update_count : nat;
  security_count : nat;
  dependency_count : nat;
  size_bytes_total : Z
}.

Record Checksums := mkChecksums {
  algorithm : string;
  bundle_hash : string
}.

Record BundleMetadata := mkMetadata {
  schema_version : string;
  md_bundle_id : string;
  md_os_major : Z;
  created_at : string;
  builder_host : string;
  manifests_used : list json;
  packages : PackageCounts;
  package_list : list PackageEntry;
  host_package_map : list (json * list string);
  checksums : Checksums;
  md_build_log : string
}.

(** ** Files *)

Inductive file_content :=
| Text (s : string)                       (* [f.write(s)] *)
| MetadataDoc (m : BundleMetadata)        (* [json.dump(m, f, indent=2)] *)
| CopyOf (source : Path)                  (* [shutil.copy2] *)
| Produced (tool : string)                (* written by an external tool *)
| Tar (members : list (Path * file_content)) (compression : string).

Record Disk := mkDisk {
  dirs : list Path;
  files : list (Path * file_content)
}.

Fixpoint is_prefix (l1 l2 : list string) : bool :=
  match l1, l2 with
  | [], _ => true
  | x :: l1', y :: l2' => String.eqb x y && is_prefix l1' l2'
  | _ :: _, [] => false
  end.

(** [p] is [directory] or lies below it. *)
Definition under (directory p : Path) : bool :=
  String.eqb (anchor directory) (anchor p) &&
  is_prefix (parts directory) (parts p).

Definition read_file (p : Path) (d : Disk) : option file_content :=
  match find (fun f => path_eqb (fst f) p) (files d) with
  | Some f => Some (snd f)
  | None => None
  end.

Definition write_file (p : Path) (c : file_content) (d : Disk) : Disk :=
  mkDisk (dirs d)
         ((p, c) :: filter (fun f => negb (path_eqb (fst f) p)) (files d)).

Definition remove_file (p : Path) (d : Disk) : Disk :=
  mkDisk (dirs d) (filter (fun f => negb (path_eqb (fst f) p)) (files d)).

(** [p] is a regular file. *)
Definition is_file (p : Path) (d : Disk) : bool :=
  existsb (fun f => path_eqb (fst f) p) (files d).

(** The directories above [p], the nearest last. *)
Definition ancestors (p : Path) : list Path :=
  map (fun k => mkPath (anchor p) (firstn k (parts p)))
      (seq 1 (List.length (parts p) - 1)).

Definition add_dir (p : Path) (l : list Path) : list Path :=
  if existsb (path_eqb p) l then l else p :: l.

(** [p.mkdir(parents=True, exist_ok=True)]: the directory and the
    missing ones above it are made; a directory that exists is left as
    it is.  A regular file at [p] makes [os.mkdir] fail with
    [FileExistsError], one above [p] with [NotADirectoryError]; with
    [exist_ok] the error is passed over only when [p] is a directory,
    so both are raised.  Failures the disk does not show (permissions,
    a full disk) are not modelled. *)
Definition mkdir (p : Path) (d : Disk) : result Disk :=
  if existsb (fun q => is_file q d) (ancestors p)
  then raise NotADirectoryError
         ("[Errno 20] Not a directory: '" +++ path_str p +++ "'")
  else if is_file p d
  then raise FileExistsError
         ("[Errno 17] File exists: '" +++ path_str p +++ "'")
  else Ok (mkDisk (fold_right add_dir (dirs d) (p :: rev (ancestors p)))
                  (files d)).

(** [shutil.rmtree(p, ignore_errors=True)]: best effort.
    [undeletable] tells the paths whose removal fails, for whatever
    reason; the errors are ignored, so these paths are left, and with
    them every directory that has one of them at or below it. *)
Definition rmtree (undeletable : Path -> bool) (p : Path) (d : Disk) : Disk :=
  let stuck (q : Path) :=
    existsb (fun f => under q (fst f) && undeletable (fst f)) (files d) ||
    existsb (fun r => under q r && undeletable r) (dirs d) in
  mkDisk (filter (fun q => negb (under p q) || stuck q) (dirs d))
         (filter (fun f => negb (under p (fst f)) || undeletable (fst f))
                 (files d)).

(** [tar.add(source_dir, arcname=arcname)]: every file below
    [source_dir], renamed below [arcname]. *)
Definition tar_members (source_dir : Path) (arcname : string) (d : Disk)
  : list (Path * file_content) :=
  map (fun f =>
         (mkPath ""
            (arcname :: skipn (List.length (parts source_dir))
                              (parts (fst f))),
          snd f))
      (filter (fun f => under source_dir (fst f)) (files d)).

(** ** The builder *)

Definition SCHEMA_VERSION : string := "1.0".

Record BundleBuilder := mkBuilder {
  os_major : Z;
  manifest_dir : Path;
  output_dir : Path;
  work_dir : Path;
  bundle_id : string;
  build_log : list string;
  metadata : option BundleMetadata      (* [None] is the initial [{}] *)
}.

(** [BundleBuilder.__init__], with the directories it creates. *)
Definition init (os_major : Z) (manifest_dir output_dir : Path)
  (work_dir : option Path) (d : Disk) : Disk * result BundleBuilder :=
  if negb (py_in (JInt os_major) [JInt 8; JInt 9])
  then (d, raise ValueError ("OS major must be 8 or 9, got: "
                             +++ str_Z os_major))
  else
    let work_dir :=
      match work_dir with
      | Some p => p
      | None => mkPath "/" ["tmp"; "bundle-build"]
      end in
    match mkdir output_dir d with
    | Raise e => (d, Raise e)
    | Ok d1 =>
        match mkdir work_dir d1 with
        | Raise e => (d1, Raise e)
        | Ok d2 =>
            (d2,
             Ok (mkBuilder os_major manifest_dir output_dir work_dir "" []
                           None))
        end
    end.

(** What a build sees and changes: the builder, the disk and the number
    of clock readings taken so far. *)
Record State := mkState {
  self : BundleBuilder;
  disk : Disk;
  tick : nat
}.

Definition M (A : Type) : Type := State -> State * result A.

Definition ret {A} (a : A) : M A := fun st => (st, Ok a).
Definition bindM {A B} (m : M A) (k : A -> M B) : M B :=
  fun st =>
    match m st with
    | (st', Ok a) => k a st'
    | (st', Raise e) => (st', Raise e)
    end.
Definition lift {A} (r : result A) : M A := fun st => (st, r).
Definition on_disk (f : Disk -> Disk) : M unit :=
  fun st => (mkState (self st) (f (disk st)) (tick st), Ok tt).
Definition on_self (f : BundleBuilder -> BundleBuilder) : M unit :=
  fun st => (mkState (f (self st)) (disk st) (tick st), Ok tt).
Definition get_self : M BundleBuilder := fun st => (st, Ok (self st)).
Definition get_disk : M Disk := fun st => (st, Ok (disk st)).
(** [p.mkdir(parents=True, exist_ok=True)] on the disk of the state. *)
Definition make_dir (p : Path) : M unit :=
  fun st =>
    match mkdir p (disk st) with
    | Ok d => (mkState (self st) d (tick st), Ok tt)
    | Raise e => (st, Raise e)
    end.

Notation "x <-- e ;; k" := (bindM e (fun x => k))
  (at level 61, e at next level, right associativity).
Notation "e ;;; k" := (bindM e (fun _ => k))
  (at level 61, right associativity).

Fixpoint for_each {A} (l : list A) (body : A -> M unit) : M unit :=
  match l with
  | [] => ret tt
  | x :: rest => body x ;;; for_each rest body
  end.

Definition set_bundle_id (s : string) (b : BundleBuilder) : BundleBuilder :=
  mkBuilder (os_major b) (manifest_dir b) (output_dir b) (work_dir b) s
            (build_log b) (metadata b).
Definition append_log (entry : string) (b : BundleBuilder) : BundleBuilder :=
  mkBuilder (os_major b) (manifest_dir b) (output_dir b) (work_dir b)
            (bundle_id b) (build_log b ++ [entry]) (metadata b).
Definition set_metadata (m : BundleMetadata) (b : BundleBuilder)
  : BundleBuilder :=
  mkBuilder (os_major b) (manifest_dir b) (output_dir b) (work_dir b)
            (bundle_id b) (build_log b) (Some m).

(** [str(x)] for an optional string. *)
Definition str_opt (o : option string) : string :=
  match o with Some s => s | None => "None" end.

(** [d[k]] *)
Definition subscript (d : json) (k : string) : result json :=
  match d with
  | JDict l =>
      match dict_get k l with
      | Some v => Ok v
      | None => raise KeyError k
      end
  | _ => raise TypeError "object is not subscriptable"
  end.

Section Build.
(** The clock: the n-th reading of [datetime.now(timezone.utc)], and the
    two renderings used. *)
Variable datetime : Type.
Variable now : nat -> datetime.
Variable isoformat : datetime -> string.
Variable strftime_compact : datetime -> string.   (* '%Y%m%dT%H%M%SZ' *)
(** [socket.gethostname()] *)
Variable gethostname : string.
(** The merger's serialiser and digest, and the manifest files. *)
Variable json_dumps_sorted : json -> string.
Variable sha256_hexdigest : string -> string.
Variable w : World.
(** The resolver's [dnf] queries. *)
Variable dnf : Dnf.
(** [RPMDownloader.download_packages]: the results it records and the
    files then present in the download directory. *)
Variable download_packages :
  Path -> list ResolvedPackage ->
  result (list DownloadResult * list (Path * file_content)).
(** [createrepo_c --update dir] and [createrepo --update dir], run with
    [check=True]: the files written. *)
Variable createrepo_c : Path -> result (list (Path * file_content)).
Variable createrepo : Path -> result (list (Path * file_content)).
(** [path.stat().st_size] *)
Variable st_size : Path -> result Z.
(** [zstd -19 --rm tar -o archive], run with [check=True]. *)
Variable zstd : result unit.
(** SHA-256 of a file's bytes, in hex. *)
Variable sha256_file : file_content -> string.
(** The paths that [shutil.rmtree] fails to remove. *)
Variable undeletable : Path -> bool.

(** [BundleBuilder._log] *)
Definition _log (message : string) : M unit :=
  fun st =>
    let timestamp := isoformat (now (tick st)) in
    let log_entry := "[" +++ timestamp +++ "] " +++ message in
    (mkState (append_log log_entry (self st)) (disk st) (S (tick st)),
     Ok tt).

(** [BundleBuilder._generate_repodata] *)
Definition _generate_repodata (rpms_dir : Path) : M unit :=
  fun st =>
    let written (fs : list (Path * file_content)) :=
      mkState (self st)
              (fold_right (fun f d => write_file (fst f) (snd f) d)
                          (disk st) fs)
              (tick st) in
    match createrepo_c rpms_dir with
    | Ok fs => (written fs, Ok tt)
    | Raise e =>
        if caught_by e [FileNotFoundError] then
          match createrepo rpms_dir with
          | Ok fs => (written fs, Ok tt)
          | Raise e' => (st, Raise e')
          end
        else (st, Raise e)
    end.

Definition count_type (t : string) (resolved : list ResolvedPackage) : nat :=
  List.length (filter (fun p => String.eqb (package_type p) t) resolved).

(** The loop that builds [package_list]. *)
Fixpoint package_entries (package_hosts : list (json * list json))
  (rs : list DownloadResult) : result (list PackageEntry) :=
  match rs with
  | [] => Ok []
  | r :: rest =>
      let pkg := package r in
      let hosts_needing :=
        match pydict_get (JStr (name pkg)) package_hosts with
        | Some hosts => hosts
        | None => []
        end in
      size <- match local_path r with
              | Some p => st_size p
              | None => Ok 0%Z
              end ;;
      entries <- package_entries package_hosts rest ;;
      Ok (mkEntry (nevra pkg) (package_type pkg) (sha256 r) size
                  hosts_needing (advisory_id pkg) :: entries)
  end.

(** The loop that builds [host_package_map]. *)
Fixpoint host_packages (host_summary : list json)
  (package_list : list PackageEntry) (m : list (json * list string))
  : result (list (json * list string)) :=
  match host_summary with
  | [] => Ok m
  | host_info :: rest =>
      host_id <- subscript host_info "host_id" ;;
      if negb (hashable host_id) then raise TypeError "unhashable type"
      else
        host_packages rest package_list
          (pydict_set host_id
             (map entry_nevra
                  (filter (fun e =>
                             existsb (fun h => py_eq h host_id)
                                     (entry_required_by e))
                          package_list))
             m)
  end.

Fixpoint manifests_used_of (host_summary : list json) : result (list json) :=
  match host_summary with
  | [] => Ok []
  | h :: rest =>
      host_id <- subscript h "host_id" ;;
      manifest_hash <- subscript h "manifest_hash" ;;
      os_minor <- subscript h "os_minor" ;;
      used <- manifests_used_of rest ;;
      Ok (JDict [("host_id", host_id); ("manifest_hash", manifest_hash);
                 ("os_minor", os_minor)] :: used)
  end.

(** [BundleBuilder._build_metadata] *)
Definition _build_metadata (b : BundleBuilder) (timestamp : datetime)
  (merger : Merger.ManifestMerger) (resolved : list ResolvedPackage)
  (downloader : RPMDownloader) : result BundleMetadata :=
  host_summary <- Merger.get_host_summary merger ;;
  package_hosts <- Merger.get_package_to_hosts_map merger ;;
  let update_count := count_type "update" resolved in
  let security_count := count_type "security" resolved in
  let dependency_count := count_type "dependency" resolved in
  package_list <-
    package_entries package_hosts (get_successful_downloads downloader) ;;
  host_package_map <- host_packages host_summary package_list [] ;;
  manifests_used <- manifests_used_of host_summary ;;
  size_bytes <- get_total_size st_size downloader ;;
  Ok (mkMetadata SCHEMA_VERSION (bundle_id b) (os_major b)
        (isoformat timestamp) gethostname manifests_used
        (mkCounts (List.length package_list) update_count security_count
                  dependency_count size_bytes)
        package_list host_package_map
        (mkChecksums "sha256" "")   (* Will be updated after archive creation *)
        "build.log").

(** [BundleBuilder._create_archive] *)
Definition _create_archive (source_dir : Path) : M Path :=
  fun st =>
    let b := self st in
    let members := tar_members source_dir (bundle_id b) (disk st) in
    let archive_path := joinpath (output_dir b) (bundle_id b +++ ".tar.zst") in
    let tar_path := joinpath (output_dir b) (bundle_id b +++ ".tar") in
    let with_tar := write_file tar_path (Tar members "") (disk st) in
    match zstd with
    | Ok _ =>
        (mkState b
           (write_file archive_path (Tar members "zst")
              (remove_file tar_path with_tar))
           (tick st),
         Ok archive_path)
    | Raise e =>
        if caught_by e [FileNotFoundError; CalledProcessError] then
          let archive_path :=
            joinpath (output_dir b) (bundle_id b +++ ".tar.gz") in
          (mkState b
             (write_file archive_path
                (Tar (tar_members source_dir (bundle_id b) with_tar) "gz")
                with_tar)
             (tick st),
           Ok archive_path)
        else (mkState b with_tar (tick st), Raise e)
    end.

(** [BundleBuilder._compute_file_hash] *)
Definition _compute_file_hash (filepath : Path) : M string :=
  fun st =>
    match read_file filepath (disk st) with
    | Some c => (st, Ok (sha256_file c))
    | None => (st, raise FileNotFoundError (path_str filepath))
    end.

(** The strings among the keys of the merged map; a key that is not a
    string never equals a name [dnf] prints, so the resolver cannot
    tell it from an absent one. *)
Fixpoint string_keys (keys : list json) : list string :=
  match keys with
  | [] => []
  | JStr s :: rest => s :: string_keys rest
  | _ :: rest => string_keys rest
  end.

(** Steps 1 to 6 of the [try] block of [build]: what is handed on to
    the remaining steps. *)
Definition gather (bundle_work_dir : Path)
  : M (Merger.ManifestMerger * list ResolvedPackage * RPMDownloader) :=
  let rpms_dir := joinpath bundle_work_dir "rpms" in
  let manifests_copy_dir := joinpath bundle_work_dir "manifests" in
  b <-- get_self ;;
  _log "Step 1: Loading manifests" ;;;
  merger0 <-- lift (Merger.init (os_major b)) ;;
  let (merger, counted) :=
    Merger.add_manifests_from_directory json_dumps_sorted sha256_hexdigest
      w (manifest_dir b) merger0 in
  manifest_count <-- lift counted ;;
  _log ("  Loaded " +++ str_nat manifest_count +++ " manifests") ;;;
  (if (manifest_count =? 0)%nat
   then lift (raise RuntimeError
                ("No RHEL " +++ str_Z (os_major b) +++ " manifests found"))
   else ret tt) ;;;
  for_each (glob w (manifest_dir b) ".json")
    (fun manifest_file =>
       on_disk (write_file
                  (joinpath manifests_copy_dir (path_name manifest_file))
                  (CopyOf manifest_file))) ;;;
  _log "Step 2: Merging installed packages" ;;;
  merged_rpms <-- lift (Merger.get_merged_installed_rpms merger) ;;
  let package_names := map fst merged_rpms in
  _log ("  Found " +++ str_nat (List.length package_names)
        +++ " unique packages") ;;;
  _log "Step 3: Resolving updates and dependencies" ;;;
  let (resolver, outcome) :=
    resolve dnf (Resolver.init (string_keys package_names) true) in
  resolved <-- lift outcome ;;
  _log ("  Resolved " +++ str_nat (List.length resolved) +++ " packages") ;;;
  for_each (Resolver.errors resolver)
    (fun error => _log ("  Warning: " +++ error)) ;;;
  (match resolved with
   | [] => _log "  No updates available - creating empty bundle"
   | _ => ret tt
   end) ;;;
  _log "Step 4: Downloading RPMs" ;;;
  make_dir rpms_dir ;;;
  downloader <--
    match resolved with
    | [] => ret (mkDownloader rpms_dir [])
    | _ =>
        fetched <-- lift (download_packages rpms_dir resolved) ;;
        on_disk (fun d =>
                   fold_right (fun f d => write_file (fst f) (snd f) d)
                              d (snd fetched)) ;;;
        let downloader := mkDownloader rpms_dir (fst fetched) in
        let success_count :=
          List.length (get_successful_downloads downloader) in
        let fail_count := List.length (get_failed_downloads downloader) in
        _log ("  Downloaded: " +++ str_nat success_count +++ ", Failed: "
              +++ str_nat fail_count) ;;;
        for_each (get_failed_downloads downloader)
          (fun failed =>
             _log ("  Failed: " +++ name (package failed) +++ " - "
                   +++ str_opt (error failed))) ;;;
        ret downloader
    end ;;
  _log "Step 5: Generating repodata" ;;;
  _generate_repodata rpms_dir ;;;
  _log "  Repodata generated" ;;;
  _log "Step 6: Generating checksums" ;;;
  (let (sums_path, sums_text) :=
     generate_checksums_file (Some (joinpath bundle_work_dir "SHA256SUMS"))
       downloader in
   on_disk (write_file sums_path (Text sums_text))) ;;;
  ret (merger, resolved, downloader).

(** Steps 7 to 9. *)
Definition seal (timestamp : datetime) (bundle_work_dir : Path)
  (merger : Merger.ManifestMerger) (resolved : list ResolvedPackage)
  (downloader : RPMDownloader) : M Path :=
  _log "Step 7: Building metadata" ;;;
  b7 <-- get_self ;;
  md <-- lift (_build_metadata b7 timestamp merger resolved downloader) ;;
  on_self (set_metadata md) ;;;
  on_disk (write_file (joinpath bundle_work_dir "metadata.json")
             (MetadataDoc md)) ;;;
  _log "  Metadata written" ;;;
  _log "Step 8: Finalizing" ;;;
  b8 <-- get_self ;;
  on_disk (write_file (joinpath bundle_work_dir "build.log")
             (Text (String.concat newline (build_log b8) +++ newline))) ;;;
  _log "Step 9: Creating archive" ;;;
  archive_path <-- _create_archive bundle_work_dir ;;
  _log ("  Bundle created: " +++ path_str archive_path) ;;;
  bundle_hash <-- _compute_file_hash archive_path ;;
  _log ("  SHA256: " +++ bundle_hash) ;;;
  ret archive_path.

(** The [try] block of [build]. *)
Definition build_steps (timestamp : datetime) (bundle_work_dir : Path)
  : M Path :=
  gathered <-- gather bundle_work_dir ;;
  let '(merger, resolved, downloader) := gathered in
  seal timestamp bundle_work_dir merger resolved downloader.

(** [BundleBuilder.build].  The two directories are made before the
    [try]: an error raised there is neither logged nor followed by the
    cleanup of the [finally] clause. *)
Definition build : M Path :=
  fun st =>
    let timestamp := now (tick st) in
    let b := self st in
    let bundle_id :=
      "bundle-rhel" +++ str_Z (os_major b) +++ "-"
      +++ strftime_compact timestamp in
    let bundle_work_dir := joinpath (work_dir b) bundle_id in
    let rpms_dir := joinpath bundle_work_dir "rpms" in
    let manifests_copy_dir := joinpath bundle_work_dir "manifests" in
    let cleanup (st : State) :=
      mkState (self st) (rmtree undeletable bundle_work_dir (disk st))
              (tick st) in
    let started :=
      (on_self (set_bundle_id bundle_id) ;;;
       _log ("Starting bundle build: " +++ bundle_id) ;;;
       make_dir rpms_dir ;;;
       make_dir manifests_copy_dir)
        (mkState b (disk st) (S (tick st))) in
    match started with
    | (st0, Raise e) => (st0, Raise e)
    | (st0, Ok _) =>
        match build_steps timestamp bundle_work_dir st0 with
        | (st', Ok archive_path) => (cleanup st', Ok archive_path)
        | (st', Raise e) =>
            let (st'', _) := _log ("ERROR: " +++ exn_msg e) st' in
            (cleanup st'', Raise e)
        end
    end.

(** What steps 7 to 9 leave behind when they succeed: the metadata
    document, with an empty [bundle_hash], both in the builder and in
    the archive; the log file in the archive; and, after it in the
    builder's log, the digest of the finished archive. *)
Inductive sealed (st st' : State) (archive_path : Path) : Prop :=
| sealed_intro :
    forall (md : BundleMetadata) (members : list (Path * file_content))
           (compression : string) (log : list string) (t1 t2 t3 : string),
      metadata (self st') = Some md ->
      bundle_id (self st') = bundle_id (self st) ->
      work_dir (self st') = work_dir (self st) ->
      checksums md = mkChecksums "sha256" "" ->
      read_file archive_path (disk st') = Some (Tar members compression) ->
      In (mkPath "" [bundle_id (self st'); "metadata.json"], MetadataDoc md)
         members ->
      In (mkPath "" [bundle_id (self st'); "build.log"],
          Text (String.concat newline log +++ newline)) members ->
      build_log (self st')
      = log
        ++ ["[" +++ t1 +++ "] " +++ "Step 9: Creating archive";
            "[" +++ t2 +++ "] " +++ "  Bundle created: "
              +++ path_str archive_path;
            "[" +++ t3 +++ "] " +++ "  SHA256: "
              +++ sha256_file (Tar members compression)] ->
      sealed st st' archive_path.

End Build.

End Builder.

(* ================================================================== *)
(** * Inputs for the scenarios *)
(* ================================================================== *)

Module Examples.
Import Fixtures Resolver Downloader Builder.

(** ** Python string builtins on ASCII text *)

(** [s.split(sep)] for a one-character separator. *)
Fixpoint split_on (sep : ascii) (s : string) : list string :=
  match s with
  | EmptyString => [EmptyString]
  | String c s' =>
      if Ascii.eqb c sep then EmptyString :: split_on sep s'
      else
        match split_on sep s' with
        | [] => [String c EmptyString]
        | piece :: pieces => String c piece :: pieces
        end
  end.

(** [s.splitlines()] for text whose only line break is LF. *)
Definition splitlines (s : string) : list string :=
  match rev (split_on "010"%char s) with
  | EmptyString :: pieces => rev pieces
  | _ => split_on "010"%char s
  end.

Fixpoint lstrip (s : string) : string :=
  match s with
  | String c s' => if Ascii.eqb c " "%char then lstrip s' else s
  | EmptyString => EmptyString
  end.

Definition reverse (s : string) : string :=
  string_of_list_ascii (rev (list_ascii_of_string s)).

(** [s.strip()] for text whose only blank is the space. *)
Definition strip (s : string) : string :=
  reverse (lstrip (reverse (lstrip s))).

Definition digit (c : ascii) : option Z :=
  let n := Z.of_nat (nat_of_ascii c) in
  if ((48 <=? n) && (n <=? 57))%Z then Some (n - 48)%Z else None.

(** [s.isdigit()] on ASCII text. *)
Fixpoint all_digits (s : string) : bool :=
  match s with
  | EmptyString => true
  | String c s' =>
      match digit c with Some _ => all_digits s' | None => false end
  end.
Definition isdigit (s : string) : bool :=
  negb (String.eqb s "") && all_digits s.

Fixpoint int_acc (s : string) (acc : Z) : result Z :=
  match s with
  | EmptyString => Ok acc
  | String c s' =>
      match digit c with
      | Some d => int_acc s' (10 * acc + d)%Z
      | None => raise ValueError "invalid literal for int() with base 10"
      end
  end.

(** [int(s)] on an unsigned decimal literal. *)
Definition py_int (s : string) : result Z :=
  if String.eqb s "" then
    raise ValueError "invalid literal for int() with base 10"
  else int_acc s 0%Z.

(** [format(v, "")] for the values the scenarios print. *)
Definition py_str (v : json) : string :=
  match v with
  | JNull => "None"
  | JBool true => "True"
  | JBool false => "False"
  | JInt z => str_Z z
  | JStr s => s
  | _ => "<object>"
  end.

(** ** Manifests *)

(** The sample manifest with [os.major] set to [null]. *)
Definition null_major_manifest : json :=
  match sample_manifest with
  | JDict d =>
      JDict (dict_set "os"
               (JDict [("name", JStr "Red Hat Enterprise Linux");
                       ("major", JNull); ("minor", JInt 6);
                       ("id", JStr "rhel")]) d)
  | other => other
  end.

Definition merger9 : Merger.ManifestMerger := Merger.mkMerger 9 [] [].
Definition rhel9_file : Path :=
  joinpath manifest_path "test-host-01-manifest.json".
Definition rhel8_file : Path :=
  joinpath manifest_path "test-host-rhel8-manifest.json".
Definition notes_file : Path := joinpath manifest_path "notes.json".

(** A directory whose only file carries the conventional name and is
    not JSON. *)
Definition broken_dir : World :=
  mkWorld
    (fun p =>
       if path_eqb p (joinpath manifest_path "broken-manifest.json")
       then raise JSONDecodeError "Expecting value: line 1 column 1 (char 0)"
       else raise FileNotFoundError "No such file or directory")
    (fun d =>
       if path_eqb d manifest_path then ["broken-manifest.json"] else []).

(** Two manifests of 101 packages that differ in the last one only. *)
Definition hundred_rpms : list json :=
  repeat (rpm "bash" "0" "5.1.8" "6.el9" "x86_64" "bash-5.1.8-6.el9.x86_64")
         100.
Definition long_manifest (last_rpm : json) : list (string * json) :=
  [("schema_version", JStr "1.0");
   ("host_id", JStr "test-host-01");
   ("os", JDict [("name", JStr "Red Hat Enterprise Linux");
                 ("major", JInt 9); ("minor", JInt 6)]);
   ("arch", JStr "x86_64");
   ("enabled_repos", JList []);
   ("installed_rpms", JList (hundred_rpms ++ [last_rpm]));
   ("timestamp", JStr "2024-01-15T12:00:00Z")].

(** ** A resolution *)

Definition available (name version : string) : ResolvedPackage :=
  mkPackage name "0" version "1.el9" "x86_64"
            (name +++ "-" +++ version +++ "-1.el9.x86_64") "rhel-9-baseos"
            "update" 0 None [].

(** [openssl] is both an update and a security update, [bash] an update
    only, and [glibc] is pulled in as a requirement. *)
Definition sample_dnf : Dnf :=
  mkDnf (fun installed => ([], Ok ["bash"; "openssl"]))
        ([], Ok ["openssl"])
        (fun updates =>
           ([], Ok [available "bash" "5.1.8"; available "openssl" "3.0.7";
                    available "glibc" "2.34"])).

(** ** A repository with a requirement cycle: [a] requires [b], [b]
    requires [a] and [c], and the query about [c] fails. *)
Definition cyclic_repo : Repository.t :=
  Repository.mkRepository
    [("a", Repository.mkAnswers (Ok "a|0|1.0|1.el9|x86_64|baseos|100")
                                (Ok ("b" +++ newline)));
     ("b", Repository.mkAnswers (Ok "b|(none)|2.0|1.el9|noarch|baseos|n/a")
                                (Ok ("a" +++ newline +++ " c " +++ newline)));
     ("c", Repository.mkAnswers
             (raise CalledProcessError "returned non-zero exit status 1")
             (Ok ""))]
    (Repository.mkAnswers (Ok "") (Ok "")).

(** ** Oracles that no finite repository backs *)

(** [dnf] is not installed: [subprocess.run] raises
    [FileNotFoundError], whatever the package. *)
Definition dnf_missing (pkg_name : string) : result string :=
  raise FileNotFoundError "[Errno 2] No such file or directory: 'dnf'".

(** An oracle that knows no package and prints, for every name, a
    requirement that is one letter longer. *)
Definition nothing_known (pkg_name : string) : result string := Ok "".
Definition one_more (pkg_name : string) : result string :=
  Ok (String "a" pkg_name).

(** The names [a], [aa], [aaa], ... *)
Fixpoint letters (k : nat) : string :=
  match k with
  | O => ""
  | S k' => String "a" (letters k')
  end.

(** The two calls about each of the names [names]. *)
Definition both_queries (names : list string) : list query :=
  flat_map (fun n => [InfoQuery n; RequiresQuery n]) names.

(** ** Download results *)

(** The package of [tests/test_bundle_builder.py]. *)
Definition test_package : ResolvedPackage :=
  mkPackage "test" "0" "1.0" "1" "x86_64" "test-1.0-1.x86_64" "test"
            "update" 0 None [].

Definition test_rpm : Path := joinpath tmp_path "test-1.0-1.x86_64.rpm".

Definition verified : DownloadResult :=
  mkResult test_package true (Some test_rpm)
    (Some "6ae8a75555209fd6c44157c0aed8016e763ff435a19cf186f76863140143ff72")
    None.

(** A result marked successful that carries neither digest nor path. *)
Definition unverified : DownloadResult :=
  mkResult test_package true None None None.

(** ** A build *)

Definition sample_downloads (rpms_dir : Path)
  (resolved : list ResolvedPackage)
  : result (list DownloadResult * list (Path * file_content)) :=
  Ok (map (fun pkg =>
             if String.eqb (name pkg) "glibc"
             then mkResult pkg false None None
                    (Some "Package not found in downloads")
             else mkResult pkg true
                    (Some (joinpath rpms_dir (nevra pkg +++ ".rpm")))
                    (Some "9f86d081884c7d65") None)
          resolved,
      [(joinpath rpms_dir "bash-5.1.8-1.el9.x86_64.rpm", Produced "dnf");
       (joinpath rpms_dir "openssl-3.0.7-1.el9.x86_64.rpm", Produced "dnf")]).

Definition bundles_dir : Path := mkPath "/" ["srv"; "bundles"].

Definition fresh_builder : BundleBuilder :=
  mkBuilder 9 manifest_path bundles_dir (mkPath "/" ["tmp"; "bundle-build"])
            "" [] None.

Definition fresh_state : State := mkState fresh_builder (mkDisk [] []) 0.

Definition sample_archive : Path :=
  joinpath bundles_dir "bundle-rhel9-20240115T120000Z.tar.gz".

(** The queries of the fallback against [cyclic_repo]. *)
Definition cyclic_loop (fuel : nat) : option (result locals) :=
  loop (Repository.repoquery_info cyclic_repo)
       (Repository.repoquery_requires cyclic_repo)
       splitlines strip (split_on "|") isdigit py_int ["a"] fuel
       (initial ["a"]).

(** The build of the fixture directory: [createrepo_c] and [zstd] are
    not installed, so both fallbacks run. *)
Abbreviation sample_build :=
  (build (fun n => n) (fun t => "t" +++ str_nat t) (fun _ => "20240115T120000Z")
        "builder-01" dumps_stub sha256_stub Fixtures.manifest_dir sample_dnf
        sample_downloads
        (fun _ => raise FileNotFoundError "createrepo_c")
        (fun rpms_dir =>
           Ok [(joinpath (joinpath rpms_dir "repodata") "repomd.xml",
                Produced "createrepo")])
        (fun _ => Ok 100%Z)
        (raise FileNotFoundError "zstd")
        (fun _ => "e3b0c44298fc1c14")
        (fun _ => false)
        fresh_state).

End Examples.

(* ================================================================== *)
(** * Python [str] methods *)
(* ================================================================== *)

(** A [str] is taken as its sequence of code points, each below 256.
    The separators the sources split on are single characters. *)
Module Str.

Definition code (c : ascii) : nat := nat_of_ascii c.

(** [c.isspace()]: the blanks [str.split()] and [str.strip()] act on. *)
Definition isspace (c : ascii) : bool :=
  ((9 <=? code c) && (code c <=? 13))%nat ||
  ((28 <=? code c) && (code c <=? 32))%nat ||
  (code c =? 133)%nat || (code c =? 160)%nat.

(** The line boundaries of [str.splitlines()]. *)
Definition is_linebreak (c : ascii) : bool :=
  ((10 <=? code c) && (code c <=? 13))%nat ||
  ((28 <=? code c) && (code c <=? 30))%nat ||
  (code c =? 133)%nat.

Definition nonempty (s : string) : bool := negb (String.eqb s "").

(** [s.partition(sep)]: the text before and after the first [sep];
    [None] when [sep] does not occur. *)
Fixpoint partition (sep : ascii) (s : string) : option (string * string) :=
  match s with
  | EmptyString => None
  | String c s' =>
      if Ascii.eqb c sep then Some (EmptyString, s')
      else
        match partition sep s' with
        | Some (before, after) => Some (String c before, after)
        | None => None
        end
  end.

(** [s.rpartition(sep)]: the same around the last [sep]. *)
Fixpoint rpartition (sep : ascii) (s : string) : option (string * string) :=
  match s with
  | EmptyString => None
  | String c s' =>
      match rpartition sep s' with
      | Some (before, after) => Some (String c before, after)
      | None => if Ascii.eqb c sep then Some (EmptyString, s') else None
      end
  end.

(** [s.split(sep, maxsplit)] *)
Fixpoint split (sep : ascii) (maxsplit : nat) (s : string) : list string :=
  match maxsplit with
  | O => [s]
  | S n =>
      match partition sep s with
      | Some (before, after) => before :: split sep n after
      | None => [s]
      end
  end.

(** [s.split(sep)] *)
Definition split_all (sep : ascii) (s : string) : list string :=
  split sep (String.length s) s.

(** [s.rsplit(sep, maxsplit)] *)
Fixpoint rsplit (sep : ascii) (maxsplit : nat) (s : string) : list string :=
  match maxsplit with
  | O => [s]
  | S n =>
      match rpartition sep s with
      | Some (before, after) => rsplit sep n before ++ [after]
      | None => [s]
      end
  end.

(** The loop of [s.split()]: [word] is the field being read. *)
Fixpoint fields (s : string) (word : string) : list string :=
  match s with
  | EmptyString => if nonempty word then [word] else []
  | String c s' =>
      if isspace c then
        if nonempty word then word :: fields s' "" else fields s' ""
      else fields s' (word +++ String c "")
  end.

(** [s.split()]: the fields between runs of blanks. *)
Definition split_ws (s : string) : list string := fields s "".

Fixpoint lstrip (s : string) : string :=
  match s with
  | String c s' => if isspace c then lstrip s' else s
  | EmptyString => EmptyString
  end.

(** [s.rstrip()] *)
Fixpoint rstrip (s : string) : string :=
  match s with
  | EmptyString => EmptyString
  | String c s' =>
      match rstrip s' with
      | EmptyString => if isspace c then EmptyString else String c EmptyString
      | rest => String c rest
      end
  end.

(** [s.strip()] *)
Definition strip (s : string) : string := rstrip (lstrip s).

(** The loop of [s.splitlines()]; a carriage return followed by a line
    feed is one boundary. *)
Fixpoint lines_of (s : string) (line : string) : list string :=
  match s with
  | EmptyString => if nonempty line then [line] else []
  | String c s' =>
      if is_linebreak c then
        line ::
        match s' with
        | String c' s'' =>
            if ((code c =? 13) && (code c' =? 10))%nat
            then lines_of s'' ""
            else lines_of s' ""
        | EmptyString => []
        end
      else lines_of s' (line +++ String c "")
  end.

(** [s.splitlines()] *)
Definition splitlines (s : string) : list string := lines_of s "".

(** [x in s] and [s.add(x)] for a set of strings, kept in the order the
    elements were added. *)
Definition set_add (x : string) (s : list string) : list string :=
  if Resolver.mem x s then s else s ++ [x].

End Str.

(* ================================================================== *)
(** * bundle_builder/resolver.py: the [dnf] helpers *)
(* ================================================================== *)

Module ResolverDnf.
Import Resolver Str.

(** What [subprocess.run(..., capture_output=True, text=True)] returns. *)
Record CompletedProcess := mkCompleted {
  returncode : Z;
  stdout : string;
  stderr : string
}.

(** [ResolvedPackage.to_dict] *)
Definition to_dict (pkg : ResolvedPackage) : json :=
  JDict [("name", JStr (name pkg));
         ("epoch", JStr (epoch pkg));
         ("version", JStr (version pkg));
         ("release", JStr (release pkg));
         ("arch", JStr (arch pkg));
         ("nevra", JStr (nevra pkg));
         ("repo_id", JStr (repo_id pkg));
         ("type", JStr (package_type pkg));
         ("size_bytes", JInt (size_bytes pkg));
         ("advisory_id",
          match advisory_id pkg with Some a => JStr a | None => JNull end);
         ("required_by", JList (map JStr (required_by pkg)))].

(** [DependencyResolver._parse_package_line].  An unpacking that does
    not find two parts raises [ValueError], which the [except Exception]
    of the method turns into [None]. *)
Definition _parse_package_line (line : string) : option ResolvedPackage :=
  let parts := split_ws line in
  if (List.length parts <? 2)%nat then None
  else
    let nevra := nth 0 parts "" in
    let repo_id :=
      if (1 <? List.length parts)%nat then nth 1 parts "" else "unknown" in
    if negb (contains "." nevra) then None
    else
      match rsplit "." 1 nevra with
      | [base; arch] =>
          if negb (contains "-" base) then None
          else
            match rsplit "-" 1 base with
            | [base2; release] =>
                if negb (contains "-" base2) then None
                else
                  match rsplit "-" 1 base2 with
                  | [name; version] =>
                      let split_epoch :=
                        if contains ":" version then
                          match split ":" 1 version with
                          | [epoch; version'] => Some (epoch, version')
                          | _ => None
                          end
                        else Some ("0", version) in
                      match split_epoch with
                      | Some (epoch, version) =>
                          Some (mkPackage name epoch version release arch
                                  nevra repo_id "update" 0 None [])
                      | None => None
                      end
                  | _ => None
                  end
            | _ => None
            end
      | _ => None
      end.

(** [code in (c1, c2)] for return codes. *)
Definition code_in (code : Z) (cs : list Z) : bool :=
  existsb (Z.eqb code) cs.

(** The package name before the last dot of [pkg_with_arch]. *)
Definition without_arch (pkg_with_arch : string) : string :=
  hd "" (rsplit "." 1 pkg_with_arch).

(** One line of [dnf check-update]: the name it adds to [updates], if
    any. *)
Definition update_of_line (installed_packages : list string) (line : string)
  : option string :=
  let line := strip line in
  if negb (nonempty line) || startswith line "Obsoleting" then None
  else
    let parts := split_ws line in
    if (2 <=? List.length parts)%nat then
      let pkg_name := without_arch (nth 0 parts "") in
      if mem pkg_name installed_packages then Some pkg_name else None
    else None.

(** One line of [dnf updateinfo list]: the name it adds. *)
Definition security_of_line (line : string) : option string :=
  let parts := split_ws line in
  if (3 <=? List.length parts)%nat then
    let pkg_name := without_arch (nth 2 parts "") in
    Some (if contains "-" pkg_name
          then hd "" (split_all "-" pkg_name)
          else pkg_name)
  else None.

(** [for line in lines: ...; s.add(name)] *)
Definition collect (of_line : string -> option string) (lines : list string)
  : list string :=
  fold_left (fun names line =>
               match of_line line with
               | Some pkg_name => set_add pkg_name names
               | None => names
               end)
            lines [].

(** The loop of [_resolve_dependencies] over the lines [dnf] printed. *)
Fixpoint parse_lines (lines : list string) (in_package_list : bool)
  (resolved : list ResolvedPackage) : list ResolvedPackage :=
  match lines with
  | [] => resolved
  | line :: rest =>
      let line := strip line in
      if contains "Installing:" line || contains "Upgrading:" line
      then parse_lines rest true resolved
      else if in_package_list && startswith line "Installing dependencies:"
      then parse_lines rest in_package_list resolved
      else if in_package_list && nonempty line then
        match _parse_package_line line with
        | Some pkg => parse_lines rest in_package_list (resolved ++ [pkg])
        | None => parse_lines rest in_package_list resolved
        end
      else parse_lines rest in_package_list resolved
  end.

Section Run.
(** [dnf check-update --quiet], [dnf updateinfo list --security
    --available] (with its timeout) and [dnf download --resolve ...
    pkg_list]: what [subprocess.run] returns or raises. *)
Variable dnf_check_update : result CompletedProcess.
Variable dnf_updateinfo : result CompletedProcess.
Variable dnf_download : list string -> result CompletedProcess.
(** [_resolve_via_repoquery], at its interface. *)
Variable _resolve_via_repoquery :
  list string -> result (list ResolvedPackage).

(** [DependencyResolver._get_available_updates]: the messages appended
    to [self.errors] and the set returned. *)
Definition _get_available_updates (installed_packages : list string)
  : list string * result (list string) :=
  match dnf_check_update with
  | Ok result =>
      if negb (code_in (returncode result) [0; 100]%Z)
      then (["dnf check-update failed: " +++ stderr result], Ok [])
      else
        ([], Ok (collect (update_of_line installed_packages)
                         (splitlines (stdout result))))
  | Raise e =>
      if caught_by e [CalledProcessError]
      then (["Failed to check updates: " +++ exn_msg e], Ok [])
      else ([], Raise e)
  end.

(** [DependencyResolver._get_security_updates] *)
Definition _get_security_updates : list string * result (list string) :=
  match dnf_updateinfo with
  | Ok result =>
      if negb (returncode result =? 0)%Z then ([], Ok [])
      else ([], Ok (collect security_of_line (splitlines (stdout result))))
  | Raise e =>
      if caught_by e [CalledProcessError; TimeoutExpired]
      then (["Failed to get security updates: " +++ exn_msg e], Ok [])
      else ([], Raise e)
  end.

(** [DependencyResolver._resolve_dependencies] *)
Definition _resolve_dependencies (update_packages : list string)
  : list string * result (list ResolvedPackage) :=
  match update_packages with
  | [] => ([], Ok [])
  | _ :: _ =>
      let (messages, parsed) :=
        match dnf_download update_packages with
        | Ok result =>
            ([], Ok (parse_lines (splitlines (stdout result)
                                  ++ splitlines (stderr result))
                                 false []))
        | Raise e =>
            if caught_by e [CalledProcessError]
            then (["Failed to resolve dependencies: " +++ exn_msg e], Ok [])
            else ([], Raise e)
        end in
      match parsed with
      | Raise e => (messages, Raise e)
      | Ok [] => (messages, _resolve_via_repoquery update_packages)
      | Ok (pkg :: rest) => (messages, Ok (pkg :: rest))
      end
  end.

(** The three helpers as [resolve] calls them. *)
Definition helpers : Dnf :=
  mkDnf _get_available_updates _get_security_updates _resolve_dependencies.

End Run.

(** [len([p for p in resolved if p.package_type == t])] *)
Definition count_type (t : string) (resolved : list ResolvedPackage) : nat :=
  List.length (filter (fun p => String.eqb (package_type p) t) resolved).

(** [sum(p.size_bytes for p in resolved)] *)
Definition total_size_bytes (resolved : list ResolvedPackage) : Z :=
  fold_left (fun total p => (total + size_bytes p)%Z) resolved 0%Z.

(** The [data] dictionary of [DependencyResolver.export_resolution]. *)
Definition resolution_data (self : DependencyResolver) : json :=
  JDict [("installed_count",
          JInt (Z.of_nat (List.length (installed_packages self))));
         ("resolved_count", JInt (Z.of_nat (List.length (resolved self))));
         ("update_count", JInt (Z.of_nat (count_type "update" (resolved self))));
         ("security_count",
          JInt (Z.of_nat (count_type "security" (resolved self))));
         ("dependency_count",
          JInt (Z.of_nat (count_type "dependency" (resolved self))));
         ("total_size_bytes", JInt (total_size_bytes (resolved self)));
         ("packages", JList (map to_dict (resolved self)));
         ("errors", JList (map JStr (Resolver.errors self)))].

(** [DependencyResolver.export_resolution]: the path returned and the
    document written there with [json.dump]. *)
Definition export_resolution (output_path : Path) (self : DependencyResolver)
  : Path * json :=
  (output_path, resolution_data self).

End ResolverDnf.

(* ================================================================== *)
(** * bundle_builder/downloader.py: downloading and verifying *)
(* ================================================================== *)

Module DownloaderRun.
Import Resolver Downloader Str.

(** [d[k] = v] and [d.get(k)] on a dict keyed by strings. *)
Fixpoint str_dict_set (k : string) (v : Path) (d : list (string * Path))
  : list (string * Path) :=
  match d with
  | [] => [(k, v)]
  | (k', v') :: d' =>
      if String.eqb k' k then (k', v) :: d' else (k', v') :: str_dict_set k v d'
  end.

Fixpoint str_dict_get (k : string) (d : list (string * Path)) : option Path :=
  match d with
  | [] => None
  | (k', v) :: d' => if String.eqb k' k then Some v else str_dict_get k d'
  end.

(** The first loop of [_verify_downloads], for one file: the stem is
    cut at its last two dashes. *)
Definition index_rpm (rpm_by_name : list (string * Path)) (rpm_path : Path)
  : list (string * Path) :=
  let basename := stem rpm_path in
  let parts := rsplit "-" 2 basename in
  if (3 <=? List.length parts)%nat
  then str_dict_set (nth 0 parts "") rpm_path rpm_by_name
  else rpm_by_name.

Definition index_rpms (downloaded_rpms : list Path) : list (string * Path) :=
  fold_left index_rpm downloaded_rpms [].

(** [rpm_file.name.startswith(f"{pkg.name}-")] *)
Definition named_after (pkg : ResolvedPackage) (rpm_file : Path) : bool :=
  startswith (path_name rpm_file) (name pkg +++ "-").

Definition NOT_FOUND : string := "Package not found in downloads".

Section Run.
(** The download directory once [dnf download] has run: [glob] lists
    it, and [exists_] is [Path.exists]. *)
Variable w : World.
Variable exists_ : Path -> bool.
(** [RPMDownloader._compute_sha256]: the digest, or the error of
    [open]. *)
Variable _compute_sha256 : Path -> result string.
(** [dnf download --resolve --alldeps --destdir=... -y names], run
    without [check]: its return code, or the exception of the call. *)
Variable dnf_download : Path -> list string -> result Z.

Definition found (pkg : ResolvedPackage) (rpm_path : Path)
  : result DownloadResult :=
  sha256 <- _compute_sha256 rpm_path ;;
  Ok (mkResult pkg true (Some rpm_path) (Some sha256) None).

(** The [else] branch: the first file whose name starts with the
    package name and a dash. *)
Definition partial_match (downloaded_rpms : list Path) (pkg : ResolvedPackage)
  : result DownloadResult :=
  match find (named_after pkg) downloaded_rpms with
  | Some rpm_file => found pkg rpm_file
  | None => Ok (mkResult pkg false None None (Some NOT_FOUND))
  end.

(** The body of the second loop of [_verify_downloads]. *)
Definition verify_package (downloaded_rpms : list Path)
  (rpm_by_name : list (string * Path)) (pkg : ResolvedPackage)
  : result DownloadResult :=
  match str_dict_get (name pkg) rpm_by_name with
  | Some rpm_path =>
      if exists_ rpm_path then found pkg rpm_path
      else partial_match downloaded_rpms pkg
  | None => partial_match downloaded_rpms pkg
  end.

Fixpoint verify_packages (downloaded_rpms : list Path)
  (rpm_by_name : list (string * Path)) (packages : list ResolvedPackage)
  (self : RPMDownloader) : RPMDownloader * result unit :=
  match packages with
  | [] => (self, Ok tt)
  | pkg :: rest =>
      match verify_package downloaded_rpms rpm_by_name pkg with
      | Ok r =>
          verify_packages downloaded_rpms rpm_by_name rest
            (mkDownloader (download_dir self) (results self ++ [r]))
      | Raise e => (self, Raise e)
      end
  end.

(** [RPMDownloader._verify_downloads] *)
Definition _verify_downloads (packages : list ResolvedPackage)
  (self : RPMDownloader) : RPMDownloader * result unit :=
  let downloaded_rpms := glob w (download_dir self) ".rpm" in
  verify_packages downloaded_rpms (index_rpms downloaded_rpms) packages self.

(** [RPMDownloader.download_packages] *)
Definition download_packages (packages : list ResolvedPackage)
  (self : RPMDownloader) : RPMDownloader * result (list DownloadResult) :=
  let self0 := mkDownloader (download_dir self) [] in
  let package_names := map name packages in
  match package_names with
  | [] => (self0, Ok [])
  | _ :: _ =>
      let ran :=
        match dnf_download (download_dir self0) package_names with
        | Ok _ => Ok tt
        | Raise e =>
            if caught_by e [CalledProcessError] then Ok tt else Raise e
        end in
      match ran with
      | Raise e => (self0, Raise e)
      | Ok _ =>
          match _verify_downloads packages self0 with
          | (self1, Ok _) => (self1, Ok (results self1))
          | (self1, Raise e) => (self1, Raise e)
          end
      end
  end.

(** What [_verify_downloads] records about a package, given the files
    it found in the download directory. *)
Definition checked (downloaded_rpms : list Path) (r : DownloadResult)
  : Prop :=
  success r = existsb (named_after (package r)) downloaded_rpms /\
  (success r = true ->
   exists rpm_file digest,
     In rpm_file downloaded_rpms /\
     named_after (package r) rpm_file = true /\
     _compute_sha256 rpm_file = Ok digest /\
     local_path r = Some rpm_file /\ sha256 r = Some digest /\
     error r = None) /\
  (success r = false ->
   local_path r = None /\ sha256 r = None /\ error r = Some NOT_FOUND).

(** [download_all_updates], given the resolver's [dnf] helpers. *)
Definition download_all_updates (dnf : Dnf) (package_list : list string)
  (output_dir : Path) : result (list DownloadResult * list string) :=
  let (resolver, outcome) := resolve dnf (Resolver.init package_list true) in
  resolved <- outcome ;;
  match resolved with
  | [] => Ok ([], ["No packages to download"])
  | _ :: _ =>
      results <- snd (download_packages resolved
                        (mkDownloader output_dir [])) ;;
      Ok (results, Resolver.errors resolver)
  end.

End Run.

End DownloaderRun.

(* ================================================================== *)
(** * manifest_tools/merger.py: repositories and the merge report *)
(* ================================================================== *)

Module MergerReport.
Import Merger.

(** One turn of the inner loop of [get_enabled_repos_union]. *)
Definition see_repo (repo : json) (repos_seen : list (json * json))
  : result (list (json * json)) :=
  repo_id <- py_get repo "id" (JStr "") ;;
  if truthy repo_id then
    if negb (hashable repo_id) then raise TypeError "unhashable type"
    else
      match pydict_get repo_id repos_seen with
      | Some _ => Ok repos_seen
      | None => Ok (pydict_set repo_id repo repos_seen)
      end
  else Ok repos_seen.

Fixpoint see_repos (repos : list json) (repos_seen : list (json * json))
  : result (list (json * json)) :=
  match repos with
  | [] => Ok repos_seen
  | repo :: rest =>
      repos_seen' <- see_repo repo repos_seen ;;
      see_repos rest repos_seen'
  end.

Fixpoint repos_of_manifests (ms : list json) (repos_seen : list (json * json))
  : result (list (json * json)) :=
  match ms with
  | [] => Ok repos_seen
  | manifest :: rest =>
      v <- py_get manifest "enabled_repos" (JList []) ;;
      repos <- py_iter v ;;
      repos_seen' <- see_repos repos repos_seen ;;
      repos_of_manifests rest repos_seen'
  end.

(** [ManifestMerger.get_enabled_repos_union] *)
Definition get_enabled_repos_union (self : ManifestMerger)
  : result (list json) :=
  repos_seen <- repos_of_manifests (manifests self) [] ;;
  Ok (map snd repos_seen).

(** [sum(len(hosts) for hosts in package_hosts.values())] *)
Definition total_instances (package_hosts : list (json * list json)) : nat :=
  fold_left (fun total kv => total + List.length (snd kv)) package_hosts 0.

Definition JNat (n : nat) : json := JInt (Z.of_nat n).

(** [ManifestMerger.generate_merge_report], at the clock reading
    [generated_at]. *)
Definition generate_merge_report (generated_at : string)
  (self : ManifestMerger) : result json :=
  merged_rpms <- get_merged_installed_rpms self ;;
  package_hosts <- get_package_to_hosts_map self ;;
  hosts <- get_host_summary self ;;
  enabled_repos <- get_enabled_repos_union self ;;
  Ok (JDict [("os_major", JInt (os_major self));
             ("manifest_count", JNat (List.length (manifests self)));
             ("hosts", JList hosts);
             ("unique_packages", JNat (List.length merged_rpms));
             ("total_package_instances", JNat (total_instances package_hosts));
             ("enabled_repos", JList enabled_repos);
             ("generated_at", JStr generated_at)]).

(** The entries of a manifest's [installed_rpms] that carry a name:
    those [get_package_to_hosts_map] files under a package. *)
Definition named (rpm : json) : bool :=
  match py_get rpm "name" (JStr "") with
  | Ok rpm_name => truthy rpm_name
  | Raise _ => false
  end.

Definition named_rpms (manifest : json) : list json :=
  match (v <- py_get manifest "installed_rpms" (JList []) ;; py_iter v) with
  | Ok rpms => filter named rpms
  | Raise _ => []
  end.

(** The repositories a manifest lists that carry an id. *)
Definition repo_id_of (repo : json) : json :=
  match py_get repo "id" (JStr "") with
  | Ok repo_id => repo_id
  | Raise _ => JStr ""
  end.

Definition identified_repos (manifest : json) : list json :=
  match (v <- py_get manifest "enabled_repos" (JList []) ;; py_iter v) with
  | Ok repos => filter (fun repo => truthy (repo_id_of repo)) repos
  | Raise _ => []
  end.

(** What the dict of [get_enabled_repos_union] satisfies while the
    repositories of [from] are read: each repository stands under its
    own id, the id has a truth value, and no id equals a later one. *)
Definition seen_ok (from : list json) (repos_seen : list (json * json))
  : Prop :=
  Forall (fun kv => fst kv = repo_id_of (snd kv) /\
                    truthy (fst kv) = true /\ In (snd kv) from) repos_seen /\
  ForallOrdPairs (fun a b => py_eq (fst a) (fst b) = false) repos_seen.

(** Every repository of every manifest that carries an id. *)
Definition all_identified (ms : list json) : list json :=
  List.concat (map identified_repos ms).

(** Every package of [all_packages] has at least one host in
    [package_hosts]. *)
Definition hosted (all_packages package_hosts : list (json * list json))
  : Prop :=
  forall k nevras,
    In (k, nevras) all_packages ->
    exists k' hosts, In (k', hosts) package_hosts /\ py_eq k' k = true.

End MergerReport.

(* ================================================================== *)
(** * manifest_tools/validator.py: files, the summary and the CLI *)
(* ================================================================== *)

Module ValidatorCli.
Import Validator.

Definition newline : string := String "010"%char EmptyString.

(** [if items: lines.append(f"TITLE ({len(items)}):"); for item in
    items: lines.append(f"  - {item}")] *)
Definition summary_block (title : string) (items : list string)
  : list string :=
  match items with
  | [] => []
  | _ :: _ =>
      (title +++ " (" +++ str_nat (List.length items) +++ "):")
      :: map (fun item => "  - " +++ item) items
  end.

(** [ManifestValidator.get_summary] *)
Definition get_summary (self : ManifestValidator) : string :=
  let lines :=
    summary_block "ERRORS" (errors self)
    ++ summary_block "WARNINGS" (warnings self)
    ++ match errors self, warnings self with
       | [], [] => ["Manifest is valid."]
       | _, _ => []
       end in
  String.concat newline lines.

Section File.
(** How an f-string renders a value, [Path.exists] and the files. *)
Variable py_str : json -> string.
Variable exists_ : Path -> bool.
Variable w : World.

(** [ManifestValidator.validate_file] *)
Definition validate_file (filepath : Path) (self : ManifestValidator)
  : ManifestValidator * result bool :=
  if negb (exists_ filepath) then
    (mkValidator ["File not found: " +++ path_str filepath] (warnings self),
     Ok false)
  else
    match load_json w filepath with
    | Raise e =>
        if caught_by e [JSONDecodeError]
        then (mkValidator ["Invalid JSON: " +++ exn_msg e] (warnings self),
              Ok false)
        else (self, Raise e)
    | Ok manifest => validate py_str manifest self
    end.

(** The loop of [main]: what is printed, and [all_valid]. *)
Fixpoint main_loop (quiet : bool) (manifests : list Path)
  (validator : ManifestValidator) (all_valid : bool) (printed : list string)
  : list string * result bool :=
  match manifests with
  | [] => (printed, Ok all_valid)
  | manifest_path :: rest =>
      match validate_file manifest_path validator with
      | (validator', Raise e) => (printed, Raise e)
      | (validator', Ok is_valid) =>
          main_loop quiet rest validator'
            (if negb is_valid then false else all_valid)
            (if negb quiet || negb is_valid
             then printed
                  ++ [newline +++ path_str manifest_path +++ ":";
                      get_summary validator']
             else printed)
      end
  end.

(** [main], for the arguments [manifests] and [--quiet]: the lines
    printed on standard output and the exit status.  The files are
    declared with [nargs="+"]: given none, [parse_args] ends the
    program with status 2. *)
Definition main (quiet : bool) (manifests : list Path)
  : list string * result Z :=
  match manifests with
  | [] => ([], Ok 2%Z)
  | _ :: _ =>
      match main_loop quiet manifests init true [] with
      | (printed, Ok all_valid) =>
          (printed, Ok (if all_valid then 0 else 1)%Z)
      | (printed, Raise e) => (printed, Raise e)
      end
  end.

End File.

(** ** What [validate] accepts *)

Definition has_fields (fields : list string) (d : list (string * json))
  : bool :=
  forallb (fun field => dict_mem field d) fields.

Definition field_of (d : list (string * json)) (k : string) (default : json)
  : json :=
  match dict_get k d with Some v => v | None => default end.

Definition os_ok (os_info : json) : bool :=
  match os_info with
  | JDict os_d =>
      has_fields REQUIRED_OS_FIELDS os_d &&
      (let major := field_of os_d "major" JNull in
       is_none major || py_in major VALID_OS_MAJORS) &&
      (let minor := field_of os_d "minor" JNull in
       is_none minor || isinstance_int minor)
  | _ => false
  end.

Definition arch_ok (arch : json) : bool :=
  negb (truthy arch) || py_in arch [JStr "x86_64"; JStr "aarch64"].

Definition repo_ok (repo : json) : bool :=
  match repo with
  | JDict d => dict_mem "id" d
  | _ => false
  end.

Definition repos_ok (repos : json) : bool :=
  match repos with
  | JList l => forallb repo_ok l
  | _ => false
  end.

Definition rpm_ok (rpm : json) : bool :=
  match rpm with
  | JDict d => has_fields REQUIRED_RPM_FIELDS d
  | _ => false
  end.

Definition rpms_ok (rpms : json) : bool :=
  match rpms with
  | JList l => forallb rpm_ok (firstn SAMPLE_CAP l)
  | _ => false
  end.

Definition timestamp_ok (timestamp : json) : bool :=
  negb (truthy timestamp) ||
  match timestamp with
  | JStr s => contains "T" s
  | _ => false
  end.

(** The manifests for which [validate] returns [True]. *)
Definition acceptable (manifest : json) : bool :=
  match manifest with
  | JDict d =>
      has_fields REQUIRED_FIELDS d &&
      os_ok (field_of d "os" (JDict [])) &&
      arch_ok (field_of d "arch" JNull) &&
      repos_ok (field_of d "enabled_repos" (JList [])) &&
      rpms_ok (field_of d "installed_rpms" (JList [])) &&
      timestamp_ok (field_of d "timestamp" JNull)
  | _ => false
  end.

(** The manifests on which [validate] returns at all: objects whose
    [os], if present, is an object. *)
Definition checkable (manifest : json) : bool :=
  match manifest with
  | JDict d => isinstance_dict (field_of d "os" (JDict []))
  | _ => false
  end.

(** A method that returns, adding errors exactly when [ok] is false. *)
Definition adds (m : method) (ok : bool) : Prop :=
  forall self,
    exists self' added,
      m self = (self', Ok tt) /\
      errors self' = errors self ++ added /\
      (added = [] <-> ok = true).

End ValidatorCli.

(* ================================================================== *)
(** * bundle_builder/builder.py: names used by [build] *)
(* ================================================================== *)

Module BuilderNames.
Import Builder.

(** [f"bundle-rhel{self.os_major}-{timestamp.strftime(...)}"], for the
    rendering [stamp] of the timestamp. *)
Definition bundle_id_at (b : BundleBuilder) (stamp : string) : string :=
  "bundle-rhel" +++ str_Z (os_major b) +++ "-" +++ stamp.

(** [self.work_dir / self.bundle_id] *)
Definition bundle_work_dir_at (b : BundleBuilder) (stamp : string) : Path :=
  joinpath (work_dir b) (bundle_id_at b stamp).

(** [sum] of the [size_bytes] of the entries of [package_list]. *)
Definition listed_size (entries : list PackageEntry) : Z :=
  fold_right (fun e total => (entry_size_bytes e + total)%Z) 0%Z entries.

(** Builders that differ at most in their log. *)
Definition same_but_log (b b' : BundleBuilder) : Prop :=
  os_major b' = os_major b /\ manifest_dir b' = manifest_dir b /\
  output_dir b' = output_dir b /\ work_dir b' = work_dir b /\
  bundle_id b' = bundle_id b /\ metadata b' = metadata b.

(** The files a tool reports, written one by one. *)
Definition write_files (fs : list (Path * file_content)) (d : Disk) : Disk :=
  fold_right (fun f d => write_file (fst f) (snd f) d) d fs.

(** [for manifest_file in ...: shutil.copy2(manifest_file,
    manifests_copy_dir)] *)
Definition copy_files (manifests_copy_dir : Path) (manifest_files : list Path)
  (d : Disk) : Disk :=
  fold_left (fun d manifest_file =>
               write_file
                 (joinpath manifests_copy_dir (path_name manifest_file))
                 (CopyOf manifest_file) d)
            manifest_files d.

(** A tool that writes only at or below the directory it is given. *)
Definition writes_below (A : Type)
  (tool : Path -> result A) (written : A -> list (Path * file_content))
  : Prop :=
  forall directory a,
    tool directory = Ok a ->
    Forall (fun f => under directory (fst f) = true) (written a).

End BuilderNames.

(* ================================================================== *)
(** * bundle_builder/resolver.py: what the fallback lists *)
(* ================================================================== *)

Module Fallback.
Import Resolver.

(** A package as [_resolve_via_repoquery] builds it from a line of the
    first query: typed by membership in the requested set, its NEVRA
    spelt with the epoch as [dnf] printed it, its [epoch] field with
    [(none)] turned into [0]. *)
Definition as_queried (packages : list string) (pkg : ResolvedPackage)
  : Prop :=
  package_type pkg
  = (if mem (name pkg) packages then "update" else "dependency") /\
  (exists printed_epoch,
      nevra pkg
      = name pkg +++ "-" +++ printed_epoch +++ ":" +++ version pkg +++ "-"
        +++ release pkg +++ "." +++ arch pkg /\
      epoch pkg
      = (if negb (String.eqb printed_epoch "(none)") then printed_epoch
         else "0")) /\
  advisory_id pkg = None /\ required_by pkg = [].

End Fallback.

(* ================================================================== *)
(** * Inputs for the runs of the tools *)
(* ================================================================== *)

Module Runs.
Import Fixtures Examples Resolver Downloader Builder ResolverDnf.

(** ** What [dnf] prints *)

Definition lines (ls : list string) : string :=
  String.concat "" (map (fun l => l +++ ValidatorCli.newline) ls).

(** [dnf download] when it prints no transaction table. *)
Definition quiet_download (pkg_list : list string)
  : result CompletedProcess :=
  Ok (mkCompleted 0
        (lines ["Last metadata expiration check: 0:10:00 ago.";
                "bash-5.1.8-9.el9.x86_64.rpm   1.7 MB/s | 1.7 MB"])
        "").

Definition repoquery_answer (packages : list string)
  : result (list ResolvedPackage) :=
  Ok [available "bash" "5.1.8"].

(** [zsh] has an update but is not installed on any host. *)
Definition check_update_output : result CompletedProcess :=
  Ok (mkCompleted 100
        (lines [""; "bash.x86_64            5.1.8-9.el9      rhel-9-baseos";
                "openssl-libs.x86_64    1:3.0.7-27.el9   rhel-9-baseos";
                "zsh.x86_64             5.8-9.el9        rhel-9-baseos"])
        "").

Definition updateinfo_output : result CompletedProcess :=
  Ok (mkCompleted 0
        (lines ["RHSA-2024:0001 Important/Sec. openssl-libs-1:3.0.7-27.el9.x86_64";
                "RHSA-2024:0002 Moderate/Sec.  bash-5.1.8-9.el9.x86_64"])
        "").

Definition download_output (pkg_list : list string)
  : result CompletedProcess :=
  Ok (mkCompleted 0
        (lines ["Dependencies resolved."; "Upgrading:";
                " bash-5.1.8-9.el9.x86_64            rhel-9-baseos  1.7 M";
                " openssl-libs-1:3.0.7-27.el9.x86_64 rhel-9-baseos  2.1 M";
                "Installing dependencies:";
                " glibc-2.34-100.el9.x86_64          rhel-9-baseos  1.9 M"])
        "").

(** [dnf check-update] cannot reach its repositories. *)
Definition offline_dnf : Dnf :=
  helpers (Ok (mkCompleted 1 "" "Error: Failed to download metadata"))
          updateinfo_output download_output repoquery_answer.

Definition host_dnf : Dnf :=
  helpers check_update_output updateinfo_output download_output
          repoquery_answer.

Definition host_resolver : DependencyResolver :=
  mkResolver ["bash"; "openssl-libs"; "glibc"] true [] [].

Definition host_updates : list ResolvedPackage :=
  [mkPackage "bash" "0" "5.1.8" "9.el9" "x86_64" "bash-5.1.8-9.el9.x86_64"
             "rhel-9-baseos" "security" 0 None [];
   mkPackage "openssl-libs" "1" "3.0.7" "27.el9" "x86_64"
             "openssl-libs-1:3.0.7-27.el9.x86_64" "rhel-9-baseos" "update"
             0 None [];
   mkPackage "glibc" "0" "2.34" "100.el9" "x86_64"
             "glibc-2.34-100.el9.x86_64" "rhel-9-baseos" "dependency"
             0 None []].

(** ** A download directory *)

Definition rpms_path : Path := joinpath tmp_path "rpms".

(** [dnf] has fetched two of the three packages. *)
Definition rpms_dir : World :=
  mkWorld
    (fun p => raise FileNotFoundError "No such file or directory")
    (fun d =>
       if path_eqb d rpms_path
       then ["bash-5.1.8-9.el9.x86_64.rpm";
             "openssl-libs-3.0.7-27.el9.x86_64.rpm"; "download.log"]
       else []).

Definition digest_of (rpm_file : Path) : result string :=
  Ok ("digest of " +++ path_name rpm_file).

Definition fetched : list DownloadResult :=
  [mkResult (nth 0 host_updates test_package) true
     (Some (joinpath rpms_path "bash-5.1.8-9.el9.x86_64.rpm"))
     (Some "digest of bash-5.1.8-9.el9.x86_64.rpm") None;
   mkResult (nth 1 host_updates test_package) true
     (Some (joinpath rpms_path "openssl-libs-3.0.7-27.el9.x86_64.rpm"))
     (Some "digest of openssl-libs-3.0.7-27.el9.x86_64.rpm") None;
   mkResult (nth 2 host_updates test_package) false None None
     (Some DownloaderRun.NOT_FOUND)].

(** ** Manifests *)

(** A second host: it lists the BaseOS repository under another name,
    a repository without id, and one repository more. *)
Definition second_manifest : json :=
  JDict [
    ("host_id", JStr "test-host-02");
    ("os", JDict [("name", JStr "Red Hat Enterprise Linux");
                  ("major", JInt 9); ("minor", JInt 4);
                  ("id", JStr "rhel")]);
    ("enabled_repos",
      JList [JDict [("id", JStr "rhel-9-for-x86_64-baseos-rpms");
                    ("name", JStr "BaseOS mirror")];
             JDict [("name", JStr "local")];
             JDict [("id", JStr "codeready-builder")]]);
    ("installed_rpms",
      JList [rpm "bash" "0" "5.1.8" "6.el9" "x86_64"
               "bash-5.1.8-6.el9.x86_64";
             JDict [("nevra", JStr "gpg-pubkey-fd431d51-4ae0493b")];
             rpm "zsh" "0" "5.8" "9.el9" "x86_64" "zsh-5.8-9.el9.x86_64"])].

Definition two_hosts : Merger.ManifestMerger :=
  Merger.mkMerger 9 [sample_manifest; second_manifest]
    [(JStr "test-host-01", "sha256:0000");
     (JStr "test-host-02", "sha256:0000")].

(** A manifest that does not name its host, in a file [web-01.json]. *)
Definition anonymous_manifest : list (string * json) :=
  [("os", JDict [("name", JStr "Red Hat Enterprise Linux");
                 ("major", JInt 9); ("minor", JInt 6)]);
   ("installed_rpms",
     JList [rpm "bash" "0" "5.1.8" "6.el9" "x86_64"
              "bash-5.1.8-6.el9.x86_64"])].

Definition anonymous_file : Path := joinpath manifest_path "web-01.json".

Definition anonymous_dir : World :=
  mkWorld
    (fun p =>
       if path_eqb p anonymous_file then Ok (JDict anonymous_manifest)
       else raise FileNotFoundError "No such file or directory")
    (fun d => if path_eqb d manifest_path then ["web-01.json"] else []).

(** A manifest directory without any file. *)
Definition empty_dir : World :=
  mkWorld (fun p => raise FileNotFoundError "No such file or directory")
          (fun d => []).

(** ** A work directory that is in the way *)

Definition sample_work_dir : Path :=
  mkPath "/" ["tmp"; "bundle-build"; "bundle-rhel9-20240115T120000Z"].

(** A regular file lies where the copies of the manifests are to go. *)
Definition blocked_state : State :=
  mkState fresh_builder
    (mkDisk [] [(joinpath sample_work_dir "manifests", Text "")]) 0.

(** The build of the fixture directory from [blocked_state]. *)
Abbreviation blocked_build :=
  (build (fun n => n) (fun t => "t" +++ str_nat t) (fun _ => "20240115T120000Z")
        "builder-01" dumps_stub sha256_stub Fixtures.manifest_dir sample_dnf
        sample_downloads
        (fun _ => raise FileNotFoundError "createrepo_c")
        (fun rpms_dir =>
           Ok [(joinpath (joinpath rpms_dir "repodata") "repomd.xml",
                Produced "createrepo")])
        (fun _ => Ok 100%Z)
        (raise FileNotFoundError "zstd")
        (fun _ => "e3b0c44298fc1c14")
        (fun _ => false)
        blocked_state).

End Runs.

(* ================================================================== *)
(** * Properties *)
(* ================================================================== *)

(** ** Python runtime *)

Module PyFacts.

Lemma float_eq_refl (f : pyfloat) : float_eq f f = true.
Proof.
  destruct f as [s|s|s m e]; simpl; auto.
  - now destruct s.
  - rewrite Z.eqb_refl. now destruct s.
Qed.

Lemma num_eq_refl (n : number) : num_eq n n = true.
Proof.
  destruct n; simpl; [apply Z.eqb_refl | apply float_eq_refl].
Qed.

(** [==] is reflexive on every value that can be a key. *)
Lemma py_eq_refl (v : json) : hashable v = true -> py_eq v v = true.
Proof.
  destruct v; simpl; intros H; try discriminate; unfold py_eq; simpl; auto.
  - apply Z.eqb_refl.
  - apply Z.eqb_refl.
  - apply float_eq_refl.
  - apply String.eqb_refl.
Qed.

Lemma py_eq_null_int (z : Z) : py_eq JNull (JInt z) = false.
Proof. reflexivity. Qed.

Lemma py_in_8_9 (z : Z) :
  py_in (JInt z) [JInt 8; JInt 9] = true <-> z = 8%Z \/ z = 9%Z.
Proof.
  unfold py_in, existsb, py_eq, as_number, num_eq.
  rewrite !orb_true_iff, !Z.eqb_eq. intuition congruence.
Qed.

Lemma caught_JSONDecodeError (msg : string) :
  caught_by (mkExn JSONDecodeError msg) [JSONDecodeError; KeyError] = true.
Proof. reflexivity. Qed.

End PyFacts.

(** ** The merger *)

Module MergerFacts.
Import Merger PyFacts.

Section Facts.
Variable json_dumps_sorted : json -> string.
Variable sha256_hexdigest : string -> string.

Local Abbreviation add_manifest := (add_manifest json_dumps_sorted sha256_hexdigest).
Local Abbreviation add_spec := (add_spec json_dumps_sorted sha256_hexdigest).
Local Abbreviation convention_pass :=
  (convention_pass json_dumps_sorted sha256_hexdigest).
Local Abbreviation probe_pass := (probe_pass json_dumps_sorted sha256_hexdigest).
Local Abbreviation add_manifests_from_directory :=
  (add_manifests_from_directory json_dumps_sorted sha256_hexdigest).
Local Abbreviation after_call := (after_call json_dumps_sorted sha256_hexdigest).
Local Abbreviation after_calls :=
  (after_calls json_dumps_sorted sha256_hexdigest).

Lemma os_major_dict (manifest major : json) :
  manifest_os_major manifest = Ok major ->
  forall k default, exists v, py_get manifest k default = Ok v.
Proof.
  unfold manifest_os_major. destruct manifest; simpl; try discriminate.
  intros _ k default. eexists. reflexivity.
Qed.

Lemma add_manifest_spec (w : World) (path : Path) (self : ManifestMerger) :
  add_spec w path self (add_manifest w path self).
Proof.
  unfold Merger.add_manifest, add_manifest_body.
  destruct (load_json w path) as [manifest|e] eqn:Hload; simpl.
  2:{ now apply add_unreadable. }
  destruct (manifest_os_major manifest) as [major|e] eqn:Hos; simpl.
  2:{ now apply add_no_os with manifest. }
  destruct (py_eq major (JInt (os_major self))) eqn:Heq; simpl.
  2:{ now apply add_wrong_os with manifest major. }
  destruct (@os_major_dict manifest major Hos "host_id" (JStr (stem path)))
    as [host_id Hid].
  rewrite Hid; simpl.
  destruct (hashable host_id) eqn:Hh; simpl.
  - now apply add_accepted with major.
  - now apply add_bad_host_id with manifest major host_id.
Qed.

Lemma add_manifest_os_major (w : World) (path : Path) (self : ManifestMerger) :
  os_major (fst (add_manifest w path self)) = os_major self.
Proof. destruct (add_manifest_spec w path self); reflexivity. Qed.

Lemma add_manifest_keeps_right_os (w : World) (path : Path)
  (self : ManifestMerger) :
  Forall (right_os (os_major self)) (manifests self) ->
  Forall (right_os (os_major self))
         (manifests (fst (add_manifest w path self))).
Proof.
  intros H. destruct (add_manifest_spec w path self); simpl; auto.
  apply Forall_app. split; auto. constructor; auto.
  exists major. auto.
Qed.

Lemma wrong_os_blank (target : Z) : wrong_os target (JDict []) = true.
Proof. reflexivity. Qed.

(** On a blanked file system [add_manifest] behaves as on the original. *)
Lemma add_manifest_scrub (w : World) (path : Path) (self : ManifestMerger) :
  add_manifest (scrub (os_major self) w) path self = add_manifest w path self.
Proof.
  unfold Merger.add_manifest, add_manifest_body, scrub; simpl.
  destruct (load_json w path) as [manifest|e]; simpl; auto.
  unfold wrong_os.
  destruct (manifest_os_major manifest) as [major|e] eqn:Hos; simpl.
  - destruct (py_eq major (JInt (os_major self))) eqn:Heq; simpl.
    + rewrite Hos; simpl. rewrite Heq. reflexivity.
    + reflexivity.
  - rewrite Hos. reflexivity.
Qed.

(** *** Both loops and the whole call, under an invariant of
    [add_manifest] *)

Section Preserved.
Variable w : World.
Variable P : ManifestMerger -> Prop.
Hypothesis add_preserves :
  forall path self, P self -> P (fst (add_manifest w path self)).

Lemma convention_pass_preserves (files : list Path) :
  forall self count, P self -> P (fst (convention_pass w files self count)).
Proof.
  induction files as [|f files IH]; intros self count HP; simpl; auto.
  specialize (add_preserves f HP).
  destruct (add_manifest w f self) as [self' [[|]|e]]; simpl in *; auto.
Qed.

Lemma probe_pass_preserves (files : list Path) :
  forall self count, P self -> P (fst (probe_pass w files self count)).
Proof.
  induction files as [|f files IH]; intros self count HP; simpl; auto.
  destruct (negb (contains "-manifest" (path_name f))); auto.
  specialize (add_preserves f HP).
  destruct (add_manifest w f self) as [self' [[|]|e]]; simpl in *; auto.
  destruct (caught_by e [JSONDecodeError; KeyError]); simpl; auto.
Qed.

Lemma add_manifests_from_directory_preserves (directory : Path)
  (self : ManifestMerger) :
  P self -> P (fst (add_manifests_from_directory w directory self)).
Proof.
  intros HP. unfold Merger.add_manifests_from_directory.
  pose proof (convention_pass_preserves
                (glob w directory "-manifest.json") 0 HP) as H1.
  destruct (Merger.convention_pass _ _ _ _ _ _) as [self' [count|e]];
    simpl in *; auto.
  apply probe_pass_preserves; auto.
Qed.

Lemma after_call_preserves (c : call) (self : ManifestMerger) :
  P self -> P (after_call w c self).
Proof.
  destruct c; simpl; auto using add_manifests_from_directory_preserves.
Qed.

Lemma after_calls_preserves (cs : list call) :
  forall self, P self -> P (after_calls w cs self).
Proof.
  unfold Merger.after_calls.
  induction cs as [|c cs IH]; intros self HP; simpl; auto.
  apply IH. now apply after_call_preserves.
Qed.

End Preserved.

Lemma after_calls_os_major (w : World) (cs : list call)
  (self : ManifestMerger) :
  os_major (after_calls w cs self) = os_major self.
Proof.
  apply after_calls_preserves with (P := fun m => os_major m = os_major self);
    auto.
  intros path m H. now rewrite add_manifest_os_major.
Qed.

Lemma after_calls_right_os (w : World) (cs : list call)
  (self : ManifestMerger) :
  Forall (right_os (os_major self)) (manifests self) ->
  Forall (right_os (os_major self)) (manifests (after_calls w cs self)).
Proof.
  intros H.
  apply (@after_calls_preserves w
           (fun m => os_major m = os_major self /\
                     Forall (right_os (os_major self)) (manifests m)));
    auto.
  intros path m [Hos HF]. split.
  - now rewrite add_manifest_os_major.
  - rewrite <- Hos in *. now apply add_manifest_keeps_right_os.
Qed.

(** *** Blanking the wrong-OS manifests changes nothing *)

Lemma convention_pass_scrub (w : World) (files : list Path) :
  forall self count,
    convention_pass (scrub (os_major self) w) files self count
    = convention_pass w files self count.
Proof.
  induction files as [|f files IH]; intros self count; simpl; auto.
  rewrite add_manifest_scrub.
  pose proof (add_manifest_os_major w f self) as Hos.
  destruct (add_manifest w f self) as [self' [[|]|e]]; simpl in *; auto;
    rewrite <- Hos; apply IH.
Qed.

Lemma probe_pass_scrub (w : World) (files : list Path) :
  forall self count,
    probe_pass (scrub (os_major self) w) files self count
    = probe_pass w files self count.
Proof.
  induction files as [|f files IH]; intros self count; simpl; auto.
  destruct (negb (contains "-manifest" (path_name f))); auto.
  rewrite add_manifest_scrub.
  pose proof (add_manifest_os_major w f self) as Hos.
  destruct (add_manifest w f self) as [self' [[|]|e]]; simpl in *; auto;
    try (rewrite <- Hos; apply IH).
  destruct (caught_by e [JSONDecodeError; KeyError]); auto.
  rewrite <- Hos; apply IH.
Qed.

Lemma add_manifests_from_directory_scrub (w : World) (directory : Path)
  (self : ManifestMerger) :
  add_manifests_from_directory (scrub (os_major self) w) directory self
  = add_manifests_from_directory w directory self.
Proof.
  unfold Merger.add_manifests_from_directory.
  change (glob (scrub (os_major self) w)) with (glob w).
  rewrite convention_pass_scrub.
  pose proof (@convention_pass_preserves w
                (fun m => os_major m = os_major self)
                (fun path m H => eq_trans (add_manifest_os_major w path m) H)
                (glob w directory "-manifest.json") self 0 eq_refl) as Hos.
  destruct (Merger.convention_pass _ _ _ _ _ _) as [self' [count|e]];
    simpl in *; auto.
  rewrite <- Hos. apply probe_pass_scrub.
Qed.

Lemma after_calls_scrub (w : World) (cs : list call) :
  forall self,
    after_calls (scrub (os_major self) w) cs self = after_calls w cs self.
Proof.
  unfold Merger.after_calls.
  induction cs as [|c cs IH]; intros self; simpl; auto.
  assert (Hc : after_call (scrub (os_major self) w) c self
               = after_call w c self).
  { destruct c; simpl.
    - now rewrite add_manifest_scrub.
    - now rewrite add_manifests_from_directory_scrub. }
  rewrite Hc.
  assert (Hos : os_major (after_call w c self) = os_major self).
  { apply (after_calls_os_major w [c] self). }
  rewrite <- Hos. apply IH.
Qed.

Lemma init_os_major (target : Z) (m0 : ManifestMerger) :
  init target = Ok m0 -> m0 = mkMerger target [] [].
Proof.
  unfold init. destruct (negb _); [discriminate | congruence].
Qed.


(** *** Adding one manifest twice *)

Lemma pydict_set_twice (V : Type) (k : json) (v : V) (d : list (json * V)) :
  hashable k = true ->
  pydict_set k v (pydict_set k v d) = pydict_set k v d.
Proof.
  intros Hk. induction d as [|[k' v'] d IH]; simpl.
  - now rewrite py_eq_refl.
  - destruct (py_eq k' k) eqn:E; simpl; rewrite E; congruence.
Qed.

Lemma recorded_add_same (k v : json) (d : list (json * list json)) :
  hashable k = true -> hashable v = true ->
  recorded k v (defaultdict_add k v d) = true.
Proof.
  intros Hk Hv. induction d as [|[k' s] d IH]; simpl.
  - rewrite !py_eq_refl; auto.
  - destruct (py_eq k' k) eqn:E; simpl; rewrite E; auto.
    unfold set_add. destruct (existsb (py_eq v) s) eqn:Es; auto.
    rewrite existsb_app. simpl. rewrite py_eq_refl; auto.
    now rewrite orb_true_r.
Qed.

Lemma recorded_add_other (k v k' v' : json) (d : list (json * list json)) :
  recorded k v d = true -> recorded k v (defaultdict_add k' v' d) = true.
Proof.
  induction d as [|[k0 s] d IH]; simpl; [discriminate|].
  intros H. destruct (py_eq k0 k') eqn:E'; simpl.
  - destruct (py_eq k0 k); auto.
    unfold set_add. destruct (existsb (py_eq v') s); auto.
    rewrite existsb_app, H. reflexivity.
  - destruct (py_eq k0 k); auto.
Qed.

Lemma add_recorded (k v : json) (d : list (json * list json)) :
  recorded k v d = true -> defaultdict_add k v d = d.
Proof.
  induction d as [|[k' s] d IH]; simpl; [discriminate|].
  destruct (py_eq k' k); intros H.
  - unfold set_add. now rewrite H.
  - now rewrite IH.
Qed.

Lemma rpm_entry_hashable (rpm k v : json) :
  rpm_entry rpm = Ok (Some (k, v)) -> hashable k = true /\ hashable v = true.
Proof.
  unfold rpm_entry.
  destruct (py_get rpm "name" (JStr "")) as [n|e]; simpl; [|discriminate].
  destruct (py_get rpm "nevra" (JStr "")) as [a|e]; simpl; [|discriminate].
  destruct (truthy n && truthy a); [|discriminate].
  destruct (hashable n) eqn:Hn; simpl; [|discriminate].
  destruct (hashable a) eqn:Ha; simpl; [|discriminate].
  intros H. injection H as <- <-. auto.
Qed.

Lemma merge_rpms_keeps (k v : json) (rpms : list json) :
  forall acc acc',
    recorded k v acc = true ->
    merge_rpms rpms acc = Ok acc' ->
    recorded k v acc' = true.
Proof.
  induction rpms as [|rpm rpms IH]; simpl; intros acc acc' Hr Hm.
  - congruence.
  - destruct (rpm_entry rpm) as [[[k' v']|]|e]; simpl in Hm;
      try discriminate; eauto using recorded_add_other.
Qed.

(** A second pass over the same entries finds them all recorded. *)
Lemma merge_rpms_again (rpms : list json) :
  forall acc acc' final,
    merge_rpms rpms acc = Ok acc' ->
    (forall k v, recorded k v acc' = true -> recorded k v final = true) ->
    merge_rpms rpms final = Ok final.
Proof.
  induction rpms as [|rpm rpms IH]; simpl; intros acc acc' final Hm Hsub.
  - reflexivity.
  - destruct (rpm_entry rpm) as [[[k v]|]|e] eqn:He; simpl in *;
      try discriminate.
    + destruct (rpm_entry_hashable _ He) as [Hk Hv].
      rewrite add_recorded.
      * eapply IH; eauto.
      * apply Hsub. eapply merge_rpms_keeps; eauto.
        now apply recorded_add_same.
    + eapply IH; eauto.
Qed.

Lemma merge_rpms_idem (rpms : list json) (acc acc' : list (json * list json)) :
  merge_rpms rpms acc = Ok acc' -> merge_rpms rpms acc' = Ok acc'.
Proof. intros H. eapply merge_rpms_again; eauto. Qed.

Lemma merge_manifests_app (l1 l2 : list json) :
  forall acc,
    merge_manifests (l1 ++ l2) acc
    = (acc1 <- merge_manifests l1 acc ;; merge_manifests l2 acc1).
Proof.
  induction l1 as [|m l1 IH]; simpl; intros acc; auto.
  destruct (py_get m "installed_rpms" (JList [])) as [v|e]; simpl; auto.
  destruct (py_iter v) as [rpms|e]; simpl; auto.
  destruct (merge_rpms rpms acc) as [acc1|e]; simpl; auto.
Qed.

Lemma merge_manifest_idem (m : json) (acc acc' : list (json * list json)) :
  merge_manifests [m] acc = Ok acc' -> merge_manifests [m] acc' = Ok acc'.
Proof.
  simpl.
  destruct (py_get m "installed_rpms" (JList [])) as [v|e]; simpl;
    [|discriminate].
  destruct (py_iter v) as [rpms|e]; simpl; [|discriminate].
  destruct (merge_rpms rpms acc) as [acc1|e] eqn:Hm; simpl; [|discriminate].
  intros H. injection H as <-.
  now rewrite (merge_rpms_idem _ _ Hm).
Qed.

(** The union is unchanged by a second copy of the last manifest. *)
Lemma merge_manifests_twice (ms : list json) (m : json) :
  merge_manifests (ms ++ [m; m]) [] = merge_manifests (ms ++ [m]) [].
Proof.
  change (ms ++ [m; m]) with (ms ++ [m] ++ [m]).
  rewrite app_assoc, merge_manifests_app.
  destruct (merge_manifests (ms ++ [m]) []) as [acc'|e] eqn:H1; simpl; auto.
  rewrite merge_manifests_app in H1.
  destruct (merge_manifests ms []) as [acc0|e]; simpl in H1; [|discriminate].
  now apply merge_manifest_idem in H1.
Qed.

Lemma host_summaries_app (hashes : list (json * string)) (l1 l2 : list json) :
  host_summaries hashes (l1 ++ l2)
  = (a <- host_summaries hashes l1 ;;
     b <- host_summaries hashes l2 ;;
     Ok (a ++ b)).
Proof.
  induction l1 as [|m l1 IH]; simpl.
  - destruct (host_summaries hashes l2); reflexivity.
  - destruct (host_summary hashes m) as [s|e]; simpl; auto.
    rewrite IH.
    destruct (host_summaries hashes l1) as [a|e]; simpl; auto.
    destruct (host_summaries hashes l2) as [b|e]; simpl; auto.
Qed.

Lemma host_summaries_length (hashes : list (json * string)) (l : list json) :
  forall r, host_summaries hashes l = Ok r -> List.length r = List.length l.
Proof.
  induction l as [|m l IH]; simpl; intros r H.
  - injection H as <-. reflexivity.
  - destruct (host_summary hashes m) as [s|e]; simpl in H; [|discriminate].
    destruct (host_summaries hashes l) as [a|e]; simpl in H; [|discriminate].
    injection H as <-. simpl. now rewrite (IH a).
Qed.

(** C5.  A manifest that the merger accepts is accepted again when added
    a second time; the merger then holds it twice and
    [get_host_summary()] lists it twice, while
    [get_merged_installed_rpms()] returns exactly what it returned after
    the first addition, so the set of package names is the same. *)
Theorem repeated_addition_is_idempotent_on_packages :
  forall (w : World) (path : Path) (self self1 : ManifestMerger),
    add_manifest w path self = (self1, Ok true) ->
    exists manifest self2,
      load_json w path = Ok manifest /\
      add_manifest w path self1 = (self2, Ok true) /\
      manifests self1 = manifests self ++ [manifest] /\
      manifests self2 = manifests self ++ [manifest; manifest] /\
      match get_host_summary self1 with
      | Ok hosts1 =>
          exists hosts s,
            hosts1 = hosts ++ [s] /\
            List.length hosts = List.length (manifests self) /\
            get_host_summary self2 = Ok (hosts ++ [s; s])
      | Raise e => get_host_summary self2 = Raise e
      end /\
      get_merged_installed_rpms self2 = get_merged_installed_rpms self1 /\
      (forall d1 d2,
          get_merged_installed_rpms self1 = Ok d1 ->
          get_merged_installed_rpms self2 = Ok d2 ->
          map fst d2 = map fst d1).
Proof.
  intros w path self self1 Hadd.
  pose proof (add_manifest_spec w path self) as Hspec.
  rewrite Hadd in Hspec. inversion Hspec as [| | | |manifest major host_id
    Hload Hos Heq Hid Hh Hself]; subst; clear Hspec.
  set (h := "sha256:" +++ sha256_hexdigest (json_dumps_sorted manifest)).
  set (self1 := mkMerger (os_major self) (manifests self ++ [manifest])
                  (pydict_set host_id h (manifest_hashes self))).
  exists manifest.
  exists (mkMerger (os_major self) (manifests self ++ [manifest; manifest])
            (pydict_set host_id h (manifest_hashes self))).
  assert (Hadd2 :
    add_manifest w path self1
    = (mkMerger (os_major self) (manifests self ++ [manifest; manifest])
         (pydict_set host_id h (manifest_hashes self)), Ok true)).
  { unfold Merger.add_manifest, add_manifest_body.
    rewrite Hload; simpl. rewrite Hos; simpl. rewrite Heq; simpl.
    rewrite Hid; simpl. rewrite Hh; simpl.
    fold h. rewrite pydict_set_twice by assumption.
    now rewrite <- app_assoc. }
  repeat split; auto.
  - unfold get_host_summary; simpl.
    change (manifests self ++ [manifest; manifest])
      with (manifests self ++ [manifest] ++ [manifest]).
    rewrite !host_summaries_app.
    destruct (host_summaries _ (manifests self)) as [hosts|e] eqn:Hhosts;
      simpl; auto.
    simpl. destruct (host_summary _ manifest) as [s|e]; simpl; auto.
    exists hosts, s. repeat split; auto.
    now apply host_summaries_length in Hhosts.
  - unfold get_merged_installed_rpms; simpl. apply merge_manifests_twice.
  - intros d1 d2 H1 H2.
    unfold get_merged_installed_rpms in *; simpl in *.
    rewrite merge_manifests_twice in H2. congruence.
Qed.

(** C4, as the code has it.  A file that loads, and whose OS major can
    be read, is turned away with [False] and no change to the merger
    when that major differs from the target, and whenever [add_manifest]
    returns, it returns [True] exactly when the major equals the target;
    with a hashable host id the matching manifest is appended.  A file
    that does not load makes [add_manifest] raise, and so does the
    '*-manifest.json' pass of [add_manifests_from_directory]; only the
    '*.json' pass skips it, uncounted, when the error is a
    [JSONDecodeError] or a [KeyError]. *)
Theorem acceptance_rule :
  forall (w : World) (path : Path) (self : ManifestMerger),
    (forall manifest major,
        load_json w path = Ok manifest ->
        manifest_os_major manifest = Ok major ->
        (py_eq major (JInt (os_major self)) = false ->
         add_manifest w path self = (self, Ok false)) /\
        (forall self' b,
            add_manifest w path self = (self', Ok b) ->
            b = py_eq major (JInt (os_major self))) /\
        (py_eq major (JInt (os_major self)) = true ->
         forall host_id,
           py_get manifest "host_id" (JStr (stem path)) = Ok host_id ->
           hashable host_id = true ->
           exists self',
             add_manifest w path self = (self', Ok true) /\
             manifests self' = manifests self ++ [manifest])) /\
    (forall e,
        load_json w path = Raise e ->
        add_manifest w path self = (self, Raise e) /\
        (forall files count,
            convention_pass w (path :: files) self count = (self, Raise e)) /\
        (forall files count,
            contains "-manifest" (path_name path) = false ->
            caught_by e [JSONDecodeError; KeyError] = true ->
            probe_pass w (path :: files) self count
            = probe_pass w files self count)).
Proof.
  intros w path self. split.
  - intros manifest major Hload Hos.
    pose proof (add_manifest_spec w path self) as Hspec.
    repeat split.
    + intros Hne. inversion Hspec; congruence.
    + intros self' b Hadd. rewrite Hadd in Hspec.
      inversion Hspec; subst; congruence.
    + intros Heq host_id Hid Hh.
      unfold Merger.add_manifest, add_manifest_body.
      rewrite Hload; simpl. rewrite Hos; simpl. rewrite Heq; simpl.
      rewrite Hid; simpl. rewrite Hh; simpl.
      eexists. split; reflexivity.
  - intros e Hload.
    assert (Hadd : add_manifest w path self = (self, Raise e)).
    { unfold Merger.add_manifest, add_manifest_body.
      now rewrite Hload. }
    repeat split; auto.
    + intros files count. simpl. now rewrite Hadd.
    + intros files count Hname Hcaught. simpl.
      now rewrite Hname, Hadd, Hcaught.
Qed.

End Facts.
End MergerFacts.

(** ** The validator *)

Module ValidatorFacts.
Import Validator.

Section Facts.
Variable py_str : json -> string.

Local Abbreviation validate := (validate py_str).
Local Abbreviation os_major_error := (os_major_error py_str).

Lemma seq_methods_ext (m1 m1' m2 m2' : method) :
  (forall self, m1 self = m1' self) ->
  (forall self, m2 self = m2' self) ->
  forall self, seq_methods m1 m2 self = seq_methods m1' m2' self.
Proof.
  intros H1 H2 self. unfold seq_methods. rewrite H1.
  destruct (m1' self) as [self' [u|e]]; auto.
Qed.

Lemma check_fields_ext (fields : list string) (c1 c2 : json)
  (msg : string -> string) :
  (forall k, py_contains k c1 = py_contains k c2) ->
  forall self, check_fields fields c1 msg self = check_fields fields c2 msg self.
Proof.
  intros H. induction fields as [|f fields IH]; intros self; simpl; auto.
  rewrite H. destruct (py_contains f c2); auto.
Qed.

Lemma check_rpms_ext (indices : list nat) (rpms1 rpms2 : list json) :
  (forall i, In i indices -> nth i rpms1 JNull = nth i rpms2 JNull) ->
  forall self, check_rpms py_str indices rpms1 self
               = check_rpms py_str indices rpms2 self.
Proof.
  induction indices as [|i indices IH]; intros H self; simpl; auto.
  rewrite (H i) by (now left). apply IH. intros j Hj. apply H. now right.
Qed.

(** Two samples that agree have the same size and the same entries. *)
Lemma sample_agrees (rpms1 rpms2 : list json) :
  firstn SAMPLE_CAP rpms1 = firstn SAMPLE_CAP rpms2 ->
  Nat.min (List.length rpms1) SAMPLE_CAP
  = Nat.min (List.length rpms2) SAMPLE_CAP /\
  (forall i, i < SAMPLE_CAP -> nth i rpms1 JNull = nth i rpms2 JNull).
Proof.
  intros H. split.
  - rewrite (Nat.min_comm (List.length rpms1)),
            (Nat.min_comm (List.length rpms2)).
    rewrite <- !length_firstn. now rewrite H.
  - intros i Hi.
    pose proof (nth_firstn SAMPLE_CAP rpms1 i JNull) as H1.
    pose proof (nth_firstn SAMPLE_CAP rpms2 i JNull) as H2.
    apply Nat.ltb_lt in Hi. rewrite Hi in H1, H2.
    rewrite <- H1, <- H2. now rewrite H.
Qed.

Section Agree.
Variables d1 d2 : list (string * json).
Variables rpms1 rpms2 : list json.
Hypothesis other_fields :
  forall k, k <> "installed_rpms" -> dict_get k d1 = dict_get k d2.
Hypothesis rpms_of_d1 : dict_get "installed_rpms" d1 = Some (JList rpms1).
Hypothesis rpms_of_d2 : dict_get "installed_rpms" d2 = Some (JList rpms2).
Hypothesis same_sample : firstn SAMPLE_CAP rpms1 = firstn SAMPLE_CAP rpms2.

Lemma agree_mem (k : string) : dict_mem k d1 = dict_mem k d2.
Proof.
  unfold dict_mem. destruct (string_dec k "installed_rpms") as [->|Hk].
  - now rewrite rpms_of_d1, rpms_of_d2.
  - now rewrite other_fields.
Qed.

Lemma agree_get (k : string) (default : json) :
  k <> "installed_rpms" ->
  py_get (JDict d1) k default = py_get (JDict d2) k default.
Proof. intros Hk. simpl. now rewrite other_fields. Qed.

Lemma agree_required_fields (self : ManifestValidator) :
  _validate_required_fields (JDict d1) self
  = _validate_required_fields (JDict d2) self.
Proof.
  apply check_fields_ext. intros k. simpl. now rewrite agree_mem.
Qed.

Lemma agree_schema_version (self : ManifestValidator) :
  _validate_schema_version py_str (JDict d1) self
  = _validate_schema_version py_str (JDict d2) self.
Proof.
  unfold _validate_schema_version. now rewrite agree_get by discriminate.
Qed.

Lemma agree_os (self : ManifestValidator) :
  _validate_os py_str (JDict d1) self = _validate_os py_str (JDict d2) self.
Proof. unfold _validate_os. now rewrite agree_get by discriminate. Qed.

Lemma agree_arch (self : ManifestValidator) :
  _validate_arch py_str (JDict d1) self
  = _validate_arch py_str (JDict d2) self.
Proof. unfold _validate_arch. now rewrite agree_get by discriminate. Qed.

Lemma agree_repos (self : ManifestValidator) :
  _validate_repos (JDict d1) self = _validate_repos (JDict d2) self.
Proof. unfold _validate_repos. now rewrite agree_get by discriminate. Qed.

Lemma agree_timestamp (self : ManifestValidator) :
  _validate_timestamp py_str (JDict d1) self
  = _validate_timestamp py_str (JDict d2) self.
Proof.
  unfold _validate_timestamp. now rewrite agree_get by discriminate.
Qed.

(** The only place that reads the list looks no further than the cap. *)
Lemma agree_rpms (self : ManifestValidator) :
  _validate_rpms py_str (JDict d1) self
  = _validate_rpms py_str (JDict d2) self.
Proof.
  unfold _validate_rpms. simpl. rewrite rpms_of_d1, rpms_of_d2.
  destruct (sample_agrees _ _ same_sample) as [Hmin Hnth].
  assert (Hzero : (List.length rpms1 =? 0)%nat
                  = (List.length rpms2 =? 0)%nat).
  { unfold SAMPLE_CAP in Hmin.
    destruct (Nat.eqb_spec (List.length rpms1) 0) as [E1|E1];
    destruct (Nat.eqb_spec (List.length rpms2) 0) as [E2|E2]; auto; lia. }
  rewrite Hzero. destruct (List.length rpms2 =? 0)%nat; auto.
  rewrite Hmin. f_equal. apply check_rpms_ext.
  intros i Hi. apply in_seq in Hi. apply Hnth. lia.
Qed.

Lemma agree_validate (self1 self2 : ManifestValidator) :
  validate (JDict d1) self1 = validate (JDict d2) self2.
Proof.
  unfold Validator.validate.
  match goal with
  | |- match ?a with _ => _ end = match ?b with _ => _ end =>
      assert (E : a = b); [|rewrite E; reflexivity]
  end.
  repeat (apply seq_methods_ext; intros;
          auto using agree_required_fields, agree_schema_version, agree_os,
                     agree_arch, agree_repos, agree_rpms, agree_timestamp).
Qed.

End Agree.

(** *** What [validate] reports about [os.major] *)

Lemma add_error_incl (msg : string) (self : ManifestValidator) :
  incl (errors self) (errors (add_error msg self)).
Proof. simpl. apply incl_appl, incl_refl. Qed.

Lemma add_error_In (msg : string) (self : ManifestValidator) :
  In msg (errors (add_error msg self)).
Proof. simpl. apply in_or_app. right. now left. Qed.

Lemma grows_seq (m1 m2 : method) :
  grows m1 -> grows m2 -> grows (seq_methods m1 m2).
Proof.
  intros H1 H2 self. unfold seq_methods.
  destruct (H1 self) as [self1 [E1 I1]]. rewrite E1.
  destruct (H2 self1) as [self2 [E2 I2]]. exists self2. split; auto.
  eapply incl_tran; eauto.
Qed.

Lemma check_fields_cons (f : string) (rest : list string)
  (d : list (string * json)) (msg : string -> string)
  (self : ManifestValidator) :
  check_fields (f :: rest) (JDict d) msg self
  = check_fields rest (JDict d) msg
      (if negb (dict_mem f d) then add_error (msg f) self else self).
Proof. reflexivity. Qed.

Lemma grows_check_fields (fields : list string) (d : list (string * json))
  (msg : string -> string) :
  grows (check_fields fields (JDict d) msg).
Proof.
  induction fields as [|f fields IH]; intros self; simpl.
  - exists self. split; auto. apply incl_refl.
  - destruct (negb (dict_mem f d)).
    + destruct (IH (add_error (msg f) self)) as [self' [E I]].
      exists self'. split; auto.
      eapply incl_tran; [apply add_error_incl|exact I].
    + apply IH.
Qed.

Lemma grows_schema_version (d : list (string * json)) :
  grows (_validate_schema_version py_str (JDict d)).
Proof.
  intros self. unfold _validate_schema_version. simpl.
  destruct (truthy _ && negb _); eexists; (split; [reflexivity|]);
    simpl; apply incl_refl.
Qed.

Lemma grows_arch (d : list (string * json)) :
  grows (_validate_arch py_str (JDict d)).
Proof.
  intros self. unfold _validate_arch. simpl.
  destruct (truthy _ && negb _); eexists; (split; [reflexivity|]);
    auto using add_error_incl, incl_refl.
Qed.

Lemma check_repos_incl (repos : list json) :
  forall i self, incl (errors self) (errors (check_repos i repos self)).
Proof.
  induction repos as [|repo repos IH]; intros i self; simpl.
  - apply incl_refl.
  - eapply incl_tran; [|apply IH].
    unfold check_repo. destruct repo; try apply add_error_incl.
    destruct (negb (dict_mem "id" d)), (negb (dict_mem "name" d)); simpl;
      auto using incl_refl, incl_appl.
Qed.

Lemma grows_repos (d : list (string * json)) :
  grows (_validate_repos (JDict d)).
Proof.
  intros self. unfold _validate_repos. simpl.
  destruct (match dict_get "enabled_repos" d with
            | Some x => x
            | None => JList []
            end);
    eexists; (split; [reflexivity|]);
    auto using add_error_incl, check_repos_incl.
Qed.

Lemma check_rpm_fields_incl (i : nat) (fields : list string)
  (d : list (string * json)) :
  forall self, incl (errors self) (errors (check_rpm_fields i fields d self)).
Proof.
  induction fields as [|f fields IH]; intros self; simpl.
  - apply incl_refl.
  - eapply incl_tran; [|apply IH].
    destruct (negb (dict_mem f d)); auto using add_error_incl, incl_refl.
Qed.

Lemma check_rpms_incl (indices : list nat) (rpms : list json) :
  forall self,
    incl (errors self) (errors (check_rpms py_str indices rpms self)).
Proof.
  induction indices as [|i indices IH]; intros self; simpl.
  - apply incl_refl.
  - eapply incl_tran; [|apply IH].
    unfold check_rpm. destruct (nth i rpms JNull); try apply add_error_incl.
    destruct (truthy _ && negb _); cbn [errors add_warning];
      apply check_rpm_fields_incl.
Qed.

Lemma grows_rpms (d : list (string * json)) :
  grows (_validate_rpms py_str (JDict d)).
Proof.
  intros self. unfold _validate_rpms. simpl.
  destruct (match dict_get "installed_rpms" d with
            | Some x => x
            | None => JList []
            end);
    try (eexists; (split; [reflexivity|]); apply add_error_incl).
  destruct (List.length l =? 0)%nat;
    eexists; (split; [reflexivity|]);
    auto using check_rpms_incl. simpl. apply incl_refl.
Qed.

Lemma grows_timestamp (d : list (string * json)) :
  grows (_validate_timestamp py_str (JDict d)).
Proof.
  intros self. unfold _validate_timestamp. simpl.
  destruct (negb (truthy _)).
  - eexists. split; [reflexivity|apply incl_refl].
  - destruct (match dict_get "timestamp" d with
              | Some x => x
              | None => JNull
              end);
      try (eexists; (split; [reflexivity|]); apply add_error_incl).
    destruct (negb (contains "T" s)); eexists; (split; [reflexivity|]);
      auto using add_error_incl, incl_refl.
Qed.

Lemma grows_os_minor (os_d : list (string * json)) :
  grows (check_os_minor (JDict os_d)).
Proof.
  intros self. unfold check_os_minor. simpl.
  destruct (negb (is_none _) && negb _); eexists; (split; [reflexivity|]);
    auto using add_error_incl, incl_refl.
Qed.

Lemma os_major_error_incl (self self' : ManifestValidator) :
  incl (errors self) (errors self') ->
  os_major_error self -> os_major_error self'.
Proof.
  intros I [H|[major H]]; [left|right; exists major]; auto.
Qed.

Lemma validate_os_reports (d os_d : list (string * json))
  (self : ManifestValidator) :
  match dict_get "os" d with Some v => v | None => JDict [] end = JDict os_d ->
  dict_get "major" os_d = None \/
  (exists major,
      dict_get "major" os_d = Some major /\
      is_none major = false /\
      py_in major VALID_OS_MAJORS = false) ->
  exists self',
    _validate_os py_str (JDict d) self = (self', Ok tt) /\
    incl (errors self) (errors self') /\
    os_major_error self'.
Proof.
  intros Hos Hmajor. unfold _validate_os. cbn [py_get]. rewrite Hos.
  unfold seq_methods, REQUIRED_OS_FIELDS.
  destruct Hmajor as [Habsent|[major [Hpresent [Hnone Hin]]]].
  - rewrite check_fields_cons. unfold dict_mem at 1.
    rewrite Habsent. cbn [negb].
    match goal with
    | |- context [check_fields ?f (JDict os_d) ?m ?s0] =>
        destruct (grows_check_fields f os_d m s0) as [self1 [E1 I1]]
    end.
    rewrite E1.
    unfold check_os_major. cbn [py_get]. rewrite Habsent.
    cbn [is_none negb andb].
    destruct (grows_os_minor os_d self1) as [self2 [E2 I2]]. rewrite E2.
    exists self2. split; [reflexivity|]. split.
    + eapply incl_tran; [apply add_error_incl|].
      eapply incl_tran; eauto.
    + left. apply I2, I1, add_error_In.
  - match goal with
    | |- context [check_fields ?f (JDict os_d) ?m ?s0] =>
        destruct (grows_check_fields f os_d m s0) as [self1 [E1 I1]]
    end.
    rewrite E1.
    unfold check_os_major. cbn [py_get]. rewrite Hpresent, Hnone, Hin.
    cbn [negb andb].
    match goal with
    | |- context [check_os_minor (JDict os_d) ?s0] =>
        destruct (grows_os_minor os_d s0) as [self2 [E2 I2]]
    end.
    rewrite E2. exists self2. split; [reflexivity|]. split.
    + eapply incl_tran; [exact I1|].
      eapply incl_tran; [apply add_error_incl|exact I2].
    + right. exists major. apply I2, add_error_In.
Qed.

(** Apart from [null], a major version outside {8, 9}, or none at all,
    makes the manifest invalid with an error about it. *)
Lemma os_major_outside_is_reported (d os_d : list (string * json))
  (self : ManifestValidator) :
  match dict_get "os" d with Some v => v | None => JDict [] end = JDict os_d ->
  dict_get "major" os_d = None \/
  (exists major,
      dict_get "major" os_d = Some major /\
      is_none major = false /\
      py_in major VALID_OS_MAJORS = false) ->
  exists self',
    validate (JDict d) self = (self', Ok false) /\ os_major_error self'.
Proof.
  intros Hos Hmajor. unfold Validator.validate, seq_methods.
  destruct (grows_check_fields REQUIRED_FIELDS d
              (fun field => "Missing required field: " +++ field)
              (mkValidator [] [])) as [s1 [E1 _]].
  unfold _validate_required_fields. rewrite E1.
  destruct (grows_schema_version d s1) as [s2 [E2 _]]. rewrite E2.
  destruct (validate_os_reports d s2 Hos Hmajor) as [s3 [E3 [_ R3]]].
  rewrite E3.
  destruct (grows_arch d s3) as [s4 [E4 I4]]. rewrite E4.
  destruct (grows_repos d s4) as [s5 [E5 I5]]. rewrite E5.
  destruct (grows_rpms d s5) as [s6 [E6 I6]]. rewrite E6.
  destruct (grows_timestamp d s6) as [s7 [E7 I7]]. rewrite E7.
  assert (R7 : os_major_error s7).
  { eapply os_major_error_incl; [|exact R3].
    repeat (eapply incl_tran; [eassumption|]). apply incl_refl. }
  exists s7. split; auto.
  destruct (errors s7) eqn:Hs7; [|reflexivity].
  destruct R7 as [H|[major H]]; rewrite Hs7 in H; destruct H.
Qed.

(** C8.  Two manifests that agree on every field but [installed_rpms],
    and whose [installed_rpms] lists agree on their first 100 entries,
    get the same verdict, the same errors and the same warnings from
    [validate]: nothing at index 100 or beyond is looked at. *)
Theorem validate_reads_only_the_sample :
  forall (d1 d2 : list (string * json)) (rpms1 rpms2 : list json)
         (self1 self2 : ManifestValidator),
    (forall k, k <> "installed_rpms" -> dict_get k d1 = dict_get k d2) ->
    dict_get "installed_rpms" d1 = Some (JList rpms1) ->
    dict_get "installed_rpms" d2 = Some (JList rpms2) ->
    firstn 100 rpms1 = firstn 100 rpms2 ->
    validate (JDict d1) self1 = validate (JDict d2) self2.
Proof.
  intros. eapply agree_validate; eauto.
Qed.

End Facts.
End ValidatorFacts.

(** ** The resolver *)

Module ResolverFacts.
Import Resolver.

Lemma mem_In (x : string) (s : list string) : mem x s = true <-> In x s.
Proof.
  unfold mem. rewrite existsb_exists. split.
  - intros [y [Hy E]]. apply String.eqb_eq in E. now subst.
  - intros H. exists x. split; auto. apply String.eqb_refl.
Qed.

Lemma mem_not_In (x : string) (s : list string) :
  mem x s = false <-> ~ In x s.
Proof.
  rewrite <- mem_In. destruct (mem x s); split; congruence.
Qed.

(** *** Classification *)

Lemma classify_spec (security_updates updates : list string)
  (pkg : ResolvedPackage) :
  classified security_updates updates (name pkg)
    (package_type (classify security_updates updates pkg)) /\
  same_package pkg (classify security_updates updates pkg).
Proof.
  unfold classify, same_package.
  destruct (mem (name pkg) security_updates) eqn:Hs.
  - split; [|reflexivity]. apply is_security. now apply mem_In.
  - apply mem_not_In in Hs.
    destruct (mem (name pkg) updates) eqn:Hu.
    + split; [|reflexivity]. apply is_update; auto. now apply mem_In.
    + split; [|reflexivity]. apply is_dependency; auto.
      now apply mem_not_In.
Qed.

Lemma classify_name (security_updates updates : list string)
  (pkg : ResolvedPackage) :
  name (classify security_updates updates pkg) = name pkg.
Proof.
  unfold classify.
  destruct (mem (name pkg) security_updates);
    [|destruct (mem (name pkg) updates)]; reflexivity.
Qed.

(** No name has two classifications. *)
Lemma classified_unique (security_updates updates : list string)
  (pkg_name t1 t2 : string) :
  classified security_updates updates pkg_name t1 ->
  classified security_updates updates pkg_name t2 ->
  t1 = t2.
Proof.
  intros H1 H2. destruct H1; destruct H2; auto; contradiction.
Qed.

Lemma classify_all_resolved (security_updates updates : list string)
  (all_packages : list ResolvedPackage) :
  forall self,
    resolved (classify_all security_updates updates all_packages self)
    = resolved self ++ map (classify security_updates updates) all_packages.
Proof.
  induction all_packages as [|pkg rest IH]; intros self; simpl.
  - now rewrite app_nil_r.
  - rewrite IH. simpl. now rewrite <- app_assoc.
Qed.

Lemma map_classify_Forall2 (security_updates updates : list string)
  (all_packages : list ResolvedPackage) :
  Forall2 (fun pkg r =>
             name r = name pkg /\
             classified security_updates updates (name pkg) (package_type r) /\
             same_package pkg r)
          all_packages (map (classify security_updates updates) all_packages).
Proof.
  induction all_packages as [|pkg rest IH]; simpl; constructor; auto.
  destruct (classify_spec security_updates updates pkg) as [Hc Hs].
  repeat split; auto. apply classify_name.
Qed.

(** C1.  When the update check finds updates, [resolve] returns the
    dependency closure, package for package and in order, each with the
    classification the priority rule gives its name: [security] if the
    name is in the security set, else [update] if it is in the update
    set, else [dependency].  A name has one classification only, and a
    name in both sets is a [security] package, not an [update]. *)
Theorem resolve_classifies_by_priority :
  forall (dnf : Dnf) (self : DependencyResolver)
         (updates security_updates : list string)
         (all_packages : list ResolvedPackage),
    snd (_get_available_updates dnf (installed_packages self)) = Ok updates ->
    updates <> [] ->
    (if prefer_security self then snd (_get_security_updates dnf)
     else Ok []) = Ok security_updates ->
    snd (_resolve_dependencies dnf updates) = Ok all_packages ->
    exists self' out,
      resolve dnf self = (self', Ok out) /\
      resolved self' = out /\
      Forall2 (fun pkg r =>
                 name r = name pkg /\
                 classified security_updates updates (name pkg)
                            (package_type r) /\
                 same_package pkg r)
              all_packages out /\
      (forall r t,
          In r out ->
          classified security_updates updates (name r) t ->
          package_type r = t) /\
      (forall r,
          In r out ->
          In (name r) security_updates -> In (name r) updates ->
          package_type r = "security" /\ package_type r <> "update").
Proof.
  intros dnf self updates security_updates all_packages Hu Hne Hs Hd.
  unfold resolve.
  destruct (_get_available_updates dnf _) as [es1 r1]. simpl in Hu. subst r1.
  destruct updates as [|u updates]; [congruence|].
  set (ups := u :: updates) in *.
  assert (Hsec :
    exists es2,
      (if prefer_security self then _get_security_updates dnf
       else ([], Ok [])) = (es2, Ok security_updates)).
  { destruct (prefer_security self).
    - destruct (_get_security_updates dnf) as [es2 r2]. simpl in Hs.
      subst. now exists es2.
    - injection Hs as <-. now exists []. }
  destruct Hsec as [es2 Hsec]. simpl. rewrite Hsec.
  destruct (_resolve_dependencies dnf ups) as [es3 r3]. simpl in Hd. subst r3.
  eexists. eexists. split; [reflexivity|].
  rewrite classify_all_resolved. simpl.
  pose proof (map_classify_Forall2 security_updates ups all_packages) as HF.
  assert (Hall :
    forall r, In r (map (classify security_updates ups) all_packages) ->
              classified security_updates ups (name r) (package_type r)).
  { intros r Hr. apply in_map_iff in Hr. destruct Hr as [pkg [<- _]].
    destruct (classify_spec security_updates ups pkg) as [Hc Hsame].
    now rewrite classify_name. }
  repeat split; auto.
  - intros r t Hr Ht. eapply classified_unique; eauto.
  - eapply classified_unique; eauto using is_security.
  - intros E.
    assert (E' : package_type r = "security")
      by (eapply classified_unique; eauto using is_security).
    congruence.
Qed.

(** *** The breadth-first fallback *)

Section Fallback.
Variable repoquery_info : string -> result string.
Variable repoquery_requires : string -> result string.
Variable splitlines : string -> list string.
Variable strip : string -> string.
Variable split_bar : string -> list string.
Variable isdigit : string -> bool.
Variable py_int : string -> result Z.
Variable packages : list string.

Local Abbreviation step :=
  (step repoquery_info repoquery_requires splitlines strip split_bar isdigit
        py_int packages).
Local Abbreviation run :=
  (run repoquery_info repoquery_requires splitlines strip split_bar isdigit
       py_int packages).
Local Abbreviation loop :=
  (loop repoquery_info repoquery_requires splitlines strip split_bar isdigit
        py_int packages).
Local Abbreviation queries :=
  (queries repoquery_info repoquery_requires splitlines strip split_bar
           isdigit py_int packages).
Local Abbreviation info_lines :=
  (info_lines strip split_bar isdigit py_int packages).
Local Abbreviation new_names := (new_names splitlines strip).
Local Abbreviation turn :=
  (turn repoquery_info repoquery_requires splitlines strip isdigit py_int).
Local Abbreviation ends_well :=
  (ends_well repoquery_info repoquery_requires isdigit py_int).

Lemma info_lines_raise (lines : list string) :
  forall resolved resolved' e,
    info_lines lines resolved = (resolved', Raise e) ->
    exists s, isdigit s = true /\ py_int s = Raise e.
Proof.
  induction lines as [|line lines IH]; simpl; intros resolved resolved' e H.
  - discriminate.
  - destruct (info_line strip split_bar isdigit py_int packages resolved line)
      as [[pkg|]|e'] eqn:Hl; eauto.
    injection H as _ <-.
    unfold info_line in Hl.
    destruct (negb (nonempty (strip line))); [discriminate|].
    destruct (split_bar line) as [|a [|b [|c [|d [|f [|g [|size rest]]]]]]];
      try discriminate.
    destruct (existsb _ resolved); [discriminate|].
    destruct (isdigit size) eqn:Hd; [|discriminate].
    destruct (py_int size) eqn:Hi; simpl in Hl; [discriminate|].
    injection Hl as <-. eauto.
Qed.

Lemma step_turn (st : locals) : turn st (step st).
Proof.
  unfold Resolver.step.
  destruct (l_to_process st) as [|pkg_name to_process] eqn:Hq.
  - now apply turn_exit.
  - destruct (mem pkg_name (l_processed st)) eqn:Hm.
    + now apply turn_skip with pkg_name.
    + destruct (repoquery_info pkg_name) as [stdout|e] eqn:Hi.
      * destruct (info_lines (splitlines stdout) (l_resolved st))
          as [resolved [u|e]] eqn:Hl.
        -- destruct (repoquery_requires pkg_name) as [dep_stdout|e] eqn:Hr.
           ++ now apply turn_enqueue.
           ++ unfold handle.
              destruct (caught_by e [CalledProcessError]) eqn:Hc.
              ** apply turn_failed; auto. now right.
              ** apply turn_propagate with pkg_name to_process; eauto.
                 now right.
        -- unfold handle.
           destruct (caught_by e [CalledProcessError]) eqn:Hc.
           ++ apply turn_failed; auto. now left.
           ++ apply turn_propagate with pkg_name to_process; auto;
                [now left|].
              right; right. eapply info_lines_raise; eauto.
      * unfold handle.
        destruct (caught_by e [CalledProcessError]) eqn:Hc.
        -- apply turn_failed; auto. now left.
        -- apply turn_propagate with pkg_name to_process; eauto.
           now left.
Qed.

(** The loop and its calls, turn by turn. *)
Lemma loop_S (fuel : nat) (st : locals) :
  loop (S fuel) st
  = match snd (step st) with
    | Exit st' => Some (Ok st')
    | Propagate e => Some (Raise e)
    | Next st' => loop fuel st'
    end.
Proof.
  unfold Resolver.loop. cbn [Resolver.run].
  destruct (step st) as [made [st'|st'|e]]; cbn [snd]; try reflexivity.
  now destruct (run fuel st').
Qed.

Lemma queries_S (fuel : nat) (st : locals) :
  queries (S fuel) st
  = fst (step st)
    ++ match snd (step st) with
       | Next st' => queries fuel st'
       | _ => []
       end.
Proof.
  unfold Resolver.queries. cbn [Resolver.run].
  destruct (step st) as [made [st'|st'|e]]; cbn [fst snd];
    try now rewrite app_nil_r.
  now destruct (run fuel st').
Qed.

Lemma NoDup_snoc (l : list string) (x : string) :
  NoDup l -> ~ In x l -> NoDup (l ++ [x]).
Proof.
  intros Hl Hx. apply NoDup_app; auto.
  - constructor; [intros []|constructor].
  - intros a Ha [<-|[]]. contradiction.
Qed.

Lemma about_names (pkg_name : string) (made : list query) :
  about pkg_name made ->
  NoDup made /\ asked made = [pkg_name] /\
  forall q, In q made -> query_name q = pkg_name.
Proof.
  intros [-> | ->]; (split; [|split]); try reflexivity.
  - constructor; [intros []|constructor].
  - intros q [<-|[]]. reflexivity.
  - constructor; [intros [H|[]]; discriminate|].
    constructor; [intros []|constructor].
  - intros q [<-|[<-|[]]]; reflexivity.
Qed.

(** No call is made twice, and none about a name that is already in
    [processed]: the test at the head of the body sees to it. *)
Lemma queries_fresh (fuel : nat) :
  forall st,
    NoDup (queries fuel st) /\
    (forall q, In q (queries fuel st) ->
               ~ In (query_name q) (l_processed st)).
Proof.
  induction fuel as [|fuel IH]; intros st.
  - split; [constructor | intros q []].
  - rewrite queries_S.
    assert (Hturn :
      forall n made st1,
        mem n (l_processed st) = false -> about n made ->
        l_processed st1 = l_processed st ++ [n] ->
        NoDup (made ++ queries fuel st1) /\
        (forall q, In q (made ++ queries fuel st1) ->
                   ~ In (query_name q) (l_processed st))).
    { intros n made st1 Hm Hab Hp.
      destruct (about_names Hab) as [Hnd [_ Hnames]].
      destruct (IH st1) as [Hnd1 Hfresh1]. rewrite Hp in Hfresh1.
      apply mem_not_In in Hm. split.
      - apply NoDup_app; auto.
        intros q Hq Hq1. apply (Hfresh1 q Hq1).
        rewrite (Hnames q Hq). apply in_or_app. right. now left.
      - intros q Hq Hin. apply in_app_or in Hq as [Hq|Hq].
        + rewrite (Hnames q Hq) in Hin. contradiction.
        + apply (Hfresh1 q Hq). apply in_or_app. now left. }
    pose proof (step_turn st) as Ht.
    inversion Ht as
      [Hq Hs | n q Hq Hm Hs | n q r made Hq Hm Hab Hs
       | n q r out Hq Hm Hr Hs | n q made e Hq Hm Hab Hc Ho Hs];
      cbn [fst snd app].
    + split; [constructor | intros x []].
    + destruct (IH (mkLocals (l_resolved st) (l_processed st) q))
        as [Hnd Hfresh]. now split.
    + now apply (Hturn n).
    + apply (Hturn n [InfoQuery n; RequiresQuery n]); auto. now right.
    + rewrite app_nil_r. destruct (about_names Hab) as [Hnd [_ Hnames]].
      split; [exact Hnd|]. intros x Hx. rewrite (Hnames x Hx).
      now apply mem_not_In.
Qed.

Lemma asked_app (l1 l2 : list query) :
  asked (l1 ++ l2) = asked l1 ++ asked l2.
Proof. unfold asked. apply flat_map_app. Qed.

(** Every name asked about comes from a call that was made once. *)
Lemma asked_NoDup (made : list query) : NoDup made -> NoDup (asked made).
Proof.
  induction made as [|q made IH]; intros H; [constructor|].
  inversion H as [|? ? Hq Hmade]; subst. specialize (IH Hmade).
  destruct q as [n|n]; cbn [asked flat_map app]; [|exact IH].
  constructor; [|exact IH]. intros Hin. apply Hq.
  clear - Hin. unfold asked in Hin. apply in_flat_map in Hin as [x [Hx Hn]].
  destruct x as [m|m]; [|destruct Hn].
  destruct Hn as [<-|[]]. exact Hx.
Qed.

(** When the loop ends, [processed] holds the names asked about, in
    the order they were asked. *)
Lemma loop_processed (fuel : nat) :
  forall st st',
    loop fuel st = Some (Ok st') ->
    l_processed st' = l_processed st ++ asked (queries fuel st).
Proof.
  induction fuel as [|fuel IH]; intros st st' H; [discriminate|].
  rewrite loop_S in H. rewrite queries_S, asked_app.
  pose proof (step_turn st) as Ht.
  inversion Ht as
    [Hq Hs | n q Hq Hm Hs | n q r made Hq Hm Hab Hs
     | n q r out Hq Hm Hr Hs | n q made e Hq Hm Hab Hc Ho Hs];
    rewrite <- Hs in H; cbn [fst snd] in *.
  - injection H as <-. now rewrite app_nil_r.
  - apply IH in H. exact H.
  - apply IH in H. cbn [l_processed] in H.
    destruct (about_names Hab) as [_ [-> _]]. now rewrite <- app_assoc in H.
  - apply IH in H. cbn [l_processed] in H. now rewrite <- app_assoc in H.
  - discriminate.
Qed.

Lemma mem_app (x : string) (l1 l2 : list string) :
  mem x (l1 ++ l2) = mem x l1 || mem x l2.
Proof. unfold mem. apply existsb_app. Qed.

Lemma remaining_le (universe processed : list string) (n : string) :
  remaining universe (processed ++ [n]) <= remaining universe processed.
Proof.
  unfold remaining. induction universe as [|a u IH]; simpl; auto.
  rewrite mem_app.
  destruct (mem a processed), (mem a [n]); simpl; lia.
Qed.

Lemma remaining_lt (universe processed : list string) (n : string) :
  In n universe -> mem n processed = false ->
  remaining universe (processed ++ [n]) < remaining universe processed.
Proof.
  intros Hin Hm. unfold remaining.
  induction universe as [|a u IH]; simpl; [destruct Hin|].
  rewrite mem_app.
  destruct Hin as [->|Hin].
  - rewrite Hm. simpl. unfold mem at 1. simpl. rewrite String.eqb_refl. simpl.
    pose proof (remaining_le u processed n) as Hle. unfold remaining in Hle.
    lia.
  - specialize (IH Hin).
    destruct (mem a processed), (mem a [n]); simpl; lia.
Qed.

Lemma new_names_incl (processed : list string) (stdout : string) :
  incl (new_names processed stdout) (map strip (splitlines stdout)).
Proof. intros x Hx. apply filter_In in Hx. tauto. Qed.

Section Finite.
(** The names that can ever be pending lie in a finite universe. *)
Variable universe : list string.
Hypothesis packages_known : incl packages universe.
Hypothesis requires_known :
  forall pkg_name stdout,
    repoquery_requires pkg_name = Ok stdout ->
    incl (map strip (splitlines stdout)) universe.

Lemma loop_ends (k : nat) :
  forall to_process resolved processed,
    incl to_process universe ->
    remaining universe processed <= k ->
    exists fuel r,
      loop fuel (mkLocals resolved processed to_process) = Some r /\
      ends_well r.
Proof.
  induction k as [k IHk] using lt_wf_ind.
  induction to_process as [|n q IHq]; intros resolved processed Hincl Hk.
  - exists 1, (Ok (mkLocals resolved processed [])).
    rewrite loop_S. cbn. auto.
  - assert (Hn : In n universe) by (apply Hincl; now left).
    assert (Hq : incl q universe) by (intros x Hx; apply Hincl; now right).
    pose proof (step_turn (mkLocals resolved processed (n :: q))) as Ht.
    inversion Ht as
      [Hq0 | n' q' Hq0 Hm Hs | n' q' r made Hq0 Hm Hab Hs
       | n' q' r out Hq0 Hm Hr Hs | n' q' made e Hq0 Hm Hab Hc Ho Hs];
      cbn [l_to_process l_processed l_resolved] in *; try discriminate;
      try (injection Hq0 as <- <-).
    + destruct (IHq resolved processed Hq Hk) as [fuel [r0 [Hl He]]].
      exists (S fuel), r0. rewrite loop_S, <- Hs. cbn [snd]. auto.
    + pose proof (remaining_lt universe processed n Hn Hm) as Hlt.
      destruct (IHk (remaining universe (processed ++ [n]))
                  ltac:(lia) q r (processed ++ [n]) Hq (le_n _))
        as [fuel [r0 [Hl He]]].
      exists (S fuel), r0. rewrite loop_S, <- Hs. cbn [snd]. auto.
    + pose proof (remaining_lt universe processed n Hn Hm) as Hlt.
      assert (Hq' : incl (q ++ new_names (processed ++ [n]) out) universe).
      { apply incl_app; auto.
        eapply incl_tran; [apply new_names_incl|]. eauto. }
      destruct (IHk (remaining universe (processed ++ [n]))
                  ltac:(lia) _ r (processed ++ [n]) Hq' (le_n _))
        as [fuel [r0 [Hl He]]].
      exists (S fuel), r0. rewrite loop_S, <- Hs. cbn [snd]. auto.
    + exists 1, (Raise e). rewrite loop_S, <- Hs. cbn [snd].
      split; [reflexivity|]. cbn [ends_well]. auto.
Qed.

Lemma fallback_ends :
  exists fuel r, loop fuel (initial packages) = Some r /\ ends_well r.
Proof.
  unfold initial. eapply loop_ends; eauto.
Qed.

End Finite.
End Fallback.

(** *** A repository as the oracle *)

Lemma answer_listed (repo : Repository.t) (pkg_name : string) :
  In (Repository.answer repo pkg_name)
     (Repository.unknown repo :: map snd (Repository.known repo)).
Proof.
  unfold Repository.answer.
  destruct (Repository.lookup pkg_name (Repository.known repo)) as [a|] eqn:H;
    [right|now left].
  induction (Repository.known repo) as [|[n a'] l IH]; simpl in *;
    [discriminate|].
  destruct (String.eqb n pkg_name).
  - injection H as ->. now left.
  - right. auto.
Qed.

Lemma requires_mentioned (repo : Repository.t)
  (splitlines : string -> list string) (strip : string -> string)
  (pkg_name stdout : string) :
  Repository.repoquery_requires repo pkg_name = Ok stdout ->
  incl (map strip (splitlines stdout))
       (Repository.mentioned splitlines strip repo).
Proof.
  intros H x Hx. unfold Repository.mentioned.
  apply in_concat.
  exists (Repository.required_names splitlines strip
            (Repository.answer repo pkg_name)).
  split.
  - apply in_map. apply answer_listed.
  - unfold Repository.required_names.
    unfold Repository.repoquery_requires in H. now rewrite H.
Qed.

(** C6.  Whatever the package set and whatever oracle answers the two
    queries, the breadth-first fallback makes each of its calls at most
    once and asks about no name twice: a name already in [processed] is
    never taken up again.  When the names that the oracle can print as
    requirements are finitely many (requirement cycles included), the
    loop ends: with nothing pending, or on an exception that a query or
    [int] raised and that the loop does not handle.  When it ends
    normally, the names it processed are the names it asked about,
    without repetition; and it does end normally when the queries fail
    with nothing but [CalledProcessError] and [int] accepts what
    [isdigit] accepts. *)
Theorem fallback_asks_once_and_ends :
  forall (info requires : string -> result string)
         (splitlines : string -> list string) (strip : string -> string)
         (split_bar : string -> list string) (isdigit : string -> bool)
         (py_int : string -> result Z) (packages : list string),
    let made :=
      queries info requires splitlines strip split_bar isdigit py_int
              packages in
    (forall fuel,
        NoDup (made fuel (initial packages)) /\
        NoDup (asked (made fuel (initial packages)))) /\
    forall universe : list string,
      (forall pkg_name stdout,
          requires pkg_name = Ok stdout ->
          incl (map strip (splitlines stdout)) universe) ->
      exists fuel r,
        loop info requires splitlines strip split_bar isdigit py_int packages
             fuel (initial packages) = Some r /\
        _resolve_via_repoquery info requires splitlines strip split_bar
          isdigit py_int packages fuel
        = Some (match r with
                | Ok st => Ok (l_resolved st)
                | Raise e => Raise e
                end) /\
        ends_well info requires isdigit py_int r /\
        (forall st,
            r = Ok st ->
            l_to_process st = [] /\
            NoDup (l_processed st) /\
            l_processed st = asked (made fuel (initial packages))) /\
        ((forall n e, info n = Raise e ->
                      caught_by e [CalledProcessError] = true) ->
         (forall n e, requires n = Raise e ->
                      caught_by e [CalledProcessError] = true) ->
         (forall s e, isdigit s = true -> py_int s <> Raise e) ->
         exists st, r = Ok st).
Proof.
  intros info requires splitlines strip split_bar isdigit py_int packages
         made.
  split.
  { intros fuel.
    destruct (queries_fresh info requires splitlines strip split_bar isdigit
                py_int packages fuel (initial packages)) as [Hnd _].
    split; [exact Hnd | now apply asked_NoDup]. }
  intros universe Hknown.
  destruct (@fallback_ends info requires splitlines strip split_bar isdigit
              py_int packages (packages ++ universe))
    as [fuel [r [Hloop Hends]]].
  { apply incl_appl, incl_refl. }
  { intros n out Hn. apply incl_appr. eapply Hknown; eauto. }
  exists fuel, r. repeat split; auto.
  - unfold _resolve_via_repoquery. rewrite Hloop. now destruct r.
  - subst r. exact Hends.
  - subst r. apply loop_processed in Hloop. cbn [l_processed initial app] in Hloop.
    rewrite Hloop. apply asked_NoDup, queries_fresh.
  - subst r. now apply loop_processed in Hloop.
  - intros Hi Hr Hint. destruct r as [st|e]; [now exists st|].
    destruct Hends as [Hc [[n Hn]|[[n Hn]|[x [Hd Hx]]]]].
    + apply Hi in Hn. congruence.
    + apply Hr in Hn. congruence.
    + now destruct (Hint x e Hd).
Qed.

End ResolverFacts.

(** ** The downloader *)

Module DownloaderFacts.
Import Resolver Downloader.

Lemma leb_iff (s1 s2 : string) :
  String.leb s1 s2 = true <-> s1 = s2 \/ String_as_OT.lt s1 s2.
Proof.
  unfold String.leb.
  destruct (String.compare s1 s2) eqn:E.
  - apply String_as_OT.cmp_eq in E. tauto.
  - apply String_as_OT.cmp_lt in E. tauto.
  - split; [discriminate|]. intros [H|H].
    + apply String_as_OT.cmp_eq in H. unfold String_as_OT.cmp in H.
      congruence.
    + apply String_as_OT.cmp_lt in H. unfold String_as_OT.cmp in H.
      congruence.
Qed.

Lemma leb_trans (s1 s2 s3 : string) :
  String.leb s1 s2 = true -> String.leb s2 s3 = true ->
  String.leb s1 s3 = true.
Proof.
  rewrite !leb_iff. intros [->|H1] [->|H2]; auto.
  right. eapply String_as_OT.lt_trans; eauto.
Qed.

Section SortedFacts.
Variable A : Type.
Variable key : A -> string.

Local Abbreviation le := (fun a b : A => String.leb (key a) (key b) = true).

Lemma insert_perm (x : A) (l : list A) : Permutation (insert key x l) (x :: l).
Proof.
  induction l as [|y l IH]; simpl; auto.
  destruct (String.leb (key x) (key y)); auto.
  rewrite IH. apply perm_swap.
Qed.

Lemma sorted_perm (l : list A) : Permutation (sorted key l) l.
Proof.
  induction l as [|x l IH]; simpl; auto.
  rewrite insert_perm. now constructor.
Qed.

Lemma insert_sorted (x : A) (l : list A) :
  StronglySorted le l -> StronglySorted le (insert key x l).
Proof.
  induction 1 as [|y l Hs IH Hall]; simpl.
  - repeat constructor.
  - destruct (String.leb (key x) (key y)) eqn:E.
    + constructor; [now constructor|].
      constructor; auto.
      eapply Forall_impl; [|exact Hall].
      intros z Hz. simpl in *. eapply leb_trans; eauto.
    + constructor; auto.
      eapply Permutation_Forall; [symmetry; apply insert_perm|].
      constructor; auto.
      destruct (String.leb_total (key x) (key y)); congruence.
Qed.

Lemma sorted_sorted (l : list A) : StronglySorted le (sorted key l).
Proof.
  induction l as [|x l IH]; simpl; [constructor|now apply insert_sorted].
Qed.

Lemma filter_sorted (f : A -> bool) (l : list A) :
  StronglySorted le l -> StronglySorted le (filter f l).
Proof.
  induction 1 as [|y l Hs IH Hall]; simpl; [constructor|].
  destruct (f y); auto. constructor; auto.
  rewrite Forall_forall in *. intros z Hz. apply Hall.
  apply filter_In in Hz. tauto.
Qed.

Lemma filter_perm (f : A -> bool) (l l' : list A) :
  Permutation l l' -> Permutation (filter f l) (filter f l').
Proof.
  induction 1 as [|x l l' H IH|x y l|l l' l'' H1 IH1 H2 IH2]; simpl; auto.
  - destruct (f x); auto.
  - destruct (f x), (f y); auto. apply perm_swap.
  - now transitivity (filter f l').
Qed.

End SortedFacts.

Lemma listed_line (r : DownloadResult) :
  listed r = true ->
  exists digest p,
    success r = true /\
    sha256 r = Some digest /\ digest <> "" /\
    local_path r = Some p /\
    checksum_line r = digest +++ "  " +++ path_name p.
Proof.
  unfold listed, has_digest, has_path, checksum_line.
  destruct (success r); simpl; [|discriminate].
  destruct (sha256 r) as [digest|]; simpl; [|discriminate].
  destruct (String.eqb_spec digest ""); simpl; [discriminate|].
  destruct (local_path r) as [p|]; [|discriminate].
  intros _. exists digest, p. auto.
Qed.

(** For results as the downloader records them, the listed results are
    the successful ones. *)
Lemma well_formed_listed (self : RPMDownloader) :
  Forall well_formed (results self) ->
  filter listed (results self) = get_successful_downloads self.
Proof.
  unfold get_successful_downloads.
  induction (results self) as [|r rs IH]; intros H; simpl; auto.
  inversion H as [|? ? Hr Hrs]; subst. rewrite (IH Hrs).
  unfold listed, has_digest, has_path. destruct (success r) eqn:Hs; auto.
  destruct (Hr Hs) as [[digest [-> Hd]] [p ->]]. simpl.
  destruct (String.eqb_spec digest ""); [contradiction|reflexivity].
Qed.

(** C7, as the code has it.  The checksums file holds one line for each
    result that is successful and carries a non-empty digest and a local
    path, and for no other; a line reads [<sha256>  <filename>]; the
    lines follow the ascending order of the package names; they are
    joined by newlines and followed by a single newline.  With exactly
    one such result the file is its line and the newline. *)
Theorem checksums_file_lists_verified_results :
  forall (output_path : option Path) (self : RPMDownloader),
    let text := snd (generate_checksums_file output_path self) in
    let chosen := filter listed (sorted by_package_name (results self)) in
    text = String.concat newline (map checksum_line chosen) +++ newline /\
    checksum_lines (results self) = map checksum_line chosen /\
    Permutation chosen (filter listed (results self)) /\
    List.length (checksum_lines (results self))
    = List.length (filter listed (results self)) /\
    StronglySorted precedes chosen /\
    Forall (fun r =>
              exists digest p,
                success r = true /\
                sha256 r = Some digest /\ digest <> "" /\
                local_path r = Some p /\
                checksum_line r = digest +++ "  " +++ path_name p)
           chosen /\
    (forall r,
        filter listed (results self) = [r] ->
        text = checksum_line r +++ newline).
Proof.
  intros output_path self text chosen.
  assert (Hperm : Permutation chosen (filter listed (results self))).
  { apply filter_perm, sorted_perm. }
  repeat split; auto.
  - unfold checksum_lines. rewrite length_map.
    now apply Permutation_length.
  - apply filter_sorted. apply (sorted_sorted by_package_name).
  - apply Forall_forall. intros r Hr. apply filter_In in Hr.
    apply listed_line. tauto.
  - intros r Hr. rewrite Hr in Hperm.
    apply Permutation_sym, Permutation_length_1_inv in Hperm.
    unfold text, generate_checksums_file, checksums_text, checksum_lines.
    simpl. fold chosen. rewrite Hperm. reflexivity.
Qed.

End DownloaderFacts.

(** ** The builder *)

Module BuilderFacts.
Import Resolver Downloader Builder.

Lemma parts_eqb_eq (l m : list string) : parts_eqb l m = true <-> l = m.
Proof.
  revert m. induction l as [|x l IH]; intros [|y m]; simpl;
    try (split; [discriminate|discriminate]); [tauto|].
  rewrite andb_true_iff, String.eqb_eq, IH.
  split; [intros [-> ->]; reflexivity | intros H; injection H; auto].
Qed.

Lemma path_eqb_eq (p q : Path) : path_eqb p q = true <-> p = q.
Proof.
  unfold path_eqb. destruct p as [a l], q as [b m]; simpl.
  rewrite andb_true_iff, String.eqb_eq, parts_eqb_eq.
  split; [intros [-> ->]; reflexivity | intros H; injection H; auto].
Qed.

Lemma path_eqb_refl (p : Path) : path_eqb p p = true.
Proof. now apply path_eqb_eq. Qed.

Lemma path_eqb_neq (p q : Path) : p <> q -> path_eqb p q = false.
Proof.
  intros H. destruct (path_eqb p q) eqn:E; auto.
  apply path_eqb_eq in E. contradiction.
Qed.

Lemma read_write_same (p : Path) (c : file_content) (d : Disk) :
  read_file p (write_file p c d) = Some c.
Proof. unfold read_file, write_file; simpl. now rewrite path_eqb_refl. Qed.

Lemma in_write_same (p : Path) (c : file_content) (d : Disk) :
  In (p, c) (files (write_file p c d)).
Proof. simpl. now left. Qed.

Lemma in_write_other (p q : Path) (c c' : file_content) (d : Disk) :
  p <> q -> In (p, c) (files d) -> In (p, c) (files (write_file q c' d)).
Proof.
  intros Hne Hin. simpl. right. apply filter_In. split; auto.
  simpl. now rewrite path_eqb_neq.
Qed.

Lemma is_prefix_app (l m : list string) : is_prefix l (l ++ m) = true.
Proof.
  induction l as [|x l IH]; simpl; auto. now rewrite String.eqb_refl.
Qed.

Lemma under_joinpath (directory : Path) (child : string) :
  under directory (joinpath directory child) = true.
Proof.
  unfold under, joinpath; simpl.
  now rewrite String.eqb_refl, is_prefix_app.
Qed.

Lemma skipn_joinpath (l : list string) (child : string) :
  skipn (List.length l) (l ++ [child]) = [child].
Proof. induction l; simpl; auto. Qed.

(** A file of the source directory is a member of the archive. *)
Lemma tar_members_in (source_dir : Path) (arcname child : string)
  (c : file_content) (d : Disk) :
  In (joinpath source_dir child, c) (files d) ->
  In (mkPath "" [arcname; child], c) (tar_members source_dir arcname d).
Proof.
  intros H. unfold tar_members. apply in_map_iff.
  exists (joinpath source_dir child, c). split.
  - simpl. now rewrite skipn_joinpath.
  - apply filter_In. split; auto. simpl. apply under_joinpath.
Qed.

Lemma joinpath_inj (p q : Path) (a b : string) :
  joinpath p a = joinpath q b -> a = b.
Proof.
  unfold joinpath. intros H. injection H as _ H.
  apply (f_equal (fun l => last l "")) in H.
  now rewrite !last_last in H.
Qed.

Lemma tar_is_not_metadata (bundle_id : string) :
  bundle_id +++ ".tar" <> "metadata.json".
Proof.
  intros H.
  repeat (destruct bundle_id as [|? bundle_id]; simpl in H;
          [discriminate|injection H as _ H]).
  destruct bundle_id; discriminate.
Qed.

Lemma tar_is_not_build_log (bundle_id : string) :
  bundle_id +++ ".tar" <> "build.log".
Proof.
  intros H.
  repeat (destruct bundle_id as [|? bundle_id]; simpl in H;
          [discriminate|injection H as _ H]).
  destruct bundle_id; discriminate.
Qed.

Section Facts.
Variable datetime : Type.
Variable now : nat -> datetime.
Variable isoformat : datetime -> string.
Variable strftime_compact : datetime -> string.
Variable gethostname : string.
Variable json_dumps_sorted : json -> string.
Variable sha256_hexdigest : string -> string.
Variable w : World.
Variable dnf : Dnf.
Variable download_packages :
  Path -> list ResolvedPackage ->
  result (list DownloadResult * list (Path * file_content)).
Variable createrepo_c : Path -> result (list (Path * file_content)).
Variable createrepo : Path -> result (list (Path * file_content)).
Variable st_size : Path -> result Z.
Variable zstd : result unit.
Variable sha256_file : file_content -> string.
Variable undeletable : Path -> bool.

Local Abbreviation rmtree := (rmtree undeletable).

Local Abbreviation _build_metadata :=
  (_build_metadata isoformat gethostname st_size).
Local Abbreviation seal :=
  (seal now isoformat gethostname st_size zstd sha256_file).
Local Abbreviation gather :=
  (gather now isoformat json_dumps_sorted sha256_hexdigest w dnf
          download_packages createrepo_c createrepo).
Local Abbreviation build_steps :=
  (build_steps now isoformat gethostname json_dumps_sorted sha256_hexdigest
               w dnf download_packages createrepo_c createrepo st_size zstd
               sha256_file).
Local Abbreviation sealed := (sealed sha256_file).
Local Abbreviation build :=
  (build now isoformat strftime_compact gethostname json_dumps_sorted
         sha256_hexdigest w dnf download_packages createrepo_c createrepo
         st_size zstd sha256_file undeletable).

(** The metadata is built with an empty [bundle_hash]. *)
Lemma build_metadata_checksums (b : BundleBuilder) (timestamp : datetime)
  (merger : Merger.ManifestMerger) (resolved : list ResolvedPackage)
  (downloader : RPMDownloader) (md : BundleMetadata) :
  _build_metadata b timestamp merger resolved downloader = Ok md ->
  checksums md = mkChecksums "sha256" "".
Proof.
  unfold Builder._build_metadata.
  destruct (Merger.get_host_summary merger); simpl; [|discriminate].
  destruct (Merger.get_package_to_hosts_map merger); simpl; [|discriminate].
  destruct (package_entries _ _ _); simpl; [|discriminate].
  destruct (host_packages _ _ _); simpl; [|discriminate].
  destruct (manifests_used_of _); simpl; [|discriminate].
  destruct (get_total_size _ _); simpl; [|discriminate].
  intros H. injection H as <-. reflexivity.
Qed.

Lemma bindM_ok (A B : Type) (m : M A) (k : A -> M B) (st st' : State) (b : B) :
  bindM m k st = (st', Ok b) ->
  exists a st1, m st = (st1, Ok a) /\ k a st1 = (st', Ok b).
Proof.
  unfold bindM. destruct (m st) as [st1 [a|e]]; [eauto|discriminate].
Qed.

Lemma seal_spec (timestamp : datetime) (bundle_work_dir : Path)
  (merger : Merger.ManifestMerger) (resolved : list ResolvedPackage)
  (downloader : RPMDownloader) (st st' : State) (archive_path : Path) :
  seal timestamp bundle_work_dir merger resolved downloader st
  = (st', Ok archive_path) ->
  sealed st st' archive_path.
Proof.
  unfold Builder.seal, bindM, _log, get_self, lift, on_self, on_disk, ret,
         _create_archive, _compute_file_hash.
  cbn -[read_file write_file remove_file tar_members String.append
        String.concat caught_by].
  destruct (_build_metadata _ timestamp merger resolved downloader)
    as [md|e] eqn:Hmd; [|discriminate].
  apply build_metadata_checksums in Hmd.
  set (log := ((build_log (self st) ++ _) ++ _) ++ _).
  set (work := write_file (joinpath bundle_work_dir "build.log") _ _).
  assert (Hmeta : In (joinpath bundle_work_dir "metadata.json", MetadataDoc md)
                     (files work)).
  { apply in_write_other; [|apply in_write_same].
    intros E. apply joinpath_inj in E. discriminate. }
  assert (Hlog : In (joinpath bundle_work_dir "build.log",
                     Text (String.concat newline log +++ newline))
                    (files work)).
  { apply in_write_same. }
  destruct zstd as [u|e].
  - cbn -[read_file write_file remove_file tar_members String.append
          String.concat].
    rewrite read_write_same.
    intros H. injection H as <- <-.
    eapply sealed_intro with (md := md) (log := log).
    + reflexivity.
    + reflexivity.
    + reflexivity.
    + exact Hmd.
    + apply read_write_same.
    + now apply tar_members_in.
    + now apply tar_members_in.
    + cbn [build_log self append_log set_metadata]. subst log.
      rewrite <- !app_assoc. reflexivity.
  - destruct (caught_by e [FileNotFoundError; CalledProcessError]);
      [|discriminate].
    cbn -[read_file write_file remove_file tar_members String.append
          String.concat].
    rewrite read_write_same.
    intros H. injection H as <- <-.
    eapply sealed_intro with (md := md) (log := log).
    + reflexivity.
    + reflexivity.
    + reflexivity.
    + exact Hmd.
    + apply read_write_same.
    + apply tar_members_in. apply in_write_other; auto.
      intros E. apply joinpath_inj in E. symmetry in E.
      now apply tar_is_not_metadata in E.
    + apply tar_members_in. apply in_write_other; auto.
      intros E. apply joinpath_inj in E. symmetry in E.
      now apply tar_is_not_build_log in E.
    + cbn [build_log self append_log set_metadata]. subst log.
      rewrite <- !app_assoc. reflexivity.
Qed.

(** C2.  When a build succeeds, the metadata document the builder
    holds and the [metadata.json] inside the archive are one document,
    whose [checksums.bundle_hash] is the empty string.  The digest is
    taken of the finished archive, which already contains that document
    and the log file; it goes into the last entry of the builder's log,
    after everything the archived log file holds, and into nothing
    else. *)
Theorem metadata_is_sealed_with_an_empty_bundle_hash :
  forall (st st' : State) (archive_path : Path),
    build st = (st', Ok archive_path) ->
    exists (md : BundleMetadata) (members : list (Path * file_content))
           (compression : string) (log : list string) (t1 t2 t3 : string)
           (bundle_work_dir : Path) (finished : Disk),
      metadata (self st') = Some md /\
      bundle_hash (checksums md) = "" /\
      algorithm (checksums md) = "sha256" /\
      read_file archive_path finished = Some (Tar members compression) /\
      disk st' = rmtree bundle_work_dir finished /\
      In (mkPath "" [bundle_id (self st'); "metadata.json"], MetadataDoc md)
         members /\
      In (mkPath "" [bundle_id (self st'); "build.log"],
          Text (String.concat newline log +++ newline)) members /\
      build_log (self st')
      = log
        ++ ["[" +++ t1 +++ "] " +++ "Step 9: Creating archive";
            "[" +++ t2 +++ "] " +++ "  Bundle created: "
              +++ path_str archive_path;
            "[" +++ t3 +++ "] " +++ "  SHA256: "
              +++ sha256_file (Tar members compression)].
Proof.
  intros st st' archive_path. unfold Builder.build. cbv zeta.
  destruct (bindM _ _ _) as [started [u|e]]; [|discriminate].
  match goal with
  | |- context [Builder.build_steps _ _ _ _ _ _ _ _ _ _ _ _ _ ?t ?d ?s] =>
      destruct (build_steps t d s) as [st1 [p|e]] eqn:Hsteps
  end.
  2:{ destruct (_log _ _ _ _); discriminate. }
  intros H. injection H as <- <-.
  unfold Builder.build_steps in Hsteps.
  apply bindM_ok in Hsteps.
  destruct Hsteps as [[[merger resolved] downloader] [st0 [_ Hseal]]].
  apply seal_spec in Hseal.
  destruct Hseal as [md members compression log t1 t2 t3
                        Hmd Hid Hwd Hsums Hread Hmeta Hlog Hbuild].
  exists md, members, compression, log, t1, t2, t3.
  eexists. exists (disk st1). simpl.
  rewrite Hsums. repeat split; auto.
Qed.

End Facts.
End BuilderFacts.

(** ** Construction *)

Module InitFacts.
Import PyFacts.

(** C10.  For an [os_major] other than 8 and 9, constructing a merger
    raises [ValueError], and constructing a builder raises [ValueError]
    with the disk untouched: the test comes before any directory is
    made.  Hence a merger or a builder that was constructed has 8 or 9
    as its [os_major]. *)
Theorem unsupported_os_major_is_refused :
  forall (os_major : Z),
    (os_major <> 8%Z -> os_major <> 9%Z ->
     (exists msg, Merger.init os_major = Raise (mkExn ValueError msg)) /\
     (forall manifest_dir output_dir work_dir d,
         exists msg,
           Builder.init os_major manifest_dir output_dir work_dir d
           = (d, Raise (mkExn ValueError msg)))) /\
    (forall merger,
        Merger.init os_major = Ok merger ->
        (os_major = 8%Z \/ os_major = 9%Z) /\
        Merger.os_major merger = os_major) /\
    (forall manifest_dir output_dir work_dir d d' builder,
        Builder.init os_major manifest_dir output_dir work_dir d
        = (d', Ok builder) ->
        (os_major = 8%Z \/ os_major = 9%Z) /\
        Builder.os_major builder = os_major).
Proof.
  intros os_major.
  pose proof (py_in_8_9 os_major) as Hin.
  unfold Merger.init, Builder.init.
  destruct (py_in (JInt os_major) [JInt 8; JInt 9]); cbn [negb].
  - assert (H89 : os_major = 8%Z \/ os_major = 9%Z) by now apply Hin.
    split; [|split].
    + intros H8 H9. destruct H89; contradiction.
    + intros merger H. injection H as <-. auto.
    + intros manifest_dir output_dir work_dir d d' builder H.
      destruct (Builder.mkdir output_dir d) as [d1|e]; [|discriminate].
      destruct (Builder.mkdir _ d1) as [d2|e]; [|discriminate].
      injection H as _ <-. auto.
  - split; [|split]; try discriminate.
    intros _ _. split.
    + eexists. reflexivity.
    + intros. eexists. reflexivity.
Qed.

End InitFacts.

(** ** Scenarios *)

Module Scenarios.
Import Fixtures Examples.

(** *** Merger *)

Example merge_from_directory :
  Merger.add_manifests_from_directory dumps_stub sha256_stub manifest_dir
    manifest_path merger9
  = (Merger.mkMerger 9 [sample_manifest]
       [(JStr "test-host-01", "sha256:0000")],
     Ok 1).
Proof. reflexivity. Qed.


(** C4 as stated fails: a file that is not JSON is not skipped with
    [False]; [add_manifest] raises, and so does
    [add_manifests_from_directory] when the file bears the conventional
    name. *)
Lemma malformed_manifest_is_raised_not_skipped :
  Merger.add_manifest dumps_stub sha256_stub manifest_dir notes_file merger9
  = (merger9,
     raise JSONDecodeError "Expecting value: line 1 column 1 (char 0)") /\
  Merger.add_manifests_from_directory dumps_stub sha256_stub broken_dir
    manifest_path merger9
  = (merger9,
     raise JSONDecodeError "Expecting value: line 1 column 1 (char 0)") /\
  ~ (forall (w : World) (path : Path) (self : Merger.ManifestMerger),
        exists self' accepted,
          Merger.add_manifest dumps_stub sha256_stub w path self
          = (self', Ok accepted)).
Proof.
  split; [reflexivity|]. split; [reflexivity|].
  intros H. destruct (H manifest_dir notes_file merger9) as [self' [b Hb]].
  discriminate Hb.
Qed.

Lemma acceptance_rule_witness :
  Merger.add_manifest dumps_stub sha256_stub manifest_dir rhel8_file merger9
  = (merger9, Ok false) /\
  (exists self',
      Merger.add_manifest dumps_stub sha256_stub manifest_dir rhel9_file
        merger9 = (self', Ok true) /\
      Merger.manifests self' = [sample_manifest]) /\
  Merger.probe_pass dumps_stub sha256_stub manifest_dir [notes_file]
    merger9 0
  = (merger9, Ok 0).
Proof.
  split; [|split].
  - destruct (MergerFacts.acceptance_rule dumps_stub sha256_stub
                manifest_dir rhel8_file merger9) as [H _].
    destruct (H sample_manifest_rhel8 (JInt 8) eq_refl eq_refl) as [H1 _].
    apply H1. reflexivity.
  - destruct (MergerFacts.acceptance_rule dumps_stub sha256_stub
                manifest_dir rhel9_file merger9) as [H _].
    destruct (H sample_manifest (JInt 9) eq_refl eq_refl) as [_ [_ H3]].
    apply (H3 eq_refl (JStr "test-host-01")); reflexivity.
  - destruct (MergerFacts.acceptance_rule dumps_stub sha256_stub
                manifest_dir notes_file merger9) as [_ H].
    destruct (H (mkExn JSONDecodeError
                   "Expecting value: line 1 column 1 (char 0)") eq_refl)
      as [_ [_ H3]].
    rewrite (H3 [] 0); reflexivity.
Defined.

Lemma repeated_addition_witness :
  exists self1,
    Merger.add_manifest dumps_stub sha256_stub manifest_dir rhel9_file merger9
    = (self1, Ok true) /\
    exists self2,
      Merger.add_manifest dumps_stub sha256_stub manifest_dir rhel9_file
        self1 = (self2, Ok true) /\
      Merger.manifests self2 = [sample_manifest; sample_manifest] /\
      Merger.get_merged_installed_rpms self2
      = Merger.get_merged_installed_rpms self1.
Proof.
  eexists. split; [reflexivity|].
  destruct (MergerFacts.repeated_addition_is_idempotent_on_packages
              dumps_stub sha256_stub manifest_dir rhel9_file merger9 eq_refl)
    as [manifest [self2 [Hload [Hadd [_ [Hms [_ [Hmerged _]]]]]]]].
  exists self2. split; [exact Hadd|]. split; [|exact Hmerged].
  rewrite Hms. injection Hload as <-. reflexivity.
Defined.

(** *** Validator *)

(** C9 fails on the code: with [os.major] set to [null] the sample
    manifest is reported valid, with no error and no warning. *)
Theorem null_os_major_is_accepted :
  forall (py_str : json -> string) (self : Validator.ManifestValidator),
    Validator.validate py_str null_major_manifest self
    = (Validator.mkValidator [] [], Ok true) /\
    Merger.manifest_os_major null_major_manifest = Ok JNull /\
    py_in JNull Validator.VALID_OS_MAJORS = false.
Proof. intros py_str self. repeat split. Qed.

Example invalid_os_major :
  Validator.validate py_str
    (JDict [("os", JDict [("name", JStr "RHEL"); ("major", JInt 7);
                          ("minor", JInt 9)])])
    Validator.init
  = (Validator.mkValidator
       ["Missing required field: schema_version";
        "Missing required field: host_id";
        "Missing required field: arch";
        "Missing required field: enabled_repos";
        "Missing required field: installed_rpms";
        "Missing required field: timestamp";
        "Invalid OS major version: 7 (expected 8 or 9)"]
       ["installed_rpms is empty"],
     Ok false).
Proof. reflexivity. Qed.

Lemma validate_reads_only_the_sample_witness :
  firstn 100 (hundred_rpms ++ [JInt 1])
  = firstn 100 (hundred_rpms ++ [JStr "not an rpm"]) /\
  Validator.validate py_str (JDict (long_manifest (JInt 1))) Validator.init
  = Validator.validate py_str (JDict (long_manifest (JStr "not an rpm")))
      Validator.init.
Proof.
  split; [reflexivity|].
  apply (@ValidatorFacts.validate_reads_only_the_sample py_str
           (long_manifest (JInt 1)) (long_manifest (JStr "not an rpm"))
           (hundred_rpms ++ [JInt 1]) (hundred_rpms ++ [JStr "not an rpm"])).
  - intros k Hk. unfold long_manifest.
    cbn [dict_get].
    repeat match goal with
           | |- context [String.eqb ?a k] =>
               destruct (String.eqb_spec a k); [congruence|]
           end.
    reflexivity.
  - reflexivity.
  - reflexivity.
  - reflexivity.
Defined.

(** *** Resolver *)

Lemma resolve_classifies_by_priority_witness :
  exists self' out,
    Resolver.resolve sample_dnf
      (Resolver.init ["bash"; "openssl"; "kernel"] true) = (self', Ok out) /\
    forall r,
      In r out ->
      In (Resolver.name r) ["openssl"] ->
      In (Resolver.name r) ["bash"; "openssl"] ->
      Resolver.package_type r = "security".
Proof.
  destruct (@ResolverFacts.resolve_classifies_by_priority sample_dnf
              (Resolver.init ["bash"; "openssl"; "kernel"] true)
              ["bash"; "openssl"] ["openssl"]
              [available "bash" "5.1.8"; available "openssl" "3.0.7";
               available "glibc" "2.34"]
              eq_refl ltac:(discriminate) eq_refl eq_refl)
    as [self' [out [Hres [_ [_ [_ Hsec]]]]]].
  exists self', out. split; [exact Hres|].
  intros r Hr Hs Hu. now apply Hsec.
Defined.

Example cyclic_repository_is_resolved :
  cyclic_loop 4
  = Some (Ok (Resolver.mkLocals
                [Resolver.mkPackage "a" "0" "1.0" "1.el9" "x86_64"
                   "a-0:1.0-1.el9.x86_64" "baseos" "update" 100 None [];
                 Resolver.mkPackage "b" "0" "2.0" "1.el9" "noarch"
                   "b-(none):2.0-1.el9.noarch" "baseos" "dependency" 0
                   None []]
                ["a"; "b"; "c"] [])).
Proof. reflexivity. Qed.

Lemma all_digits_int (s : string) :
  forall acc, all_digits s = true -> exists z, int_acc s acc = Ok z.
Proof.
  induction s as [|c s IH]; simpl; intros acc H; [eauto|].
  destruct (digit c); [auto|discriminate].
Qed.

Lemma fallback_asks_once_and_ends_witness :
  Resolver.queries (Repository.repoquery_info cyclic_repo)
    (Repository.repoquery_requires cyclic_repo)
    splitlines strip (split_on "|") isdigit py_int ["a"] 4
    (Resolver.initial ["a"])
  = both_queries ["a"; "b"] ++ [Resolver.InfoQuery "c"] /\
  NoDup (both_queries ["a"; "b"] ++ [Resolver.InfoQuery "c"]) /\
  exists fuel st,
    cyclic_loop fuel = Some (Ok st) /\
    Resolver.l_to_process st = [] /\
    NoDup (Resolver.l_processed st).
Proof.
  destruct (ResolverFacts.fallback_asks_once_and_ends
              (Repository.repoquery_info cyclic_repo)
              (Repository.repoquery_requires cyclic_repo)
              splitlines strip (split_on "|") isdigit py_int ["a"])
    as [Honce Hends].
  split; [reflexivity|]. split; [exact (proj1 (Honce 4))|].
  destruct (Hends (Repository.mentioned splitlines strip cyclic_repo))
    as [fuel [r [Hloop [_ [_ [Hok Hnormal]]]]]].
  { intros n out Hn. eapply ResolverFacts.requires_mentioned. exact Hn. }
  destruct Hnormal as [st ->].
  - intros n e. unfold Repository.repoquery_info, Repository.answer.
    cbn [cyclic_repo Repository.known Repository.unknown Repository.lookup].
    repeat match goal with
           | |- context [String.eqb ?a n] => destruct (String.eqb a n)
           end;
      cbn [Repository.info]; try discriminate.
    intros H. injection H as <-. reflexivity.
  - intros n e. unfold Repository.repoquery_requires, Repository.answer.
    cbn [cyclic_repo Repository.known Repository.unknown Repository.lookup].
    repeat match goal with
           | |- context [String.eqb ?a n] => destruct (String.eqb a n)
           end;
      cbn [Repository.requires]; discriminate.
  - intros s e Hd He. unfold isdigit in Hd. unfold py_int in He.
    apply andb_true_iff in Hd. destruct Hd as [Hne Hall].
    destruct (String.eqb s ""); [discriminate|].
    destruct (all_digits_int s 0%Z Hall) as [z Hz]. congruence.
  - exists fuel, st. split; [exact Hloop|].
    destruct (Hok st eq_refl) as [Hq [Hnd _]]. auto.
Defined.

(** The names [letters k] under the string methods. *)
Lemma split_on_letters (k : nat) :
  split_on "010" (letters k) = [letters k].
Proof.
  induction k as [|k IH]; [reflexivity|].
  cbn [letters split_on]. rewrite IH. reflexivity.
Qed.

Lemma splitlines_letters (k : nat) :
  splitlines (letters (S k)) = [letters (S k)].
Proof. unfold splitlines. rewrite split_on_letters. reflexivity. Qed.

Lemma rev_repeat_a (k : nat) :
  rev (repeat "a"%char k) = repeat "a"%char k.
Proof.
  induction k as [|k IH]; [reflexivity|].
  cbn [repeat rev]. rewrite IH. clear IH.
  induction k as [|k IH]; [reflexivity|].
  cbn [repeat app]. now rewrite IH.
Qed.

Lemma letters_repeat (k : nat) :
  list_ascii_of_string (letters k) = repeat "a"%char k.
Proof. induction k as [|k IH]; [reflexivity|]. cbn. now rewrite IH. Qed.

Lemma reverse_letters (k : nat) : reverse (letters k) = letters k.
Proof.
  unfold reverse. rewrite letters_repeat, rev_repeat_a, <- letters_repeat.
  apply string_of_list_ascii_of_string.
Qed.

Lemma strip_letters (k : nat) : strip (letters (S k)) = letters (S k).
Proof.
  unfold strip.
  change (lstrip (letters (S k))) with (letters (S k)).
  rewrite reverse_letters.
  change (lstrip (letters (S k))) with (letters (S k)).
  apply reverse_letters.
Qed.

Lemma letters_length (k : nat) : String.length (letters k) = k.
Proof. induction k as [|k IH]; [reflexivity|]. cbn. now rewrite IH. Qed.

Lemma mem_letters (k : nat) :
  Resolver.mem (letters (S k)) (map letters (seq 1 k)) = false.
Proof.
  apply ResolverFacts.mem_not_In. intros Hin.
  apply in_map_iff in Hin as [j [Hj Hin]].
  apply in_seq in Hin.
  apply (f_equal String.length) in Hj. rewrite !letters_length in Hj. lia.
Qed.

Lemma asked_both_queries (names : list string) :
  Resolver.asked (both_queries names) = names.
Proof.
  induction names as [|n names IH]; [reflexivity|].
  cbn. f_equal. exact IH.
Qed.

(** Against the oracle that always names one requirement more, every
    turn takes up a new name and leaves the next one pending. *)
Lemma endless_run (fuel : nat) :
  forall k,
    Resolver.run nothing_known one_more splitlines strip (split_on "|")
      isdigit py_int ["a"] fuel
      (Resolver.mkLocals [] (map letters (seq 1 k)) [letters (S k)])
    = (both_queries (map letters (seq (S k) fuel)), None).
Proof.
  induction fuel as [|fuel IH]; intros k; [reflexivity|].
  assert (Hstep :
    Resolver.step nothing_known one_more splitlines strip (split_on "|")
      isdigit py_int ["a"]
      (Resolver.mkLocals [] (map letters (seq 1 k)) [letters (S k)])
    = (both_queries [letters (S k)],
       Resolver.Next
         (Resolver.mkLocals [] (map letters (seq 1 (S k)))
            [letters (S (S k))]))).
  { unfold Resolver.step.
    cbn [Resolver.l_to_process Resolver.l_processed Resolver.l_resolved].
    rewrite mem_letters. unfold nothing_known, one_more.
    change (splitlines "") with (@nil string). cbn [Resolver.info_lines].
    unfold Resolver.new_names.
    change (String "a" (letters (S k))) with (letters (S (S k))).
    rewrite splitlines_letters. cbn [map]. rewrite strip_letters.
    replace (map letters (seq 1 k) ++ [letters (S k)])
      with (map letters (seq 1 (S k)))
      by (rewrite seq_S, map_app; reflexivity).
    cbn [filter]. rewrite mem_letters. reflexivity. }
  cbn [Resolver.run]. rewrite Hstep, (IH (S k)). reflexivity.
Qed.

(** C6 as stated fails, in both of its halves.  With [dnf] not
    installed the first query raises [FileNotFoundError], which the
    loop does not handle: the fallback ends there, after one call, with
    [b] still pending, so not every oracle lets it end with its queue
    exhausted.  And against an oracle that names one more requirement
    for every package the loop never ends, however many turns it is
    given: it asks about one new name per turn. *)
Lemma fallback_may_stop_early_or_never :
  (forall fuel,
      Resolver.run dnf_missing dnf_missing splitlines strip (split_on "|")
        isdigit py_int ["a"; "b"] (S fuel) (Resolver.initial ["a"; "b"])
      = ([Resolver.InfoQuery "a"],
         Some (raise FileNotFoundError
                 "[Errno 2] No such file or directory: 'dnf'")) /\
      Resolver._resolve_via_repoquery dnf_missing dnf_missing splitlines
        strip (split_on "|") isdigit py_int ["a"; "b"] (S fuel)
      = Some (raise FileNotFoundError
                "[Errno 2] No such file or directory: 'dnf'")) /\
  ~ (forall (info requires : string -> result string)
            (packages : list string),
        exists fuel st,
          Resolver.loop info requires splitlines strip (split_on "|")
            isdigit py_int packages fuel (Resolver.initial packages)
          = Some (Ok st) /\
          Resolver.l_to_process st = []) /\
  (forall fuel,
      Resolver.loop nothing_known one_more splitlines strip (split_on "|")
        isdigit py_int ["a"] fuel (Resolver.initial ["a"]) = None /\
      Resolver._resolve_via_repoquery nothing_known one_more splitlines
        strip (split_on "|") isdigit py_int ["a"] fuel = None /\
      Resolver.asked
        (Resolver.queries nothing_known one_more splitlines strip
           (split_on "|") isdigit py_int ["a"] fuel (Resolver.initial ["a"]))
      = map letters (seq 1 fuel)).
Proof.
  split; [intros fuel; split; reflexivity|]. split.
  - intros H. destruct (H dnf_missing dnf_missing ["a"; "b"])
      as [[|fuel] [st [Hloop _]]]; discriminate Hloop.
  - intros fuel.
    pose proof (endless_run fuel 0) as Hrun.
    change (Resolver.mkLocals [] (map letters (seq 1 0)) [letters 1])
      with (Resolver.initial ["a"]) in Hrun.
    unfold Resolver._resolve_via_repoquery, Resolver.loop, Resolver.queries.
    rewrite Hrun. cbn [fst snd]. repeat split.
    apply asked_both_queries.
Qed.

(** *** Downloader *)

(** C7 as stated fails: a result marked successful that carries no
    digest gets no line, so the file has no line for the one
    successful result. *)
Lemma successful_result_without_digest_has_no_line :
  List.length
    (Downloader.get_successful_downloads
       (Downloader.mkDownloader tmp_path [unverified])) = 1 /\
  Downloader.checksum_lines [unverified] = [] /\
  snd (Downloader.generate_checksums_file None
         (Downloader.mkDownloader tmp_path [unverified]))
  = Downloader.newline.
Proof. repeat split. Qed.

Lemma checksums_file_lists_verified_results_witness :
  filter Downloader.listed [verified; unverified] = [verified] /\
  snd (Downloader.generate_checksums_file None
         (Downloader.mkDownloader tmp_path [verified; unverified]))
  = "6ae8a75555209fd6c44157c0aed8016e763ff435a19cf186f76863140143ff72"
    +++ "  " +++ "test-1.0-1.x86_64.rpm" +++ Downloader.newline.
Proof.
  split; [reflexivity|].
  destruct (DownloaderFacts.checksums_file_lists_verified_results None
              (Downloader.mkDownloader tmp_path [verified; unverified]))
    as [_ [_ [_ [_ [_ [_ H]]]]]].
  apply (H verified). reflexivity.
Defined.

(** *** Builder *)

Lemma metadata_is_sealed_witness :
  snd sample_build = Ok sample_archive /\
  exists md,
    Builder.metadata (Builder.self (fst sample_build)) = Some md /\
    Builder.bundle_hash (Builder.checksums md) = "".
Proof.
  assert (H : sample_build = (fst sample_build, Ok sample_archive)).
  { vm_compute. reflexivity. }
  split; [rewrite H at 1; reflexivity|].
  apply BuilderFacts.metadata_is_sealed_with_an_empty_bundle_hash in H.
  destruct H
    as [md [members [compression [log [t1 [t2 [t3 [wd [finished
         [Hmd [Hhash _]]]]]]]]]]].
  exists md. split; assumption.
Defined.

(** *** Construction *)

Lemma unsupported_os_major_is_refused_witness :
  (exists msg, Merger.init 7 = Raise (mkExn ValueError msg)) /\
  (exists msg,
      Builder.init 7 manifest_path bundles_dir None (Builder.mkDisk [] [])
      = (Builder.mkDisk [] [], Raise (mkExn ValueError msg))).
Proof.
  destruct (InitFacts.unsupported_os_major_is_refused 7) as [H _].
  destruct (H ltac:(discriminate) ltac:(discriminate)) as [H1 H2].
  split; [exact H1|apply H2].
Defined.

End Scenarios.

(** ** Python [str] methods *)

Module StrFacts.
Import Str.

Lemma append_assoc (a b c : string) : (a +++ b) +++ c = a +++ b +++ c.
Proof. induction a; simpl; congruence. Qed.

Lemma append_empty_r (a : string) : a +++ "" = a.
Proof. induction a; simpl; congruence. Qed.

Lemma length_append (a b : string) :
  String.length (a +++ b) = String.length a + String.length b.
Proof. induction a; simpl; congruence. Qed.

Lemma prefix_char (c a : ascii) (s : string) :
  String.prefix (String c "") (String a s) = Ascii.eqb a c.
Proof.
  simpl. destruct (ascii_dec c a) as [->|n].
  - rewrite Ascii.eqb_refl. now destruct s.
  - symmetry. apply Ascii.eqb_neq. congruence.
Qed.

(** [sep in s] unfolds one character at a time. *)
Lemma contains_cons (c a : ascii) (s : string) :
  contains (String c "") (String a s)
  = Ascii.eqb a c || contains (String c "") s.
Proof.
  change (contains (String c "") (String a s))
    with (String.prefix (String c "") (String a s)
          || contains (String c "") s).
  now rewrite prefix_char.
Qed.

Lemma contains_nil (c : ascii) : contains (String c "") "" = false.
Proof. reflexivity. Qed.

Lemma contains_append (c : ascii) (a b : string) :
  contains (String c "") (a +++ b)
  = contains (String c "") a || contains (String c "") b.
Proof.
  induction a as [|x a IH].
  - reflexivity.
  - change (String x a +++ b) with (String x (a +++ b)).
    rewrite !contains_cons, IH. now rewrite orb_assoc.
Qed.

Lemma contains_sep (c : ascii) (a b : string) :
  contains (String c "") (a +++ String c b) = true.
Proof.
  rewrite contains_append, contains_cons, Ascii.eqb_refl.
  simpl. apply orb_true_r.
Qed.

Lemma rpartition_none (sep : ascii) (s : string) :
  rpartition sep s = None <-> contains (String sep "") s = false.
Proof.
  induction s as [|a s IH].
  - simpl. tauto.
  - rewrite contains_cons. simpl.
    destruct (rpartition sep s) as [[h t]|].
    + split; [discriminate|].
      intros H. apply orb_false_iff in H as [_ H].
      apply IH in H. discriminate.
    + destruct (Ascii.eqb a sep).
      * split; [discriminate|]. simpl. discriminate.
      * simpl. split; [intros _; now apply IH | reflexivity].
Qed.

Lemma rpartition_some (sep : ascii) (s before after : string) :
  rpartition sep s = Some (before, after) <->
  s = before +++ String sep after /\ contains (String sep "") after = false.
Proof.
  revert before. induction s as [|a s IH]; intros before.
  - simpl. split; [discriminate|]. intros [H _]. now destruct before.
  - simpl. destruct (rpartition sep s) as [[h t]|] eqn:E.
    + split.
      * intros H. injection H as <- <-.
        destruct (proj1 (IH h) eq_refl) as [-> Ht]. now split.
      * intros [H Hc]. destruct before as [|b before].
        -- simpl in H. injection H as -> ->.
           apply rpartition_none in Hc. congruence.
        -- simpl in H. injection H as -> ->.
           assert (H : Some (h, t) = Some (before, after)).
           { apply IH. now split. }
           now injection H as -> ->.
    + apply rpartition_none in E. destruct (Ascii.eqb a sep) eqn:Ea.
      * apply Ascii.eqb_eq in Ea as ->. split.
        -- intros H. injection H as <- <-. now split.
        -- intros [H Hc]. destruct before as [|b before].
           ++ simpl in H. now injection H as ->.
           ++ simpl in H. injection H as -> ->.
              rewrite contains_sep in E. discriminate.
      * split; [discriminate|]. intros [H Hc].
        destruct before as [|b before]; simpl in H.
        -- injection H as -> ->. rewrite Ascii.eqb_refl in Ea. discriminate.
        -- injection H as -> ->. rewrite contains_sep in E. discriminate.
Qed.

Lemma partition_none (sep : ascii) (s : string) :
  partition sep s = None <-> contains (String sep "") s = false.
Proof.
  induction s as [|a s IH].
  - simpl. tauto.
  - rewrite contains_cons. simpl. destruct (Ascii.eqb a sep).
    + split; discriminate.
    + simpl. destruct (partition sep s) as [[h t]|].
      * split; [discriminate|]. intros H. apply IH in H. discriminate.
      * split; [intros _; now apply IH | reflexivity].
Qed.

Lemma partition_some (sep : ascii) (s before after : string) :
  partition sep s = Some (before, after) <->
  s = before +++ String sep after /\ contains (String sep "") before = false.
Proof.
  revert before. induction s as [|a s IH]; intros before.
  - simpl. split; [discriminate|]. intros [H _]. now destruct before.
  - simpl. destruct (Ascii.eqb a sep) eqn:Ea.
    + apply Ascii.eqb_eq in Ea as ->. split.
      * intros H. injection H as <- <-. now split.
      * intros [H Hc]. destruct before as [|b before]; simpl in H.
        -- now injection H as ->.
        -- injection H as -> ->. rewrite contains_cons, Ascii.eqb_refl in Hc.
           discriminate.
    + destruct (partition sep s) as [[h t]|] eqn:E.
      * split.
        -- intros H. injection H as <- <-.
           destruct (proj1 (IH h) eq_refl) as [-> Hh]. split; [reflexivity|].
           now rewrite contains_cons, Ea.
        -- intros [H Hc]. destruct before as [|b before]; simpl in H.
           ++ injection H as -> ->. rewrite Ascii.eqb_refl in Ea. discriminate.
           ++ injection H as -> ->. rewrite contains_cons in Hc.
              apply orb_false_iff in Hc as [_ Hc].
              assert (H : Some (h, t) = Some (before, after)).
              { apply IH. now split. }
              now injection H as -> ->.
      * split; [discriminate|]. intros [H Hc].
        destruct before as [|b before]; simpl in H.
        -- injection H as -> ->. rewrite Ascii.eqb_refl in Ea. discriminate.
        -- injection H as -> ->. apply partition_none in E.
           rewrite contains_sep in E. discriminate.
Qed.

(** [s.rsplit(sep, 1)] yields two parts exactly when [sep] occurs. *)
Lemma rsplit1_two (sep : ascii) (s before after : string) :
  rsplit sep 1 s = [before; after] <->
  s = before +++ String sep after /\ contains (String sep "") after = false.
Proof.
  simpl. destruct (rpartition sep s) as [[h t]|] eqn:E.
  - simpl. rewrite <- rpartition_some, E. split; intros H.
    + now injection H as -> ->.
    + now injection H as -> ->.
  - split; [discriminate|]. intros H. apply rpartition_some in H. congruence.
Qed.

Lemma rsplit1_contains (sep : ascii) (s : string) :
  contains (String sep "") s = true ->
  exists before after, rsplit sep 1 s = [before; after].
Proof.
  intros H. simpl. destruct (rpartition sep s) as [[h t]|] eqn:E.
  - now exists h, t.
  - apply rpartition_none in E. congruence.
Qed.

Lemma split1_two (sep : ascii) (s before after : string) :
  split sep 1 s = [before; after] <->
  s = before +++ String sep after /\ contains (String sep "") before = false.
Proof.
  simpl. destruct (partition sep s) as [[h t]|] eqn:E.
  - rewrite <- partition_some, E. split; intros H.
    + now injection H as -> ->.
    + now injection H as -> ->.
  - split; [discriminate|]. intros H. apply partition_some in H. congruence.
Qed.

(** The first piece of a split never holds the separator. *)
Lemma split_hd (sep : ascii) (n : nat) (s : string) :
  contains (String sep "") s = true -> 0 < n ->
  contains (String sep "") (hd "" (split sep n s)) = false.
Proof.
  intros H Hn. destruct n as [|n]; [lia|]. simpl.
  destruct (partition sep s) as [[h t]|] eqn:E.
  - simpl. now apply partition_some in E as [_ E].
  - apply partition_none in E. congruence.
Qed.

Lemma contains_length (sep : ascii) (s : string) :
  contains (String sep "") s = true -> 0 < String.length s.
Proof. destruct s; [discriminate | simpl; lia]. Qed.

(** [s.startswith(p + sep)] holds of [p + sep + rest]. *)
Lemma prefix_append (p rest : string) : String.prefix p (p +++ rest) = true.
Proof.
  induction p as [|c p IH]; simpl.
  - now destruct rest.
  - destruct (ascii_dec c c); [exact IH | congruence].
Qed.

Lemma prefix_iff (p s : string) :
  String.prefix p s = true <-> exists rest, s = p +++ rest.
Proof.
  split.
  - revert s. induction p as [|c p IH]; intros s H.
    + now exists s.
    + destruct s as [|a s]; [discriminate|]. simpl in H.
      destruct (ascii_dec c a) as [->|]; [|discriminate].
      destruct (IH _ H) as [rest ->]. now exists rest.
  - intros [rest ->]. apply prefix_append.
Qed.

End StrFacts.

(** ** resolver.py: the [dnf] helpers *)

Module ResolverDnfFacts.
Import Resolver Str StrFacts ResolverDnf ResolverFacts.
Local Abbreviation subscript := Builder.subscript.

Lemma two_fields (parts : list string) :
  (List.length parts <? 2)%nat = false ->
  exists first second rest, parts = first :: second :: rest.
Proof.
  intros H. apply Nat.ltb_ge in H.
  destruct parts as [|a [|b rest]]; simpl in H; try lia.
  now exists a, b, rest.
Qed.

(** X1.  [_parse_package_line] returns a package exactly for a line
    whose first field reads [name-version-release.arch] (the version
    optionally preceded by [epoch:]) and which has a second field, the
    repository.  The fields are cut at the last dot and the last two
    dashes before it, so putting them together again gives the first
    field back; the package is typed [update]. *)
Theorem parse_package_line_round_trip :
  forall (line : string) (pkg : ResolvedPackage),
    _parse_package_line line = Some pkg <->
    exists (rest : list string) (shown : string),
      split_ws line = nevra pkg :: repo_id pkg :: rest /\
      nevra pkg
      = name pkg +++ "-" +++ shown +++ "-" +++ release pkg +++ "."
        +++ arch pkg /\
      contains "." (arch pkg) = false /\
      contains "-" (release pkg) = false /\
      contains "-" shown = false /\
      (shown = version pkg /\ epoch pkg = "0" /\ contains ":" shown = false \/
       shown = epoch pkg +++ ":" +++ version pkg /\
       contains ":" (epoch pkg) = false) /\
      package_type pkg = "update" /\
      size_bytes pkg = 0%Z /\ advisory_id pkg = None /\ required_by pkg = [].
Proof.
  intros line pkg. unfold _parse_package_line. split.
  - destruct (List.length (split_ws line) <? 2)%nat eqn:Hlen; [discriminate|].
    destruct (two_fields _ Hlen) as [first [second [rest Hparts]]].
    rewrite Hparts. cbn [nth List.length Nat.ltb Nat.leb].
    destruct (contains "." first) eqn:Hdot; [|discriminate]. cbn [negb].
    destruct (rsplit "." 1 first) as [|base [|arch' [|? ?]]] eqn:E1;
      try discriminate.
    apply rsplit1_two in E1 as [Hfirst Harch].
    destruct (contains "-" base) eqn:Hd1; [|discriminate]. cbn [negb].
    destruct (rsplit "-" 1 base) as [|base2 [|release' [|? ?]]] eqn:E2;
      try discriminate.
    apply rsplit1_two in E2 as [Hbase Hrel].
    destruct (contains "-" base2) eqn:Hd2; [|discriminate]. cbn [negb].
    destruct (rsplit "-" 1 base2) as [|name' [|shown [|? ?]]] eqn:E3;
      try discriminate.
    apply rsplit1_two in E3 as [Hbase2 Hshown].
    assert (Hnevra : first = name' +++ "-" +++ shown +++ "-" +++ release'
                             +++ "." +++ arch').
    { rewrite Hfirst, Hbase, Hbase2. now rewrite !append_assoc. }
    destruct (contains ":" shown) eqn:Hcolon.
    + destruct (split ":" 1 shown) as [|epoch' [|version' [|? ?]]] eqn:E4;
        try discriminate.
      apply split1_two in E4 as [Hsplit Hepoch].
      intros H. injection H as <-. cbn.
      exists rest, shown. repeat split; auto.
    + intros H. injection H as <-. cbn.
      exists rest, shown. repeat split; auto.
  - intros [rest [shown [Hparts [Hnevra [Harch [Hrel [Hshown [Hepoch
           [Htype [Hsize [Hadv Hreq]]]]]]]]]]].
    rewrite Hparts. cbn [nth List.length Nat.ltb Nat.leb].
    assert (E1 : rsplit "." 1 (nevra pkg)
                 = [name pkg +++ "-" +++ shown +++ "-" +++ release pkg;
                    arch pkg]).
    { apply rsplit1_two. split; [|exact Harch].
      rewrite Hnevra. now rewrite !append_assoc. }
    assert (Hdot : contains "." (nevra pkg) = true).
    { rewrite Hnevra.
      replace (name pkg +++ "-" +++ shown +++ "-" +++ release pkg +++ "."
               +++ arch pkg)
        with ((name pkg +++ "-" +++ shown +++ "-" +++ release pkg)
              +++ String "." (arch pkg))
        by now rewrite !append_assoc.
      apply contains_sep. }
    rewrite Hdot, E1. cbn [negb].
    assert (E2 : rsplit "-" 1 (name pkg +++ "-" +++ shown +++ "-"
                               +++ release pkg)
                 = [name pkg +++ "-" +++ shown; release pkg]).
    { apply rsplit1_two. split; [|exact Hrel]. now rewrite !append_assoc. }
    assert (Hd1 : contains "-" (name pkg +++ "-" +++ shown +++ "-"
                               +++ release pkg) = true)
      by apply contains_sep.
    rewrite Hd1, E2. cbn [negb].
    assert (E3 : rsplit "-" 1 (name pkg +++ "-" +++ shown)
                 = [name pkg; shown]).
    { apply rsplit1_two. now split. }
    assert (Hd2 : contains "-" (name pkg +++ "-" +++ shown) = true)
      by apply contains_sep.
    rewrite Hd2, E3. cbn [negb].
    destruct pkg as [n e v r a nv repo t sz adv req].
    cbn [name epoch version release arch nevra repo_id package_type
         size_bytes advisory_id required_by] in *.
    subst t sz adv req.
    destruct Hepoch as [[-> [-> Hc]] | [-> Hc]].
    + now rewrite Hc.
    + assert (E4 : split ":" 1 (e +++ ":" +++ v) = [e; v]).
      { apply split1_two. now split. }
      assert (Hc' : contains ":" (e +++ ":" +++ v) = true)
        by apply contains_sep.
      now rewrite Hc', E4.
Qed.

Lemma set_add_incl (x : string) (s universe : list string) :
  In x universe -> incl s universe -> incl (set_add x s) universe.
Proof.
  intros Hx Hs. unfold set_add. destruct (mem x s); [exact Hs|].
  apply incl_app; [exact Hs|]. intros y [<-|[]]. exact Hx.
Qed.

Lemma set_add_NoDup (x : string) (s : list string) :
  NoDup s -> NoDup (set_add x s).
Proof.
  intros Hs. unfold set_add. destruct (mem x s) eqn:E; [exact Hs|].
  apply mem_not_In in E. now apply NoDup_snoc.
Qed.

Lemma set_add_Forall (P : string -> Prop) (x : string) (s : list string) :
  P x -> Forall P s -> Forall P (set_add x s).
Proof.
  intros Hx Hs. unfold set_add. destruct (mem x s); [exact Hs|].
  apply Forall_app. split; [exact Hs | now constructor].
Qed.

(** What holds of every name a line yields holds of the set collected. *)
Lemma collect_Forall (P : string -> Prop)
  (of_line : string -> option string) (lines : list string) :
  (forall line pkg_name, of_line line = Some pkg_name -> P pkg_name) ->
  Forall P (collect of_line lines) /\ NoDup (collect of_line lines).
Proof.
  intros H. unfold collect.
  assert (G : forall acc, Forall P acc /\ NoDup acc ->
              let out := fold_left
                (fun names line =>
                   match of_line line with
                   | Some pkg_name => set_add pkg_name names
                   | None => names
                   end) lines acc in
              Forall P out /\ NoDup out).
  { induction lines as [|line lines IH]; intros acc [Ha Hn]; simpl.
    - now split.
    - apply IH. destruct (of_line line) as [pkg_name|] eqn:E.
      + split; [apply set_add_Forall; eauto | now apply set_add_NoDup].
      + now split. }
  apply G. split; constructor.
Qed.

Lemma update_of_line_installed (installed_packages : list string)
  (line pkg_name : string) :
  update_of_line installed_packages line = Some pkg_name ->
  In pkg_name installed_packages.
Proof.
  unfold update_of_line.
  destruct (negb (nonempty (strip line)) || startswith (strip line) "Obsoleting");
    [discriminate|].
  destruct (2 <=? List.length (split_ws (strip line)))%nat; [|discriminate].
  destruct (mem _ installed_packages) eqn:E; [|discriminate].
  intros H. injection H as <-. now apply mem_In.
Qed.

Lemma security_of_line_no_dash (line pkg_name : string) :
  security_of_line line = Some pkg_name -> contains "-" pkg_name = false.
Proof.
  unfold security_of_line.
  destruct (3 <=? List.length (split_ws line))%nat; [|discriminate].
  destruct (contains "-" (without_arch (nth 2 (split_ws line) ""))) eqn:E;
    intros H; injection H as <-; [|exact E].
  apply split_hd; [exact E | exact (contains_length _ _ E)].
Qed.

Lemma classify_type (security_updates updates : list string)
  (pkg : ResolvedPackage) :
  let r := classify security_updates updates pkg in
  (package_type r = "security" /\ In (name pkg) security_updates) \/
  (package_type r = "update" /\ In (name pkg) updates) \/
  package_type r = "dependency".
Proof.
  unfold classify.
  destruct (mem (name pkg) security_updates) eqn:Es.
  - left. split; [reflexivity | now apply mem_In].
  - destruct (mem (name pkg) updates) eqn:Eu.
    + right. left. split; [reflexivity | now apply mem_In].
    + right. right. reflexivity.
Qed.

Lemma classify_all_installed (security_updates updates : list string)
  (all_packages : list ResolvedPackage) :
  forall self,
    installed_packages
      (classify_all security_updates updates all_packages self)
    = installed_packages self.
Proof.
  induction all_packages as [|p ps IH]; intros self; simpl;
    [reflexivity|]. now rewrite IH.
Qed.

(** What [resolve] leaves in [self.resolved], whatever [dnf] did. *)
Lemma resolve_resolved (dnf : Dnf) (self : DependencyResolver) :
  match resolve dnf self with
  | (self', Ok out) =>
      resolved self' = out /\
      installed_packages self' = installed_packages self /\
      exists security_updates updates all_packages,
        out = map (classify security_updates updates) all_packages /\
        (out <> [] ->
         snd (Resolver._get_available_updates dnf (installed_packages self))
         = Ok updates /\
         (if prefer_security self
          then snd (Resolver._get_security_updates dnf)
          else Ok []) = Ok security_updates)
  | (self', Raise e) =>
      resolved self' = [] /\
      installed_packages self' = installed_packages self
  end.
Proof.
  unfold resolve. cbn [installed_packages prefer_security].
  destruct (Resolver._get_available_updates dnf (installed_packages self))
    as [es1 [updates|e]]; cbn [snd]; [|now split].
  destruct updates as [|u updates].
  - split; [reflexivity|]. split; [reflexivity|].
    exists [], [], []. split; [reflexivity | congruence].
  - cbn [add_errors prefer_security installed_packages resolved errors].
    destruct (if prefer_security self then Resolver._get_security_updates dnf
              else ([], Ok [])) as [es2 [security_updates|e]] eqn:E2;
      [|now split].
    destruct (Resolver._resolve_dependencies dnf (u :: updates))
      as [es3 [all_packages|e]]; [|now split].
    rewrite classify_all_resolved, classify_all_installed.
    cbn [resolved installed_packages app].
    split; [reflexivity|]. split; [reflexivity|].
    exists security_updates, (u :: updates), all_packages.
    split; [reflexivity|]. intros _. split; [reflexivity|].
    destruct (prefer_security self); [now rewrite E2 | congruence].
Qed.

Section Run.
Variable dnf_check_update : result CompletedProcess.
Variable dnf_updateinfo : result CompletedProcess.
Variable dnf_download : list string -> result CompletedProcess.
Variable _resolve_via_repoquery :
  list string -> result (list ResolvedPackage).

Local Abbreviation _get_available_updates :=
  (_get_available_updates dnf_check_update).
Local Abbreviation _get_security_updates :=
  (_get_security_updates dnf_updateinfo).
Local Abbreviation _resolve_dependencies :=
  (_resolve_dependencies dnf_download _resolve_via_repoquery).
Local Abbreviation helpers :=
  (helpers dnf_check_update dnf_updateinfo dnf_download
           _resolve_via_repoquery).

Lemma available_updates_incl (installed_packages ms ups : list string) :
  _get_available_updates installed_packages = (ms, Ok ups) ->
  incl ups installed_packages.
Proof.
  unfold ResolverDnf._get_available_updates.
  destruct dnf_check_update as [result|e].
  - destruct (code_in (returncode result) [0; 100]%Z); cbn [negb];
      intros H; injection H as _ <-; [|intros x []].
    destruct (collect_Forall (fun n => In n installed_packages)
                (update_of_line installed_packages)
                (splitlines (stdout result))) as [Hin _].
    { intros line pkg_name. apply update_of_line_installed. }
    intros x Hx. now apply (proj1 (Forall_forall _ _) Hin).
  - destruct (caught_by e [CalledProcessError]); [|discriminate].
    intros H. injection H as _ <-. intros x [].
Qed.

Lemma security_updates_no_dash (ms secs : list string) :
  _get_security_updates = (ms, Ok secs) ->
  Forall (fun pkg_name => contains "-" pkg_name = false) secs.
Proof.
  unfold ResolverDnf._get_security_updates.
  destruct dnf_updateinfo as [result|e].
  - destruct (returncode result =? 0)%Z; cbn [negb];
      intros H; injection H as _ <-; [|constructor].
    apply (collect_Forall (fun n => contains "-" n = false)).
    intros line pkg_name. apply security_of_line_no_dash.
  - destruct (caught_by e [CalledProcessError; TimeoutExpired]);
      [|discriminate].
    intros H. injection H as _ <-. constructor.
Qed.

(** X2.  [_get_available_updates] never reports a package that is not
    installed, and reports each name once.  When [dnf check-update]
    exits with a code other than 0 and 100, or raises
    [CalledProcessError], it returns the empty set and leaves exactly
    one message; any other exception passes through, nothing being
    recorded. *)
Theorem available_updates_are_installed :
  forall (installed_packages : list string),
    match _get_available_updates installed_packages with
    | (messages, Ok updates) =>
        incl updates installed_packages /\ NoDup updates /\
        match dnf_check_update with
        | Ok result =>
            if code_in (returncode result) [0; 100]%Z then messages = []
            else updates = [] /\
                 messages = ["dnf check-update failed: " +++ stderr result]
        | Raise e =>
            caught_by e [CalledProcessError] = true /\
            updates = [] /\
            messages = ["Failed to check updates: " +++ exn_msg e]
        end
    | (messages, Raise e) =>
        messages = [] /\ dnf_check_update = Raise e /\
        caught_by e [CalledProcessError] = false
    end.
Proof.
  intros installed_packages. unfold ResolverDnf._get_available_updates.
  destruct dnf_check_update as [result|e].
  - destruct (code_in (returncode result) [0; 100]%Z); cbn [negb].
    + destruct (collect_Forall (fun n => In n installed_packages)
                  (update_of_line installed_packages)
                  (splitlines (stdout result))) as [Hin Hnd].
      { intros line pkg_name. apply update_of_line_installed. }
      repeat split; [|exact Hnd].
      intros x Hx. now apply (proj1 (Forall_forall _ _) Hin).
    + repeat split; [intros x [] | constructor].
  - destruct (caught_by e [CalledProcessError]) eqn:E.
    + repeat split; [intros x [] | constructor].
    + now repeat split.
Qed.

(** X3.  Every name [_get_security_updates] returns is cut at its first
    dash, so none contains one.  A non-zero exit of [dnf updateinfo]
    gives the empty set without any message; a [CalledProcessError] or
    a timeout gives the empty set and one message. *)
Theorem security_updates_hold_no_dash :
  match _get_security_updates with
  | (messages, Ok security_pkgs) =>
      Forall (fun pkg_name => contains "-" pkg_name = false) security_pkgs /\
      match dnf_updateinfo with
      | Ok result =>
          messages = [] /\
          ((returncode result <> 0)%Z -> security_pkgs = [])
      | Raise e =>
          caught_by e [CalledProcessError; TimeoutExpired] = true /\
          security_pkgs = [] /\
          messages = ["Failed to get security updates: " +++ exn_msg e]
      end
  | (messages, Raise e) =>
      messages = [] /\ dnf_updateinfo = Raise e /\
      caught_by e [CalledProcessError; TimeoutExpired] = false
  end.
Proof.
  unfold ResolverDnf._get_security_updates.
  destruct dnf_updateinfo as [result|e].
  - destruct (returncode result =? 0)%Z eqn:E; cbn [negb].
    + split; [|split; [reflexivity|]].
      * apply (collect_Forall (fun n => contains "-" n = false)).
        intros line pkg_name. apply security_of_line_no_dash.
      * apply Z.eqb_eq in E. congruence.
    + repeat split. constructor.
  - destruct (caught_by e [CalledProcessError; TimeoutExpired]) eqn:E.
    + repeat split. constructor.
    + now repeat split.
Qed.

Lemma parse_lines_outside (lines : list string) :
  forall resolved,
    (forall line,
        In line lines ->
        contains "Installing:" (strip line) = false /\
        contains "Upgrading:" (strip line) = false) ->
    parse_lines lines false resolved = resolved.
Proof.
  induction lines as [|line lines IH]; intros resolved H; simpl.
  - reflexivity.
  - destruct (H line (or_introl eq_refl)) as [-> ->]. simpl.
    apply IH. intros l Hl. apply H. now right.
Qed.

(** X4.  [_resolve_dependencies] reads package lines only after a line
    that contains [Installing:] or [Upgrading:]: when [dnf download]
    prints no such line, whatever else it prints, the answer is the one
    of the repoquery fallback.  It is also the fallback's when [dnf]
    raises [CalledProcessError], one message being left.  An empty
    update set is answered with the empty list, whatever [dnf] and the
    fallback would say. *)
Theorem resolve_dependencies_needs_a_header :
  forall (update_packages : list string),
    (update_packages = [] ->
     _resolve_dependencies update_packages = ([], Ok [])) /\
    (update_packages <> [] ->
     (forall result,
         dnf_download update_packages = Ok result ->
         (forall line,
             In line (splitlines (stdout result)
                      ++ splitlines (stderr result)) ->
             contains "Installing:" (strip line) = false /\
             contains "Upgrading:" (strip line) = false) ->
         _resolve_dependencies update_packages
         = ([], _resolve_via_repoquery update_packages)) /\
     (forall e,
         dnf_download update_packages = Raise e ->
         caught_by e [CalledProcessError] = true ->
         _resolve_dependencies update_packages
         = (["Failed to resolve dependencies: " +++ exn_msg e],
            _resolve_via_repoquery update_packages))).
Proof.
  intros update_packages. unfold ResolverDnf._resolve_dependencies.
  split.
  - now intros ->.
  - intros Hne. destruct update_packages as [|p ps]; [congruence|].
    split.
    + intros result Hrun Hlines. rewrite Hrun.
      now rewrite parse_lines_outside.
    + intros e Hrun Hcaught. now rewrite Hrun, Hcaught.
Qed.

(** X5.  With the helpers as the source defines them, every package
    [resolve] returns is typed [security], [update] or [dependency];
    one typed [update] is an installed package; and one whose name
    contains a dash is never typed [security], since the names of the
    security set are cut at their first dash. *)
Theorem resolve_types_with_the_helpers :
  forall (self self' : DependencyResolver) (out : list ResolvedPackage),
    resolve helpers self = (self', Ok out) ->
    forall r,
      In r out ->
      (package_type r = "security" \/ package_type r = "update" \/
       package_type r = "dependency") /\
      (package_type r = "update" -> In (name r) (installed_packages self)) /\
      (contains "-" (name r) = true -> package_type r <> "security").
Proof.
  intros self self' out Hres r Hr.
  pose proof (resolve_resolved helpers self) as H. rewrite Hres in H.
  destruct H as [_ [_ [security_updates [updates [all_packages [Hout Hsets]]]]]].
  assert (Hne : out <> []) by (intros ->; destruct Hr).
  destruct (Hsets Hne) as [Hupd Hsec]. clear Hsets.
  cbn [Resolver._get_available_updates Resolver._get_security_updates
       ResolverDnf.helpers] in Hupd, Hsec.
  rewrite Hout in Hr. apply in_map_iff in Hr as [pkg [<- Hpkg]].
  rewrite classify_name.
  assert (Hinst : incl updates (installed_packages self)).
  { destruct (_get_available_updates (installed_packages self))
      as [ms [ups|e]] eqn:A; cbn [snd] in Hupd; [|discriminate].
    injection Hupd as <-. exact (available_updates_incl _ A). }
  assert (Hdash : forall n, In n security_updates -> contains "-" n = false).
  { destruct (prefer_security self).
    - destruct _get_security_updates as [ms [secs|e]] eqn:S;
        cbn [snd] in Hsec; [|discriminate].
      injection Hsec as <-. apply security_updates_no_dash in S.
      intros n Hn. now apply (proj1 (Forall_forall _ _) S).
    - injection Hsec as <-. intros n []. }
  destruct (classify_type security_updates updates pkg)
    as [[Ht Hin] | [[Ht Hin] | Ht]]; rewrite Ht.
  - split; [auto|]. split; [discriminate|].
    intros Hc. apply Hdash in Hin. congruence.
  - split; [auto|]. split; [intros _; now apply Hinst | discriminate].
  - split; [auto|]. split; discriminate.
Qed.

End Run.

Lemma count_type_classified (security_updates updates : list string)
  (all_packages : list ResolvedPackage) :
  let out := map (classify security_updates updates) all_packages in
  count_type "update" out + count_type "security" out
  + count_type "dependency" out = List.length out.
Proof.
  unfold count_type. induction all_packages as [|p ps IH]; simpl.
  - reflexivity.
  - destruct (classify_type security_updates updates p)
      as [[Ht _] | [[Ht _] | Ht]]; rewrite Ht; simpl; lia.
Qed.

(** X6.  After [resolve], however it ended, the three counts that
    [export_resolution] writes add up to its [resolved_count]: every
    package held is typed [update], [security] or [dependency].  When
    [resolve] raised, the resolver holds no package at all, and the
    document lists one entry per package held. *)
Theorem export_counts_add_up :
  forall (dnf : Dnf) (self : DependencyResolver) (output_path : Path),
    let self' := fst (resolve dnf self) in
    exists (updates securities dependencies total : nat) (listed : list json),
      subscript (snd (export_resolution output_path self')) "update_count"
      = Ok (JInt (Z.of_nat updates)) /\
      subscript (snd (export_resolution output_path self')) "security_count"
      = Ok (JInt (Z.of_nat securities)) /\
      subscript (snd (export_resolution output_path self')) "dependency_count"
      = Ok (JInt (Z.of_nat dependencies)) /\
      subscript (snd (export_resolution output_path self')) "resolved_count"
      = Ok (JInt (Z.of_nat total)) /\
      subscript (snd (export_resolution output_path self')) "packages"
      = Ok (JList listed) /\
      updates + securities + dependencies = total /\
      List.length listed = total /\
      (forall e, snd (resolve dnf self) = Raise e -> total = 0).
Proof.
  intros dnf self output_path self'.
  exists (count_type "update" (resolved self')),
         (count_type "security" (resolved self')),
         (count_type "dependency" (resolved self')),
         (List.length (resolved self')),
         (map to_dict (resolved self')).
  repeat split.
  - subst self'. pose proof (resolve_resolved dnf self) as H.
    destruct (resolve dnf self) as [s [out|e]]; cbn [fst].
    + destruct H as [-> [_ [secs [ups [all [-> _]]]]]].
      apply count_type_classified.
    + destruct H as [-> _]. reflexivity.
  - apply length_map.
  - intros e He. subst self'. pose proof (resolve_resolved dnf self) as H.
    destruct (resolve dnf self) as [s [out|e']]; cbn [fst snd] in *;
      [discriminate|].
    destruct H as [-> _]. reflexivity.
Qed.

End ResolverDnfFacts.

(** ** downloader.py: downloading and verifying *)

Module DownloaderRunFacts.
Import Resolver Downloader Str StrFacts DownloaderRun DownloaderFacts.

Lemma substring_prefix (n : nat) :
  forall s, exists rest, s = String.substring 0 n s +++ rest.
Proof.
  induction n as [|n IH]; intros s.
  - exists s. now destruct s.
  - destruct s as [|c s]; simpl.
    + now exists "".
    + destruct (IH s) as [rest H]. exists rest. now rewrite <- H.
Qed.

(** A file's stem begins its name. *)
Lemma stem_prefix (p : Path) : exists suffix, path_name p = stem p +++ suffix.
Proof.
  unfold stem. destruct (rfind "." (path_name p)) as [i|].
  - destruct ((0 <? i) && (i <? String.length (path_name p) - 1))%nat.
    + apply substring_prefix.
    + exists "". now rewrite append_empty_r.
  - exists "". now rewrite append_empty_r.
Qed.

(** [s.rsplit(sep, 2)] has three parts only when [s] holds two
    separators, and then the first part and a separator begin [s]. *)
Lemma rsplit2_three (sep : ascii) (s : string) :
  (3 <=? List.length (rsplit sep 2 s))%nat = true ->
  exists rest, s = nth 0 (rsplit sep 2 s) "" +++ String sep rest.
Proof.
  simpl. destruct (rpartition sep s) as [[h t]|] eqn:E; [|discriminate].
  apply rpartition_some in E as [-> _].
  destruct (rpartition sep h) as [[h' t']|] eqn:E'; [|discriminate].
  apply rpartition_some in E' as [-> _]. intros _. simpl.
  exists (t' +++ String sep t). now rewrite append_assoc.
Qed.

Lemma str_dict_get_set (k n : string) (v : Path) (d : list (string * Path)) :
  str_dict_get n (str_dict_set k v d)
  = if String.eqb k n then Some v else str_dict_get n d.
Proof.
  induction d as [|[k' v'] d IH]; simpl.
  - reflexivity.
  - destruct (String.eqb k' k) eqn:E; simpl.
    + apply String.eqb_eq in E as ->. now destruct (String.eqb k n).
    + rewrite IH. destruct (String.eqb k' n) eqn:E'; [|reflexivity].
      apply String.eqb_eq in E' as ->. now rewrite String.eqb_sym, E.
Qed.

(** A file indexed under a name is called after it. *)
Lemma index_rpm_named (rpm_by_name : list (string * Path)) (rpm_path : Path)
  (n : string) (p : Path) :
  str_dict_get n (index_rpm rpm_by_name rpm_path) = Some p ->
  str_dict_get n rpm_by_name = Some p \/
  (p = rpm_path /\ String.prefix (n +++ "-") (path_name p) = true).
Proof.
  unfold index_rpm.
  destruct (3 <=? List.length (rsplit "-" 2 (stem rpm_path)))%nat eqn:E;
    [|now left].
  rewrite str_dict_get_set.
  destruct (String.eqb (nth 0 (rsplit "-" 2 (stem rpm_path)) "") n) eqn:En;
    [|now left].
  apply String.eqb_eq in En. intros H. injection H as <-. right.
  split; [reflexivity|].
  destruct (rsplit2_three _ _ E) as [rest Hstem].
  destruct (stem_prefix rpm_path) as [suffix Hname].
  apply prefix_iff. exists (rest +++ suffix).
  rewrite Hname, Hstem, En. now rewrite !append_assoc.
Qed.

Lemma index_rpms_named (downloaded_rpms : list Path) (n : string) (p : Path) :
  str_dict_get n (index_rpms downloaded_rpms) = Some p ->
  In p downloaded_rpms /\ String.prefix (n +++ "-") (path_name p) = true.
Proof.
  unfold index_rpms.
  assert (G : forall l acc,
             str_dict_get n (fold_left index_rpm l acc) = Some p ->
             str_dict_get n acc = Some p \/
             (In p l /\ String.prefix (n +++ "-") (path_name p) = true)).
  { induction l as [|f l IH]; intros acc H; simpl in *.
    - now left.
    - destruct (IH _ H) as [H1 | [H1 H2]].
      + destruct (index_rpm_named _ _ _ H1) as [H3 | [-> H3]].
        * now left.
        * right. split; [now left | exact H3].
      + right. split; [now right | exact H2]. }
  intros H. destruct (G _ _ H) as [H1 | H1]; [discriminate | exact H1].
Qed.

Section Run.
Variable w : World.
Variable exists_ : Path -> bool.
Variable _compute_sha256 : Path -> result string.
Variable dnf_download : Path -> list string -> result Z.

Local Abbreviation verify_package := (verify_package exists_ _compute_sha256).
Local Abbreviation verify_packages :=
  (verify_packages exists_ _compute_sha256).
Local Abbreviation download_packages :=
  (download_packages w exists_ _compute_sha256 dnf_download).

Local Abbreviation checked := (checked _compute_sha256).

Lemma found_checked (downloaded_rpms : list Path) (pkg : ResolvedPackage)
  (rpm_file : Path) (r : DownloadResult) :
  In rpm_file downloaded_rpms -> named_after pkg rpm_file = true ->
  found _compute_sha256 pkg rpm_file = Ok r ->
  package r = pkg /\ checked downloaded_rpms r.
Proof.
  intros Hin Hnamed. unfold found.
  destruct (_compute_sha256 rpm_file) as [digest|e] eqn:E; [|discriminate].
  simpl. intros H. injection H as <-. split; [reflexivity|].
  unfold DownloaderRun.checked. cbn [success package local_path sha256 error]. split.
  - symmetry. apply existsb_exists. now exists rpm_file.
  - split; [|discriminate]. intros _. now exists rpm_file, digest.
Qed.

Lemma verify_package_checked (downloaded_rpms : list Path)
  (pkg : ResolvedPackage) (r : DownloadResult) :
  verify_package downloaded_rpms (index_rpms downloaded_rpms) pkg = Ok r ->
  package r = pkg /\ checked downloaded_rpms r.
Proof.
  unfold DownloaderRun.verify_package.
  assert (P : partial_match _compute_sha256 downloaded_rpms pkg = Ok r ->
              package r = pkg /\ checked downloaded_rpms r).
  { unfold partial_match.
    destruct (find (named_after pkg) downloaded_rpms) as [rpm_file|] eqn:F.
    - apply find_some in F as [Hin Hnamed]. now apply found_checked.
    - intros H. injection H as <-. split; [reflexivity|].
      unfold DownloaderRun.checked. cbn [success package local_path sha256 error].
      split; [|split; [discriminate | now intros _]].
      symmetry. apply not_true_is_false. intros Hex.
      apply existsb_exists in Hex as [f [Hin Hnamed]].
      pose proof (find_none _ _ F _ Hin) as Hf. congruence. }
  destruct (str_dict_get (name pkg) (index_rpms downloaded_rpms))
    as [rpm_path|] eqn:G; [|exact P].
  destruct (exists_ rpm_path); [|exact P].
  apply index_rpms_named in G as [Hin Hpre].
  now apply found_checked.
Qed.

Lemma verify_packages_checked (downloaded_rpms : list Path)
  (packages : list ResolvedPackage) :
  forall self self',
    verify_packages downloaded_rpms (index_rpms downloaded_rpms) packages self
    = (self', Ok tt) ->
    exists rs,
      results self' = results self ++ rs /\
      map package rs = packages /\
      Forall (checked downloaded_rpms) rs.
Proof.
  induction packages as [|pkg rest IH]; intros self self' H; simpl in H.
  - injection H as <-. exists []. now rewrite app_nil_r.
  - destruct (verify_package downloaded_rpms (index_rpms downloaded_rpms) pkg)
      as [r|e] eqn:E; [|discriminate].
    apply verify_package_checked in E as [Hpkg Hrec].
    destruct (IH _ _ H) as [rs [Hres [Hmap Hall]]].
    cbn [results] in Hres. exists (r :: rs). split; [|split].
    + rewrite Hres, <- app_assoc. reflexivity.
    + simpl. now rewrite Hpkg, Hmap.
    + now constructor.
Qed.

Lemma verify_packages_dir (downloaded_rpms : list Path)
  (rpm_by_name : list (string * Path)) (packages : list ResolvedPackage) :
  forall self r,
    verify_packages downloaded_rpms rpm_by_name packages self = r ->
    download_dir (fst r) = download_dir self.
Proof.
  induction packages as [|pkg rest IH]; intros self r H; simpl in H.
  - now subst r.
  - destruct (verify_package downloaded_rpms rpm_by_name pkg) as [x|e].
    + now rewrite (IH _ _ H).
    + now subst r.
Qed.

Lemma download_packages_verified (packages : list ResolvedPackage)
  (self self' : RPMDownloader) (rs : list DownloadResult) :
  download_packages packages self = (self', Ok rs) ->
  results self' = rs /\
  download_dir self' = download_dir self /\
  exists self1,
    verify_packages (glob w (download_dir self) ".rpm")
      (index_rpms (glob w (download_dir self) ".rpm")) packages
      (mkDownloader (download_dir self) []) = (self1, Ok tt) /\
    results self1 = rs.
Proof.
  unfold DownloaderRun.download_packages. destruct packages as [|pkg rest].
  - simpl. intros H. injection H as <- <-. repeat split.
    now exists (mkDownloader (download_dir self) []).
  - cbn [map].
    destruct (match dnf_download _ _ with
              | Ok _ => Ok tt
              | Raise e =>
                  if caught_by e [CalledProcessError] then Ok tt else Raise e
              end) as [[]|e]; [|discriminate].
    unfold _verify_downloads. cbn [download_dir].
    destruct (verify_packages _ _ (pkg :: rest) _) as [self1 [[]|e]] eqn:V;
      [|discriminate].
    intros H. injection H as <- <-. split; [reflexivity|]. split.
    + exact (verify_packages_dir _ _ _ _ V).
    + now exists self1.
Qed.

(** X7.  When [download_packages] returns, it has recorded one result
    per requested package, in the order requested, and returns that
    list.  A package is marked successful exactly when some [*.rpm]
    file of the download directory has a name that starts with the
    package's name and a dash; the result then carries such a file and
    its digest, and otherwise the fixed error and neither path nor
    digest. *)
Theorem download_packages_records_each_package :
  forall (packages : list ResolvedPackage) (self self' : RPMDownloader)
         (rs : list DownloadResult),
    download_packages packages self = (self', Ok rs) ->
    results self' = rs /\
    download_dir self' = download_dir self /\
    map package rs = packages /\
    Forall (checked (glob w (download_dir self) ".rpm")) rs.
Proof.
  intros packages self self' rs H.
  apply download_packages_verified in H
    as [Hres [Hdir [self1 [V Hrs]]]].
  apply verify_packages_checked in V as [rs' [Hres' [Hmap Hall]]].
  cbn [results app] in Hres'. rewrite Hrs in Hres'. subst rs'.
  now repeat split.
Qed.

(** X8.  After [download_packages], the two counts that the builder
    logs add up to the number of packages requested; and, digests
    being non-empty, [generate_checksums_file] writes one line for
    each successful download and no other. *)
Theorem downloaded_and_failed_add_up :
  forall (packages : list ResolvedPackage) (self self' : RPMDownloader)
         (rs : list DownloadResult),
    (forall rpm_file digest,
        _compute_sha256 rpm_file = Ok digest -> digest <> "") ->
    download_packages packages self = (self', Ok rs) ->
    List.length (get_successful_downloads self')
    + List.length (get_failed_downloads self')
    = List.length packages /\
    filter listed (results self') = get_successful_downloads self' /\
    List.length (checksum_lines (results self'))
    = List.length (get_successful_downloads self').
Proof.
  intros packages self self' rs Hdigest H.
  apply download_packages_verified in H
    as [Hres [_ [self1 [V Hrs]]]].
  apply verify_packages_checked in V as [rs' [Hres' [Hmap Hall]]].
  cbn [results app] in Hres'. rewrite Hrs in Hres'. subst rs'.
  assert (Hwf : Forall well_formed (results self')).
  { rewrite Hres. eapply Forall_impl; [|exact Hall].
    intros r [_ [Hs _]] Hok. destruct (Hs Hok)
      as [rpm_file [digest [_ [_ [Hd [Hp [Hsha _]]]]]]].
    split; [exists digest | exists rpm_file]; eauto. }
  split; [|split].
  - unfold get_successful_downloads, get_failed_downloads.
    rewrite Hres, <- Hmap, length_map. clear.
    induction rs as [|r rs IH]; simpl; [reflexivity|].
    destruct (success r); simpl; lia.
  - now apply well_formed_listed.
  - unfold checksum_lines. rewrite length_map.
    rewrite <- (well_formed_listed self' Hwf).
    apply Permutation_length, filter_perm, sorted_perm.
Qed.

(** X24.  When [download_all_updates] returns, its results are one per
    resolved package, in order.  When nothing was resolved, the
    messages are the single line [No packages to download]: whatever
    the resolver recorded in [errors], for instance that [dnf] failed,
    is not handed on.  Otherwise the messages are the resolver's. *)
Theorem download_all_updates_reports_the_resolution :
  forall (dnf : Dnf) (package_list : list string) (output_dir : Path)
         (results : list DownloadResult) (messages : list string),
    DownloaderRun.download_all_updates w exists_ _compute_sha256
      dnf_download dnf package_list output_dir = Ok (results, messages) ->
    exists resolved,
      snd (resolve dnf (Resolver.init package_list true)) = Ok resolved /\
      map package results = resolved /\
      messages
      = match resolved with
        | [] => ["No packages to download"]
        | _ :: _ =>
            Resolver.errors (fst (resolve dnf (Resolver.init package_list true)))
        end.
Proof.
  intros dnf package_list output_dir results messages.
  unfold DownloaderRun.download_all_updates.
  destruct (resolve dnf (Resolver.init package_list true))
    as [resolver [resolved|e]]; cbn [bind fst snd]; [|discriminate].
  destruct resolved as [|pkg rest].
  - intros H. injection H as <- <-. now exists [].
  - destruct (download_packages (pkg :: rest) (mkDownloader output_dir []))
      as [self' [rs|e]] eqn:Hdl; cbn [bind snd]; [|discriminate].
    intros H. injection H as <- <-.
    apply download_packages_verified in Hdl as [_ [_ [self1 [V Hrs]]]].
    apply verify_packages_checked in V as [rs' [Hres [Hmap _]]].
    cbn [Downloader.results app] in Hres. rewrite Hrs in Hres. subst rs'.
    exists (pkg :: rest). now repeat split.
Qed.

End Run.

End DownloaderRunFacts.

(** ** merger.py: repositories and the merge report *)

Module MergerReportFacts.
Import Merger MergerReport PyFacts StrFacts MergerFacts.
Local Abbreviation subscript := Builder.subscript.

(** *** Dicts keyed by hashable values *)

Lemma pydict_get_in (V : Type) (k : json) (v : V) (d : list (json * V)) :
  pydict_get k d = Some v -> exists k', In (k', v) d /\ py_eq k' k = true.
Proof.
  induction d as [|[k0 v0] d IH]; simpl; [discriminate|].
  destruct (py_eq k0 k) eqn:E.
  - intros H. injection H as ->. exists k0. auto.
  - intros H. destruct (IH H) as [k' [Hin Heq]]. exists k'. auto.
Qed.

Lemma pydict_in_get (V : Type) (k k' : json) (v : V) (d : list (json * V)) :
  In (k', v) d -> py_eq k' k = true -> exists v', pydict_get k d = Some v'.
Proof.
  induction d as [|[k0 v0] d IH]; simpl; [intros []|].
  intros [H|H] Heq.
  - injection H as -> ->. rewrite Heq. now exists v.
  - destruct (py_eq k0 k); [now exists v0 | now apply IH].
Qed.

Lemma pydict_get_none (V : Type) (k : json) (d : list (json * V)) :
  pydict_get k d = None -> Forall (fun kv => py_eq (fst kv) k = false) d.
Proof.
  induction d as [|[k0 v0] d IH]; simpl; [constructor|].
  destruct (py_eq k0 k) eqn:E; [discriminate|].
  intros H. constructor; [exact E | now apply IH].
Qed.

Lemma pydict_set_new (V : Type) (k : json) (v : V) (d : list (json * V)) :
  pydict_get k d = None -> pydict_set k v d = d ++ [(k, v)].
Proof.
  induction d as [|[k0 v0] d IH]; simpl; [reflexivity|].
  destruct (py_eq k0 k); [discriminate|]. intros H. now rewrite IH.
Qed.

Lemma ForallOrdPairs_snoc (A : Type) (R : A -> A -> Prop) (l : list A)
  (x : A) :
  ForallOrdPairs R l -> Forall (fun a => R a x) l ->
  ForallOrdPairs R (l ++ [x]).
Proof.
  induction 1 as [|a l Ha Hl IH]; intros Hx; simpl.
  - repeat constructor.
  - inversion Hx as [|? ? Hax Hlx]; subst. constructor.
    + apply Forall_app. split; [exact Ha | now constructor].
    + now apply IH.
Qed.

(** *** [get_enabled_repos_union] *)

Lemma seen_ok_incl (from from' : list json)
  (repos_seen : list (json * json)) :
  incl from from' -> seen_ok from repos_seen -> seen_ok from' repos_seen.
Proof.
  intros Hincl [Hall Hord]. split; [|exact Hord].
  eapply Forall_impl; [|exact Hall]. intros kv [H1 [H2 H3]]. auto.
Qed.

(** One more repository keeps the dict well kept, drops nothing, and
    leaves the repository's id in it. *)
Lemma see_repo_spec (from : list json) (repo : json)
  (repos_seen repos_seen' : list (json * json)) :
  see_repo repo repos_seen = Ok repos_seen' ->
  seen_ok from repos_seen ->
  seen_ok (from ++ filter (fun r => truthy (repo_id_of r)) [repo])
          repos_seen' /\
  (forall kv, In kv repos_seen -> In kv repos_seen') /\
  (truthy (repo_id_of repo) = true ->
   exists k r, In (k, r) repos_seen' /\ py_eq k (repo_id_of repo) = true).
Proof.
  unfold see_repo.
  destruct (py_get repo "id" (JStr "")) as [repo_id|e] eqn:Hid;
    [|discriminate].
  assert (Hrid : repo_id_of repo = repo_id)
    by (unfold repo_id_of; now rewrite Hid).
  cbn [bind filter]. rewrite Hrid. destruct (truthy repo_id) eqn:Ht.
  - destruct (hashable repo_id) eqn:Hh; [|discriminate]. cbn [negb].
    destruct (pydict_get repo_id repos_seen) as [r|] eqn:G.
    + intros H. injection H as <-. intros Hok. split; [|split].
      * eapply seen_ok_incl; [|exact Hok]. now apply incl_appl.
      * auto.
      * intros _. destruct (@pydict_get_in _ _ _ _ G) as [k' [Hin Heq]].
        now exists k', r.
    + intros H. injection H as <-. intros Hok.
      rewrite (@pydict_set_new _ _ repo _ G). split; [|split].
      * destruct (seen_ok_incl (from' := from ++ [repo])
                    (incl_appl _ (incl_refl _)) Hok) as [Hall Hord].
        split.
        -- apply Forall_app. split; [exact Hall|].
           constructor; [|constructor]. cbn [fst snd].
           rewrite Hrid. repeat split; auto.
           apply in_or_app. right. now left.
        -- apply ForallOrdPairs_snoc; [exact Hord|].
           exact (@pydict_get_none _ _ _ G).
      * intros kv Hkv. apply in_or_app. now left.
      * intros _. exists repo_id, repo. split.
        -- apply in_or_app. right. now left.
        -- now apply py_eq_refl.
  - intros H. injection H as <-. intros Hok. rewrite app_nil_r.
    split; [exact Hok|]. split; [auto|]. discriminate.
Qed.

Lemma see_repos_spec (repos : list json) :
  forall from repos_seen repos_seen',
    see_repos repos repos_seen = Ok repos_seen' ->
    seen_ok from repos_seen ->
    seen_ok (from ++ filter (fun r => truthy (repo_id_of r)) repos)
            repos_seen' /\
    (forall kv, In kv repos_seen -> In kv repos_seen') /\
    (forall r,
        In r (filter (fun r => truthy (repo_id_of r)) repos) ->
        exists k r', In (k, r') repos_seen' /\
                     py_eq k (repo_id_of r) = true).
Proof.
  induction repos as [|repo rest IH]; intros from repos_seen repos_seen'.
  - simpl. intros H Hok. injection H as <-. rewrite app_nil_r.
    split; [exact Hok|]. split; [auto | intros r []].
  - cbn [see_repos].
    destruct (see_repo repo repos_seen) as [seen1|e] eqn:E1; [|discriminate].
    cbn [bind]. intros H Hok.
    destruct (@see_repo_spec from _ _ _ E1 Hok) as [Hok1 [Hkeep1 Hin1]].
    destruct (IH _ _ _ H Hok1) as [Hok2 [Hkeep2 Hin2]].
    split; [|split].
    + rewrite <- app_assoc in Hok2.
      replace (filter (fun r => truthy (repo_id_of r)) (repo :: rest))
        with (filter (fun r => truthy (repo_id_of r)) [repo]
              ++ filter (fun r => truthy (repo_id_of r)) rest);
        [exact Hok2|].
      simpl. now destruct (truthy (repo_id_of repo)).
    + auto.
    + intros r Hr. cbn [filter] in Hr.
      destruct (truthy (repo_id_of repo)) eqn:Ht.
      * destruct Hr as [<-|Hr]; [|now apply Hin2].
        destruct (Hin1 eq_refl) as [k [r' [Hin Heq]]].
        exists k, r'. auto.
      * now apply Hin2.
Qed.

Lemma repos_of_manifests_spec (ms : list json) :
  forall from repos_seen repos_seen',
    repos_of_manifests ms repos_seen = Ok repos_seen' ->
    seen_ok from repos_seen ->
    seen_ok (from ++ all_identified ms) repos_seen' /\
    (forall kv, In kv repos_seen -> In kv repos_seen') /\
    (forall r,
        In r (all_identified ms) ->
        exists k r', In (k, r') repos_seen' /\
                     py_eq k (repo_id_of r) = true).
Proof.
  induction ms as [|manifest rest IH]; intros from repos_seen repos_seen'.
  - simpl. intros H Hok. injection H as <-. unfold all_identified. simpl.
    rewrite app_nil_r. split; [exact Hok|]. split; [auto | intros r []].
  - cbn [repos_of_manifests]. unfold all_identified. cbn [map List.concat].
    unfold identified_repos at 1 3.
    destruct (py_get manifest "enabled_repos" (JList [])) as [v|e];
      [|discriminate].
    cbn [bind]. destruct (py_iter v) as [repos|e]; [|discriminate].
    cbn [bind].
    destruct (see_repos repos repos_seen) as [seen1|e] eqn:E1;
      [|discriminate].
    cbn [bind]. intros H Hok.
    destruct (@see_repos_spec _ from _ _ E1 Hok) as [Hok1 [Hkeep1 Hin1]].
    destruct (IH _ _ _ H Hok1) as [Hok2 [Hkeep2 Hin2]].
    split; [|split].
    + now rewrite <- app_assoc in Hok2.
    + auto.
    + intros r Hr. apply in_app_or in Hr as [Hr|Hr]; [|now apply Hin2].
      destruct (Hin1 r Hr) as [k [r' [Hin Heq]]]. exists k, r'. auto.
Qed.

Lemma ForallOrdPairs_map (A B : Type) (f : A -> B) (R : B -> B -> Prop)
  (l : list A) :
  ForallOrdPairs (fun a b => R (f a) (f b)) l -> ForallOrdPairs R (map f l).
Proof.
  induction 1 as [|a l Ha Hl IH]; simpl; constructor; [|exact IH].
  apply Forall_map. exact Ha.
Qed.

(** X9.  [get_enabled_repos_union] returns a union by repository id:
    every repository returned is one that some manifest lists with an
    id that has a truth value; no two of them have equal ids, the one
    listed first being kept; and every such repository of every
    manifest is represented by one with an equal id. *)
Theorem enabled_repos_union_is_a_union_by_id :
  forall (self : ManifestMerger) (repos : list json),
    get_enabled_repos_union self = Ok repos ->
    Forall (fun repo =>
              truthy (repo_id_of repo) = true /\
              In repo (all_identified (manifests self))) repos /\
    ForallOrdPairs (fun a b => py_eq (repo_id_of a) (repo_id_of b) = false)
                   repos /\
    (forall repo,
        In repo (all_identified (manifests self)) ->
        exists kept,
          In kept repos /\
          py_eq (repo_id_of kept) (repo_id_of repo) = true).
Proof.
  intros self repos. unfold get_enabled_repos_union.
  destruct (repos_of_manifests (manifests self) []) as [seen|e] eqn:E;
    [|discriminate].
  cbn [bind]. intros H. injection H as <-.
  assert (Hok0 : seen_ok [] []) by (split; constructor).
  destruct (@repos_of_manifests_spec _ [] _ _ E Hok0) as [[Hall Hord] [_ Hin]].
  cbn [app] in Hall. split; [|split].
  - apply Forall_map. eapply Forall_impl; [|exact Hall].
    intros [k r] [H1 [H2 H3]]. cbn [fst snd] in *. subst k. auto.
  - apply ForallOrdPairs_map.
    assert (G : forall l : list (json * json),
               Forall (fun kv => fst kv = repo_id_of (snd kv)) l ->
               ForallOrdPairs (fun a b => py_eq (fst a) (fst b) = false) l ->
               ForallOrdPairs
                 (fun a b => py_eq (repo_id_of (snd a)) (repo_id_of (snd b))
                             = false) l).
    { induction l as [|a l IH]; intros Hk Ho; [constructor|].
      inversion Hk as [|? ? Ha Hl]; subst.
      inversion Ho as [|? ? Hfa Hfl]; subst.
      constructor; [|now apply IH].
      rewrite Forall_forall in *. intros b Hb.
      rewrite <- Ha, <- (Hl b Hb). now apply Hfa. }
    apply G; [|exact Hord].
    eapply Forall_impl; [|exact Hall]. now intros kv [H1 _].
  - intros repo Hrepo. destruct (Hin repo Hrepo) as [k [r' [Hkr Heq]]].
    exists r'. split.
    + apply in_map_iff. now exists (k, r').
    + rewrite Forall_forall in Hall.
      destruct (Hall _ Hkr) as [Hk _]. cbn [fst snd] in Hk. now rewrite <- Hk.
Qed.

(** *** The two package maps *)

Lemma defaultdict_add_keys (k v k' : json) (s : list json)
  (d : list (json * list json)) :
  In (k', s) (defaultdict_add k v d) ->
  (exists s0, In (k', s0) d) \/ k' = k.
Proof.
  induction d as [|[k0 s0] d IH]; simpl.
  - intros [H|[]]. injection H as <- _. now right.
  - destruct (py_eq k0 k).
    + intros [H|H].
      * injection H as <- _. left. exists s0. now left.
      * left. exists s. now right.
    + intros [H|H].
      * injection H as <- <-. left. exists s0. now left.
      * destruct (IH H) as [[s1 H1]|H1]; [|now right].
        left. exists s1. now right.
Qed.

Lemma defaultdict_append_keeps (k v k' : json) (l : list json)
  (d : list (json * list json)) :
  In (k', l) d -> exists l', In (k', l') (defaultdict_append k v d).
Proof.
  induction d as [|[k0 l0] d IH]; simpl; [intros []|].
  destruct (py_eq k0 k).
  - intros [H|H].
    + injection H as <- <-. exists (l0 ++ [v]). now left.
    + exists l. now right.
  - intros [H|H].
    + injection H as <- <-. exists l0. now left.
    + destruct (IH H) as [l' H']. exists l'. now right.
Qed.

Lemma defaultdict_append_has (k v : json) (d : list (json * list json)) :
  hashable k = true ->
  exists k' l, In (k', l) (defaultdict_append k v d) /\ py_eq k' k = true.
Proof.
  intros Hh. induction d as [|[k0 l0] d IH]; simpl.
  - exists k, [v]. split; [now left | now apply py_eq_refl].
  - destruct (py_eq k0 k) eqn:E.
    + exists k0, (l0 ++ [v]). split; [now left | exact E].
    + destruct IH as [k' [l [Hin Heq]]]. exists k', l. split; [now right|auto].
Qed.

Lemma defaultdict_append_nonempty (k v : json)
  (d : list (json * list json)) :
  Forall (fun kv => snd kv <> []) d ->
  Forall (fun kv => snd kv <> []) (defaultdict_append k v d).
Proof.
  induction 1 as [|[k0 l0] d H0 Hd IH]; simpl.
  - constructor; [discriminate | constructor].
  - destruct (py_eq k0 k).
    + constructor; [|exact Hd]. cbn [snd]. now destruct l0.
    + constructor; assumption.
Qed.

Lemma hosted_append (all_packages package_hosts : list (json * list json))
  (k v : json) :
  hosted all_packages package_hosts ->
  hosted all_packages (defaultdict_append k v package_hosts).
Proof.
  intros H k0 s Hin. destruct (H _ _ Hin) as [k' [l [Hl Heq]]].
  destruct (@defaultdict_append_keeps k v _ _ _ Hl) as [l' Hl'].
  now exists k', l'.
Qed.

Lemma hosted_rpms (host_id : json) (rpms : list json) :
  forall all_packages all_packages' package_hosts package_hosts',
    merge_rpms rpms all_packages = Ok all_packages' ->
    hosts_of_rpms host_id rpms package_hosts = Ok package_hosts' ->
    hosted all_packages package_hosts /\
    Forall (fun kv => snd kv <> []) package_hosts ->
    hosted all_packages' package_hosts' /\
    Forall (fun kv => snd kv <> []) package_hosts'.
Proof.
  induction rpms as [|rpm rest IH];
    intros all_packages all_packages' package_hosts package_hosts'.
  - simpl. intros H1 H2. injection H1 as <-. now injection H2 as <-.
  - cbn [merge_rpms hosts_of_rpms]. unfold rpm_entry.
    destruct (py_get rpm "name" (JStr "")) as [rpm_name|e]; [|discriminate].
    cbn [bind].
    destruct (py_get rpm "nevra" (JStr "")) as [rpm_nevra|e];
      [|discriminate].
    cbn [bind]. destruct (truthy rpm_name) eqn:Hn; cbn [andb].
    + destruct (hashable rpm_name) eqn:Hh; cbn [negb].
      * destruct (truthy rpm_nevra).
        -- destruct (hashable rpm_nevra); [|discriminate]. cbn [negb bind].
           intros H1 H2 [Hhosted Hne]. apply (IH _ _ _ _ H1 H2). split.
           ++ intros k s Hin.
              destruct (@defaultdict_add_keys _ _ _ _ _ Hin) as [[s0 H0] | ->].
              ** eapply hosted_append; eassumption.
              ** now apply defaultdict_append_has.
           ++ now apply defaultdict_append_nonempty.
        -- cbn [bind]. intros H1 H2 [Hhosted Hne].
           apply (IH _ _ _ _ H1 H2). split.
           ++ now apply hosted_append.
           ++ now apply defaultdict_append_nonempty.
      * destruct (truthy rpm_nevra); discriminate.
    + cbn [bind]. intros H1 H2. now apply (IH _ _ _ _ H1 H2).
Qed.

Lemma hosted_manifests (ms : list json) :
  forall all_packages all_packages' package_hosts package_hosts',
    merge_manifests ms all_packages = Ok all_packages' ->
    hosts_of_manifests ms package_hosts = Ok package_hosts' ->
    hosted all_packages package_hosts /\
    Forall (fun kv => snd kv <> []) package_hosts ->
    hosted all_packages' package_hosts' /\
    Forall (fun kv => snd kv <> []) package_hosts'.
Proof.
  induction ms as [|manifest rest IH];
    intros all_packages all_packages' package_hosts package_hosts'.
  - simpl. intros H1 H2. injection H1 as <-. now injection H2 as <-.
  - cbn [merge_manifests hosts_of_manifests].
    destruct (py_get manifest "host_id" (JStr "unknown")) as [host_id|e];
      [|intros _; discriminate].
    destruct (py_get manifest "installed_rpms" (JList [])) as [v|e];
      [|discriminate].
    cbn [bind]. destruct (py_iter v) as [rpms|e]; [|discriminate].
    cbn [bind].
    destruct (merge_rpms rpms all_packages) as [m1|e] eqn:E1;
      [|discriminate].
    destruct (hosts_of_rpms host_id rpms package_hosts) as [h1|e] eqn:E2;
      [|intros _; discriminate].
    cbn [bind]. intros H1 H2 Hinv.
    apply (IH _ _ _ _ H1 H2). eapply hosted_rpms; eassumption.
Qed.

(** X10.  Whenever both maps can be computed, every package name of
    [get_merged_installed_rpms] is a key of [get_package_to_hosts_map],
    and the list found there is not empty: a package that counts as
    installed is always required by at least one host. *)
Theorem merged_packages_have_hosts :
  forall (self : ManifestMerger)
         (merged_rpms package_hosts : list (json * list json)),
    get_merged_installed_rpms self = Ok merged_rpms ->
    get_package_to_hosts_map self = Ok package_hosts ->
    forall pkg_name nevras,
      In (pkg_name, nevras) merged_rpms ->
      exists hosts,
        pydict_get pkg_name package_hosts = Some hosts /\ hosts <> [].
Proof.
  intros self merged_rpms package_hosts Hm Hh pkg_name nevras Hin.
  assert (H0 : hosted [] [] /\
               Forall (fun kv : json * list json => snd kv <> []) [])
    by (split; [intros k s [] | constructor]).
  destruct (@hosted_manifests _ _ _ _ _ Hm Hh H0) as [Hhosted Hne].
  destruct (Hhosted _ _ Hin) as [k' [l [Hl Heq]]].
  destruct (@pydict_in_get _ _ _ _ _ Hl Heq) as [hosts Hget].
  exists hosts. split; [exact Hget|].
  destruct (@pydict_get_in _ _ _ _ Hget) as [k'' [Hin' _]].
  rewrite Forall_forall in Hne. exact (Hne _ Hin').
Qed.

(** *** The merge report *)

Lemma total_instances_sum (d : list (json * list json)) :
  forall n,
    fold_left (fun total kv => total + List.length (snd kv)) d n
    = n + total_instances d.
Proof.
  unfold total_instances. induction d as [|kv d IH]; intros n; simpl.
  - lia.
  - rewrite IH, (IH (List.length (snd kv))). lia.
Qed.

Lemma total_instances_cons (kv : json * list json)
  (d : list (json * list json)) :
  total_instances (kv :: d) = List.length (snd kv) + total_instances d.
Proof.
  unfold total_instances at 1. simpl. apply total_instances_sum.
Qed.

Lemma total_instances_append (k v : json) (d : list (json * list json)) :
  total_instances (defaultdict_append k v d) = S (total_instances d).
Proof.
  induction d as [|[k0 l0] d IH]; simpl.
  - reflexivity.
  - destruct (py_eq k0 k); rewrite !total_instances_cons; cbn [snd].
    + rewrite length_app. simpl. lia.
    + rewrite IH. lia.
Qed.

Lemma hosts_of_rpms_total (host_id : json) (rpms : list json) :
  forall package_hosts package_hosts',
    hosts_of_rpms host_id rpms package_hosts = Ok package_hosts' ->
    total_instances package_hosts'
    = total_instances package_hosts + List.length (filter named rpms).
Proof.
  induction rpms as [|rpm rest IH]; intros package_hosts package_hosts'.
  - simpl. intros H. injection H as <-. lia.
  - cbn [hosts_of_rpms filter]. unfold named at 1.
    destruct (py_get rpm "name" (JStr "")) as [rpm_name|e]; [|discriminate].
    cbn [bind]. destruct (truthy rpm_name).
    + destruct (hashable rpm_name); [|discriminate]. cbn [negb].
      intros H. rewrite (IH _ _ H), total_instances_append. simpl. lia.
    + intros H. now rewrite (IH _ _ H).
Qed.

Lemma hosts_of_manifests_total (ms : list json) :
  forall package_hosts package_hosts',
    hosts_of_manifests ms package_hosts = Ok package_hosts' ->
    total_instances package_hosts'
    = total_instances package_hosts
      + List.length (List.concat (map named_rpms ms)).
Proof.
  induction ms as [|manifest rest IH]; intros package_hosts package_hosts'.
  - simpl. intros H. injection H as <-. lia.
  - cbn [hosts_of_manifests map List.concat]. unfold named_rpms at 1.
    destruct (py_get manifest "host_id" (JStr "unknown")) as [host_id|e];
      [|discriminate].
    destruct (py_get manifest "installed_rpms" (JList [])) as [v|e];
      [|discriminate].
    cbn [bind]. destruct (py_iter v) as [rpms|e]; [|discriminate].
    cbn [bind].
    destruct (hosts_of_rpms host_id rpms package_hosts) as [h1|e] eqn:E;
      [|discriminate].
    cbn [bind]. intros H.
    rewrite (IH _ _ H), (@hosts_of_rpms_total _ _ _ _ E), length_app. lia.
Qed.

(** X11.  In a merge report, [manifest_count] is the number of
    manifests held and of entries under [hosts], and
    [total_package_instances] is the number of [installed_rpms]
    entries, over all manifests held, that carry a name with a truth
    value: an entry is counted each time it occurs, also when the same
    manifest was added twice. *)
Theorem merge_report_counts_entries :
  forall (generated_at : string) (self : ManifestMerger) (report : json),
    generate_merge_report generated_at self = Ok report ->
    exists hosts,
      subscript report "hosts" = Ok (JList hosts) /\
      List.length hosts = List.length (manifests self) /\
      subscript report "manifest_count"
      = Ok (JNat (List.length (manifests self))) /\
      subscript report "total_package_instances"
      = Ok (JNat (List.length
                    (List.concat (map named_rpms (manifests self))))) /\
      subscript report "os_major" = Ok (JInt (os_major self)).
Proof.
  intros generated_at self report. unfold generate_merge_report.
  destruct (get_merged_installed_rpms self) as [merged|e]; [|discriminate].
  cbn [bind].
  destruct (get_package_to_hosts_map self) as [package_hosts|e] eqn:Eh;
    [|discriminate].
  cbn [bind].
  destruct (get_host_summary self) as [hosts|e] eqn:Es; [|discriminate].
  cbn [bind].
  destruct (get_enabled_repos_union self) as [repos|e]; [|discriminate].
  cbn [bind]. intros H. injection H as <-.
  exists hosts. split; [reflexivity|]. split.
  - now apply host_summaries_length in Es.
  - split; [reflexivity|]. split; [|reflexivity].
    cbn. do 2 f_equal. unfold JNat. do 2 f_equal.
    unfold get_package_to_hosts_map in Eh.
    now rewrite (@hosts_of_manifests_total _ _ _ Eh).
Qed.

(** *** Counting the manifests of a directory *)

Lemma endswith_sound (s suffix : string) :
  endswith s suffix = true -> exists before, s = before +++ suffix.
Proof.
  unfold endswith. generalize (String.length s) as fuel.
  induction s as [|c s IH]; intros fuel H.
  - destruct fuel; cbn [endswith_aux] in H; apply orb_true_iff in H as [H|H];
      try discriminate; apply String.eqb_eq in H as <-; now exists "".
  - destruct fuel as [|fuel]; cbn [endswith_aux] in H;
      apply orb_true_iff in H as [H|H]; try discriminate.
    + apply String.eqb_eq in H as <-. now exists "".
    + apply String.eqb_eq in H as <-. now exists "".
    + destruct (IH _ H) as [before ->]. now exists (String c before).
Qed.

Lemma endswith_complete (before suffix : string) :
  endswith (before +++ suffix) suffix = true.
Proof.
  unfold endswith.
  assert (G : forall fuel, String.length before <= fuel ->
              endswith_aux (before +++ suffix) suffix fuel = true).
  { induction before as [|c before IH]; intros fuel Hfuel.
    - cbn [append]. destruct suffix, fuel; cbn [endswith_aux];
        now rewrite String.eqb_refl.
    - destruct fuel as [|fuel]; [simpl in Hfuel; lia|].
      cbn [append endswith_aux]. rewrite IH by (simpl in Hfuel; lia).
      apply orb_true_r. }
  apply G. rewrite length_append. lia.
Qed.

Lemma contains_infix (sub before after : string) :
  contains sub (before +++ sub +++ after) = true.
Proof.
  induction before as [|c before IH].
  - cbn [append].
    assert (H : String.prefix sub (sub +++ after) = true)
      by apply prefix_append.
    destruct (sub +++ after); simpl; simpl in H; now rewrite H.
  - cbn [append]. cbn [contains]. rewrite IH. apply orb_true_r.
Qed.

(** A file named by the convention is a [.json] file whose name holds
    [-manifest]: the second loop meets it and passes it over. *)
Lemma convention_name (n : string) :
  endswith n "-manifest.json" = true ->
  endswith n ".json" = true /\ contains "-manifest" n = true.
Proof.
  intros H. destruct (endswith_sound _ _ H) as [before ->]. split.
  - change "-manifest.json" with ("-manifest" +++ ".json").
    rewrite <- append_assoc. apply endswith_complete.
  - change "-manifest.json" with ("-manifest" +++ ".json").
    apply contains_infix.
Qed.

Lemma path_name_joinpath (directory : Path) (n : string) :
  path_name (joinpath directory n) = n.
Proof. unfold path_name, joinpath. simpl. apply last_last. Qed.

Lemma count_disjoint (names : list string) :
  List.length (filter (fun n => endswith n "-manifest.json") names)
  + List.length (filter (fun n => negb (contains "-manifest" n))
                        (filter (fun n => endswith n ".json") names))
  <= List.length (filter (fun n => endswith n ".json") names).
Proof.
  induction names as [|n names IH]; simpl; [lia|].
  destruct (endswith n "-manifest.json") eqn:E.
  - destruct (convention_name _ E) as [-> Hc]. simpl. rewrite Hc. simpl. lia.
  - destruct (endswith n ".json"); simpl; [|lia].
    destruct (contains "-manifest" n); simpl; lia.
Qed.

Section Directory.
Variable json_dumps_sorted : json -> string.
Variable sha256_hexdigest : string -> string.
Variable w : World.

Local Abbreviation add_manifest :=
  (add_manifest json_dumps_sorted sha256_hexdigest w).
Local Abbreviation convention_pass :=
  (convention_pass json_dumps_sorted sha256_hexdigest w).
Local Abbreviation probe_pass :=
  (probe_pass json_dumps_sorted sha256_hexdigest w).
Local Abbreviation add_manifests_from_directory :=
  (add_manifests_from_directory json_dumps_sorted sha256_hexdigest w).

(** [add_manifest] appends one manifest when it returns [True] and
    none otherwise. *)
Lemma add_manifest_appends (path : Path) (self : ManifestMerger) :
  exists added,
    manifests (fst (add_manifest path self)) = manifests self ++ added /\
    List.length added
    = match snd (add_manifest path self) with Ok true => 1 | _ => 0 end.
Proof.
  pose proof (add_manifest_spec json_dumps_sorted sha256_hexdigest
                w path self) as H.
  inversion H as [e He Heq | m e Hl He Heq | m major Hl Hm Hne Heq
                  | m major host_id Hl Hm Hy Hid Hh Heq
                  | m major host_id Hl Hm Hy Hid Hh Heq];
    cbn [fst snd];
    try (exists []; rewrite app_nil_r; now split).
  exists [m]. now split.
Qed.

Lemma convention_pass_appends (files : list Path) :
  forall self count,
    exists added,
      manifests (fst (convention_pass files self count))
      = manifests self ++ added /\
      List.length added <= List.length files /\
      (forall counted,
          snd (convention_pass files self count) = Ok counted ->
          counted = count + List.length added).
Proof.
  induction files as [|f files IH]; intros self count.
  - exists []. simpl. rewrite app_nil_r. repeat split; [lia|].
    intros counted H. injection H as <-. simpl. lia.
  - cbn [Merger.convention_pass].
    destruct (add_manifest_appends f self) as [a [Ha Hlen]].
    destruct (add_manifest f self) as [self1 [[|]|e]]; cbn [fst snd] in *.
    + destruct (IH self1 (S count)) as [added [Hm [Hl Hc]]].
      exists (a ++ added). rewrite Hm, Ha, <- app_assoc.
      split; [reflexivity|]. rewrite length_app. simpl. split; [lia|].
      intros counted H. rewrite (Hc _ H). lia.
    + destruct (IH self1 count) as [added [Hm [Hl Hc]]].
      exists (a ++ added). rewrite Hm, Ha, <- app_assoc.
      split; [reflexivity|]. rewrite length_app. simpl. split; [lia|].
      intros counted H. rewrite (Hc _ H). lia.
    + exists a. split; [exact Ha|]. split; [simpl; lia | discriminate].
Qed.

Lemma probe_pass_appends (files : list Path) :
  forall self count,
    exists added,
      manifests (fst (probe_pass files self count))
      = manifests self ++ added /\
      List.length added
      <= List.length
           (filter (fun f => negb (contains "-manifest" (path_name f)))
                   files) /\
      (forall counted,
          snd (probe_pass files self count) = Ok counted ->
          counted = count + List.length added).
Proof.
  induction files as [|f files IH]; intros self count.
  - exists []. simpl. rewrite app_nil_r. repeat split; [lia|].
    intros counted H. injection H as <-. simpl. lia.
  - cbn [Merger.probe_pass filter].
    destruct (negb (contains "-manifest" (path_name f))); [|apply IH].
    destruct (add_manifest_appends f self) as [a [Ha Hlen]].
    destruct (add_manifest f self) as [self1 [[|]|e]]; cbn [fst snd] in *.
    + destruct (IH self1 (S count)) as [added [Hm [Hl Hc]]].
      exists (a ++ added). rewrite Hm, Ha, <- app_assoc.
      split; [reflexivity|]. rewrite length_app. simpl. split; [lia|].
      intros counted H. rewrite (Hc _ H). lia.
    + destruct (IH self1 count) as [added [Hm [Hl Hc]]].
      exists (a ++ added). rewrite Hm, Ha, <- app_assoc.
      split; [reflexivity|]. rewrite length_app. simpl. split; [lia|].
      intros counted H. rewrite (Hc _ H). lia.
    + destruct (caught_by e [JSONDecodeError; KeyError]).
      * destruct (IH self1 count) as [added [Hm [Hl Hc]]].
        exists (a ++ added). rewrite Hm, Ha, <- app_assoc.
        split; [reflexivity|]. rewrite length_app. simpl. split; [lia|].
        intros counted H. rewrite (Hc _ H). lia.
      * exists a. split; [exact Ha|]. split; [simpl; lia | discriminate].
Qed.

(** The two passes together: what they append and count. *)
Lemma directory_appends (directory : Path) (self : ManifestMerger) :
  exists added,
    manifests (fst (add_manifests_from_directory directory self))
    = manifests self ++ added /\
    forall counted,
      snd (add_manifests_from_directory directory self) = Ok counted ->
      counted = List.length added /\
      counted
      <= List.length (glob w directory "-manifest.json")
         + List.length
             (filter (fun f => negb (contains "-manifest" (path_name f)))
                     (glob w directory ".json")).
Proof.
  unfold Merger.add_manifests_from_directory.
  destruct (convention_pass_appends (glob w directory "-manifest.json")
              self 0) as [a1 [Hm1 [Hl1 Hc1]]].
  destruct (convention_pass (glob w directory "-manifest.json") self 0)
    as [self1 [count1|e]]; cbn [fst snd] in *.
  - destruct (probe_pass_appends (glob w directory ".json") self1 count1)
      as [a2 [Hm2 [Hl2 Hc2]]].
    exists (a1 ++ a2). rewrite Hm2, Hm1, <- app_assoc.
    split; [reflexivity|]. intros counted H.
    rewrite (Hc2 _ H), (Hc1 _ eq_refl), length_app. split; lia.
  - exists a1. split; [exact Hm1 | discriminate].
Qed.

(** X12.  [add_manifests_from_directory] only appends to the manifests
    held, also when it raises part-way.  When it returns, the number
    returned is the number of manifests it appended, and it is at most
    the number of [*.json] files of the directory: the two loops never
    take the same file, since a name that ends in [-manifest.json] is
    passed over by the second. *)
Theorem directory_count_is_the_number_appended :
  forall (directory : Path) (self : ManifestMerger),
    exists added,
      manifests (fst (add_manifests_from_directory directory self))
      = manifests self ++ added /\
      forall counted,
        snd (add_manifests_from_directory directory self) = Ok counted ->
        counted = List.length added /\
        counted <= List.length (glob w directory ".json").
Proof.
  intros directory self.
  destruct (directory_appends directory self) as [added [Hm Hc]].
  exists added. split; [exact Hm|]. intros counted H.
  destruct (Hc counted H) as [Hn Hle]. split; [exact Hn|].
  pose proof (count_disjoint (listdir w directory)) as Hd.
  unfold glob in *. rewrite length_map in *.
  assert (Hf : List.length
                 (filter (fun f => negb (contains "-manifest" (path_name f)))
                    (map (joinpath directory)
                       (filter (fun n => endswith n ".json")
                               (listdir w directory))))
               = List.length
                   (filter (fun n => negb (contains "-manifest" n))
                      (filter (fun n => endswith n ".json")
                              (listdir w directory)))).
  { generalize (filter (fun n => endswith n ".json") (listdir w directory)).
    induction l as [|n l IH]; simpl; [reflexivity|].
    rewrite path_name_joinpath.
    destruct (contains "-manifest" n); simpl; now rewrite IH. }
  lia.
Qed.

End Directory.

End MergerReportFacts.

(** ** validator.py: what is accepted, files and the CLI *)

Module ValidatorCliFacts.
Import Validator ValidatorCli ValidatorFacts.

Lemma app_nil_iff (A : Type) (l m : list A) :
  l ++ m = [] <-> l = [] /\ m = [].
Proof.
  split; [apply app_eq_nil | intros [-> ->]; reflexivity].
Qed.

Lemma forallb_mapped (A B : Type) (f : B -> bool) (g : A -> B)
  (l : list A) :
  forallb f (map g l) = forallb (fun x => f (g x)) l.
Proof. induction l as [|x l IH]; simpl; [reflexivity | now rewrite IH]. Qed.

Lemma adds_seq (m1 m2 : method) (ok1 ok2 : bool) :
  adds m1 ok1 -> adds m2 ok2 -> adds (seq_methods m1 m2) (ok1 && ok2).
Proof.
  intros H1 H2 self. unfold seq_methods.
  destruct (H1 self) as [s1 [a1 [E1 [Hs1 Hok1]]]]. rewrite E1.
  destruct (H2 s1) as [s2 [a2 [E2 [Hs2 Hok2]]]].
  exists s2, (a1 ++ a2). split; [exact E2|]. split.
  - now rewrite Hs2, Hs1, app_assoc.
  - rewrite app_nil_iff, andb_true_iff. tauto.
Qed.

Lemma adds_ext (m : method) (ok ok' : bool) :
  ok = ok' -> adds m ok -> adds m ok'.
Proof. now intros ->. Qed.

Lemma adds_error (msg : string) (self : ManifestValidator) :
  exists self' added,
    (add_error msg self, Ok tt) = (self', Ok tt) /\
    errors self' = errors self ++ added /\ (added = [] <-> false = true).
Proof.
  exists (add_error msg self), [msg]. repeat split; discriminate.
Qed.

Lemma adds_nothing (self : ManifestValidator) :
  exists self' added,
    (self, Ok tt) = (self', Ok tt) /\
    errors self' = errors self ++ added /\ (added = [] <-> true = true).
Proof.
  exists self, []. rewrite app_nil_r. now repeat split.
Qed.

Lemma adds_warning (msg : string) (self : ManifestValidator) :
  exists self' added,
    (add_warning msg self, Ok tt) = (self', Ok tt) /\
    errors self' = errors self ++ added /\ (added = [] <-> true = true).
Proof.
  exists (add_warning msg self), []. simpl. rewrite app_nil_r.
  now repeat split.
Qed.

Section Facts.
Variable py_str : json -> string.

Local Abbreviation validate := (validate py_str).

Lemma adds_check_fields (fields : list string) (d : list (string * json))
  (msg : string -> string) :
  adds (check_fields fields (JDict d) msg) (has_fields fields d).
Proof.
  induction fields as [|f rest IH]; intros self.
  - apply adds_nothing.
  - rewrite check_fields_cons. cbn [has_fields forallb].
    destruct (dict_mem f d); cbn [negb andb].
    + apply IH.
    + destruct (IH (add_error (msg f) self)) as [s [a [E [Hs _]]]].
      exists s, (msg f :: a). split; [exact E|]. split.
      * rewrite Hs. simpl. now rewrite <- app_assoc.
      * split; discriminate.
Qed.

Lemma adds_schema_version (d : list (string * json)) :
  adds (_validate_schema_version py_str (JDict d)) true.
Proof.
  intros self. unfold _validate_schema_version. cbn [py_get].
  match goal with |- context [if ?c then _ else _] => destruct c end.
  - apply adds_warning.
  - apply adds_nothing.
Qed.

Lemma adds_os_major (os_d : list (string * json)) :
  adds (check_os_major py_str (JDict os_d))
       (is_none (field_of os_d "major" JNull)
        || py_in (field_of os_d "major" JNull) VALID_OS_MAJORS).
Proof.
  intros self. unfold check_os_major, field_of. cbn [py_get].
  destruct (is_none _); cbn [negb andb orb]; [apply adds_nothing|].
  destruct (py_in _ VALID_OS_MAJORS); cbn [negb];
    [apply adds_nothing | apply adds_error].
Qed.

Lemma adds_os_minor (os_d : list (string * json)) :
  adds (check_os_minor (JDict os_d))
       (is_none (field_of os_d "minor" JNull)
        || isinstance_int (field_of os_d "minor" JNull)).
Proof.
  intros self. unfold check_os_minor, field_of. cbn [py_get].
  destruct (is_none _); cbn [negb andb orb]; [apply adds_nothing|].
  destruct (isinstance_int _); cbn [negb];
    [apply adds_nothing | apply adds_error].
Qed.

Lemma adds_os (d os_d : list (string * json)) :
  field_of d "os" (JDict []) = JDict os_d ->
  adds (_validate_os py_str (JDict d)) (os_ok (JDict os_d)).
Proof.
  intros Hos self. unfold _validate_os. cbn [py_get].
  change (match dict_get "os" d with Some x => x | None => JDict [] end)
    with (field_of d "os" (JDict [])).
  rewrite Hos. unfold os_ok. rewrite <- andb_assoc.
  apply adds_seq; [apply adds_check_fields|].
  apply adds_seq; [apply adds_os_major | apply adds_os_minor].
Qed.

Lemma adds_arch (d : list (string * json)) :
  adds (_validate_arch py_str (JDict d)) (arch_ok (field_of d "arch" JNull)).
Proof.
  intros self. unfold _validate_arch, arch_ok, field_of. cbn [py_get].
  destruct (truthy _); cbn [negb andb orb]; [|apply adds_nothing].
  destruct (py_in _ _); cbn [negb]; [apply adds_nothing | apply adds_error].
Qed.

Lemma check_repos_adds (repos : list json) :
  forall i self,
    exists added,
      errors (check_repos i repos self) = errors self ++ added /\
      (added = [] <-> forallb repo_ok repos = true).
Proof.
  induction repos as [|repo rest IH]; intros i self; simpl.
  - exists []. rewrite app_nil_r. now split.
  - destruct (IH (S i) (check_repo i repo self)) as [a [Ha Hok]].
    rewrite Ha. unfold check_repo, repo_ok.
    destruct repo as [| | | | | |rd];
      try (eexists; split;
           [cbn [errors add_error]; rewrite <- app_assoc; reflexivity
           | cbn [app andb]; split; discriminate]).
    destruct (dict_mem "id" rd); cbn [negb andb];
      destruct (dict_mem "name" rd); cbn [negb errors add_error add_warning].
    + exists a. now split.
    + exists a. now split.
    + eexists. split; [rewrite <- app_assoc; reflexivity|].
      cbn [app]. split; discriminate.
    + eexists. split; [rewrite <- app_assoc; reflexivity|].
      cbn [app]. split; discriminate.
Qed.

Lemma adds_repos (d : list (string * json)) :
  adds (_validate_repos (JDict d))
       (repos_ok (field_of d "enabled_repos" (JList []))).
Proof.
  intros self. unfold _validate_repos, field_of. cbn [py_get].
  destruct (match dict_get "enabled_repos" d with
            | Some x => x
            | None => JList []
            end) as [| | | | |repos|]; try apply adds_error.
  destruct (check_repos_adds repos 0 self) as [a [Ha Hok]].
  exists (check_repos 0 repos self), a. auto.
Qed.

Lemma check_rpm_fields_adds (i : nat) (fields : list string)
  (d : list (string * json)) :
  forall self,
    exists added,
      errors (check_rpm_fields i fields d self) = errors self ++ added /\
      (added = [] <-> has_fields fields d = true).
Proof.
  induction fields as [|f rest IH]; intros self.
  - exists []. simpl. rewrite app_nil_r. now split.
  - cbn [check_rpm_fields has_fields forallb].
    destruct (dict_mem f d); cbn [negb andb]; [apply IH|].
    match goal with
    | |- context [check_rpm_fields i rest d ?s] =>
        destruct (IH s) as [a [Ha _]]
    end.
    eexists. split; [rewrite Ha; cbn [errors add_error];
                     rewrite <- app_assoc; reflexivity|].
    cbn [app]. split; discriminate.
Qed.

Lemma check_rpm_adds (i : nat) (rpm : json) (self : ManifestValidator) :
  exists added,
    errors (check_rpm py_str i rpm self) = errors self ++ added /\
    (added = [] <-> rpm_ok rpm = true).
Proof.
  unfold check_rpm, rpm_ok.
  destruct rpm as [| | | | | |rd];
    try (eexists; split; [cbn [errors add_error]; reflexivity
                         | split; discriminate]).
  destruct (check_rpm_fields_adds i REQUIRED_RPM_FIELDS rd self)
    as [a [Ha Hok]].
  exists a. split; [|exact Hok].
  match goal with |- context [if ?c then _ else _] => destruct c end;
    cbn [errors add_warning]; exact Ha.
Qed.

Lemma check_rpms_adds (indices : list nat) (rpms : list json) :
  forall self,
    exists added,
      errors (check_rpms py_str indices rpms self) = errors self ++ added /\
      (added = [] <->
       forallb (fun i => rpm_ok (nth i rpms JNull)) indices = true).
Proof.
  induction indices as [|i rest IH]; intros self; simpl.
  - exists []. rewrite app_nil_r. now split.
  - destruct (check_rpm_adds i (nth i rpms JNull) self) as [a1 [Ha1 Hok1]].
    destruct (IH (check_rpm py_str i (nth i rpms JNull) self))
      as [a2 [Ha2 Hok2]].
    exists (a1 ++ a2). split.
    + now rewrite Ha2, Ha1, app_assoc.
    + rewrite app_nil_iff, andb_true_iff. tauto.
Qed.

(** The indices of the sample are those of the first hundred entries. *)
Lemma sample_is_firstn (A : Type) (default : A) (n : nat) :
  forall l : list A,
    map (fun i => nth i l default) (seq 0 (Nat.min (List.length l) n))
    = firstn n l.
Proof.
  induction n as [|n IH]; intros l.
  - rewrite Nat.min_0_r. reflexivity.
  - destruct l as [|x l]; [reflexivity|].
    cbn [List.length Nat.min seq map nth firstn]. f_equal.
    rewrite <- seq_shift, map_map. apply IH.
Qed.

Lemma adds_rpms (d : list (string * json)) :
  adds (_validate_rpms py_str (JDict d))
       (rpms_ok (field_of d "installed_rpms" (JList []))).
Proof.
  intros self. unfold _validate_rpms, field_of. cbn [py_get].
  destruct (match dict_get "installed_rpms" d with
            | Some x => x
            | None => JList []
            end) as [| | | | |rpms|]; try apply adds_error.
  destruct (List.length rpms =? 0)%nat eqn:E.
  - apply Nat.eqb_eq in E. destruct rpms; [|discriminate].
    apply adds_warning.
  - destruct (check_rpms_adds
                (seq 0 (Nat.min (List.length rpms) SAMPLE_CAP)) rpms self)
      as [a [Ha Hok]].
    eexists _, a. split; [reflexivity|]. split; [exact Ha|].
    rewrite Hok. unfold rpms_ok.
    rewrite <- (sample_is_firstn JNull SAMPLE_CAP rpms), forallb_mapped.
    tauto.
Qed.

Lemma adds_timestamp (d : list (string * json)) :
  adds (_validate_timestamp py_str (JDict d))
       (timestamp_ok (field_of d "timestamp" JNull)).
Proof.
  intros self. unfold _validate_timestamp, timestamp_ok, field_of.
  cbn [py_get].
  destruct (match dict_get "timestamp" d with
            | Some x => x
            | None => JNull
            end) as [|b|z|f|s|l|dd] eqn:E;
    try (destruct (truthy _); cbn [negb orb];
         [apply adds_error | apply adds_nothing]).
  destruct (truthy (JStr s)); cbn [negb orb]; [|apply adds_nothing].
  destruct (contains "T" s); cbn [negb];
    [apply adds_nothing | apply adds_error].
Qed.

(** On an object whose [os] is an object, [validate] returns, and its
    verdict is [acceptable]. *)
Lemma validate_checkable (d os_d : list (string * json))
  (self : ManifestValidator) :
  field_of d "os" (JDict []) = JDict os_d ->
  exists self',
    validate (JDict d) self = (self', Ok (acceptable (JDict d))).
Proof.
  intros Hos. unfold Validator.validate.
  assert (H : adds
    (seq_methods (_validate_required_fields (JDict d))
    (seq_methods (_validate_schema_version py_str (JDict d))
    (seq_methods (_validate_os py_str (JDict d))
    (seq_methods (_validate_arch py_str (JDict d))
    (seq_methods (_validate_repos (JDict d))
    (seq_methods (_validate_rpms py_str (JDict d))
                 (_validate_timestamp py_str (JDict d))))))))
    (acceptable (JDict d))).
  { eapply adds_ext;
      [|apply adds_seq; [apply adds_check_fields|];
        apply adds_seq; [apply adds_schema_version|];
        apply adds_seq; [apply (adds_os _ Hos)|];
        apply adds_seq; [apply adds_arch|];
        apply adds_seq; [apply adds_repos|];
        apply adds_seq; [apply adds_rpms | apply adds_timestamp]].
    unfold acceptable. rewrite Hos. cbn [andb].
    now rewrite !andb_assoc. }
  destruct (H (mkValidator [] [])) as [s [a [E [Hs Hok]]]].
  rewrite E. exists s. do 2 f_equal. cbn [errors app] in Hs. rewrite Hs.
  destruct (acceptable (JDict d)).
  - now rewrite (proj2 Hok eq_refl).
  - destruct a; [|reflexivity]. pose proof (proj1 Hok eq_refl).
    discriminate.
Qed.

Lemma seq_raises (m1 m2 : method) :
  (forall self, exists self', m1 self = (self', Ok tt)) ->
  (forall self, exists self' e, m2 self = (self', Raise e)) ->
  forall self, exists self' e, seq_methods m1 m2 self = (self', Raise e).
Proof.
  intros H1 H2 self. unfold seq_methods.
  destruct (H1 self) as [s1 E1]. rewrite E1. apply H2.
Qed.

Lemma seq_raises_first (m1 m2 : method) :
  (forall self, exists self' e, m1 self = (self', Raise e)) ->
  forall self, exists self' e, seq_methods m1 m2 self = (self', Raise e).
Proof.
  intros H1 self. unfold seq_methods.
  destruct (H1 self) as [s1 [e E1]]. rewrite E1. now exists s1, e.
Qed.

Lemma adds_returns (m : method) (ok : bool) :
  adds m ok -> forall self, exists self', m self = (self', Ok tt).
Proof.
  intros H self. destruct (H self) as [s [a [E _]]]. now exists s.
Qed.

(** [field in container] never fails on a string or a list. *)
Lemma check_fields_returns (fields : list string) (container : json)
  (msg : string -> string) :
  isinstance_str container || isinstance_list container = true ->
  forall self, exists self', check_fields fields container msg self
                             = (self', Ok tt).
Proof.
  intros Hc. induction fields as [|f rest IH]; intros self.
  - now exists self.
  - cbn [check_fields].
    destruct container; try discriminate; cbn [py_contains]; apply IH.
Qed.

(** ... and always fails on [None], a bool or a number. *)
Lemma check_fields_raises (f : string) (rest : list string)
  (container : json) (msg : string -> string) :
  isinstance_str container || isinstance_list container
  || isinstance_dict container = false ->
  forall self, exists self' e,
      check_fields (f :: rest) container msg self = (self', Raise e).
Proof.
  intros Hc self. cbn [check_fields].
  destruct container; try discriminate; cbn [py_contains];
    eexists _, _; reflexivity.
Qed.

Lemma os_major_needs_dict (os_info : json) :
  isinstance_dict os_info = false ->
  forall self, exists self' e,
      check_os_major py_str os_info self = (self', Raise e).
Proof.
  intros Hc self. unfold check_os_major.
  destruct os_info; try discriminate; cbn [py_get]; eexists _, _;
    reflexivity.
Qed.

Lemma validate_os_raises (d : list (string * json)) :
  isinstance_dict (field_of d "os" (JDict [])) = false ->
  forall self, exists self' e,
      _validate_os py_str (JDict d) self = (self', Raise e).
Proof.
  intros Hos self. unfold _validate_os. cbn [py_get].
  change (match dict_get "os" d with Some x => x | None => JDict [] end)
    with (field_of d "os" (JDict [])).
  destruct (isinstance_str (field_of d "os" (JDict []))
            || isinstance_list (field_of d "os" (JDict []))) eqn:E.
  - apply seq_raises; [now apply check_fields_returns|].
    apply seq_raises_first. now apply os_major_needs_dict.
  - apply seq_raises_first. apply check_fields_raises.
    now rewrite E, Hos.
Qed.

Lemma schema_version_needs_dict (manifest : json) :
  isinstance_dict manifest = false ->
  forall self, exists self' e,
      _validate_schema_version py_str manifest self = (self', Raise e).
Proof.
  intros Hc self. unfold _validate_schema_version.
  destruct manifest; try discriminate; cbn [py_get]; eexists _, _;
    reflexivity.
Qed.

(** [validate] raises on everything that is not [checkable]. *)
Lemma validate_uncheckable (manifest : json) (self : ManifestValidator) :
  checkable manifest = false ->
  exists self' e, validate manifest self = (self', Raise e).
Proof.
  intros Hc. unfold Validator.validate.
  match goal with
  | |- context [seq_methods ?m1 ?m2 ?s] =>
      assert (H : exists self' e, seq_methods m1 m2 s = (self', Raise e))
  end.
  { destruct manifest as [| | | | | |d].
    7: { apply seq_raises; [apply (adds_returns (adds_check_fields _ _ _))|].
         apply seq_raises;
           [apply (adds_returns (adds_schema_version _))|].
         apply seq_raises_first. now apply validate_os_raises. }
    all: try (apply seq_raises_first; now apply check_fields_raises).
    all: apply seq_raises; [now apply check_fields_returns|];
         apply seq_raises_first; now apply schema_version_needs_dict. }
  destruct H as [s [e E]]. rewrite E. now exists s, e.
Qed.

Lemma acceptable_checkable (manifest : json) :
  acceptable manifest = true -> checkable manifest = true.
Proof.
  destruct manifest as [| | | | | |d]; try discriminate.
  unfold acceptable, checkable, os_ok.
  destruct (field_of d "os" (JDict [])); try reflexivity;
    rewrite ?andb_false_r; cbn [andb]; discriminate.
Qed.

Lemma validate_cases (manifest : json) (self : ManifestValidator) :
  (checkable manifest = true /\
   exists self', validate manifest self = (self', Ok (acceptable manifest)))
  \/
  (checkable manifest = false /\ acceptable manifest = false /\
   exists self' e, validate manifest self = (self', Raise e)).
Proof.
  destruct (checkable manifest) eqn:Hc.
  - left. split; [reflexivity|].
    destruct manifest as [| | | | | |d]; try discriminate.
    unfold checkable in Hc.
    destruct (field_of d "os" (JDict [])) as [| | | | | |os_d] eqn:Hos;
      try discriminate.
    now apply validate_checkable with (os_d := os_d).
  - right. split; [reflexivity|]. split.
    + destruct (acceptable manifest) eqn:Ha; [|reflexivity].
      apply acceptable_checkable in Ha. congruence.
    + now apply validate_uncheckable.
Qed.

(** X13.  [validate] returns [True] exactly for the manifests that are
    [acceptable]: objects with the seven required fields, whose [os] is
    an object with its three fields, a major that is [None], 8 or 9 and
    a minor that is [None] or an integer; whose [arch] is empty or one
    of the two system architectures; whose [enabled_repos] is a list of
    objects with an [id]; whose [installed_rpms] is a list whose first
    hundred entries are objects with the five fields; and whose
    [timestamp] is empty or a string containing [T].  Warnings, the
    schema version and the entries past the hundredth play no part. *)
Theorem validate_accepts_exactly_the_acceptable :
  forall (manifest : json) (self : ManifestValidator),
    snd (validate manifest self) = Ok true <-> acceptable manifest = true.
Proof.
  intros manifest self.
  destruct (validate_cases manifest self)
    as [[_ [s E]] | [_ [Ha [s [e E]]]]]; rewrite E; cbn [snd].
  - split; [intros H; now injection H | now intros ->].
  - rewrite Ha. split; discriminate.
Qed.

(** X14.  [validate] raises exactly on what is not [checkable]: a value
    that is not an object, or an object whose [os] is present and is
    not an object ([TypeError] or [AttributeError]); on every other
    manifest it returns, and then [errors] is empty exactly when it
    returned [True]. *)
Theorem validate_raises_exactly_on_the_uncheckable :
  forall (manifest : json) (self : ManifestValidator),
    ((exists e, snd (validate manifest self) = Raise e) <->
     checkable manifest = false) /\
    (forall verdict,
        snd (validate manifest self) = Ok verdict ->
        (verdict = true <-> errors (fst (validate manifest self)) = [])).
Proof.
  intros manifest self. split.
  - destruct (validate_cases manifest self)
      as [[Hc [s E]] | [Hc [_ [s [e E]]]]]; rewrite E, Hc; cbn [snd].
    + split; [intros [e H]; discriminate | discriminate].
    + split; [reflexivity | intros _; now exists e].
  - unfold Validator.validate.
    match goal with
    | |- context [seq_methods ?m1 ?m2 ?s] =>
        destruct (seq_methods m1 m2 s) as [s' [[]|e]]
    end; cbn [fst snd]; intros verdict H; [|discriminate].
    injection H as <-. rewrite Nat.eqb_eq. apply length_zero_iff_nil.
Qed.

End Facts.

Section Cli.
Variable py_str : json -> string.
Variable exists_ : Path -> bool.
Variable w : World.

Local Abbreviation validate_file := (validate_file py_str exists_ w).
Local Abbreviation main_loop := (main_loop py_str exists_ w).
Local Abbreviation main := (main py_str exists_ w).

(** The verdict on a file does not depend on what the validator held. *)
Lemma validate_file_verdict (filepath : Path)
  (self other : ManifestValidator) :
  snd (validate_file filepath self) = snd (validate_file filepath other).
Proof.
  unfold ValidatorCli.validate_file.
  destruct (negb (exists_ filepath)); [reflexivity|].
  destruct (load_json w filepath) as [manifest|e].
  - reflexivity.
  - now destruct (caught_by e [JSONDecodeError]).
Qed.

Lemma main_loop_spec (quiet : bool) (manifests : list Path) :
  forall validator all_valid printed,
    (snd (main_loop quiet manifests validator all_valid printed) = Ok true <->
     all_valid = true /\
     Forall (fun p => snd (validate_file p init) = Ok true) manifests) /\
    (quiet = true ->
     snd (main_loop quiet manifests validator all_valid printed) = Ok true ->
     fst (main_loop quiet manifests validator all_valid printed) = printed).
Proof.
  induction manifests as [|p rest IH]; intros validator all_valid printed.
  - simpl. split; [|reflexivity]. split.
    + intros H. injection H as ->. now split.
    + now intros [-> _].
  - cbn [ValidatorCli.main_loop].
    pose proof (validate_file_verdict p validator init) as Hv.
    destruct (validate_file p validator) as [v' [is_valid|e]];
      cbn [snd] in Hv.
    + destruct (IH v' (if negb is_valid then false else all_valid)
                  (if negb quiet || negb is_valid
                   then printed
                        ++ [ValidatorCli.newline +++ path_str p +++ ":";
                            get_summary v']
                   else printed)) as [IH1 IH2].
      split.
      * rewrite IH1. split.
        -- intros [Ha Hrest]. destruct is_valid; [|discriminate].
           split; [exact Ha|]. constructor; [now symmetry | exact Hrest].
        -- intros [Ha Hall]. inversion Hall as [|? ? Hp Hrest]; subst.
           rewrite Hp in Hv. injection Hv as ->. now split.
      * intros Hq H. rewrite (IH2 Hq H). apply IH1 in H as [Ha _].
        destruct is_valid; [|discriminate]. subst quiet. reflexivity.
    + cbn [snd fst]. split; [|discriminate]. split; [discriminate|].
      intros [_ Hall]. inversion Hall as [|? ? Hp Hrest]; subst.
      rewrite Hp in Hv. discriminate.
Qed.

(** X15.  The validator CLI exits with status 0 exactly when it is
    given at least one file and every file named, checked on its own,
    is valid: the one validator that [main] reuses carries no verdict
    from one file to the next.  With [--quiet] such a run prints
    nothing.  A missing file or one that is not JSON counts as invalid:
    the status is then not 0. *)
Theorem main_exits_zero_iff_all_valid :
  forall (quiet : bool) (manifests : list Path),
    (snd (main quiet manifests) = Ok 0%Z <->
     manifests <> [] /\
     Forall (fun p => snd (validate_file p init) = Ok true) manifests) /\
    (quiet = true -> snd (main quiet manifests) = Ok 0%Z ->
     fst (main quiet manifests) = []) /\
    (forall p,
        In p manifests ->
        exists_ p = false \/
        (exists e, load_json w p = Raise e /\
                   caught_by e [JSONDecodeError] = true) ->
        snd (main quiet manifests) <> Ok 0%Z).
Proof.
  intros quiet manifests.
  destruct (main_loop_spec quiet manifests init true []) as [H1 H2].
  assert (Hmain : snd (main quiet manifests) = Ok 0%Z <->
                  manifests <> [] /\
                  snd (main_loop quiet manifests init true []) = Ok true).
  { unfold ValidatorCli.main. destruct manifests as [|p rest].
    - cbn [snd]. split; [discriminate | now intros [H _]].
    - destruct (main_loop quiet (p :: rest) init true []) as [pr [[|]|e]];
        cbn [snd]; split; try (intros [_ H]); try split; congruence. }
  assert (Hzero : snd (main quiet manifests) = Ok 0%Z <->
                  manifests <> [] /\
                  Forall (fun p => snd (validate_file p init) = Ok true)
                         manifests).
  { rewrite Hmain, H1. tauto. }
  split; [exact Hzero|]. split.
  - intros Hq H. apply Hmain in H as [Hne H]. specialize (H2 Hq H).
    unfold ValidatorCli.main. destruct manifests as [|p rest]; [congruence|].
    destruct (main_loop quiet (p :: rest) init true []) as [pr [b|e]];
      cbn [fst] in *; exact H2.
  - intros p Hin Hbad H. apply Hzero in H as [_ H].
    rewrite Forall_forall in H. specialize (H p Hin).
    unfold ValidatorCli.validate_file in H.
    destruct Hbad as [Hmiss | [e [Hload Hcaught]]].
    + rewrite Hmiss in H. discriminate.
    + destruct (negb (exists_ p)); [discriminate|].
      rewrite Hload, Hcaught in H. discriminate.
Qed.

End Cli.

End ValidatorCliFacts.

(** ** builder.py: cleaning up, failing, archiving, totals *)

Module BuildFacts.
Import Resolver Downloader Builder BuilderNames BuilderFacts StrFacts.

Lemma rmtree_files (undeletable : Path -> bool) (q : Path) (d : Disk)
  (p : Path) (c : file_content) :
  In (p, c) (files (rmtree undeletable q d)) <->
  In (p, c) (files d) /\ (under q p = false \/ undeletable p = true).
Proof.
  unfold rmtree. cbn [files]. rewrite filter_In. cbn [fst].
  now rewrite orb_true_iff, negb_true_iff.
Qed.

Lemma rmtree_dirs (undeletable : Path -> bool) (q : Path) (d : Disk)
  (p : Path) :
  In p (dirs (rmtree undeletable q d)) ->
  In p (dirs d) /\
  (under q p = false \/
   exists r, under p r = true /\ undeletable r = true).
Proof.
  unfold rmtree. cbn [dirs]. rewrite filter_In.
  rewrite !orb_true_iff, negb_true_iff, !existsb_exists.
  intros [Hin [Hu | [[f [_ Hf]] | [r [_ Hr]]]]]; split; auto; right.
  - apply andb_true_iff in Hf. now exists (fst f).
  - apply andb_true_iff in Hr. now exists r.
Qed.

Lemma is_prefix_iff (l m : list string) :
  is_prefix l m = true <-> exists r, m = l ++ r.
Proof.
  revert m. induction l as [|x l IH]; intros m; simpl.
  - split; [intros _; now exists m | reflexivity].
  - destruct m as [|y m].
    + split; [discriminate | intros [r Hr]; discriminate].
    + rewrite andb_true_iff, String.eqb_eq, IH. split.
      * intros [-> [r ->]]. now exists r.
      * intros [r Hr]. injection Hr as -> ->. split; [reflexivity|].
        now exists r.
Qed.

(** [mkdir] makes directories only. *)
Lemma files_mkdir (p : Path) (d d' : Disk) :
  mkdir p d = Ok d' -> files d' = files d.
Proof.
  unfold mkdir. destruct (existsb _ (ancestors p)); [discriminate|].
  destruct (is_file p d); [discriminate|].
  intros H. now injection H as <-.
Qed.

Lemma under_trans (a b c : Path) :
  under a b = true -> under b c = true -> under a c = true.
Proof.
  unfold under. rewrite !andb_true_iff, !String.eqb_eq, !is_prefix_iff.
  intros [Ha [r ->]] [Hb [s ->]]. split; [congruence|].
  exists (r ++ s). now rewrite app_assoc.
Qed.

(** What [rmtree] leaves at or below the directory. *)
Lemma rmtree_leaves (undeletable : Path -> bool) (q : Path) (d : Disk) :
  (forall p c,
      In (p, c) (files (rmtree undeletable q d)) ->
      under q p = true -> undeletable p = true) /\
  (forall p,
      In p (dirs (rmtree undeletable q d)) -> under q p = true ->
      exists r, under p r = true /\ undeletable r = true) /\
  ((forall p, under q p = true -> undeletable p = false) ->
   (forall p c, In (p, c) (files (rmtree undeletable q d)) ->
                under q p = false) /\
   (forall p, In p (dirs (rmtree undeletable q d)) -> under q p = false) /\
   (forall child,
       read_file (joinpath q child) (rmtree undeletable q d) = None)).
Proof.
  assert (Hf : forall p c,
             In (p, c) (files (rmtree undeletable q d)) ->
             under q p = true -> undeletable p = true).
  { intros p c Hin Hu. apply rmtree_files in Hin as [_ [H|H]]; congruence. }
  assert (Hd : forall p,
             In p (dirs (rmtree undeletable q d)) -> under q p = true ->
             exists r, under p r = true /\ undeletable r = true).
  { intros p Hin Hu. apply rmtree_dirs in Hin as [_ [H|H]];
      [congruence | exact H]. }
  split; [exact Hf|]. split; [exact Hd|]. intros Hall.
  assert (Hf' : forall p c,
             In (p, c) (files (rmtree undeletable q d)) ->
             under q p = false).
  { intros p c Hin. destruct (under q p) eqn:Hu; [|reflexivity].
    pose proof (Hf p c Hin Hu) as Hun. rewrite (Hall p Hu) in Hun.
    discriminate. }
  split; [exact Hf'|]. split.
  - intros p Hin. destruct (under q p) eqn:Hu; [|reflexivity].
    destruct (Hd p Hin Hu) as [r [Hr Hun]].
    rewrite (Hall r (under_trans _ _ _ Hu Hr)) in Hun. discriminate.
  - intros child. unfold read_file.
    destruct (find _ (files (rmtree undeletable q d))) as [[p c]|] eqn:F;
      [|reflexivity].
    apply find_some in F as [Hin Heq]. cbn [fst] in Heq.
    apply path_eqb_eq in Heq as ->. apply Hf' in Hin.
    now rewrite under_joinpath in Hin.
Qed.

Lemma read_write_other (p q : Path) (c : file_content) (d : Disk) :
  p <> q -> read_file p (write_file q c d) = read_file p d.
Proof.
  intros Hne. unfold read_file, write_file. cbn [files find fst].
  rewrite (path_eqb_neq (p := q) (q := p)) by congruence.
  induction (files d) as [|[p0 c0] l IH]; simpl; [reflexivity|].
  destruct (path_eqb p0 q) eqn:E; simpl.
  - apply path_eqb_eq in E as ->.
    rewrite (path_eqb_neq (p := q) (q := p)) by congruence. exact IH.
  - destruct (path_eqb p0 p); [reflexivity | exact IH].
Qed.

Lemma read_remove_same (p : Path) (d : Disk) :
  read_file p (remove_file p d) = None.
Proof.
  unfold read_file, remove_file. cbn [files].
  induction (files d) as [|[p0 c0] l IH]; simpl; [reflexivity|].
  destruct (path_eqb p0 p) eqn:E; simpl; [exact IH|]. now rewrite E.
Qed.

Lemma tar_is_not_archive (bundle_id suffix : string) :
  suffix <> "" -> bundle_id +++ ".tar" <> bundle_id +++ ".tar" +++ suffix.
Proof.
  intros Hs E. apply (f_equal String.length) in E.
  rewrite !length_append in E. destruct suffix; [congruence|].
  simpl in E. lia.
Qed.

Section Facts.
Variable datetime : Type.
Variable now : nat -> datetime.
Variable isoformat : datetime -> string.
Variable strftime_compact : datetime -> string.
Variable gethostname : string.
Variable json_dumps_sorted : json -> string.
Variable sha256_hexdigest : string -> string.
Variable w : World.
Variable dnf : Dnf.
Variable download_packages :
  Path -> list ResolvedPackage ->
  result (list DownloadResult * list (Path * file_content)).
Variable createrepo_c : Path -> result (list (Path * file_content)).
Variable createrepo : Path -> result (list (Path * file_content)).
Variable st_size : Path -> result Z.
Variable zstd : result unit.
Variable sha256_file : file_content -> string.
Variable undeletable : Path -> bool.

Local Abbreviation rmtree := (rmtree undeletable).

Local Abbreviation _build_metadata :=
  (_build_metadata isoformat gethostname st_size).
Local Abbreviation build_steps :=
  (build_steps now isoformat gethostname json_dumps_sorted sha256_hexdigest
               w dnf download_packages createrepo_c createrepo st_size zstd
               sha256_file).
Local Abbreviation build :=
  (build now isoformat strftime_compact gethostname json_dumps_sorted
         sha256_hexdigest w dnf download_packages createrepo_c createrepo
         st_size zstd sha256_file undeletable).
Local Abbreviation _create_archive := (_create_archive zstd).

(** What [build] does before the [try]. *)
Lemma started_spec (bundle_id message : string) (rpms_dir manifests_copy_dir : Path)
  (st : State) :
  (on_self (set_bundle_id bundle_id) ;;;
   Builder._log now isoformat message ;;;
   make_dir rpms_dir ;;;
   make_dir manifests_copy_dir) st
  = let b :=
      append_log ("[" +++ isoformat (now (tick st)) +++ "] " +++ message)
                 (set_bundle_id bundle_id (self st)) in
    match mkdir rpms_dir (disk st) with
    | Raise e => (mkState b (disk st) (S (tick st)), Raise e)
    | Ok d1 =>
        match mkdir manifests_copy_dir d1 with
        | Raise e => (mkState b d1 (S (tick st)), Raise e)
        | Ok d2 => (mkState b d2 (S (tick st)), Ok tt)
        end
    end.
Proof.
  unfold bindM, on_self, Builder._log, make_dir. cbn [self disk tick].
  destruct (mkdir rpms_dir (disk st)) as [d1|e]; [|reflexivity].
  cbn [self disk tick].
  now destruct (mkdir manifests_copy_dir d1).
Qed.

(** X16.  [build] makes its two work directories before the [try].
    When one of the two calls raises, a regular file lying at the
    directory or above it, [build] raises that error at once: it logs
    nothing about it and removes nothing, so the disk is as the calls
    left it.  When both succeed, the [finally] clause runs however the
    [try] block ends, by returning the archive or by raising:
    afterwards every file at or below [work_dir / bundle_id] is one
    whose removal failed, every directory there has such a path at or
    below it, and when no removal fails nothing of the work directory
    is on the disk. *)
Theorem build_cleans_up_once_it_entered_the_try :
  forall (st : State),
    let bundle_work_dir :=
      bundle_work_dir_at (self st) (strftime_compact (now (tick st))) in
    let st' := fst (build st) in
    match mkdir (joinpath bundle_work_dir "rpms") (disk st) with
    | Raise e =>
        snd (build st) = Raise e /\ disk st' = disk st /\
        exists entry, build_log (self st') = build_log (self st) ++ [entry]
    | Ok d1 =>
        match mkdir (joinpath bundle_work_dir "manifests") d1 with
        | Raise e =>
            snd (build st) = Raise e /\ disk st' = d1 /\
            exists entry,
              build_log (self st') = build_log (self st) ++ [entry]
        | Ok d2 =>
            (forall p c,
                In (p, c) (files (disk st')) ->
                under bundle_work_dir p = true -> undeletable p = true) /\
            (forall p,
                In p (dirs (disk st')) -> under bundle_work_dir p = true ->
                exists r, under p r = true /\ undeletable r = true) /\
            ((forall p, under bundle_work_dir p = true ->
                        undeletable p = false) ->
             (forall p c, In (p, c) (files (disk st')) ->
                          under bundle_work_dir p = false) /\
             (forall p, In p (dirs (disk st')) ->
                        under bundle_work_dir p = false) /\
             (forall child,
                 read_file (joinpath bundle_work_dir child) (disk st')
                 = None))
        end
    end.
Proof.
  intros st bundle_work_dir st'. subst st' bundle_work_dir.
  unfold Builder.build, bundle_work_dir_at, bundle_id_at. cbv zeta.
  rewrite started_spec. cbv zeta. cbn [disk self tick].
  set (bundle_work_dir := joinpath (work_dir (self st)) _).
  destruct (mkdir (joinpath bundle_work_dir "rpms") (disk st)) as [d1|e].
  2:{ cbn [fst snd disk self build_log append_log set_bundle_id].
      repeat split. now eexists. }
  destruct (mkdir (joinpath bundle_work_dir "manifests") d1) as [d2|e].
  2:{ cbn [fst snd disk self build_log append_log set_bundle_id].
      repeat split. now eexists. }
  match goal with
  | |- context [Builder.build_steps _ _ _ _ _ _ _ _ _ _ _ _ _ ?t ?d ?s] =>
      destruct (build_steps t d s) as [st1 [p|e]]
  end.
  - cbn [fst disk]. apply rmtree_leaves.
  - match goal with
    | |- context [Builder._log ?a ?b ?c ?s] =>
        destruct (Builder._log a b c s) as [st2 r]
    end.
    cbn [fst disk]. apply rmtree_leaves.
Qed.

(** X17.  [_create_archive] writes an uncompressed [.tar] beside the
    archive first.  When [zstd] succeeds the archive is
    [bundle_id.tar.zst] and the [.tar] is gone; when [zstd] is missing
    or fails, the archive is [bundle_id.tar.gz] and the uncompressed
    [.tar] is still in the output directory; on any other exception of
    the [zstd] call the method raises and the [.tar] stays as well. *)
Theorem archive_fallback_leaves_the_tar :
  forall (source_dir : Path) (st : State),
    let b := self st in
    let tar_path := joinpath (output_dir b) (bundle_id b +++ ".tar") in
    let members := tar_members source_dir (bundle_id b) (disk st) in
    let st' := fst (_create_archive source_dir st) in
    match zstd with
    | Ok _ =>
        let archive_path :=
          joinpath (output_dir b) (bundle_id b +++ ".tar.zst") in
        snd (_create_archive source_dir st) = Ok archive_path /\
        read_file archive_path (disk st') = Some (Tar members "zst") /\
        read_file tar_path (disk st') = None
    | Raise e =>
        read_file tar_path (disk st') = Some (Tar members "") /\
        if caught_by e [FileNotFoundError; CalledProcessError] then
          let archive_path :=
            joinpath (output_dir b) (bundle_id b +++ ".tar.gz") in
          snd (_create_archive source_dir st) = Ok archive_path /\
          exists members',
            read_file archive_path (disk st') = Some (Tar members' "gz")
        else snd (_create_archive source_dir st) = Raise e
    end.
Proof.
  intros source_dir st b tar_path members st'. subst st'.
  unfold Builder._create_archive. fold b. fold tar_path. fold members.
  assert (Hzst : tar_path
                 <> joinpath (output_dir b) (bundle_id b +++ ".tar.zst")).
  { intros E. apply joinpath_inj in E.
    apply (tar_is_not_archive (bundle_id b) (suffix := ".zst"));
      [discriminate | exact E]. }
  assert (Hgz : tar_path
                <> joinpath (output_dir b) (bundle_id b +++ ".tar.gz")).
  { intros E. apply joinpath_inj in E.
    apply (tar_is_not_archive (bundle_id b) (suffix := ".gz"));
      [discriminate | exact E]. }
  destruct zstd as [u|e].
  - cbn [fst snd disk]. split; [reflexivity|]. split.
    + apply read_write_same.
    + rewrite read_write_other by exact Hzst. apply read_remove_same.
  - destruct (caught_by e [FileNotFoundError; CalledProcessError]);
      cbn [fst snd disk].
    + split.
      * rewrite read_write_other by exact Hgz. apply read_write_same.
      * split; [reflexivity|]. eexists. apply read_write_same.
    + split; [apply read_write_same | reflexivity].
Qed.

Lemma count_types_bounded (resolved : list ResolvedPackage) :
  count_type "update" resolved + count_type "security" resolved
  + count_type "dependency" resolved <= List.length resolved.
Proof.
  unfold count_type. induction resolved as [|p ps IH]; simpl; [lia|].
  destruct (String.eqb (package_type p) "update") eqn:Eu.
  - apply String.eqb_eq in Eu. rewrite Eu. simpl. lia.
  - destruct (String.eqb (package_type p) "security") eqn:Es.
    + apply String.eqb_eq in Es. rewrite Es. simpl. lia.
    + destruct (String.eqb (package_type p) "dependency"); simpl; lia.
Qed.

Lemma package_entries_spec (package_hosts : list (json * list json))
  (rs : list DownloadResult) :
  forall entries,
    package_entries st_size package_hosts rs = Ok entries ->
    map entry_nevra entries = map (fun r => nevra (package r)) rs /\
    map entry_sha256 entries = map sha256 rs /\
    map entry_type entries = map (fun r => package_type (package r)) rs.
Proof.
  induction rs as [|r rs IH]; intros entries; cbn [package_entries].
  - intros H. injection H as <-. now repeat split.
  - destruct (match local_path r with
              | Some p => st_size p
              | None => Ok 0%Z
              end) as [size|e]; [|discriminate].
    cbn [bind].
    destruct (package_entries st_size package_hosts rs) as [es|e];
      [|discriminate].
    cbn [bind]. intros H. injection H as <-.
    destruct (IH es eq_refl) as [H1 [H2 H3]]. cbn [map entry_nevra
      entry_sha256 entry_type]. now rewrite H1, H2, H3.
Qed.

Lemma total_size_listed (package_hosts : list (json * list json))
  (rs : list DownloadResult) :
  forall total t entries,
    total_size st_size rs total = Ok t ->
    package_entries st_size package_hosts (filter success rs) = Ok entries ->
    t = (total + listed_size entries)%Z.
Proof.
  induction rs as [|r rs IH]; intros total t entries;
    cbn [total_size filter].
  - cbn [package_entries]. intros H1 H2. injection H1 as <-.
    injection H2 as <-. simpl. lia.
  - destruct (success r); [|apply IH].
    cbn [package_entries]. destruct (local_path r) as [p|].
    + destruct (st_size p) as [size|e]; [|discriminate]. cbn [bind].
      destruct (package_entries st_size package_hosts (filter success rs))
        as [es|e]; [|intros _; discriminate].
      cbn [bind]. intros H1 H2. injection H2 as <-.
      rewrite (IH _ _ _ H1 eq_refl). cbn [listed_size fold_right
        entry_size_bytes]. fold (listed_size es). lia.
    + cbn [bind].
      destruct (package_entries st_size package_hosts (filter success rs))
        as [es|e]; [|intros _; discriminate].
      cbn [bind]. intros H1 H2. injection H2 as <-.
      rewrite (IH _ _ _ H1 eq_refl). cbn [listed_size fold_right
        entry_size_bytes]. fold (listed_size es). lia.
Qed.

(** X18.  In the metadata [_build_metadata] returns, [package_list] has
    one entry per successful download, in order, with the package's
    NEVRA, type and digest; [packages.total_count] is its length;
    [packages.size_bytes] is the sum of the [size_bytes] of its
    entries; and the three type counts, taken over the resolved
    packages, never exceed their number. *)
Theorem metadata_totals_agree_with_the_package_list :
  forall (b : BundleBuilder) (timestamp : datetime)
         (merger : Merger.ManifestMerger) (resolved : list ResolvedPackage)
         (downloader : RPMDownloader) (md : BundleMetadata),
    _build_metadata b timestamp merger resolved downloader = Ok md ->
    let successful := get_successful_downloads downloader in
    map entry_nevra (package_list md)
    = map (fun r => nevra (package r)) successful /\
    map entry_sha256 (package_list md) = map sha256 successful /\
    map entry_type (package_list md)
    = map (fun r => package_type (package r)) successful /\
    total_count (packages md) = List.length successful /\
    size_bytes_total (packages md) = listed_size (package_list md) /\
    update_count (packages md) + security_count (packages md)
    + dependency_count (packages md) <= List.length resolved /\
    md_os_major md = os_major b /\ md_bundle_id md = bundle_id b.
Proof.
  intros b timestamp merger resolved downloader md.
  unfold Builder._build_metadata.
  destruct (Merger.get_host_summary merger); cbn [bind]; [|discriminate].
  destruct (Merger.get_package_to_hosts_map merger) as [package_hosts|];
    cbn [bind]; [|discriminate].
  destruct (package_entries st_size package_hosts
              (get_successful_downloads downloader)) as [entries|] eqn:Hpe;
    cbn [bind]; [|discriminate].
  destruct (host_packages _ _ _); cbn [bind]; [|discriminate].
  destruct (manifests_used_of _); cbn [bind]; [|discriminate].
  destruct (get_total_size st_size downloader) as [size|] eqn:Hts;
    cbn [bind]; [|discriminate].
  intros H. injection H as <-.
  cbn [package_list packages total_count size_bytes_total update_count
       security_count dependency_count md_os_major md_bundle_id].
  destruct (package_entries_spec _ _ Hpe) as [H1 [H2 H3]].
  repeat split; auto.
  - rewrite <- (length_map entry_nevra), H1. apply length_map.
  - unfold get_total_size in Hts. unfold get_successful_downloads in Hpe.
    now rewrite (total_size_listed _ _ _ Hts Hpe).
  - apply count_types_bounded.
Qed.

(** [build] once its two work directories are made, when the manifest
    directory yields no manifest for the builder's OS. *)
Lemma no_manifests_spec :
  forall (st : State) (merger0 merger : Merger.ManifestMerger)
         (d1 d2 : Disk),
    mkdir (joinpath (bundle_work_dir_at (self st)
                       (strftime_compact (now (tick st)))) "rpms")
          (disk st) = Ok d1 ->
    mkdir (joinpath (bundle_work_dir_at (self st)
                       (strftime_compact (now (tick st)))) "manifests")
          d1 = Ok d2 ->
    Merger.init (os_major (self st)) = Ok merger0 ->
    Merger.add_manifests_from_directory json_dumps_sorted sha256_hexdigest
      w (manifest_dir (self st)) merger0 = (merger, Ok 0) ->
    let stamp := strftime_compact (now (tick st)) in
    let message :=
      "No RHEL " +++ str_Z (os_major (self st)) +++ " manifests found" in
    exists st' t1 t2 t3 t4,
      build st = (st', Raise (mkExn RuntimeError message)) /\
      metadata (self st') = metadata (self st) /\
      files (disk st')
      = filter (fun f => negb (under (bundle_work_dir_at (self st) stamp)
                                     (fst f))
                         || undeletable (fst f))
               (files (disk st)) /\
      build_log (self st')
      = build_log (self st)
        ++ ["[" +++ t1 +++ "] " +++ "Starting bundle build: "
              +++ bundle_id_at (self st) stamp;
            "[" +++ t2 +++ "] " +++ "Step 1: Loading manifests";
            "[" +++ t3 +++ "] " +++ "  Loaded 0 manifests";
            "[" +++ t4 +++ "] " +++ "ERROR: " +++ message].
Proof.
  intros st merger0 merger d1 d2 Hrpms Hmanifests Hinit Hadd stamp message.
  unfold bundle_work_dir_at, bundle_id_at in Hrpms, Hmanifests.
  unfold Builder.build. cbv zeta. rewrite started_spec. cbv zeta.
  cbn [disk self tick]. rewrite Hrpms, Hmanifests.
  unfold Builder.build_steps, Builder.gather.
  unfold bindM, Builder._log, get_self, lift, on_self, on_disk, ret.
  cbn [fst snd self disk tick set_bundle_id append_log os_major manifest_dir
       output_dir work_dir bundle_id build_log metadata].
  rewrite Hinit, Hadd.
  cbn [Nat.eqb fst snd self disk tick set_bundle_id append_log os_major
       manifest_dir output_dir work_dir bundle_id build_log metadata raise
       exn_msg].
  do 5 eexists. split; [reflexivity|]. split; [reflexivity|]. split.
  - unfold Builder.rmtree. cbn [files].
    rewrite (files_mkdir _ _ Hmanifests), (files_mkdir _ _ Hrpms).
    reflexivity.
  - cbn [build_log self append_log set_bundle_id].
    rewrite <- !app_assoc. reflexivity.
Qed.

(** X19.  When the manifest directory yields no manifest for the
    builder's OS, [build] raises: the error of [mkdir] when one of its
    two work directories cannot be made, and otherwise [RuntimeError]
    with the message [No RHEL <major> manifests found].  In the latter
    case nothing has been resolved, downloaded or copied by then: the
    files on the disk are those that were there, less whatever lay in
    the work directory and could be removed; the builder holds no more
    metadata than before; and its log has gained four entries, the
    last being the error. *)
Theorem build_without_manifests_fails_early :
  forall (st : State) (merger0 merger : Merger.ManifestMerger),
    Merger.init (os_major (self st)) = Ok merger0 ->
    Merger.add_manifests_from_directory json_dumps_sorted sha256_hexdigest
      w (manifest_dir (self st)) merger0 = (merger, Ok 0) ->
    let stamp := strftime_compact (now (tick st)) in
    let bundle_work_dir := bundle_work_dir_at (self st) stamp in
    let message :=
      "No RHEL " +++ str_Z (os_major (self st)) +++ " manifests found" in
    match mkdir (joinpath bundle_work_dir "rpms") (disk st) with
    | Raise e => snd (build st) = Raise e
    | Ok d1 =>
        match mkdir (joinpath bundle_work_dir "manifests") d1 with
        | Raise e => snd (build st) = Raise e
        | Ok d2 =>
            exists st' t1 t2 t3 t4,
              build st = (st', Raise (mkExn RuntimeError message)) /\
              metadata (self st') = metadata (self st) /\
              files (disk st')
              = filter (fun f => negb (under bundle_work_dir (fst f))
                                 || undeletable (fst f))
                       (files (disk st)) /\
              build_log (self st')
              = build_log (self st)
                ++ ["[" +++ t1 +++ "] " +++ "Starting bundle build: "
                      +++ bundle_id_at (self st) stamp;
                    "[" +++ t2 +++ "] " +++ "Step 1: Loading manifests";
                    "[" +++ t3 +++ "] " +++ "  Loaded 0 manifests";
                    "[" +++ t4 +++ "] " +++ "ERROR: " +++ message]
        end
    end.
Proof.
  intros st merger0 merger Hinit Hadd stamp bundle_work_dir message.
  destruct (mkdir (joinpath bundle_work_dir "rpms") (disk st))
    as [d1|e] eqn:Hrpms.
  2:{ unfold Builder.build. cbv zeta. rewrite started_spec. cbv zeta.
      cbn [disk self tick].
      match goal with
      | |- context [mkdir ?p (disk st)] =>
          replace (mkdir p (disk st)) with (@Raise Disk e)
            by (symmetry; exact Hrpms)
      end.
      reflexivity. }
  destruct (mkdir (joinpath bundle_work_dir "manifests") d1)
    as [d2|e] eqn:Hmanifests.
  2:{ unfold Builder.build. cbv zeta. rewrite started_spec. cbv zeta.
      cbn [disk self tick].
      match goal with
      | |- context [mkdir ?p (disk st)] =>
          replace (mkdir p (disk st)) with (Ok d1) by (symmetry; exact Hrpms)
      end.
      match goal with
      | |- context [mkdir ?p d1] =>
          replace (mkdir p d1) with (@Raise Disk e)
            by (symmetry; exact Hmanifests)
      end.
      reflexivity. }
  exact (no_manifests_spec st Hrpms Hmanifests Hinit Hadd).
Qed.

End Facts.

End BuildFacts.

(** ** resolver.py: what the fallback lists *)

Module FallbackFacts.
Import Resolver Fallback ResolverFacts.

Section Facts.
Variable repoquery_info : string -> result string.
Variable repoquery_requires : string -> result string.
Variable splitlines : string -> list string.
Variable strip : string -> string.
Variable split_bar : string -> list string.
Variable isdigit : string -> bool.
Variable py_int : string -> result Z.
Variable packages : list string.

Local Abbreviation info_line :=
  (info_line strip split_bar isdigit py_int packages).
Local Abbreviation info_lines :=
  (info_lines strip split_bar isdigit py_int packages).
Local Abbreviation step :=
  (step repoquery_info repoquery_requires splitlines strip split_bar isdigit
        py_int packages).
Local Abbreviation loop :=
  (loop repoquery_info repoquery_requires splitlines strip split_bar isdigit
        py_int packages).
Local Abbreviation _resolve_via_repoquery :=
  (_resolve_via_repoquery repoquery_info repoquery_requires splitlines strip
     split_bar isdigit py_int packages).

(** The list the loop keeps: no NEVRA twice, every package as queried. *)
Local Abbreviation well_listed :=
  (fun resolved : list ResolvedPackage =>
     NoDup (map nevra resolved) /\ Forall (as_queried packages) resolved).

Lemma info_line_listed (resolved : list ResolvedPackage) (line : string)
  (pkg : ResolvedPackage) :
  info_line resolved line = Ok (Some pkg) ->
  ~ In (nevra pkg) (map nevra resolved) /\ as_queried packages pkg.
Proof.
  unfold Resolver.info_line.
  destruct (negb (nonempty (strip line))); [discriminate|].
  destruct (split_bar line)
    as [|n [|e [|v [|r [|a [|repo [|size rest]]]]]]]; try discriminate.
  destruct (existsb _ resolved) eqn:Ex; [discriminate|].
  destruct (if isdigit size then py_int size else Ok 0%Z) as [sz|err];
    [|discriminate].
  cbn [bind]. intros H. injection H as <-. split.
  - cbn [nevra]. intros Hin. apply in_map_iff in Hin as [p [Hp Hin]].
    assert (Ht : existsb
                   (fun p0 => String.eqb (nevra p0)
                      (n +++ "-" +++ e +++ ":" +++ v +++ "-" +++ r +++ "."
                       +++ a)) resolved = true).
    { apply existsb_exists. exists p. split; [exact Hin|].
      now apply String.eqb_eq. }
    congruence.
  - unfold as_queried.
    cbn [package_type name nevra epoch version release arch advisory_id
         required_by].
    split; [reflexivity|]. split; [|now split]. now exists e.
Qed.

Lemma info_lines_listed (lines : list string) :
  forall resolved,
    well_listed resolved -> well_listed (fst (info_lines lines resolved)).
Proof.
  induction lines as [|line rest IH]; intros resolved Hw;
    cbn [Resolver.info_lines]; [exact Hw|].
  destruct (info_line resolved line) as [[pkg|]|e] eqn:E.
  - apply IH. destruct (@info_line_listed _ _ _ E) as [Hnew Hq].
    destruct Hw as [Hnd Hall]. split.
    + rewrite map_app. cbn [map].
      apply NoDup_snoc; assumption.
    + apply Forall_app. split; [exact Hall | now constructor].
  - now apply IH.
  - exact Hw.
Qed.

Lemma step_listed (st : locals) :
  well_listed (l_resolved st) ->
  match snd (step st) with
  | Exit st' | Next st' => well_listed (l_resolved st')
  | Propagate _ => True
  end.
Proof.
  intros Hw. unfold Resolver.step.
  destruct (l_to_process st) as [|pkg_name to_process]; [exact Hw|].
  destruct (mem pkg_name (l_processed st)); [exact Hw|].
  destruct (repoquery_info pkg_name) as [stdout|e].
  - pose proof (@info_lines_listed (splitlines stdout) _ Hw) as Hl.
    destruct (info_lines (splitlines stdout) (l_resolved st))
      as [resolved [[]|e]]; cbn [fst] in Hl.
    + destruct (repoquery_requires pkg_name) as [dep|e]; [exact Hl|].
      cbn [snd]. unfold handle.
      now destruct (caught_by e [CalledProcessError]).
    + cbn [snd]. unfold handle.
      now destruct (caught_by e [CalledProcessError]).
  - cbn [snd]. unfold handle.
    now destruct (caught_by e [CalledProcessError]).
Qed.

Lemma loop_listed (fuel : nat) :
  forall st st',
    well_listed (l_resolved st) ->
    loop fuel st = Some (Ok st') -> well_listed (l_resolved st').
Proof.
  induction fuel as [|fuel IH]; intros st st' Hw; [discriminate|].
  rewrite (ResolverFacts.loop_S repoquery_info repoquery_requires splitlines
             strip split_bar isdigit py_int packages fuel st).
  pose proof (@step_listed st Hw) as Hs.
  destruct (snd (step st)) as [s1|s1|e].
  - intros H. now injection H as <-.
  - now apply IH.
  - discriminate.
Qed.

(** X20.  Whatever [dnf] answers, the list the repoquery fallback
    returns holds no NEVRA twice, and each of its packages is typed
    [update] when its name was requested and [dependency] otherwise.
    The NEVRA is spelt with the epoch as [dnf] printed it, so it reads
    [name-(none):version-release.arch] for a package without epoch,
    while the [epoch] field of that package is [0]. *)
Theorem fallback_lists_each_nevra_once :
  forall (fuel : nat) (resolved : list ResolvedPackage),
    _resolve_via_repoquery fuel = Some (Ok resolved) ->
    NoDup (map nevra resolved) /\
    Forall (as_queried packages) resolved.
Proof.
  intros fuel resolved. unfold Resolver._resolve_via_repoquery.
  destruct (loop fuel (initial packages)) as [[st|e]|] eqn:E;
    try discriminate.
  intros H. injection H as <-.
  eapply loop_listed; [|exact E].
  split; constructor.
Qed.

End Facts.

End FallbackFacts.

(** ** merger.py: the summary of a manifest without [host_id] *)

Module HostSummaryFacts.
Import Merger PyFacts MergerFacts.
Local Abbreviation subscript := Builder.subscript.

Lemma py_eq_str (k : json) (s : string) :
  py_eq k (JStr s) = true -> k = JStr s.
Proof.
  destruct k; try discriminate. unfold py_eq. cbn [as_number].
  intros H. apply String.eqb_eq in H. now subst.
Qed.

(** Filing a hash under one name leaves what is filed under another. *)
Lemma pydict_get_set_str (V : Type) (s u : string) (v : V)
  (d : list (json * V)) :
  s <> u ->
  pydict_get (JStr u) (pydict_set (JStr s) v d) = pydict_get (JStr u) d.
Proof.
  intros Hne. induction d as [|[k0 v0] d IH]; cbn [pydict_set pydict_get].
  - destruct (py_eq (JStr s) (JStr u)) eqn:E; [|reflexivity].
    apply py_eq_str in E. congruence.
  - destruct (py_eq k0 (JStr s)) eqn:Es; cbn [pydict_get].
    + apply py_eq_str in Es. subst k0.
      destruct (py_eq (JStr s) (JStr u)) eqn:E; [|reflexivity].
      apply py_eq_str in E. congruence.
    + destruct (py_eq k0 (JStr u)); [reflexivity | exact IH].
Qed.

Lemma pydict_get_set_same (V : Type) (k : json) (v : V)
  (d : list (json * V)) :
  hashable k = true -> pydict_get k (pydict_set k v d) = Some v.
Proof.
  intros Hh. induction d as [|[k0 v0] d IH]; cbn [pydict_set pydict_get].
  - now rewrite py_eq_refl.
  - destruct (py_eq k0 k) eqn:E; cbn [pydict_get]; now rewrite E.
Qed.

Section Facts.
Variable json_dumps_sorted : json -> string.
Variable sha256_hexdigest : string -> string.
Variable w : World.

Local Abbreviation add_manifest :=
  (add_manifest json_dumps_sorted sha256_hexdigest w).

(** X21.  A manifest that has no [host_id] is accepted like any other,
    and its hash is filed under the stem of its file name; but
    [get_host_summary] reads the host id with the default [unknown],
    so the entry it gives for that manifest is named [unknown] and
    carries whatever hash is filed under [unknown]: the empty string
    when the file is not called [unknown.*] and no manifest named
    itself so. *)
Theorem manifest_without_host_id_is_summarised_as_unknown :
  forall (path : Path) (self self1 : ManifestMerger)
         (d : list (string * json)),
    add_manifest path self = (self1, Ok true) ->
    load_json w path = Ok (JDict d) ->
    dict_get "host_id" d = None ->
    pydict_get (JStr (stem path)) (manifest_hashes self1)
    = Some ("sha256:" +++ sha256_hexdigest (json_dumps_sorted (JDict d))) /\
    forall hosts,
      get_host_summary self1 = Ok hosts ->
      subscript (last hosts JNull) "host_id" = Ok (JStr "unknown") /\
      subscript (last hosts JNull) "manifest_hash"
      = Ok (JStr match pydict_get (JStr "unknown") (manifest_hashes self1)
                 with
                 | Some manifest_hash => manifest_hash
                 | None => ""
                 end) /\
      (stem path <> "unknown" ->
       pydict_get (JStr "unknown") (manifest_hashes self) = None ->
       subscript (last hosts JNull) "manifest_hash" = Ok (JStr "")).
Proof.
  intros path self self1 d Hadd Hload Hid.
  pose proof (add_manifest_spec json_dumps_sorted sha256_hexdigest
                w path self) as Hspec.
  rewrite Hadd in Hspec.
  assert (Hself1 :
    self1 = mkMerger (os_major self) (manifests self ++ [JDict d])
              (pydict_set (JStr (stem path))
                 ("sha256:" +++ sha256_hexdigest (json_dumps_sorted (JDict d)))
                 (manifest_hashes self))).
  { inversion Hspec as [| | |
                        | m major host_id Hl Hm Hy Hhost Hh Heq]; subst.
    rewrite Hload in Hl. injection Hl as <-.
    cbn [py_get] in Hhost. rewrite Hid in Hhost. now injection Hhost as <-. }
  split.
  - rewrite Hself1. cbn [manifest_hashes]. now apply pydict_get_set_same.
  - intros hosts Hsum.
    assert (Hlast : exists before s,
               hosts = before ++ [s] /\
               host_summary (manifest_hashes self1) (JDict d) = Ok s).
    { unfold get_host_summary in Hsum. rewrite Hself1 in Hsum |- *.
      cbn [manifest_hashes manifests] in Hsum |- *.
      rewrite host_summaries_app in Hsum.
      destruct (host_summaries _ (manifests self)) as [before|];
        [|discriminate].
      cbn [bind host_summaries] in Hsum.
      destruct (host_summary _ (JDict d)) as [s|]; [|discriminate].
      cbn [bind] in Hsum. injection Hsum as <-. now exists before, s. }
    destruct Hlast as [before [s [-> Hs]]]. rewrite last_last.
    unfold host_summary in Hs. cbn [py_get] in Hs. rewrite Hid in Hs.
    cbn [hashable negb bind] in Hs.
    destruct (py_get _ "minor" (JInt 0)) as [os_minor|]; [|discriminate].
    cbn [bind] in Hs.
    destruct (py_len _) as [installed_count|]; [|discriminate].
    cbn [bind] in Hs. injection Hs as <-.
    split; [reflexivity|]. split; [reflexivity|].
    intros Hstem Hnone. cbn. do 2 f_equal.
    rewrite Hself1. cbn [manifest_hashes].
    rewrite pydict_get_set_str by exact Hstem. now rewrite Hnone.
Qed.

End Facts.

End HostSummaryFacts.

(** ** builder.py: what a finished bundle holds *)

Module BundleFacts.
Import Resolver Downloader Builder BuilderNames BuilderFacts StrFacts.
Import BuildFacts.

Lemma same_but_log_refl (b : BundleBuilder) : same_but_log b b.
Proof. now repeat split. Qed.

Lemma same_but_log_trans (b1 b2 b3 : BundleBuilder) :
  same_but_log b1 b2 -> same_but_log b2 b3 -> same_but_log b1 b3.
Proof.
  unfold same_but_log.
  intros [? [? [? [? [? ?]]]]] [? [? [? [? [? ?]]]]].
  repeat split; congruence.
Qed.

Lemma lift_step (A : Type) (r : result A) (st st' : State) (a : A) :
  lift r st = (st', Ok a) -> r = Ok a /\ st' = st.
Proof. unfold lift. intros H. now injection H as <- ->. Qed.

Lemma get_self_step (st st' : State) (b : BundleBuilder) :
  get_self st = (st', Ok b) -> b = self st /\ st' = st.
Proof. unfold get_self. intros H. now injection H as <- <-. Qed.

Lemma on_disk_step (f : Disk -> Disk) (st st' : State) (u : unit) :
  on_disk f st = (st', Ok u) ->
  self st' = self st /\ disk st' = f (disk st).
Proof. unfold on_disk. intros H. now injection H as <-. Qed.

Lemma ret_step (A : Type) (a a' : A) (st st' : State) :
  ret a st = (st', Ok a') -> a' = a /\ st' = st.
Proof. unfold ret. intros H. now injection H as <- <-. Qed.

Lemma for_each_copies (l : list Path) (manifests_copy_dir : Path) :
  forall st,
    for_each l
      (fun manifest_file =>
         on_disk (write_file
                    (joinpath manifests_copy_dir (path_name manifest_file))
                    (CopyOf manifest_file))) st
    = (mkState (self st) (copy_files manifests_copy_dir l (disk st))
               (tick st), Ok tt).
Proof.
  unfold copy_files.
  induction l as [|x l IH]; intros st; cbn [for_each fold_left].
  - unfold ret. now destruct st.
  - unfold bindM, on_disk at 1. rewrite IH. reflexivity.
Qed.

Lemma is_prefix_same_start (l a b : list string) :
  is_prefix (l ++ a) (l ++ b) = is_prefix a b.
Proof.
  induction l as [|x l IH]; simpl; [reflexivity|].
  now rewrite String.eqb_refl.
Qed.

(** A child of [q] lies below a child of [p] only if [q] lies at or
    below [p]. *)
Lemma under_parent (p q : Path) (a b : string) :
  under (joinpath p a) (joinpath q b) = true -> under p q = true.
Proof.
  unfold under, joinpath. cbn [anchor parts].
  rewrite !andb_true_iff, !is_prefix_iff.
  intros [Ha [r Hr]]. split; [exact Ha|].
  destruct r as [|x r] using rev_ind.
  - rewrite app_nil_r in Hr. apply app_inj_tail in Hr as [-> _].
    exists []. now rewrite app_nil_r.
  - rewrite !app_assoc in Hr. apply app_inj_tail in Hr as [-> _].
    exists ([a] ++ r). now rewrite !app_assoc.
Qed.

Lemma in_write_files (directory q : Path) (c : file_content)
  (fs : list (Path * file_content)) (d : Disk) :
  Forall (fun f => under directory (fst f) = true) fs ->
  under directory q = false ->
  In (q, c) (files d) -> In (q, c) (files (write_files fs d)).
Proof.
  intros Hfs Hq Hin. unfold write_files.
  induction Hfs as [|f fs Hf Hfs IH]; cbn [fold_right]; [exact Hin|].
  apply in_write_other; [|exact IH]. intros E. congruence.
Qed.

(** Every file copied is in the copy directory afterwards, under its
    own name, when no two of the files share a name. *)
Lemma in_copy_files (manifests_copy_dir : Path) (manifest_file : Path)
  (l : list Path) :
  (forall other,
      In other l -> path_name other = path_name manifest_file ->
      other = manifest_file) ->
  forall d,
    In manifest_file l \/
    In (joinpath manifests_copy_dir (path_name manifest_file),
        CopyOf manifest_file) (files d) ->
    In (joinpath manifests_copy_dir (path_name manifest_file),
        CopyOf manifest_file)
       (files (copy_files manifests_copy_dir l d)).
Proof.
  unfold copy_files.
  induction l as [|x l IH]; intros Hinj d H; cbn [fold_left].
  - destruct H as [[]|H]. exact H.
  - apply IH; [intros other Ho; apply Hinj; now right|].
    destruct (path_eqb x manifest_file) eqn:E.
    + apply path_eqb_eq in E as ->. right. apply in_write_same.
    + destruct H as [[->|H]|H].
      * now rewrite path_eqb_refl in E.
      * now left.
      * right. apply in_write_other; [|exact H].
        intros Ep. apply joinpath_inj in Ep.
        symmetry in Ep. apply Hinj in Ep; [|now left]. subst x.
        now rewrite path_eqb_refl in E.
Qed.

Lemma glob_names (w : World) (directory : Path) (suffix : string)
  (f g : Path) :
  In f (glob w directory suffix) -> In g (glob w directory suffix) ->
  path_name g = path_name f -> g = f.
Proof.
  unfold glob. rewrite !in_map_iff.
  intros [n [<- _]] [m [<- _]].
  rewrite !MergerReportFacts.path_name_joinpath. now intros ->.
Qed.

Lemma read_rmtree_other (undeletable : Path -> bool) (p q : Path)
  (d : Disk) :
  under p q = false ->
  read_file q (rmtree undeletable p d) = read_file q d.
Proof.
  intros Hq. unfold read_file, rmtree. cbn [files].
  induction (files d) as [|[p0 c0] l IH]; cbn [filter find fst];
    [reflexivity|].
  destruct (negb (under p p0) || undeletable p0) eqn:K; cbn [find fst].
  - destruct (path_eqb p0 q); [reflexivity | exact IH].
  - destruct (path_eqb p0 q) eqn:E; [|exact IH].
    apply path_eqb_eq in E. subst p0. rewrite Hq in K. discriminate.
Qed.

Lemma make_dir_step (p : Path) (st st' : State) (u : unit) :
  make_dir p st = (st', Ok u) ->
  self st' = self st /\ mkdir p (disk st) = Ok (disk st').
Proof.
  unfold make_dir. destruct (mkdir p (disk st)) as [d|e]; [|discriminate].
  intros H. now injection H as <-.
Qed.

(** Every file at or below the source directory is a member. *)
Lemma tar_members_under (source_dir q : Path) (arcname : string)
  (c : file_content) (d : Disk) :
  In (q, c) (files d) -> under source_dir q = true ->
  In (mkPath "" (arcname :: skipn (List.length (parts source_dir)) (parts q)),
      c)
     (tar_members source_dir arcname d).
Proof.
  intros Hin Hu. unfold tar_members. apply in_map_iff.
  exists (q, c). split; [reflexivity|]. apply filter_In. now split.
Qed.

Lemma on_self_step (f : BundleBuilder -> BundleBuilder) (st st' : State)
  (u : unit) :
  on_self f st = (st', Ok u) ->
  self st' = f (self st) /\ disk st' = disk st.
Proof. unfold on_self. intros H. now injection H as <-. Qed.

Lemma compute_file_hash_step (sha256_file : file_content -> string)
  (filepath : Path) (st st' : State) (digest : string) :
  _compute_file_hash sha256_file filepath st = (st', Ok digest) -> st' = st.
Proof.
  unfold _compute_file_hash.
  destruct (read_file filepath (disk st)); [|discriminate].
  intros H. now injection H as <-.
Qed.

Lemma skipn_grandchild (l : list string) (a b : string) :
  skipn (List.length l) ((l ++ [a]) ++ [b]) = [a; b].
Proof. induction l; simpl; auto. Qed.

Lemma under_grandchild (directory : Path) (a b : string) :
  under directory (joinpath (joinpath directory a) b) = true.
Proof.
  unfold under, joinpath. cbn [anchor parts].
  now rewrite String.eqb_refl, <- app_assoc, is_prefix_app.
Qed.

Lemma grandchild_not_child (directory : Path) (a b c : string) :
  joinpath (joinpath directory a) b <> joinpath directory c.
Proof.
  unfold joinpath. cbn [anchor parts]. intros E.
  injection E as E. apply (f_equal (@List.length string)) in E.
  rewrite !length_app in E. simpl in E. lia.
Qed.

Lemma manifests_not_under_rpms (directory : Path) (n : string) :
  under (joinpath directory "rpms")
        (joinpath (joinpath directory "manifests") n) = false.
Proof.
  unfold under, joinpath. cbn [anchor parts].
  rewrite <- app_assoc, is_prefix_same_start. simpl.
  apply andb_false_r.
Qed.

Lemma manifests_used_length (host_summary : list json) :
  forall used,
    manifests_used_of host_summary = Ok used ->
    List.length used = List.length host_summary.
Proof.
  induction host_summary as [|h rest IH]; intros used H;
    cbn [manifests_used_of] in H.
  - now injection H as <-.
  - destruct (subscript h "host_id"); cbn [bind] in H; [|discriminate].
    destruct (subscript h "manifest_hash"); cbn [bind] in H; [|discriminate].
    destruct (subscript h "os_minor"); cbn [bind] in H; [|discriminate].
    destruct (manifests_used_of rest) as [u|e]; cbn [bind] in H;
      [|discriminate].
    injection H as <-. simpl. now rewrite (IH u).
Qed.

Section Facts.
Variable datetime : Type.
Variable now : nat -> datetime.
Variable isoformat : datetime -> string.
Variable strftime_compact : datetime -> string.
Variable gethostname : string.
Variable json_dumps_sorted : json -> string.
Variable sha256_hexdigest : string -> string.
Variable w : World.
Variable dnf : Dnf.
Variable download_packages :
  Path -> list ResolvedPackage ->
  result (list DownloadResult * list (Path * file_content)).
Variable createrepo_c : Path -> result (list (Path * file_content)).
Variable createrepo : Path -> result (list (Path * file_content)).
Variable st_size : Path -> result Z.
Variable zstd : result unit.
Variable sha256_file : file_content -> string.
Variable undeletable : Path -> bool.

Local Abbreviation rmtree := (rmtree undeletable).

Local Abbreviation _log := (_log now isoformat).
Local Abbreviation _generate_repodata :=
  (_generate_repodata createrepo_c createrepo).
Local Abbreviation _build_metadata :=
  (_build_metadata isoformat gethostname st_size).
Local Abbreviation gather :=
  (gather now isoformat json_dumps_sorted sha256_hexdigest w dnf
          download_packages createrepo_c createrepo).
Local Abbreviation seal :=
  (seal now isoformat gethostname st_size zstd sha256_file).
Local Abbreviation build_steps :=
  (build_steps now isoformat gethostname json_dumps_sorted sha256_hexdigest
               w dnf download_packages createrepo_c createrepo st_size zstd
               sha256_file).
Local Abbreviation build :=
  (build now isoformat strftime_compact gethostname json_dumps_sorted
         sha256_hexdigest w dnf download_packages createrepo_c createrepo
         st_size zstd sha256_file undeletable).
Local Abbreviation _create_archive := (_create_archive zstd).

Lemma log_step (message : string) (st st' : State) (u : unit) :
  _log message st = (st', Ok u) ->
  same_but_log (self st) (self st') /\ disk st' = disk st.
Proof.
  unfold Builder._log. intros H. injection H as <-.
  split; [|reflexivity]. now repeat split.
Qed.

Lemma for_each_log_step (A : Type) (l : list A) (g : A -> string) :
  forall (st st' : State) (u : unit),
    for_each l (fun x => _log (g x)) st = (st', Ok u) ->
    same_but_log (self st) (self st') /\ disk st' = disk st.
Proof.
  induction l as [|x l IH]; intros st st' u; cbn [for_each].
  - intros H. apply ret_step in H as [_ ->].
    split; [apply same_but_log_refl | reflexivity].
  - intros H. apply bindM_ok in H. destruct H as [u1 [s1 [H1 H]]].
    apply log_step in H1 as [Hb Hd]. apply IH in H as [Hb' Hd'].
    split; [eapply same_but_log_trans; eassumption | congruence].
Qed.

Lemma repodata_step (rpms_dir : Path) (st st' : State) (u : unit) :
  _generate_repodata rpms_dir st = (st', Ok u) ->
  exists written,
    (createrepo_c rpms_dir = Ok written \/
     createrepo rpms_dir = Ok written) /\
    self st' = self st /\ disk st' = write_files written (disk st).
Proof.
  unfold Builder._generate_repodata.
  destruct (createrepo_c rpms_dir) as [fs|e].
  - intros H. injection H as <-. exists fs. auto.
  - destruct (caught_by e [FileNotFoundError]); [|discriminate].
    destruct (createrepo rpms_dir) as [fs|e']; [|discriminate].
    intros H. injection H as <-. exists fs. auto.
Qed.

(** What steps 1 to 6 have done when they succeed. *)
Lemma gather_spec (bundle_work_dir : Path) (st st1 : State)
  (merger : Merger.ManifestMerger) (resolved : list ResolvedPackage)
  (downloader : RPMDownloader) :
  gather bundle_work_dir st = (st1, Ok (merger, resolved, downloader)) ->
  let rpms_dir := joinpath bundle_work_dir "rpms" in
  exists merger0 count merged resolver fetched written made,
    Merger.init (os_major (self st)) = Ok merger0 /\
    Merger.add_manifests_from_directory json_dumps_sorted sha256_hexdigest
      w (manifest_dir (self st)) merger0 = (merger, Ok (S count)) /\
    Merger.get_merged_installed_rpms merger = Ok merged /\
    resolve dnf (Resolver.init (string_keys (map fst merged)) true)
    = (resolver, Ok resolved) /\
    (resolved = [] /\ fetched = [] /\ results downloader = [] \/
     resolved <> [] /\
     download_packages rpms_dir resolved = Ok (results downloader, fetched)) /\
    download_dir downloader = rpms_dir /\
    (createrepo_c rpms_dir = Ok written \/
     createrepo rpms_dir = Ok written) /\
    same_but_log (self st) (self st1) /\
    mkdir rpms_dir
      (copy_files (joinpath bundle_work_dir "manifests")
         (glob w (manifest_dir (self st)) ".json") (disk st)) = Ok made /\
    disk st1
    = write_file (joinpath bundle_work_dir "SHA256SUMS")
        (Text (checksums_text (results downloader)))
        (write_files written (write_files fetched made)).
Proof.
  unfold Builder.gather. intros H.
  apply bindM_ok in H. destruct H as [b [s [Hs H]]].
  apply get_self_step in Hs as [-> ->].
  apply bindM_ok in H. destruct H as [u1 [s1 [Hs H]]].
  apply log_step in Hs as [Hb1 Hd1].
  apply bindM_ok in H. destruct H as [merger0 [s [Hs H]]].
  apply lift_step in Hs as [Hinit ->].
  destruct (Merger.add_manifests_from_directory _ _ _ _ merger0)
    as [merger' counted] eqn:Hadd.
  apply bindM_ok in H. destruct H as [manifest_count [s [Hs H]]].
  apply lift_step in Hs as [-> ->].
  apply bindM_ok in H. destruct H as [u2 [s2 [Hs H]]].
  apply log_step in Hs as [Hb2 Hd2].
  apply bindM_ok in H. destruct H as [u3 [s [Hs H]]].
  destruct manifest_count as [|count]; cbn [Nat.eqb] in Hs;
    [apply lift_step in Hs as [Hs _]; discriminate|].
  apply ret_step in Hs as [_ ->].
  apply bindM_ok in H. destruct H as [u4 [s3 [Hs H]]].
  rewrite for_each_copies in Hs. injection Hs as <-.
  apply bindM_ok in H. destruct H as [u5 [s4 [Hs H]]].
  apply log_step in Hs as [Hb4 Hd4]. cbn [self disk] in Hb4, Hd4.
  apply bindM_ok in H. destruct H as [merged [s [Hs H]]].
  apply lift_step in Hs as [Hmerged ->].
  apply bindM_ok in H. destruct H as [u6 [s5 [Hs H]]].
  apply log_step in Hs as [Hb5 Hd5].
  apply bindM_ok in H. destruct H as [u7 [s6 [Hs H]]].
  apply log_step in Hs as [Hb6 Hd6].
  destruct (resolve dnf _) as [resolver outcome] eqn:Hres.
  apply bindM_ok in H. destruct H as [resolved0 [s [Hs H]]].
  apply lift_step in Hs as [-> ->].
  apply bindM_ok in H. destruct H as [u8 [s7 [Hs H]]].
  apply log_step in Hs as [Hb7 Hd7].
  apply bindM_ok in H. destruct H as [u9 [s8 [Hs H]]].
  apply for_each_log_step in Hs as [Hb8 Hd8].
  apply bindM_ok in H. destruct H as [u10 [s9 [Hs H]]].
  assert (Hs9 : same_but_log (self s8) (self s9) /\ disk s9 = disk s8).
  { destruct resolved0.
    - now apply log_step in Hs.
    - apply ret_step in Hs as [_ ->].
      split; [apply same_but_log_refl | reflexivity]. }
  clear Hs. destruct Hs9 as [Hb9 Hd9].
  apply bindM_ok in H. destruct H as [u11 [s10 [Hs H]]].
  apply log_step in Hs as [Hb10 Hd10].
  apply bindM_ok in H. destruct H as [u12 [s11 [Hs H]]].
  apply make_dir_step in Hs as [Hb11 Hd11].
  apply bindM_ok in H. destruct H as [dl [s12 [Hs H]]].
  assert (Hdl : exists fetched,
             (resolved0 = [] /\ fetched = [] /\ results dl = [] \/
              resolved0 <> [] /\
              download_packages (joinpath bundle_work_dir "rpms") resolved0
              = Ok (results dl, fetched)) /\
             download_dir dl = joinpath bundle_work_dir "rpms" /\
             same_but_log (self s11) (self s12) /\
             disk s12 = write_files fetched (disk s11)).
  { destruct resolved0 as [|pkg rest].
    - apply ret_step in Hs as [-> ->]. exists [].
      split; [left; auto|]. split; [reflexivity|].
      split; [apply same_but_log_refl | reflexivity].
    - apply bindM_ok in Hs. destruct Hs as [[rs fs] [s [Hs0 Hs]]].
      apply lift_step in Hs0 as [Hrun ->].
      apply bindM_ok in Hs. destruct Hs as [v1 [t1 [Hs0 Hs]]].
      apply on_disk_step in Hs0 as [Hc1 He1].
      apply bindM_ok in Hs. destruct Hs as [v2 [t2 [Hs0 Hs]]].
      apply log_step in Hs0 as [Hc2 He2].
      apply bindM_ok in Hs. destruct Hs as [v3 [t3 [Hs0 Hs]]].
      apply for_each_log_step in Hs0 as [Hc3 He3].
      apply ret_step in Hs as [-> ->].
      exists fs. cbn [results download_dir fst snd] in *.
      split; [right; split; [discriminate | exact Hrun]|].
      split; [reflexivity|].
      split.
      + rewrite <- Hc1. eapply same_but_log_trans; eassumption.
      + rewrite He3, He2, He1. reflexivity. }
  clear Hs. destruct Hdl as [fetched [Hrun [Hdir [Hb12 Hd12]]]].
  apply bindM_ok in H. destruct H as [u13 [s13 [Hs H]]].
  apply log_step in Hs as [Hb13 Hd13].
  apply bindM_ok in H. destruct H as [u14 [s14 [Hs H]]].
  apply repodata_step in Hs as [written [Hrepo [Hb14 Hd14]]].
  apply bindM_ok in H. destruct H as [u15 [s15 [Hs H]]].
  apply log_step in Hs as [Hb15 Hd15].
  apply bindM_ok in H. destruct H as [u16 [s16 [Hs H]]].
  apply log_step in Hs as [Hb16 Hd16].
  apply bindM_ok in H. destruct H as [u17 [s17 [Hs H]]].
  unfold generate_checksums_file in Hs.
  apply on_disk_step in Hs as [Hb17 Hd17].
  apply ret_step in H as [E ->]. injection E as <- <- <-.
  exists merger0, count, merged, resolver, fetched, written, (disk s11).
  split; [exact Hinit|]. split; [exact Hadd|]. split; [exact Hmerged|].
  split; [exact Hres|]. split; [exact Hrun|]. split; [exact Hdir|].
  split; [exact Hrepo|]. split; [|split].
  - rewrite Hb17. rewrite <- Hb11 in Hb10. rewrite <- Hb14 in Hb13.
    repeat (eapply same_but_log_trans; [eassumption|]).
    apply same_but_log_refl.
  - rewrite <- Hd11, Hd10, Hd9, Hd8, Hd7, Hd6, Hd5, Hd4, Hd2, Hd1.
    reflexivity.
  - rewrite Hd17, Hd16, Hd15, Hd14, Hd13, Hd12. reflexivity.
Qed.

Lemma create_archive_step (source_dir : Path) (st st' : State)
  (archive_path : Path) :
  _create_archive source_dir st = (st', Ok archive_path) ->
  self st' = self st /\
  exists members compression name,
    archive_path = joinpath (output_dir (self st)) name /\
    read_file archive_path (disk st') = Some (Tar members compression) /\
    forall q c,
      In (q, c) (files (disk st)) -> under source_dir q = true ->
      q <> joinpath (output_dir (self st)) (bundle_id (self st) +++ ".tar") ->
      In (mkPath ""
            (bundle_id (self st)
             :: skipn (List.length (parts source_dir)) (parts q)), c)
         members.
Proof.
  unfold Builder._create_archive.
  destruct zstd as [u|e].
  - intros H. injection H as <- <-. split; [reflexivity|].
    do 3 eexists. split; [reflexivity|]. cbn [disk self].
    split; [apply read_write_same|].
    intros q c Hin Hu _. now apply tar_members_under.
  - destruct (caught_by e [FileNotFoundError; CalledProcessError]);
      [|discriminate].
    intros H. injection H as <- <-. split; [reflexivity|].
    do 3 eexists. split; [reflexivity|]. cbn [disk self].
    split; [apply read_write_same|].
    intros q c Hin Hu Hne. apply tar_members_under; [|exact Hu].
    now apply in_write_other.
Qed.

(** What steps 7 to 9 have done when they succeed. *)
Lemma seal_steps (timestamp : datetime) (bundle_work_dir : Path)
  (merger : Merger.ManifestMerger) (resolved : list ResolvedPackage)
  (downloader : RPMDownloader) (st st' : State) (archive_path : Path) :
  seal timestamp bundle_work_dir merger resolved downloader st
  = (st', Ok archive_path) ->
  exists b7 md members compression name,
    same_but_log (self st) b7 /\
    _build_metadata b7 timestamp merger resolved downloader = Ok md /\
    metadata (self st') = Some md /\
    bundle_id (self st') = bundle_id (self st) /\
    archive_path = joinpath (output_dir (self st)) name /\
    read_file archive_path (disk st') = Some (Tar members compression) /\
    forall q c,
      In (q, c) (files (disk st)) -> under bundle_work_dir q = true ->
      q <> joinpath bundle_work_dir "metadata.json" ->
      q <> joinpath bundle_work_dir "build.log" ->
      q <> joinpath (output_dir (self st)) (bundle_id (self st) +++ ".tar") ->
      In (mkPath ""
            (bundle_id (self st)
             :: skipn (List.length (parts bundle_work_dir)) (parts q)), c)
         members.
Proof.
  unfold Builder.seal. intros H.
  apply bindM_ok in H. destruct H as [u1 [s1 [Hs H]]].
  apply log_step in Hs as [Hb1 Hd1].
  apply bindM_ok in H. destruct H as [b7 [s [Hs H]]].
  apply get_self_step in Hs as [-> ->].
  apply bindM_ok in H. destruct H as [md [s [Hs H]]].
  apply lift_step in Hs as [Hmd ->].
  apply bindM_ok in H. destruct H as [u2 [s2 [Hs H]]].
  apply on_self_step in Hs as [Hb2 Hd2].
  apply bindM_ok in H. destruct H as [u3 [s3 [Hs H]]].
  apply on_disk_step in Hs as [Hb3 Hd3].
  apply bindM_ok in H. destruct H as [u4 [s4 [Hs H]]].
  apply log_step in Hs as [Hb4 Hd4].
  apply bindM_ok in H. destruct H as [u5 [s5 [Hs H]]].
  apply log_step in Hs as [Hb5 Hd5].
  apply bindM_ok in H. destruct H as [b8 [s [Hs H]]].
  apply get_self_step in Hs as [-> ->].
  apply bindM_ok in H. destruct H as [u6 [s6 [Hs H]]].
  apply on_disk_step in Hs as [Hb6 Hd6].
  apply bindM_ok in H. destruct H as [u7 [s7 [Hs H]]].
  apply log_step in Hs as [Hb7 Hd7].
  apply bindM_ok in H. destruct H as [p [s8 [Hs H]]].
  apply create_archive_step in Hs
    as [Hb8 [members [compression [name [Hp [Hread Hmem]]]]]].
  apply bindM_ok in H. destruct H as [u9 [s9 [Hs H]]].
  apply log_step in Hs as [Hb9 Hd9].
  apply bindM_ok in H. destruct H as [digest [s10 [Hs H]]].
  apply compute_file_hash_step in Hs as ->.
  apply bindM_ok in H. destruct H as [u11 [s11 [Hs H]]].
  apply log_step in Hs as [Hb11 Hd11].
  apply ret_step in H as [-> ->].
  assert (Hmid : same_but_log (self s2) (self s7)).
  { rewrite Hb3 in Hb4. rewrite Hb6 in Hb7.
    repeat (eapply same_but_log_trans; [eassumption|]).
    apply same_but_log_refl. }
  assert (Hlate : same_but_log (self s2) (self s11)).
  { rewrite Hb8 in Hb9.
    repeat (eapply same_but_log_trans; [eassumption|]).
    apply same_but_log_refl. }
  pose proof Hb1 as Hsame.
  destruct Hb1 as [_ [_ [Ho1 [_ [Hi1 _]]]]].
  destruct Hlate as [_ [_ [_ [_ [Hi11 Hm11]]]]].
  destruct Hmid as [_ [_ [Ho7 [_ [Hi7 _]]]]].
  rewrite Hb2 in Hi11, Hm11, Ho7, Hi7.
  cbn [set_metadata bundle_id metadata output_dir] in Hi11, Hm11, Ho7, Hi7.
  exists (self s1), md, members, compression, name.
  split; [exact Hsame|]. split; [exact Hmd|].
  split; [exact Hm11|]. split; [congruence|].
  split; [rewrite Hp; congruence|].
  split; [now rewrite Hd11, Hd9|].
  intros q c Hin Hu Hn1 Hn2 Hn3.
  replace (bundle_id (self st)) with (bundle_id (self s7)) by congruence.
  apply Hmem; [|exact Hu|congruence].
  rewrite Hd7, Hd6. apply in_write_other; [exact Hn2|].
  rewrite Hd5, Hd4, Hd3. apply in_write_other; [exact Hn1|].
  now rewrite Hd2, Hd1.
Qed.

(** A build that succeeds: the steps it has run. *)
Lemma build_ok_spec (st st' : State) (archive_path : Path) :
  build st = (st', Ok archive_path) ->
  let stamp := strftime_compact (now (tick st)) in
  let bundle_work_dir := bundle_work_dir_at (self st) stamp in
  exists d1 st0 sg st1 merger resolved downloader,
    mkdir (joinpath bundle_work_dir "rpms") (disk st) = Ok d1 /\
    mkdir (joinpath bundle_work_dir "manifests") d1 = Ok (disk st0) /\
    os_major (self st0) = os_major (self st) /\
    manifest_dir (self st0) = manifest_dir (self st) /\
    output_dir (self st0) = output_dir (self st) /\
    bundle_id (self st0) = bundle_id_at (self st) stamp /\
    gather bundle_work_dir st0 = (sg, Ok (merger, resolved, downloader)) /\
    seal (now (tick st)) bundle_work_dir merger resolved downloader sg
    = (st1, Ok archive_path) /\
    self st' = self st1 /\
    disk st' = rmtree bundle_work_dir (disk st1).
Proof.
  unfold Builder.build, bundle_work_dir_at, bundle_id_at. cbv zeta.
  rewrite started_spec. cbv zeta. cbn [disk self tick].
  destruct (mkdir _ (disk st)) as [d1|e] eqn:Hrpms; [|discriminate].
  destruct (mkdir _ d1) as [d2|e] eqn:Hmanifests; [|discriminate].
  match goal with
  | |- context [Builder.build_steps _ _ _ _ _ _ _ _ _ _ _ _ _ ?t ?d ?s] =>
      set (st0 := s); destruct (build_steps t d st0) as [st1 [p|e]] eqn:Hsteps
  end.
  2:{ destruct (_log _ _); discriminate. }
  intros H. injection H as <- <-.
  unfold Builder.build_steps in Hsteps.
  apply bindM_ok in Hsteps.
  destruct Hsteps as [[[merger resolved] downloader] [sg [Hgather Hseal]]].
  exists d1, st0, sg, st1, merger, resolved, downloader.
  repeat split; assumption || reflexivity.
Qed.

Lemma build_metadata_manifests (b : BundleBuilder) (timestamp : datetime)
  (merger : Merger.ManifestMerger) (resolved : list ResolvedPackage)
  (downloader : RPMDownloader) (md : BundleMetadata) :
  _build_metadata b timestamp merger resolved downloader = Ok md ->
  List.length (manifests_used md) = List.length (Merger.manifests merger) /\
  md_os_major md = os_major b /\ md_bundle_id md = bundle_id b.
Proof.
  unfold Builder._build_metadata, Merger.get_host_summary.
  destruct (Merger.host_summaries _ _) as [hs|e] eqn:Hhs; cbn [bind];
    [|discriminate].
  destruct (Merger.get_package_to_hosts_map merger); cbn [bind];
    [|discriminate].
  destruct (package_entries _ _); cbn [bind]; [|discriminate].
  destruct (host_packages _ _ _); cbn [bind]; [|discriminate].
  destruct (manifests_used_of hs) as [used|e] eqn:Hused; cbn [bind];
    [|discriminate].
  destruct (get_total_size _ _); cbn [bind]; [|discriminate].
  intros H. injection H as <-. cbn [manifests_used md_os_major md_bundle_id].
  apply manifests_used_length in Hused.
  apply MergerFacts.host_summaries_length in Hhs.
  repeat split. congruence.
Qed.

(** X22.  A bundle that [build] returns holds a copy of every [*.json]
    file of the manifest directory under [bundle_id/manifests/], also
    of the files the merger did not accept (manifests of another OS
    major, files that are not manifests); and the archive is on the
    disk when [build] has cleaned up.  The tools write at or below the
    directory they are given, and the output directory does not lie in
    the work directory. *)
Theorem bundle_holds_every_json_file :
  forall (st st' : State) (archive_path : Path),
    (forall resolved,
        writes_below (fun directory => download_packages directory resolved)
                     snd) ->
    writes_below createrepo_c (fun written => written) ->
    writes_below createrepo (fun written => written) ->
    under (work_dir (self st)) (output_dir (self st)) = false ->
    build st = (st', Ok archive_path) ->
    exists members compression,
      read_file archive_path (disk st') = Some (Tar members compression) /\
      forall manifest_file,
        In manifest_file (glob w (manifest_dir (self st)) ".json") ->
        In (mkPath "" [bundle_id (self st'); "manifests";
                       path_name manifest_file],
            CopyOf manifest_file) members.
Proof.
  intros st st' archive_path Hdl Hc1 Hc2 Hout H.
  apply build_ok_spec in H. cbv zeta in H.
  set (bundle_work_dir :=
         bundle_work_dir_at (self st) (strftime_compact (now (tick st))))
    in H.
  destruct H as [d1 [st0 [sg [st1 [merger [resolved [downloader
                  [_ [_ [Hos0 [Hmd0 [Hout0 [Hid0 [Hg [Hs [Hself Hdisk]]]]]]]]]]]]]]]].
  apply gather_spec in Hg. cbv zeta in Hg.
  destruct Hg as [merger0 [count [merged [resolver [fetched [written [made
                   [_ [_ [_ [_ [Hrun [_ [Hrepo [Hsame [Hmade Hdg]]]]]]]]]]]]]]]].
  apply seal_steps in Hs.
  destruct Hs as [b7 [md [members [compression [name
                   [_ [_ [_ [Hid1 [Hp [Hread Hmem]]]]]]]]]]].
  destruct Hsame as [_ [Hmd1 [Hout1 [_ [_ _]]]]].
  assert (Harchive : under bundle_work_dir archive_path = false).
  { destruct (under bundle_work_dir archive_path) eqn:U; [|reflexivity].
    rewrite Hp in U. unfold bundle_work_dir, bundle_work_dir_at in U.
    apply under_parent in U. congruence. }
  exists members, compression. split.
  - rewrite Hdisk, read_rmtree_other; assumption.
  - intros manifest_file Hf. rewrite Hself, Hid1.
    rewrite <- (skipn_grandchild (parts bundle_work_dir) "manifests"
                  (path_name manifest_file)).
    apply (Hmem (joinpath (joinpath bundle_work_dir "manifests")
                          (path_name manifest_file))).
    + rewrite Hdg. apply in_write_other; [apply grandchild_not_child|].
      apply in_write_files with (directory := joinpath bundle_work_dir "rpms").
      { destruct Hrepo as [Hr|Hr]; [exact (Hc1 _ _ Hr) | exact (Hc2 _ _ Hr)]. }
      { apply manifests_not_under_rpms. }
      apply in_write_files with (directory := joinpath bundle_work_dir "rpms").
      { destruct Hrun as [[_ [-> _]]|[_ Hr]]; [constructor|].
        exact (Hdl _ _ _ Hr). }
      { apply manifests_not_under_rpms. }
      rewrite (files_mkdir _ _ Hmade). rewrite Hmd0 in *.
      apply in_copy_files; [|now left].
      intros other Ho. eapply glob_names; eassumption.
    + apply under_grandchild.
    + apply grandchild_not_child.
    + apply grandchild_not_child.
    + intros E.
      assert (U : under bundle_work_dir
                    (joinpath (output_dir (self sg))
                              (bundle_id (self sg) +++ ".tar")) = true).
      { rewrite <- E. apply under_grandchild. }
      unfold bundle_work_dir, bundle_work_dir_at in U.
      apply under_parent in U. congruence.
Qed.

(** X23.  The metadata of a bundle that [build] returns names, under
    [manifests_used], exactly as many manifests as the merger loaded
    from the manifest directory, which is at least one; its
    [os_major] and [bundle_id] are the builder's. *)
Theorem metadata_lists_each_manifest_loaded :
  forall (st st' : State) (archive_path : Path),
    build st = (st', Ok archive_path) ->
    exists md merger0 merger count,
      metadata (self st') = Some md /\
      Merger.init (os_major (self st)) = Ok merger0 /\
      Merger.add_manifests_from_directory json_dumps_sorted sha256_hexdigest
        w (manifest_dir (self st)) merger0 = (merger, Ok (S count)) /\
      List.length (Merger.manifests merger) = S count /\
      List.length (manifests_used md) = S count /\
      md_os_major md = os_major (self st) /\
      md_bundle_id md = bundle_id (self st') /\
      bundle_id (self st')
      = bundle_id_at (self st) (strftime_compact (now (tick st))).
Proof.
  intros st st' archive_path H.
  apply build_ok_spec in H. cbv zeta in H.
  destruct H as [d1 [st0 [sg [st1 [merger [resolved [downloader
                  [_ [_ [Hos0 [Hmd0 [Hout0 [Hid0 [Hg [Hs [Hself Hdisk]]]]]]]]]]]]]]]].
  apply gather_spec in Hg. cbv zeta in Hg.
  destruct Hg as [merger0 [count [merged [resolver [fetched [written [made
                   [Hinit [Hadd [_ [_ [_ [_ [_ [Hsame _]]]]]]]]]]]]]]].
  apply seal_steps in Hs.
  destruct Hs as [b7 [md [members [compression [name
                   [Hsame7 [Hbuilt [Hmeta [Hid1 _]]]]]]]]].
  destruct Hsame as [Hos1 [_ [_ [_ [Hid2 _]]]]].
  destruct Hsame7 as [Hos7 [_ [_ [_ [Hid7 _]]]]].
  apply build_metadata_manifests in Hbuilt as [Hlen [Hmos Hmid]].
  rewrite Hos0, Hmd0 in *.
  assert (Hheld : List.length (Merger.manifests merger) = S count).
  { destruct (MergerReportFacts.directory_appends json_dumps_sorted
                sha256_hexdigest w (manifest_dir (self st)) merger0)
      as [added [Hm Hc]].
    rewrite Hadd in Hm, Hc. cbn [fst snd] in Hm, Hc.
    destruct (Hc _ eq_refl) as [Hn _].
    unfold Merger.init in Hinit.
    destruct (negb _) in Hinit; [discriminate|]. injection Hinit as <-.
    rewrite Hm. cbn [Merger.manifests app]. congruence. }
  exists md, merger0, merger, count.
  rewrite Hself.
  repeat split; try assumption; congruence.
Qed.

End Facts.
End BundleFacts.

(* ================================================================== *)
(** ** The runs *)
(* ================================================================== *)

Module RunFacts.
Import Fixtures Examples Runs.
Import Resolver Downloader Builder ResolverDnf BuilderNames.

(** *** Resolver *)

(** [dnf download] printed a progress line for [bash] but no table:
    the fallback answers. *)
Lemma resolve_dependencies_needs_a_header_witness :
  _resolve_dependencies quiet_download repoquery_answer ["bash"]
  = ([], Ok [available "bash" "5.1.8"]).
Proof.
  destruct (ResolverDnfFacts.resolve_dependencies_needs_a_header
              quiet_download repoquery_answer ["bash"]) as [_ H].
  destruct H as [H _]; [discriminate|].
  apply (H (mkCompleted 0
              (lines ["Last metadata expiration check: 0:10:00 ago.";
                      "bash-5.1.8-9.el9.x86_64.rpm   1.7 MB/s | 1.7 MB"])
              "") eq_refl).
  intros line Hin. vm_compute in Hin.
  destruct Hin as [<-|[<-|[]]]; split; reflexivity.
Defined.

(** [openssl-libs] has a security advisory, but the security set holds
    [openssl], the name cut at its first dash: the package is typed
    [update]. *)
Lemma resolve_types_with_the_helpers_witness :
  resolve host_dnf host_resolver
  = (mkResolver ["bash"; "openssl-libs"; "glibc"] true host_updates [],
     Ok host_updates) /\
  snd (_get_security_updates updateinfo_output) = Ok ["openssl"; "bash"] /\
  forall r,
    In r host_updates ->
    (package_type r = "security" \/ package_type r = "update" \/
     package_type r = "dependency") /\
    (package_type r = "update" ->
     In (name r) (installed_packages host_resolver)) /\
    (contains "-" (name r) = true -> package_type r <> "security").
Proof.
  split; [vm_compute; reflexivity|]. split; [vm_compute; reflexivity|].
  apply (@ResolverDnfFacts.resolve_types_with_the_helpers
           check_update_output updateinfo_output download_output
           repoquery_answer host_resolver
           (mkResolver ["bash"; "openssl-libs"; "glibc"] true host_updates [])
           host_updates).
  vm_compute. reflexivity.
Defined.

(** *** Downloader *)

Lemma download_packages_records_each_package_witness :
  DownloaderRun.download_packages rpms_dir (fun _ => true) digest_of
    (fun _ _ => Ok 0%Z) host_updates (mkDownloader rpms_path [verified])
  = (mkDownloader rpms_path fetched, Ok fetched) /\
  map package fetched = host_updates /\
  Forall (DownloaderRun.checked digest_of (glob rpms_dir rpms_path ".rpm"))
         fetched.
Proof.
  assert (H : DownloaderRun.download_packages rpms_dir (fun _ => true)
                digest_of (fun _ _ => Ok 0%Z) host_updates
                (mkDownloader rpms_path [verified])
              = (mkDownloader rpms_path fetched, Ok fetched))
    by (vm_compute; reflexivity).
  split; [exact H|].
  destruct (DownloaderRunFacts.download_packages_records_each_package
              rpms_dir (fun _ => true) digest_of (fun _ _ => Ok 0%Z)
              host_updates (mkDownloader rpms_path [verified]) H)
    as [_ [_ [H1 H2]]].
  split; [exact H1|exact H2].
Defined.

Lemma downloaded_and_failed_add_up_witness :
  List.length (get_successful_downloads (mkDownloader rpms_path fetched))
  + List.length (get_failed_downloads (mkDownloader rpms_path fetched))
  = 3 /\
  List.length (checksum_lines fetched) = 2.
Proof.
  assert (H : DownloaderRun.download_packages rpms_dir (fun _ => true)
                digest_of (fun _ _ => Ok 0%Z) host_updates
                (mkDownloader rpms_path [])
              = (mkDownloader rpms_path fetched, Ok fetched))
    by (vm_compute; reflexivity).
  assert (Hd : forall rpm_file digest,
             digest_of rpm_file = Ok digest -> digest <> "").
  { intros rpm_file digest E. injection E as <-. discriminate. }
  destruct (@DownloaderRunFacts.downloaded_and_failed_add_up
              rpms_dir (fun _ => true) digest_of (fun _ _ => Ok 0%Z)
              host_updates (mkDownloader rpms_path []) _ _ Hd H)
    as [H1 [_ H3]].
  split; [exact H1|exact H3].
Defined.

(** [dnf] is offline: the resolver records why nothing resolves, and
    the caller of [download_all_updates] is not told. *)
Lemma download_all_updates_reports_the_resolution_witness :
  DownloaderRun.download_all_updates rpms_dir (fun _ => true) digest_of
    (fun _ _ => Ok 0%Z) offline_dnf ["bash"] rpms_path
  = Ok ([], ["No packages to download"]) /\
  Resolver.errors (fst (resolve offline_dnf (Resolver.init ["bash"] true)))
  = ["dnf check-update failed: Error: Failed to download metadata"] /\
  snd (resolve offline_dnf (Resolver.init ["bash"] true)) = Ok [].
Proof.
  assert (H : DownloaderRun.download_all_updates rpms_dir (fun _ => true)
                digest_of (fun _ _ => Ok 0%Z) offline_dnf ["bash"] rpms_path
              = Ok ([], ["No packages to download"]))
    by (vm_compute; reflexivity).
  split; [exact H|]. split; [vm_compute; reflexivity|].
  destruct (@DownloaderRunFacts.download_all_updates_reports_the_resolution
              rpms_dir (fun _ => true) digest_of (fun _ _ => Ok 0%Z)
              offline_dnf ["bash"] rpms_path [] ["No packages to download"] H)
    as [resolved [Hr [Hm _]]].
  rewrite Hr. now rewrite <- Hm.
Defined.

(** *** Merger *)

(** The second host's BaseOS entry and its repository without id are
    not in the union. *)
Lemma enabled_repos_union_is_a_union_by_id_witness :
  exists repos,
    MergerReport.get_enabled_repos_union two_hosts = Ok repos /\
    map MergerReport.repo_id_of repos
    = [JStr "rhel-9-for-x86_64-baseos-rpms";
       JStr "rhel-9-for-x86_64-appstream-rpms"; JStr "codeready-builder"] /\
    ForallOrdPairs
      (fun a b =>
         py_eq (MergerReport.repo_id_of a) (MergerReport.repo_id_of b)
         = false) repos.
Proof.
  eexists. split; [reflexivity|]. split; [reflexivity|].
  destruct (@MergerReportFacts.enabled_repos_union_is_a_union_by_id
              two_hosts _ eq_refl) as [_ [H _]].
  exact H.
Defined.

Lemma merged_packages_have_hosts_witness :
  exists merged_rpms package_hosts,
    Merger.get_merged_installed_rpms two_hosts = Ok merged_rpms /\
    Merger.get_package_to_hosts_map two_hosts = Ok package_hosts /\
    exists hosts,
      pydict_get (JStr "zsh") package_hosts = Some hosts /\ hosts <> [].
Proof.
  eexists. eexists. split; [reflexivity|]. split; [reflexivity|].
  apply (@MergerReportFacts.merged_packages_have_hosts two_hosts _ _
           eq_refl eq_refl (JStr "zsh") [JStr "zsh-5.8-9.el9.x86_64"]).
  vm_compute. tauto.
Defined.

(** The entry of the second host that has no name is not counted. *)
Lemma merge_report_counts_entries_witness :
  exists report hosts,
    MergerReport.generate_merge_report "2024-01-15T12:00:00" two_hosts
    = Ok report /\
    subscript report "hosts" = Ok (JList hosts) /\
    List.length hosts = 2 /\
    subscript report "manifest_count" = Ok (JInt 2) /\
    subscript report "total_package_instances" = Ok (JInt 5).
Proof.
  destruct (@MergerReportFacts.merge_report_counts_entries
              "2024-01-15T12:00:00" two_hosts _ eq_refl)
    as [hosts [H1 [H2 [H3 [H4 _]]]]].
  eexists. exists hosts. split; [reflexivity|].
  split; [exact H1|]. split; [exact H2|]. split; [exact H3|exact H4].
Defined.

Lemma manifest_without_host_id_is_summarised_as_unknown_witness :
  exists self1,
    Merger.add_manifest dumps_stub sha256_stub anonymous_dir anonymous_file
      merger9 = (self1, Ok true) /\
    pydict_get (JStr "web-01") (Merger.manifest_hashes self1)
    = Some "sha256:0000" /\
    forall hosts,
      Merger.get_host_summary self1 = Ok hosts ->
      subscript (last hosts JNull) "host_id" = Ok (JStr "unknown") /\
      subscript (last hosts JNull) "manifest_hash" = Ok (JStr "").
Proof.
  eexists. split; [reflexivity|].
  destruct (@HostSummaryFacts.manifest_without_host_id_is_summarised_as_unknown
              dumps_stub sha256_stub anonymous_dir anonymous_file merger9
              _ anonymous_manifest eq_refl eq_refl eq_refl) as [H1 H2].
  split; [exact H1|].
  intros hosts Hh. destruct (H2 hosts Hh) as [Ha [_ Hc]].
  split; [exact Ha|]. apply Hc; [discriminate|reflexivity].
Defined.

(** *** Builder *)

(** With a regular file at [work_dir / bundle_id / manifests], [build]
    raises before its [try]: the directory [rpms] it had just made
    stays, and so does the file. *)
Lemma build_cleans_up_once_it_entered_the_try_witness :
  snd blocked_build
  = raise FileExistsError
      ("[Errno 17] File exists: '"
       +++ "/tmp/bundle-build/bundle-rhel9-20240115T120000Z/manifests" +++ "'")
  /\
  In (joinpath sample_work_dir "rpms") (dirs (disk (fst blocked_build))) /\
  files (disk (fst blocked_build))
  = [(joinpath sample_work_dir "manifests", Text "")] /\
  List.length (build_log (self (fst blocked_build))) = 1.
Proof.
  generalize (@BuildFacts.build_cleans_up_once_it_entered_the_try
                nat (fun n => n) (fun t => "t" +++ str_nat t)
                (fun _ => "20240115T120000Z") "builder-01" dumps_stub
                sha256_stub Fixtures.manifest_dir sample_dnf sample_downloads
                (fun _ => raise FileNotFoundError "createrepo_c")
                (fun rpms_dir =>
                   Ok [(joinpath (joinpath rpms_dir "repodata") "repomd.xml",
                        Produced "createrepo")])
                (fun _ => Ok 100%Z) (raise FileNotFoundError "zstd")
                (fun _ => "e3b0c44298fc1c14") (fun _ => false)
                blocked_state).
  cbv zeta.
  destruct (mkdir _ (disk blocked_state)) as [d1|e] eqn:E1;
    vm_compute in E1; [|discriminate E1].
  injection E1 as <-.
  destruct (mkdir _ _) as [d2|e] eqn:E2; vm_compute in E2;
    [discriminate E2|].
  injection E2 as <-.
  intros [H1 [H2 [entry H3]]].
  split; [exact H1|]. rewrite H2, H3. split; [|split].
  - vm_compute. tauto.
  - reflexivity.
  - now rewrite length_app.
Defined.

Lemma metadata_totals_agree_with_the_package_list_witness :
  exists md,
    _build_metadata (fun t => "t" +++ str_nat t) "builder-01"
      (fun _ => Ok 100%Z) fresh_builder 0 two_hosts host_updates
      (mkDownloader rpms_path fetched) = Ok md /\
    map entry_nevra (package_list md)
    = ["bash-5.1.8-9.el9.x86_64"; "openssl-libs-1:3.0.7-27.el9.x86_64"] /\
    total_count (packages md) = 2 /\
    size_bytes_total (packages md) = listed_size (package_list md) /\
    update_count (packages md) + security_count (packages md)
    + dependency_count (packages md) <= 3.
Proof.
  eexists. split; [vm_compute; reflexivity|].
  destruct (@BuildFacts.metadata_totals_agree_with_the_package_list
              nat (fun t => "t" +++ str_nat t) "builder-01"
              (fun _ => Ok 100%Z) fresh_builder 0 two_hosts host_updates
              (mkDownloader rpms_path fetched) _ eq_refl)
    as [H1 [_ [_ [H4 [H5 [H6 _]]]]]].
  split; [exact H1|]. split; [exact H4|]. split; [exact H5|exact H6].
Defined.

(** The build of a directory that holds no manifest. *)
Lemma build_without_manifests_fails_early_witness :
  exists st' t1 t2 t3 t4,
    build (fun n => n) (fun t => "t" +++ str_nat t)
      (fun _ => "20240115T120000Z") "builder-01" dumps_stub sha256_stub
      empty_dir sample_dnf sample_downloads
      (fun _ => raise FileNotFoundError "createrepo_c")
      (fun _ => raise FileNotFoundError "createrepo")
      (fun _ => Ok 100%Z) (raise FileNotFoundError "zstd")
      (fun _ => "e3b0c44298fc1c14") (fun _ => false) fresh_state
    = (st', raise RuntimeError "No RHEL 9 manifests found") /\
    metadata (self st') = None /\
    files (disk st') = [] /\
    build_log (self st')
    = ["[" +++ t1 +++ "] " +++ "Starting bundle build: "
         +++ "bundle-rhel9-20240115T120000Z";
       "[" +++ t2 +++ "] " +++ "Step 1: Loading manifests";
       "[" +++ t3 +++ "] " +++ "  Loaded 0 manifests";
       "[" +++ t4 +++ "] " +++ "ERROR: " +++ "No RHEL 9 manifests found"].
Proof.
  generalize (@BuildFacts.build_without_manifests_fails_early
                nat (fun n => n) (fun t => "t" +++ str_nat t)
                (fun _ => "20240115T120000Z") "builder-01" dumps_stub
                sha256_stub empty_dir sample_dnf sample_downloads
                (fun _ => raise FileNotFoundError "createrepo_c")
                (fun _ => raise FileNotFoundError "createrepo")
                (fun _ => Ok 100%Z) (raise FileNotFoundError "zstd")
                (fun _ => "e3b0c44298fc1c14") (fun _ => false) fresh_state
                merger9 merger9 eq_refl eq_refl).
  cbv zeta.
  destruct (mkdir _ (disk fresh_state)) as [d1|e] eqn:E1;
    vm_compute in E1; [|discriminate E1].
  injection E1 as <-.
  destruct (mkdir _ _) as [d2|e] eqn:E2; vm_compute in E2;
    [|discriminate E2].
  intros H. exact H.
Defined.

(** The bundle built from the fixture directory holds the RHEL 8
    manifest and the file that is not JSON, which the merger passed
    over. *)
Lemma bundle_holds_every_json_file_witness :
  snd sample_build = Ok sample_archive /\
  exists members compression,
    read_file sample_archive (disk (fst sample_build))
    = Some (Tar members compression) /\
    In (mkPath "" [bundle_id (self (fst sample_build)); "manifests";
                   "test-host-rhel8-manifest.json"],
        CopyOf rhel8_file) members /\
    In (mkPath "" [bundle_id (self (fst sample_build)); "manifests";
                   "notes.json"],
        CopyOf notes_file) members.
Proof.
  assert (H : sample_build = (fst sample_build, Ok sample_archive)).
  { vm_compute. reflexivity. }
  split; [rewrite H at 1; reflexivity|].
  apply BundleFacts.bundle_holds_every_json_file in H.
  - destruct H as [members [compression [Hread Hin]]].
    exists members, compression. split; [exact Hread|]. split.
    + apply (Hin rhel8_file). vm_compute. tauto.
    + apply (Hin notes_file). vm_compute. tauto.
  - intros resolved directory a E. unfold sample_downloads in E.
    injection E as <-. cbn [snd].
    repeat constructor; apply BuilderFacts.under_joinpath.
  - intros directory a E. discriminate E.
  - intros directory a E. injection E as <-.
    repeat constructor. apply BundleFacts.under_grandchild.
  - reflexivity.
Defined.

Lemma metadata_lists_each_manifest_loaded_witness :
  snd sample_build = Ok sample_archive /\
  exists md,
    metadata (self (fst sample_build)) = Some md /\
    List.length (manifests_used md) = 1 /\
    md_os_major md = 9%Z /\
    md_bundle_id md = "bundle-rhel9-20240115T120000Z".
Proof.
  assert (H : sample_build = (fst sample_build, Ok sample_archive)).
  { vm_compute. reflexivity. }
  split; [rewrite H at 1; reflexivity|].
  apply BundleFacts.metadata_lists_each_manifest_loaded in H.
  destruct H as [md [merger0 [merger [count
                  [Hmd [Hinit [Hadd [_ [Hused [Hos [Hid Hname]]]]]]]]]]].
  exists md. split; [exact Hmd|].
  assert (Hcount : count = 0).
  { injection Hinit as <-.
    assert (E : Merger.add_manifests_from_directory dumps_stub sha256_stub
                  Fixtures.manifest_dir manifest_path merger9
                = (Merger.mkMerger 9 [sample_manifest]
                     [(JStr "test-host-01", "sha256:0000")], Ok 1))
      by reflexivity.
    change (Merger.add_manifests_from_directory dumps_stub sha256_stub
              Fixtures.manifest_dir manifest_path merger9
            = (merger, Ok (S count))) in Hadd.
    rewrite E in Hadd. now injection Hadd as _ <-. }
  subst count. split; [exact Hused|]. split; [exact Hos|].
  rewrite Hid, Hname. reflexivity.
Defined.

(** *** Fallback *)

(** The package [b] is printed without epoch. *)
Lemma fallback_lists_each_nevra_once_witness :
  exists resolved,
    _resolve_via_repoquery (Repository.repoquery_info cyclic_repo)
      (Repository.repoquery_requires cyclic_repo)
      splitlines strip (split_on "|") isdigit py_int ["a"] 10
    = Some (Ok resolved) /\
    map nevra resolved = ["a-0:1.0-1.el9.x86_64"; "b-(none):2.0-1.el9.noarch"] /\
    map epoch resolved = ["0"; "0"] /\
    NoDup (map nevra resolved) /\
    Forall (Fallback.as_queried ["a"]) resolved.
Proof.
  eexists. split; [vm_compute; reflexivity|].
  split; [reflexivity|]. split; [reflexivity|].
  apply (@FallbackFacts.fallback_lists_each_nevra_once
           (Repository.repoquery_info cyclic_repo)
           (Repository.repoquery_requires cyclic_repo)
           splitlines strip (split_on "|") isdigit py_int ["a"] 10).
  vm_compute. reflexivity.
Defined.

End RunFacts.
